(** * Joypad OS: input drivers, hotkeys and native hosts

    A shallow embedding of the per-vendor Bluetooth HID drivers
    (generic gamepad, 8BitDo Ultimate, Switch 2 BLE, Wii U Pro, Wiimote),
    of the hotkey detector and of the N64 / GameCube native host polling
    loops, together with the properties the specification states about them.

    Conventions.  C integers are [Z] values; every narrowing conversion and
    every wrap-around of the source is written out with [u8], [u16], [u32]
    and [s32].  Integer division of C (truncation toward zero) is [Z.quot].
    Reports are lists of bytes.  A driver callback is a function from the
    driver data and its inputs to the new driver data and the list of
    effects it performed (events passed to [router_submit_input], packets
    sent to the controller), in program order. *)

From Stdlib Require Import ZArith List Bool Lia.
From Stdlib.Strings Require Import Byte.
Import ListNotations.
Local Open Scope Z_scope.

(* ====================================================================== *)
(** * Part I: the embedding *)
(* ====================================================================== *)

(** ** C integer conversions *)

Module C.

Definition u8 (x : Z) : Z := x mod 2 ^ 8.
Definition u16 (x : Z) : Z := x mod 2 ^ 16.
Definition u32 (x : Z) : Z := x mod 2 ^ 32.

(** Conversion to [int32_t] / [int]: two's complement wrap-around. *)
Definition s32 (x : Z) : Z := (x + 2 ^ 31) mod 2 ^ 32 - 2 ^ 31.

(** Conversion to [int8_t]. *)
Definition s8 (x : Z) : Z := (x + 2 ^ 7) mod 2 ^ 8 - 2 ^ 7.

(** [x & m] is non-zero, the condition of [if (x & m)]. *)
Definition tst (x m : Z) : bool := negb (Z.land x m =? 0).

(** [__builtin_ctz] on a non-zero mask. *)
Fixpoint ctz_pos (p : positive) : Z :=
  match p with
  | xO q => 1 + ctz_pos q
  | _ => 0
  end.

Definition ctz (x : Z) : Z :=
  match x with
  | Zpos p => ctz_pos p
  | _ => 0
  end.

End C.

(** ** Reports: byte buffers *)

Definition byte_val (b : byte) : Z := Z.of_N (Byte.to_N b).

(** [data[i]]; every read of the source is guarded by a length check, the
    default is never observed on a guarded path. *)
Definition at_ (data : list byte) (i : Z) : Z :=
  byte_val (nth (Z.to_nat i) data x00).

Definition len_ (data : list byte) : Z := Z.of_nat (length data).

(** ** The button vocabulary (core/buttons.h) *)

Inductive button : Set :=
  | B1 | B2 | B3 | B4 | L1 | R1 | L2 | R2 | S1 | S2 | L3 | R3
  | DU | DD | DL | DR | A1 | A2 | A3 | A4 | L4 | R4.

Definition button_eqb (a b : button) : bool :=
  match a, b with
  | B1, B1 | B2, B2 | B3, B3 | B4, B4 | L1, L1 | R1, R1 | L2, L2 | R2, R2
  | S1, S1 | S2, S2 | L3, L3 | R3, R3 | DU, DU | DD, DD | DL, DL | DR, DR
  | A1, A1 | A2, A2 | A3, A3 | A4, A4 | L4, L4 | R4, R4 => true
  | _, _ => false
  end.

(** The header that assigns a bit to each [JP_BUTTON_*] name is not part of
    the sources at hand.  The drivers only rely on each name being one bit of
    the 32-bit [buttons] word and on different names being different bits;
    the layout is therefore a parameter with exactly these two properties. *)
Class ButtonLayout : Type := {
  JP_BUTTON : button -> Z;
  JP_bit : button -> Z;
  JP_BUTTON_bit : forall b, JP_BUTTON b = 2 ^ JP_bit b;
  JP_bit_range : forall b, 0 <= JP_bit b < 32;
  JP_bit_inj : forall a b, JP_bit a = JP_bit b -> a = b
}.

(** [if (c) buttons |= m;] *)
Definition or_if (c : bool) (m : Z) (buttons : Z) : Z :=
  if c then Z.lor buttons m else buttons.

(** A run of such statements, in program order. *)
Definition or_all (l : list (bool * Z)) (buttons : Z) : Z :=
  fold_left (fun acc cm => or_if (fst cm) (snd cm) acc) l buttons.

(** The union of a list of masks: [m1 | m2 | ...]. *)
Definition mask_of (l : list Z) : Z := fold_left Z.lor l 0.

(** ** The canonical input event (core/input_event.h) *)

Inductive analog_index : Set :=
  | ANALOG_LX | ANALOG_LY | ANALOG_RX | ANALOG_RY | ANALOG_L2 | ANALOG_R2.

Record analog_t : Set := {
  lx : Z; ly : Z; rx : Z; ry : Z; l2 : Z; r2 : Z
}.

Definition get_analog (a : analog_t) (i : analog_index) : Z :=
  match i with
  | ANALOG_LX => lx a | ANALOG_LY => ly a
  | ANALOG_RX => rx a | ANALOG_RY => ry a
  | ANALOG_L2 => l2 a | ANALOG_R2 => r2 a
  end.

(** [a[i] = v], the stored value converted to [uint8_t]. *)
Definition set_analog (a : analog_t) (i : analog_index) (v : Z) : analog_t :=
  let v := C.u8 v in
  match i with
  | ANALOG_LX => {| lx := v; ly := ly a; rx := rx a; ry := ry a; l2 := l2 a; r2 := r2 a |}
  | ANALOG_LY => {| lx := lx a; ly := v; rx := rx a; ry := ry a; l2 := l2 a; r2 := r2 a |}
  | ANALOG_RX => {| lx := lx a; ly := ly a; rx := v; ry := ry a; l2 := l2 a; r2 := r2 a |}
  | ANALOG_RY => {| lx := lx a; ly := ly a; rx := rx a; ry := v; l2 := l2 a; r2 := r2 a |}
  | ANALOG_L2 => {| lx := lx a; ly := ly a; rx := rx a; ry := ry a; l2 := v; r2 := r2 a |}
  | ANALOG_R2 => {| lx := lx a; ly := ly a; rx := rx a; ry := ry a; l2 := l2 a; r2 := v |}
  end.

Inductive input_type : Set := INPUT_TYPE_NONE | INPUT_TYPE_GAMEPAD.

Inductive input_transport : Set :=
  | INPUT_TRANSPORT_NONE | INPUT_TRANSPORT_BT_CLASSIC | INPUT_TRANSPORT_BT_BLE.

Record input_event_t : Set := {
  dev_addr : Z;
  instance : Z;
  type : input_type;
  transport : input_transport;
  buttons : Z;
  button_count : Z;
  analog : analog_t;
  battery_level : Z;
  battery_charging : bool
}.

(** Modelled from the spec: [init_input_event] (core/input_event.h is not
    among the sources).  The constructor yields a zeroed event with the
    sentinel defaults sticks = 128, triggers = 0, buttons = 0. *)
Definition init_input_event : input_event_t :=
  {| dev_addr := 0; instance := 0;
     type := INPUT_TYPE_NONE; transport := INPUT_TRANSPORT_NONE;
     buttons := 0; button_count := 0;
     analog := {| lx := 128; ly := 128; rx := 128; ry := 128; l2 := 0; r2 := 0 |};
     battery_level := 0; battery_charging := false |}.

Definition with_buttons (e : input_event_t) (b : Z) : input_event_t :=
  {| dev_addr := dev_addr e; instance := instance e; type := type e;
     transport := transport e; buttons := b; button_count := button_count e;
     analog := analog e; battery_level := battery_level e;
     battery_charging := battery_charging e |}.

Definition with_button_count (e : input_event_t) (n : Z) : input_event_t :=
  {| dev_addr := dev_addr e; instance := instance e; type := type e;
     transport := transport e; buttons := buttons e; button_count := n;
     analog := analog e; battery_level := battery_level e;
     battery_charging := battery_charging e |}.

Definition with_analog (e : input_event_t) (i : analog_index) (v : Z)
  : input_event_t :=
  {| dev_addr := dev_addr e; instance := instance e; type := type e;
     transport := transport e; buttons := buttons e;
     button_count := button_count e;
     analog := set_analog (analog e) i v; battery_level := battery_level e;
     battery_charging := battery_charging e |}.

Definition with_battery (e : input_event_t) (lvl : Z) (chg : bool)
  : input_event_t :=
  {| dev_addr := dev_addr e; instance := instance e; type := type e;
     transport := transport e; buttons := buttons e;
     button_count := button_count e; analog := analog e;
     battery_level := C.u8 lvl; battery_charging := chg |}.

Definition with_identity (e : input_event_t) (addr inst : Z)
  (ty : input_type) (tr : input_transport) : input_event_t :=
  {| dev_addr := addr; instance := inst; type := ty; transport := tr;
     buttons := buttons e; button_count := button_count e;
     analog := analog e; battery_level := battery_level e;
     battery_charging := battery_charging e |}.

(** The invariant the specification asks of every submitted event. *)
Definition sticks_in_range (e : input_event_t) : Prop :=
  1 <= lx (analog e) <= 255 /\ 1 <= ly (analog e) <= 255 /\
  1 <= rx (analog e) <= 255 /\ 1 <= ry (analog e) <= 255.

Definition triggers_in_range (e : input_event_t) : Prop :=
  0 <= l2 (analog e) <= 255 /\ 0 <= r2 (analog e) <= 255.

(** ** Generic Bluetooth gamepad driver (bthid_gamepad.c) *)

Module Gamepad.

Definition BLE_MAX_BUTTONS : Z := 12.

Record ble_usage_loc_t : Set := {
  byteIndex : Z;   (* uint8_t  *)
  bitMask : Z;     (* uint16_t *)
  max : Z          (* uint32_t *)
}.

Definition loc0 : ble_usage_loc_t := {| byteIndex := 0; bitMask := 0; max := 0 |}.

Record ble_report_map_t : Set := {
  xLoc : ble_usage_loc_t; yLoc : ble_usage_loc_t;
  zLoc : ble_usage_loc_t; rzLoc : ble_usage_loc_t;
  rxLoc : ble_usage_loc_t; ryLoc : ble_usage_loc_t;
  hatLoc : ble_usage_loc_t;
  buttonLoc : list ble_usage_loc_t;   (* BLE_MAX_BUTTONS entries *)
  buttonCnt : Z
}.

Record bthid_gamepad_data_t : Set := {
  event : input_event_t;
  initialized : bool;
  has_report_map : bool;
  map : ble_report_map_t
}.

Definition HAT_SWITCH_TO_DIRECTION_BUTTONS : list Z :=
  [1; 3; 2; 6; 4; 12; 8; 9; 0].

(** [scale_analog].  A division by zero is undefined behaviour in C; the
    embedding returns [None] exactly when the function reaches one.  [mid]
    is an [int]; the comparison uses [(uint16_t)mid]; the second division is
    carried out in [uint32_t] because [max_value] is unsigned. *)
Definition scale_analog (value max_value : Z) : option Z :=
  let value := C.u16 value in
  let max_value := C.u32 max_value in
  let mid := C.s32 (max_value / 2) in
  if value <=? C.u16 mid then
    if mid =? 0 then None
    else Some (C.u8 (C.s32 (1 + Z.quot (C.s32 (value * 127)) mid)))
  else
    let num := C.s32 (C.s32 (value - mid) * 127) in
    let den := C.u32 (max_value - C.u32 mid) in
    if den =? 0 then None
    else Some (C.u8 (C.u32 (128 + C.u32 num / den))).

(** The formula of the specification, on mathematical integers. *)
Definition scale_analog_spec (v M : Z) : Z :=
  let mid := M / 2 in
  if v <=? mid then 1 + (v * 127) / mid
  else 128 + ((v - mid) * 127) / (M - mid).

Definition extract_field (data : list byte) (loc : ble_usage_loc_t) : Z :=
  let len := len_ data in
  if (bitMask loc =? 0) || (len <=? byteIndex loc) then 0
  else if (0xFF <? bitMask loc) && (byteIndex loc + 1 <? len) then
    let combined :=
      C.u16 (Z.lor (Z.shiftl (C.u16 (at_ data (byteIndex loc))) 8)
                   (at_ data (byteIndex loc + 1))) in
    C.u16 (Z.shiftr (Z.land combined (bitMask loc)) (C.ctz (bitMask loc)))
  else C.u16 (Z.land (at_ data (byteIndex loc)) (bitMask loc)).

(** [buttons |= c ? m : 0;] *)
Definition or_sel (c : bool) (m : Z) (buttons : Z) : Z :=
  Z.lor buttons (if c then m else 0).

Definition or_sels (l : list (bool * Z)) (buttons : Z) : Z :=
  fold_left (fun acc cm => or_sel (fst cm) (snd cm) acc) l buttons.

(** One axis of [process_report_dynamic]: scaled when the descriptor gave a
    logical maximum, held at the default otherwise. *)
Definition axis (data : list byte) (loc : ble_usage_loc_t) (dflt : Z)
  : option Z :=
  if max loc =? 0 then Some dflt
  else scale_analog (extract_field data loc) (max loc).

(** The loop collecting the raw button states into [all_buttons]. *)
Definition raw_button (data : list byte) (locs : list ble_usage_loc_t)
  (i : nat) : bool :=
  let l := nth i locs loc0 in
  negb (bitMask l =? 0) && (byteIndex l <? len_ data)
  && C.tst (at_ data (byteIndex l)) (bitMask l).

Definition all_buttons_of (data : list byte) (locs : list ble_usage_loc_t) : Z :=
  fold_left
    (fun acc i => if raw_button data locs i
                  then C.u16 (Z.lor acc (Z.shiftl 1 (Z.of_nat i))) else acc)
    (seq 0 (Z.to_nat BLE_MAX_BUTTONS)) 0.

Section WithLayout.
Context `{ButtonLayout}.

Definition hat_buttons (data : list byte) (m : ble_report_map_t) : Z :=
  if negb (bitMask (hatLoc m) =? 0) && (byteIndex (hatLoc m) <? len_ data) then
    let hatValue := C.u8 (Z.land (at_ data (byteIndex (hatLoc m)))
                                 (bitMask (hatLoc m))) in
    let direction := if hatValue <=? 8 then hatValue else 8 in
    let dpad := nth (Z.to_nat direction) HAT_SWITCH_TO_DIRECTION_BUTTONS 0 in
    or_all [ (C.tst dpad 0x01, JP_BUTTON DU); (C.tst dpad 0x02, JP_BUTTON DR);
             (C.tst dpad 0x04, JP_BUTTON DD); (C.tst dpad 0x08, JP_BUTTON DL) ] 0
  else 0.

Definition map_buttons (all_buttons buttonCount : Z) (buttons : Z) : Z :=
  let b i := C.tst all_buttons (Z.shiftl 1 i) in
  if 10 <=? buttonCount then
    or_sels [ (b 1, JP_BUTTON B1); (b 2, JP_BUTTON B2); (b 0, JP_BUTTON B3);
              (b 3, JP_BUTTON B4); (b 4, JP_BUTTON L1); (b 5, JP_BUTTON R1);
              (b 6, JP_BUTTON L2); (b 7, JP_BUTTON R2); (b 8, JP_BUTTON S1);
              (b 9, JP_BUTTON S2); (b 10, JP_BUTTON L3); (b 11, JP_BUTTON R3) ]
            buttons
  else
    let buttons :=
      or_sels [ (b 0, JP_BUTTON B1); (b 1, JP_BUTTON B2);
                (b 2, JP_BUTTON B3); (b 3, JP_BUTTON B4) ] buttons in
    let buttons := if 7 <=? buttonCount then or_sel (b 4) (JP_BUTTON L1) buttons else buttons in
    let buttons := if 8 <=? buttonCount then or_sel (b 5) (JP_BUTTON R1) buttons else buttons in
    let buttons := if 9 <=? buttonCount then or_sel (b 6) (JP_BUTTON L2) buttons else buttons in
    let buttons := if 10 <=? buttonCount then or_sel (b 7) (JP_BUTTON R2) buttons else buttons in
    if 2 <=? buttonCount then
      or_sels [ (b (buttonCount - 2), JP_BUTTON S1);
                (b (buttonCount - 1), JP_BUTTON S2) ] buttons
    else buttons.

(** [if (a == 0) a = 1;] *)
Definition keep_stick (a : Z) : Z := if a =? 0 then 1 else a.

(** [process_report_dynamic]: the updated driver data and the event handed
    to [router_submit_input]; [None] when an axis scaling divides by zero. *)
Definition process_report_dynamic (gp : bthid_gamepad_data_t)
  (data : list byte) : option (bthid_gamepad_data_t * list input_event_t) :=
  let m := map gp in
  match axis data (xLoc m) 128, axis data (yLoc m) 128,
        axis data (zLoc m) 128, axis data (rzLoc m) 128,
        axis data (rxLoc m) 0, axis data (ryLoc m) 0 with
  | Some lx, Some ly, Some rx, Some ry, Some l2, Some r2 =>
      let buttons := hat_buttons data m in
      let all_buttons := all_buttons_of data (buttonLoc m) in
      let buttonCount := C.u8 (buttonCnt m) in
      let buttonCount := if 12 <? buttonCount then 12 else buttonCount in
      let buttons := map_buttons all_buttons buttonCount buttons in
      let lx := keep_stick lx in
      let ly := keep_stick ly in
      let rx := keep_stick rx in
      let ry := keep_stick ry in
      let e := with_buttons (event gp) buttons in
      let e := with_button_count e buttonCount in
      let e := with_analog e ANALOG_LX lx in
      let e := with_analog e ANALOG_LY ly in
      let e := with_analog e ANALOG_RX rx in
      let e := with_analog e ANALOG_RY ry in
      let e := with_analog e ANALOG_L2 l2 in
      let e := with_analog e ANALOG_R2 r2 in
      Some ({| event := e; initialized := initialized gp;
               has_report_map := has_report_map gp; map := map gp |}, [e])
  | _, _, _, _, _, _ => None
  end.

End WithLayout.

End Gamepad.

(** ** Generic Bluetooth gamepad: the driver callbacks (bthid_gamepad.c) *)

Module GamepadDriver.

Inductive effect : Set :=
  | router_device_disconnected (dev_addr instance : Z)
  | remove_players_by_address (dev_addr instance : Z).

(** [gamepad_match]; [class_of_device] is [None] for the null pointer and
    holds the three bytes otherwise. *)
Definition gamepad_match (class_of_device : option (list byte)) (is_ble : bool)
  : bool :=
  if is_ble then true
  else
    match class_of_device with
    | None => false
    | Some cod =>
        let major_class := C.u8 (Z.land (Z.shiftr (at_ cod 1) 0) 0x1F) in
        if negb (major_class =? 0x05) then false
        else
          let minor_class := C.u8 (Z.land (Z.shiftr (at_ cod 0) 2) 0x3F) in
          let device_subtype := C.u8 (Z.land minor_class 0x0F) in
          (device_subtype =? 0x01) || (device_subtype =? 0x02)
    end.

(** The report map after [memset(&map, 0, sizeof map)]. *)
Definition zero_map : Gamepad.ble_report_map_t :=
  {| Gamepad.xLoc := Gamepad.loc0; Gamepad.yLoc := Gamepad.loc0;
     Gamepad.zLoc := Gamepad.loc0; Gamepad.rzLoc := Gamepad.loc0;
     Gamepad.rxLoc := Gamepad.loc0; Gamepad.ryLoc := Gamepad.loc0;
     Gamepad.hatLoc := Gamepad.loc0;
     Gamepad.buttonLoc := repeat Gamepad.loc0 (Z.to_nat Gamepad.BLE_MAX_BUTTONS);
     Gamepad.buttonCnt := 0 |}.

(** [gamepad_init] on a free slot. *)
Definition gamepad_init (conn_index : Z) (is_ble : bool)
  : Gamepad.bthid_gamepad_data_t :=
  {| Gamepad.event :=
       with_identity init_input_event conn_index 0 INPUT_TYPE_GAMEPAD
         (if is_ble then INPUT_TRANSPORT_BT_BLE else INPUT_TRANSPORT_BT_CLASSIC);
     Gamepad.initialized := true; Gamepad.has_report_map := false;
     Gamepad.map := zero_map |}.

(** [gamepad_disconnect], for a device with driver data. *)
Definition gamepad_disconnect (gp : Gamepad.bthid_gamepad_data_t)
  : Gamepad.bthid_gamepad_data_t * list effect :=
  ({| Gamepad.event := init_input_event; Gamepad.initialized := false;
      Gamepad.has_report_map := false; Gamepad.map := Gamepad.map gp |},
   [router_device_disconnected (dev_addr (Gamepad.event gp))
      (instance (Gamepad.event gp));
    remove_players_by_address (dev_addr (Gamepad.event gp))
      (instance (Gamepad.event gp))]).

Section WithLayout.
Context `{ButtonLayout}.

(** The fallback of [gamepad_process_report]: the fixed layout used while
    no descriptor has been parsed. *)
Definition fallback_report (gp : Gamepad.bthid_gamepad_data_t)
  (data : list byte) : Gamepad.bthid_gamepad_data_t * list input_event_t :=
  let len := len_ data in
  if len <? 4 then (gp, [])
  else
    let raw_buttons := 0 in
    let raw_buttons :=
      if 1 <=? len then C.u32 (Z.lor raw_buttons (at_ data 0))
      else raw_buttons in
    let raw_buttons :=
      if 2 <=? len
      then C.u32 (Z.lor raw_buttons (C.u32 (Z.shiftl (at_ data 1) 8)))
      else raw_buttons in
    let r m := C.tst raw_buttons m in
    let buttons :=
      or_all [ (r 0x0001, JP_BUTTON B1); (r 0x0002, JP_BUTTON B2);
               (r 0x0004, JP_BUTTON B3); (r 0x0008, JP_BUTTON B4);
               (r 0x0010, JP_BUTTON L1); (r 0x0020, JP_BUTTON R1);
               (r 0x0040, JP_BUTTON L2); (r 0x0080, JP_BUTTON R2);
               (r 0x0100, JP_BUTTON S1); (r 0x0200, JP_BUTTON S2);
               (r 0x0400, JP_BUTTON L3); (r 0x0800, JP_BUTTON R3);
               (r 0x1000, JP_BUTTON A1) ] 0 in
    let e := with_buttons (Gamepad.event gp) buttons in
    let e := if 3 <=? len then with_analog e ANALOG_LX (at_ data 2) else e in
    let e := if 4 <=? len then with_analog e ANALOG_LY (at_ data 3) else e in
    let e := if 5 <=? len then with_analog e ANALOG_RX (at_ data 4) else e in
    let e := if 6 <=? len then with_analog e ANALOG_RY (at_ data 5) else e in
    ({| Gamepad.event := e; Gamepad.initialized := Gamepad.initialized gp;
        Gamepad.has_report_map := Gamepad.has_report_map gp;
        Gamepad.map := Gamepad.map gp |}, [e]).

(** [gamepad_process_report], for a device with driver data; [None] when
    the dynamic path divides by zero. *)
Definition gamepad_process_report (gp : Gamepad.bthid_gamepad_data_t)
  (data : list byte)
  : option (Gamepad.bthid_gamepad_data_t * list input_event_t) :=
  if Gamepad.has_report_map gp then Gamepad.process_report_dynamic gp data
  else Some (fallback_report gp data).

End WithLayout.

End GamepadDriver.

(** ** 8BitDo Ultimate BLE driver (bthid_8bitdo_ultimate.c) *)

Module Bitdo.

Definition REPORT_ID_GAMEPAD : Z := 0x03.
Definition OFFSET_HAT : Z := 1.
Definition OFFSET_LX : Z := 2.
Definition OFFSET_LY : Z := 3.
Definition OFFSET_RX : Z := 4.
Definition OFFSET_RY : Z := 5.
Definition OFFSET_LT : Z := 6.
Definition OFFSET_RT : Z := 7.
Definition OFFSET_BUTTONS_LO : Z := 8.
Definition OFFSET_BUTTONS_HI : Z := 9.
Definition OFFSET_BATTERY : Z := 10.
Definition HAT_MASK : Z := 0x0F.

Definition HAT_TO_DPAD : list Z := [1; 3; 2; 6; 4; 12; 8; 9; 0].

Record bitdo_data_t : Set := {
  event : input_event_t;
  initialized : bool;
  rumble_left : Z;
  rumble_right : Z
}.

Definition scale_axis (raw : Z) : Z := if raw =? 0 then 1 else raw.

Section WithLayout.
Context `{ButtonLayout}.

(** [bitdo_process_report]: the new driver data and the events submitted. *)
Definition bitdo_process_report (gp : bitdo_data_t) (data : list byte)
  : bitdo_data_t * list input_event_t :=
  let len := len_ data in
  if (len <? 1) || negb (at_ data 0 =? REPORT_ID_GAMEPAD) then (gp, [])
  else if len <=? OFFSET_BUTTONS_HI then (gp, [])
  else
    let hat := C.u8 (Z.land (at_ data OFFSET_HAT) HAT_MASK) in
    let dpad := if hat <=? 8 then nth (Z.to_nat hat) HAT_TO_DPAD 0 else 0 in
    let lo := at_ data OFFSET_BUTTONS_LO in
    let hi := at_ data OFFSET_BUTTONS_HI in
    let buttons :=
      or_all [ (C.tst dpad 0x01, JP_BUTTON DU); (C.tst dpad 0x02, JP_BUTTON DR);
               (C.tst dpad 0x04, JP_BUTTON DD); (C.tst dpad 0x08, JP_BUTTON DL);
               (C.tst lo 0x01, JP_BUTTON B1); (C.tst lo 0x02, JP_BUTTON B2);
               (C.tst lo 0x04, JP_BUTTON B3); (C.tst lo 0x08, JP_BUTTON B4);
               (C.tst lo 0x10, JP_BUTTON L1); (C.tst lo 0x20, JP_BUTTON R1);
               (C.tst lo 0x40, JP_BUTTON L2); (C.tst lo 0x80, JP_BUTTON R2);
               (C.tst hi 0x01, JP_BUTTON S1); (C.tst hi 0x02, JP_BUTTON S2);
               (C.tst hi 0x04, JP_BUTTON L3); (C.tst hi 0x08, JP_BUTTON R3);
               (C.tst hi 0x10, JP_BUTTON A1); (C.tst hi 0x20, JP_BUTTON A2);
               (C.tst hi 0x40, JP_BUTTON A3); (C.tst hi 0x80, JP_BUTTON A4) ] 0 in
    let e := event gp in
    let e := with_analog e ANALOG_LX (scale_axis (at_ data OFFSET_LX)) in
    let e := with_analog e ANALOG_LY (scale_axis (at_ data OFFSET_LY)) in
    let e := with_analog e ANALOG_RX (scale_axis (at_ data OFFSET_RX)) in
    let e := with_analog e ANALOG_RY (scale_axis (at_ data OFFSET_RY)) in
    let e := with_analog e ANALOG_L2 (at_ data OFFSET_RT) in
    let e := with_analog e ANALOG_R2 (at_ data OFFSET_LT) in
    let e := with_buttons e buttons in
    let e := with_button_count e 16 in
    ({| event := e; initialized := initialized gp;
        rumble_left := rumble_left gp; rumble_right := rumble_right gp |}, [e]).

(** [bitdo_init] on a free slot, for the connection [conn_index]. *)
Definition bitdo_init (conn_index : Z) : bitdo_data_t :=
  {| event := with_identity init_input_event conn_index 0
                INPUT_TYPE_GAMEPAD INPUT_TRANSPORT_BT_BLE;
     initialized := true; rumble_left := 0; rumble_right := 0 |}.

End WithLayout.

End Bitdo.

(** ** Nintendo Switch 2 BLE driver (switch2_ble.c) *)

Module Switch2.

Definition SW2_GC_PID : Z := 0x2073.

Definition SW2_Y : Z := 0.
Definition SW2_X : Z := 1.
Definition SW2_B : Z := 2.
Definition SW2_A : Z := 3.
Definition SW2_R : Z := 6.
Definition SW2_ZR : Z := 7.
Definition SW2_MINUS : Z := 8.
Definition SW2_PLUS : Z := 9.
Definition SW2_RJ : Z := 10.
Definition SW2_LJ : Z := 11.
Definition SW2_HOME : Z := 12.
Definition SW2_CAPTURE : Z := 13.
Definition SW2_C : Z := 14.
Definition SW2_GR : Z := 24.
Definition SW2_GL : Z := 25.
Definition SW2_DOWN : Z := 16.
Definition SW2_UP : Z := 17.
Definition SW2_RIGHT : Z := 18.
Definition SW2_LEFT : Z := 19.
Definition SW2_L : Z := 22.
Definition SW2_ZL : Z := 23.

Definition SW2_PRO_AXIS_RANGE : Z := 1610.
Definition SW2_GC_AXIS_RANGE : Z := 1225.
Definition SW2_GC_CSTICK_RANGE : Z := 1120.

Definition CAL_SAMPLES_NEEDED : Z := 4.

Record switch2_ble_data_t : Set := {
  event : input_event_t;
  initialized : bool;
  pid : Z;
  cal_lx_center : Z; cal_ly_center : Z;
  cal_rx_center : Z; cal_ry_center : Z;
  cal_samples : Z
}.

(** [scale_analog_calibrated]; [range] is one of the three non-zero range
    constants at every call site. *)
Definition scale_analog_calibrated (val center range : Z) : Z :=
  let centered := C.s32 (C.u16 val - C.u16 center) in
  let scaled := Z.quot (C.s32 (centered * 127)) (C.u16 range) in
  let scaled := if scaled <? -128 then -128 else scaled in
  let scaled := if 127 <? scaled then 127 else scaled in
  C.u8 (scaled + 128).

(** The report proper: the buffer without the optional 0xA1 header, or
    [None] when the buffer is too short. *)
Definition select_report (data : list byte) : option (list byte) :=
  let len := len_ data in
  if (64 <=? len) && (at_ data 0 =? 0xA1) then Some (skipn 1 data)
  else if 63 <=? len then Some data
  else None.

Definition raw_lx (report : list byte) : Z :=
  C.u16 (Z.lor (at_ report 10) (Z.shiftl (Z.land (at_ report 11) 0x0F) 8)).
Definition raw_ly (report : list byte) : Z :=
  C.u16 (Z.lor (Z.shiftr (at_ report 11) 4) (Z.shiftl (at_ report 12) 4)).
Definition raw_rx (report : list byte) : Z :=
  C.u16 (Z.lor (at_ report 13) (Z.shiftl (Z.land (at_ report 14) 0x0F) 8)).
Definition raw_ry (report : list byte) : Z :=
  C.u16 (Z.lor (Z.shiftr (at_ report 14) 4) (Z.shiftl (at_ report 15) 4)).

Definition sw2_buttons_of (report : list byte) : Z :=
  C.u32 (Z.lor (Z.lor (Z.lor (at_ report 4) (Z.shiftl (at_ report 5) 8))
                      (Z.shiftl (at_ report 6) 16))
               (Z.shiftl (at_ report 7) 24)).

(** The calibration step taken while [cal_samples < CAL_SAMPLES_NEEDED]. *)
Definition calibrate (sw2 : switch2_ble_data_t) (report : list byte)
  : switch2_ble_data_t :=
  let avg c r := C.u16 (Z.quot (c + r) 2) in
  let first := cal_samples sw2 =? 0 in
  {| event := event sw2; initialized := initialized sw2; pid := pid sw2;
     cal_lx_center := if first then raw_lx report else avg (cal_lx_center sw2) (raw_lx report);
     cal_ly_center := if first then raw_ly report else avg (cal_ly_center sw2) (raw_ly report);
     cal_rx_center := if first then raw_rx report else avg (cal_rx_center sw2) (raw_rx report);
     cal_ry_center := if first then raw_ry report else avg (cal_ry_center sw2) (raw_ry report);
     cal_samples := C.u8 (cal_samples sw2 + 1) |}.

Section WithLayout.
Context `{ButtonLayout}.

Definition map_buttons (is_gc : bool) (sw2_buttons : Z) : Z :=
  let b i := C.tst sw2_buttons (Z.shiftl 1 i) in
  let buttons :=
    or_all [ (b SW2_B, JP_BUTTON B1); (b SW2_A, JP_BUTTON B2);
             (b SW2_Y, JP_BUTTON B3); (b SW2_X, JP_BUTTON B4) ] 0 in
  let buttons :=
    if is_gc then
      or_all [ (b SW2_L, JP_BUTTON L2); (b SW2_R, JP_BUTTON R2);
               (b SW2_ZL, JP_BUTTON L1); (b SW2_ZR, JP_BUTTON R1) ] buttons
    else
      or_all [ (b SW2_L, JP_BUTTON L1); (b SW2_R, JP_BUTTON R1);
               (b SW2_ZL, JP_BUTTON L2); (b SW2_ZR, JP_BUTTON R2) ] buttons in
  or_all [ (b SW2_MINUS, JP_BUTTON S1); (b SW2_PLUS, JP_BUTTON S2);
           (b SW2_LJ, JP_BUTTON L3); (b SW2_RJ, JP_BUTTON R3);
           (b SW2_UP, JP_BUTTON DU); (b SW2_DOWN, JP_BUTTON DD);
           (b SW2_LEFT, JP_BUTTON DL); (b SW2_RIGHT, JP_BUTTON DR);
           (b SW2_HOME, JP_BUTTON A1); (b SW2_CAPTURE, JP_BUTTON A2);
           (b SW2_C, JP_BUTTON A3);
           (b SW2_GL, JP_BUTTON L4); (b SW2_GR, JP_BUTTON R4) ] buttons.

(** The event built from a report once calibration is complete. *)
Definition build_event (sw2 : switch2_ble_data_t) (report : list byte)
  : input_event_t :=
  let is_gc := pid sw2 =? SW2_GC_PID in
  let left_range := if is_gc then SW2_GC_AXIS_RANGE else SW2_PRO_AXIS_RANGE in
  let right_range := if is_gc then SW2_GC_CSTICK_RANGE else SW2_PRO_AXIS_RANGE in
  let lx := scale_analog_calibrated (raw_lx report) (cal_lx_center sw2) left_range in
  let ly := C.u8 (255 - scale_analog_calibrated (raw_ly report) (cal_ly_center sw2) left_range) in
  let rx := scale_analog_calibrated (raw_rx report) (cal_rx_center sw2) right_range in
  let ry := C.u8 (255 - scale_analog_calibrated (raw_ry report) (cal_ry_center sw2) right_range) in
  let has_trig := 62 <=? len_ report in
  let lt := if has_trig then at_ report 60 else 0 in
  let rt := if has_trig then at_ report 61 else 0 in
  let e := with_buttons (event sw2) (map_buttons is_gc (sw2_buttons_of report)) in
  let e := with_analog e ANALOG_LX lx in
  let e := with_analog e ANALOG_LY ly in
  let e := with_analog e ANALOG_RX rx in
  let e := with_analog e ANALOG_RY ry in
  let e := with_analog e ANALOG_L2 lt in
  with_analog e ANALOG_R2 rt.

(** [switch2_ble_process_report]: the new driver data and the events
    submitted to the router. *)
Definition switch2_ble_process_report (sw2 : switch2_ble_data_t)
  (data : list byte) : switch2_ble_data_t * list input_event_t :=
  match select_report data with
  | None => (sw2, [])
  | Some report =>
      if len_ report <? 16 then (sw2, [])
      else if cal_samples sw2 <? CAL_SAMPLES_NEEDED then (calibrate sw2 report, [])
      else
        let e := build_event sw2 report in
        ({| event := e; initialized := initialized sw2; pid := pid sw2;
            cal_lx_center := cal_lx_center sw2; cal_ly_center := cal_ly_center sw2;
            cal_rx_center := cal_rx_center sw2; cal_ry_center := cal_ry_center sw2;
            cal_samples := cal_samples sw2 |}, [e])
  end.

(** The driver data of a slot after [switch2_ble_init]: the calibration
    fields are those of the zero-initialised static array, or of a slot
    released by [switch2_ble_disconnect], which resets [cal_samples]. *)
Definition switch2_ble_init (conn_index product_id : Z)
  (slot : switch2_ble_data_t) : switch2_ble_data_t :=
  let e := with_identity init_input_event conn_index 0
             INPUT_TYPE_GAMEPAD INPUT_TRANSPORT_BT_BLE in
  {| event := with_button_count e 14; initialized := true; pid := C.u16 product_id;
     cal_lx_center := cal_lx_center slot; cal_ly_center := cal_ly_center slot;
     cal_rx_center := cal_rx_center slot; cal_ry_center := cal_ry_center slot;
     cal_samples := cal_samples slot |}.

End WithLayout.

Definition zero_slot : switch2_ble_data_t :=
  {| event := init_input_event; initialized := false; pid := 0;
     cal_lx_center := 0; cal_ly_center := 0; cal_rx_center := 0;
     cal_ry_center := 0; cal_samples := 0 |}.

(** Processing a sequence of notifications, oldest first. *)
Fixpoint run `{ButtonLayout} (sw2 : switch2_ble_data_t)
  (reports : list (list byte)) : switch2_ble_data_t * list input_event_t :=
  match reports with
  | [] => (sw2, [])
  | d :: rest =>
      let (sw2', evs) := switch2_ble_process_report sw2 d in
      let (sw2'', evs') := run sw2' rest in
      (sw2'', evs ++ evs')
  end.

End Switch2.

(** ** Switch 2 BLE: matching and the end of a connection (switch2_ble.c) *)

Module Switch2Life.

Definition SW2_LJC_PID : Z := 0x2066.
Definition SW2_RJC_PID : Z := 0x2067.
Definition SW2_PRO2_PID : Z := 0x2069.

(** [switch2_ble_match]: decided by the vendor and product ids alone. *)
Definition switch2_ble_match (vendor_id product_id : Z) : bool :=
  if vendor_id =? 0x057E then
    (product_id =? SW2_LJC_PID) || (product_id =? SW2_RJC_PID)
    || (product_id =? SW2_PRO2_PID) || (product_id =? Switch2.SW2_GC_PID)
  else false.

Inductive effect : Set :=
  | router_device_disconnected (dev_addr instance : Z)
  | remove_players_by_address (dev_addr instance : Z).

(** [switch2_ble_disconnect], for a device with driver data. *)
Definition switch2_ble_disconnect (sw2 : Switch2.switch2_ble_data_t)
  : Switch2.switch2_ble_data_t * list effect :=
  ({| Switch2.event := init_input_event; Switch2.initialized := false;
      Switch2.pid := Switch2.pid sw2;
      Switch2.cal_lx_center := Switch2.cal_lx_center sw2;
      Switch2.cal_ly_center := Switch2.cal_ly_center sw2;
      Switch2.cal_rx_center := Switch2.cal_rx_center sw2;
      Switch2.cal_ry_center := Switch2.cal_ry_center sw2;
      Switch2.cal_samples := 0 |},
   [router_device_disconnected (dev_addr (Switch2.event sw2))
      (instance (Switch2.event sw2));
    remove_players_by_address (dev_addr (Switch2.event sw2))
      (instance (Switch2.event sw2))]).

End Switch2Life.

(** ** Feedback state read by the drivers (core/services/players/feedback.h) *)

Record feedback_state_t : Set := {
  rumble_left : Z;
  rumble_right : Z;
  rumble_dirty : bool;
  led_pattern : Z;
  led_dirty : bool
}.

(** What a driver task observes of its surroundings during one call: the
    clock, whether the channel accepts another packet given how many this
    call has already sent, and the feedback of the player the device is
    assigned to ([player_idx < 0] when it has none).  [PLAYER_LEDS] is the
    table of core/services/players, not among the sources. *)
Record task_env : Type := {
  now : Z;                          (* platform_time_us(), uint32_t *)
  can_send : nat -> bool;           (* btstack_wiimote_can_send *)
  player_idx : Z;                   (* find_player_index *)
  fb : feedback_state_t;            (* *feedback_get_state(player_idx) *)
  PLAYER_LEDS : Z -> Z
}.

(** ** 8BitDo Ultimate: rumble output and life cycle
       (bthid_8bitdo_ultimate.c) *)

Module BitdoTask.

Definition BITDO_ULTIMATE_VID : Z := 0x2DC8.
Definition BITDO_ULTIMATE_PID_BLE : Z := 0x901B.
Definition REPORT_ID_RUMBLE : Z := 0x05.

(** [bitdo_match]: the name and the class of device are not looked at. *)
Definition bitdo_match (vendor_id product_id : Z) (is_ble : bool) : bool :=
  (vendor_id =? BITDO_ULTIMATE_VID) && (product_id =? BITDO_ULTIMATE_PID_BLE)
  && is_ble.

(** What one call of the task observes: the player the device is assigned
    to and that player's feedback, if there is one. *)
Record task_env : Set := {
  player_idx : Z;                       (* find_player_index *)
  fb : option feedback_state_t          (* feedback_get_state(player_idx) *)
}.

Inductive effect : Set :=
  | bthid_send_output_report (conn_index report_id : Z) (buf : list Z)
  | feedback_clear_dirty (player_idx : Z)
  | router_device_disconnected (dev_addr instance : Z)
  | remove_players_by_address (dev_addr instance : Z).

(** [bitdo_task], for a device with driver data. *)
Definition bitdo_task (conn_index : Z) (gp : Bitdo.bitdo_data_t) (env : task_env)
  : Bitdo.bitdo_data_t * list effect :=
  if player_idx env <? 0 then (gp, [])
  else
    match fb env with
    | None => (gp, [])
    | Some f =>
        if negb (rumble_dirty f) then (gp, [])
        else
          let left := C.u8 (rumble_left f) in
          let right := C.u8 (rumble_right f) in
          let (gp, out) :=
            if negb (left =? Bitdo.rumble_left gp)
               || negb (right =? Bitdo.rumble_right gp) then
              let strong := C.u8 (Z.quot (C.s32 (C.u16 left * 100)) 255) in
              let weak := C.u8 (Z.quot (C.s32 (C.u16 right * 100)) 255) in
              let buf := [strong; weak; 0; 0] in
              ({| Bitdo.event := Bitdo.event gp;
                  Bitdo.initialized := Bitdo.initialized gp;
                  Bitdo.rumble_left := left; Bitdo.rumble_right := right |},
               [bthid_send_output_report conn_index REPORT_ID_RUMBLE buf])
            else (gp, []) in
          (gp, out ++ [feedback_clear_dirty (player_idx env)])
    end.

(** [bitdo_disconnect], for a device with driver data. *)
Definition bitdo_disconnect (gp : Bitdo.bitdo_data_t)
  : Bitdo.bitdo_data_t * list effect :=
  ({| Bitdo.event := init_input_event; Bitdo.initialized := false;
      Bitdo.rumble_left := Bitdo.rumble_left gp;
      Bitdo.rumble_right := Bitdo.rumble_right gp |},
   [router_device_disconnected (dev_addr (Bitdo.event gp))
      (instance (Bitdo.event gp));
    remove_players_by_address (dev_addr (Bitdo.event gp))
      (instance (Bitdo.event gp))]).

(** The slot search of [bitdo_init] over [device_data]: the index of the
    first slot not in use. *)
Fixpoint first_free (slots : list Bitdo.bitdo_data_t) (i : nat) : option nat :=
  match slots with
  | [] => None
  | gp :: rest =>
      if negb (Bitdo.initialized gp) then Some i else first_free rest (S i)
  end.

(** [device_data[i] = v] *)
Fixpoint store {A} (l : list A) (i : nat) (v : A) : list A :=
  match l, i with
  | [], _ => []
  | _ :: rest, O => v :: rest
  | x :: rest, S j => x :: store rest j v
  end.

(** [bitdo_init] on the whole table: the slot given to the device (its
    [driver_data]) and the table afterwards, or [None] when the driver
    returns [false]. *)
Definition bitdo_init_device (slots : list Bitdo.bitdo_data_t)
  (conn_index : Z) : option (nat * list Bitdo.bitdo_data_t) :=
  match first_free slots 0 with
  | Some i => Some (i, store slots i (Bitdo.bitdo_init conn_index))
  | None => None
  end.

End BitdoTask.

(** ** Wii U Pro controller driver (wii_u_pro_bt.c) *)

Module WiiUPro.

Definition WII_U_INIT_DELAY_MS : Z := 100.
Definition WII_U_INIT_MAX_RETRIES : Z := 5.
Definition WII_U_KEEPALIVE_MS : Z := 30000.

Definition WIIU_BTN_R : Z := 0x00002.
Definition WIIU_BTN_PLUS : Z := 0x00004.
Definition WIIU_BTN_HOME : Z := 0x00008.
Definition WIIU_BTN_MINUS : Z := 0x00010.
Definition WIIU_BTN_L : Z := 0x00020.
Definition WIIU_BTN_DOWN : Z := 0x00040.
Definition WIIU_BTN_RIGHT : Z := 0x00080.
Definition WIIU_BTN_UP : Z := 0x00100.
Definition WIIU_BTN_LEFT : Z := 0x00200.
Definition WIIU_BTN_ZR : Z := 0x00400.
Definition WIIU_BTN_X : Z := 0x00800.
Definition WIIU_BTN_A : Z := 0x01000.
Definition WIIU_BTN_Y : Z := 0x02000.
Definition WIIU_BTN_B : Z := 0x04000.
Definition WIIU_BTN_ZL : Z := 0x08000.
Definition WIIU_BTN_R3 : Z := 0x10000.
Definition WIIU_BTN_L3 : Z := 0x20000.

Definition WIIU_STICK_CENTER : Z := 2048.
Definition WIIU_STICK_RANGE : Z := 1200.

Definition WIIU_REPORT_STATUS : Z := 0x20.
Definition WIIU_REPORT_READ_DATA : Z := 0x21.
Definition WIIU_REPORT_ACK : Z := 0x22.
Definition WIIU_REPORT_EXT_19 : Z := 0x34.
Definition WIIU_REPORT_EXT_16 : Z := 0x35.
Definition WIIU_REPORT_EXT_21 : Z := 0x3D.

Definition WIIU_CMD_LED : Z := 0x11.
Definition WIIU_CMD_REPORT_MODE : Z := 0x12.
Definition WIIU_CMD_STATUS_REQ : Z := 0x15.
Definition WIIU_CMD_WRITE_DATA : Z := 0x16.
Definition WIIU_CMD_READ_DATA : Z := 0x17.

Inductive wii_u_state_t : Set :=
  | WII_U_STATE_IDLE
  | WII_U_STATE_WAIT_INIT
  | WII_U_STATE_SEND_STATUS_REQ
  | WII_U_STATE_WAIT_STATUS
  | WII_U_STATE_SEND_EXT_INIT1
  | WII_U_STATE_WAIT_EXT_INIT1_ACK
  | WII_U_STATE_SEND_EXT_INIT2
  | WII_U_STATE_WAIT_EXT_INIT2_ACK
  | WII_U_STATE_READ_EXT_TYPE
  | WII_U_STATE_WAIT_EXT_TYPE
  | WII_U_STATE_SEND_REPORT_MODE
  | WII_U_STATE_WAIT_REPORT_ACK
  | WII_U_STATE_SEND_LED
  | WII_U_STATE_WAIT_LED_ACK
  | WII_U_STATE_READY.

(** The enumerator values, for the ordered comparison in the report path. *)
Definition state_value (s : wii_u_state_t) : Z :=
  match s with
  | WII_U_STATE_IDLE => 0 | WII_U_STATE_WAIT_INIT => 1
  | WII_U_STATE_SEND_STATUS_REQ => 2 | WII_U_STATE_WAIT_STATUS => 3
  | WII_U_STATE_SEND_EXT_INIT1 => 4 | WII_U_STATE_WAIT_EXT_INIT1_ACK => 5
  | WII_U_STATE_SEND_EXT_INIT2 => 6 | WII_U_STATE_WAIT_EXT_INIT2_ACK => 7
  | WII_U_STATE_READ_EXT_TYPE => 8 | WII_U_STATE_WAIT_EXT_TYPE => 9
  | WII_U_STATE_SEND_REPORT_MODE => 10 | WII_U_STATE_WAIT_REPORT_ACK => 11
  | WII_U_STATE_SEND_LED => 12 | WII_U_STATE_WAIT_LED_ACK => 13
  | WII_U_STATE_READY => 14
  end.

Definition state_eqb (a b : wii_u_state_t) : bool :=
  state_value a =? state_value b.

Record wii_u_pro_data_t : Set := {
  event : input_event_t;
  initialized : bool;
  player_led : Z;
  rumble_on : bool;
  state : wii_u_state_t;
  init_time : Z;
  init_retries : Z;
  last_keepalive : Z;
  last_report : Z
}.

Definition set_event (w : wii_u_pro_data_t) (e : input_event_t) :=
  {| event := e; initialized := initialized w; player_led := player_led w;
     rumble_on := rumble_on w; state := state w; init_time := init_time w;
     init_retries := init_retries w; last_keepalive := last_keepalive w;
     last_report := last_report w |}.

Definition set_state (w : wii_u_pro_data_t) (s : wii_u_state_t) :=
  {| event := event w; initialized := initialized w; player_led := player_led w;
     rumble_on := rumble_on w; state := s; init_time := init_time w;
     init_retries := init_retries w; last_keepalive := last_keepalive w;
     last_report := last_report w |}.

Definition set_init_time (w : wii_u_pro_data_t) (t : Z) :=
  {| event := event w; initialized := initialized w; player_led := player_led w;
     rumble_on := rumble_on w; state := state w; init_time := C.u32 t;
     init_retries := init_retries w; last_keepalive := last_keepalive w;
     last_report := last_report w |}.

Definition set_init_retries (w : wii_u_pro_data_t) (n : Z) :=
  {| event := event w; initialized := initialized w; player_led := player_led w;
     rumble_on := rumble_on w; state := state w; init_time := init_time w;
     init_retries := C.u8 n; last_keepalive := last_keepalive w;
     last_report := last_report w |}.

Definition set_last_keepalive (w : wii_u_pro_data_t) (t : Z) :=
  {| event := event w; initialized := initialized w; player_led := player_led w;
     rumble_on := rumble_on w; state := state w; init_time := init_time w;
     init_retries := init_retries w; last_keepalive := C.u32 t;
     last_report := last_report w |}.

Definition set_last_report (w : wii_u_pro_data_t) (t : Z) :=
  {| event := event w; initialized := initialized w; player_led := player_led w;
     rumble_on := rumble_on w; state := state w; init_time := init_time w;
     init_retries := init_retries w; last_keepalive := last_keepalive w;
     last_report := C.u32 t |}.

Definition set_player_led (w : wii_u_pro_data_t) (l : Z) :=
  {| event := event w; initialized := initialized w; player_led := C.u8 l;
     rumble_on := rumble_on w; state := state w; init_time := init_time w;
     init_retries := init_retries w; last_keepalive := last_keepalive w;
     last_report := last_report w |}.

Definition set_rumble_on (w : wii_u_pro_data_t) (b : bool) :=
  {| event := event w; initialized := initialized w; player_led := player_led w;
     rumble_on := b; state := state w; init_time := init_time w;
     init_retries := init_retries w; last_keepalive := last_keepalive w;
     last_report := last_report w |}.

(** What a callback does to the outside, in program order. *)
Inductive effect : Set :=
  | router_submit_input (e : input_event_t)
  | btstack_wiimote_send_raw (buf : list Z)
  | feedback_clear_dirty (idx : Z).

Definition is_send (x : effect) : bool :=
  match x with btstack_wiimote_send_raw _ => true | _ => false end.

Definition sent_count (out : list effect) : nat :=
  length (filter is_send out).

Definition scale_stick (val : Z) : Z :=
  let val := C.u16 val in
  let val := if val <? WIIU_STICK_CENTER - WIIU_STICK_RANGE
             then WIIU_STICK_CENTER - WIIU_STICK_RANGE else val in
  let val := if WIIU_STICK_CENTER + WIIU_STICK_RANGE <? val
             then WIIU_STICK_CENTER + WIIU_STICK_RANGE else val in
  let centered := C.s32 (val - WIIU_STICK_CENTER) in
  let scaled := C.s32 (Z.quot (C.s32 (centered * 127)) WIIU_STICK_RANGE + 128) in
  let scaled := if scaled <? 1 then 1 else scaled in
  let scaled := if 255 <? scaled then 255 else scaled in
  C.u8 scaled.

(** The packets of the helper functions. *)
Definition leds_raw_packet (led_pattern : Z) : list Z :=
  [0xA2; 0x11; C.u8 led_pattern].

Definition leds_packet (player : Z) : list Z :=
  leds_raw_packet (if (1 <=? player) && (player <=? 4)
                   then C.u8 (Z.shiftl 1 (player + 3)) else 0).

Definition rumble_packet (on : bool) : list Z :=
  [0xA2; 0x10; if on then 0x01 else 0x00].

Definition status_request_packet : list Z := [0xA2; WIIU_CMD_STATUS_REQ; 0x00].

Definition read_data_packet (address size : Z) : list Z :=
  [0xA2; WIIU_CMD_READ_DATA; 0x04;
   C.u8 (Z.land (Z.shiftr address 16) 0xFF);
   C.u8 (Z.land (Z.shiftr address 8) 0xFF);
   C.u8 (Z.land address 0xFF);
   C.u8 (Z.land (Z.shiftr size 8) 0xFF);
   C.u8 (Z.land size 0xFF)].

Definition write_data_packet (address data : Z) : list Z :=
  [0xA2; WIIU_CMD_WRITE_DATA; 0x04;
   C.u8 (Z.land (Z.shiftr address 16) 0xFF);
   C.u8 (Z.land (Z.shiftr address 8) 0xFF);
   C.u8 (Z.land address 0xFF);
   0x01; C.u8 data] ++ repeat 0 15.

Definition report_mode_packet : list Z := [0xA2; 0x12; 0x04; 0x3d].

Section WithLayout.
Context `{ButtonLayout}.

(** The decoding shared by the three extension reports; [off] is where the
    extension bytes start in the buffer. *)
Definition decode_ext (e : input_event_t) (data : list byte) (off : Z)
  : input_event_t :=
  let ext i := at_ data (off + i) in
  let lx := C.u16 (Z.lor (ext 0) (Z.shiftl (ext 1) 8)) in
  let rx := C.u16 (Z.lor (ext 2) (Z.shiftl (ext 3) 8)) in
  let ly := C.u16 (Z.lor (ext 4) (Z.shiftl (ext 5) 8)) in
  let ry := C.u16 (Z.lor (ext 6) (Z.shiftl (ext 7) 8)) in
  let raw_buttons :=
    C.u32 (Z.lor (Z.lor (Z.land (ext 8) 0xFE) (Z.shiftl (ext 9) 8))
                 (Z.shiftl (Z.land (ext 10) 0x03) 16)) in
  let buttons_pressed := C.u32 (Z.lnot raw_buttons) in
  let p m := C.tst buttons_pressed m in
  let buttons :=
    or_all [ (p WIIU_BTN_B, JP_BUTTON B1); (p WIIU_BTN_A, JP_BUTTON B2);
             (p WIIU_BTN_Y, JP_BUTTON B3); (p WIIU_BTN_X, JP_BUTTON B4);
             (p WIIU_BTN_L, JP_BUTTON L1); (p WIIU_BTN_R, JP_BUTTON R1);
             (p WIIU_BTN_ZL, JP_BUTTON L2); (p WIIU_BTN_ZR, JP_BUTTON R2);
             (p WIIU_BTN_MINUS, JP_BUTTON S1); (p WIIU_BTN_PLUS, JP_BUTTON S2);
             (p WIIU_BTN_L3, JP_BUTTON L3); (p WIIU_BTN_R3, JP_BUTTON R3);
             (p WIIU_BTN_HOME, JP_BUTTON A1);
             (p WIIU_BTN_UP, JP_BUTTON DU); (p WIIU_BTN_DOWN, JP_BUTTON DD);
             (p WIIU_BTN_LEFT, JP_BUTTON DL); (p WIIU_BTN_RIGHT, JP_BUTTON DR) ] 0 in
  let e := with_buttons e buttons in
  let e := with_analog e ANALOG_LX (scale_stick lx) in
  let e := with_analog e ANALOG_LY (255 - scale_stick ly) in
  let e := with_analog e ANALOG_RX (scale_stick rx) in
  let e := with_analog e ANALOG_RY (255 - scale_stick ry) in
  let battery_raw := C.u8 (Z.land (Z.shiftr (ext 10) 4) 0x07) in
  with_battery e (if 4 <=? battery_raw then 100 else battery_raw * 25)
                 (Z.land (ext 10) 0x04 =? 0).

(** The state change the first data report (0x3D or 0x35) causes. *)
Definition first_data_report (wii : wii_u_pro_data_t) : wii_u_pro_data_t :=
  if last_report wii =? 0 then
    if state_value (state wii) <? state_value WII_U_STATE_WAIT_LED_ACK
    then set_state wii WII_U_STATE_SEND_LED
    else if state_eqb (state wii) WII_U_STATE_WAIT_LED_ACK
    then set_state wii WII_U_STATE_READY
    else wii
  else wii.

(** [wii_u_process_report]; [t] is the value [platform_time_us()] returns
    during the call. *)
Definition wii_u_process_report (wii : wii_u_pro_data_t) (data : list byte)
  (t : Z) : wii_u_pro_data_t * list effect :=
  let len := len_ data in
  if len <? 1 then (wii, [])
  else
    let report_id := at_ data 0 in
    if (report_id =? WIIU_REPORT_EXT_21) && (22 <=? len) then
      let wii := first_data_report wii in
      let wii := set_last_report wii t in
      let e := decode_ext (event wii) data 1 in
      (set_event wii e, [router_submit_input e])
    else if (report_id =? WIIU_REPORT_EXT_16) && (22 <=? len) then
      let wii := first_data_report wii in
      let wii := set_last_report wii t in
      let e := decode_ext (event wii) data 6 in
      (set_event wii e, [router_submit_input e])
    else if (report_id =? WIIU_REPORT_EXT_19) && (22 <=? len) then
      let wii := if state_eqb (state wii) WII_U_STATE_READY then wii
                 else set_state wii WII_U_STATE_READY in
      let e := decode_ext (event wii) data 3 in
      (set_event wii e, [router_submit_input e])
    else if (report_id =? WIIU_REPORT_STATUS) && (7 <=? len) then
      let flags := at_ data 3 in
      let extension_connected := negb (Z.land flags 0x02 =? 0) in
      if state_eqb (state wii) WII_U_STATE_WAIT_STATUS then
        (set_state wii (if extension_connected then WII_U_STATE_SEND_EXT_INIT1
                        else WII_U_STATE_SEND_LED), [])
      else (wii, [])
    else if (report_id =? WIIU_REPORT_ACK) && (5 <=? len) then
      let acked_report := at_ data 3 in
      let error_code := at_ data 4 in
      if error_code =? 0 then
        if state_eqb (state wii) WII_U_STATE_WAIT_EXT_INIT1_ACK
           && (acked_report =? WIIU_CMD_WRITE_DATA)
        then (set_state wii WII_U_STATE_SEND_EXT_INIT2, [])
        else if state_eqb (state wii) WII_U_STATE_WAIT_EXT_INIT2_ACK
                && (acked_report =? WIIU_CMD_WRITE_DATA)
        then (set_state wii WII_U_STATE_READ_EXT_TYPE, [])
        else if state_eqb (state wii) WII_U_STATE_WAIT_REPORT_ACK
                && (acked_report =? WIIU_CMD_REPORT_MODE)
        then (set_state wii WII_U_STATE_SEND_LED, [])
        else if state_eqb (state wii) WII_U_STATE_WAIT_LED_ACK
                && (acked_report =? WIIU_CMD_LED)
        then (set_last_report
                (set_last_keepalive (set_state wii WII_U_STATE_READY) t) 0, [])
        else (wii, [])
      else (wii, [])
    else if (report_id =? WIIU_REPORT_READ_DATA) && (7 <=? len) then
      if state_eqb (state wii) WII_U_STATE_WAIT_EXT_TYPE
      then (set_state wii WII_U_STATE_SEND_REPORT_MODE, [])
      else (wii, [])
    else (wii, []).

End WithLayout.

(** [(int32_t)(now - t) >= 0]: the deadline [t] has been reached. *)
Definition reached (now t : Z) : bool := 0 <=? C.s32 (C.u32 (now - t)).

(** A sending step of the connect sequence: when the channel is free, emit
    the packet, move to the waiting state and arm the one-second timeout. *)
Definition send_step (wii : wii_u_pro_data_t) (env : task_env)
  (pkt : list Z) (next : wii_u_state_t) : wii_u_pro_data_t * list effect :=
  if can_send env 0%nat then
    (set_init_time (set_state wii next) (now env + 1000 * 1000),
     [btstack_wiimote_send_raw pkt])
  else (wii, []).

(** A waiting step: on timeout count a retry and either send again or give
    the step up and go on. *)
Definition wait_step (wii : wii_u_pro_data_t) (env : task_env)
  (again onward : wii_u_state_t) : wii_u_pro_data_t :=
  if reached (now env) (init_time wii) then
    let wii := set_init_retries wii (init_retries wii + 1) in
    if init_retries wii <? WII_U_INIT_MAX_RETRIES then set_state wii again
    else set_state (set_init_retries wii 0) onward
  else wii.

(** The READY branch: rumble and LED feedback, then the keep-alive. *)
Definition ready_step (wii : wii_u_pro_data_t) (env : task_env)
  : wii_u_pro_data_t * list effect :=
  let '(wii, out) :=
    if 0 <=? player_idx env then
      let f := fb env in
      let rumble_wanted := (0 <? rumble_left f) || (0 <? rumble_right f) in
      let '(wii, out) :=
        if rumble_dirty f && negb (Bool.eqb rumble_wanted (rumble_on wii))
           && can_send env 0%nat
        then (set_rumble_on wii rumble_wanted,
              [btstack_wiimote_send_raw (rumble_packet rumble_wanted)])
        else (wii, []) in
      let led :=
        if negb (led_pattern f =? 0) then C.u8 (Z.shiftl (led_pattern f) 4)
        else C.u8 (Z.shiftl (PLAYER_LEDS env (player_idx env + 1)) 4) in
      let '(wii, out) :=
        if (led_dirty f || negb (led =? player_led wii))
           && can_send env (sent_count out)
        then (set_player_led wii led,
              out ++ [btstack_wiimote_send_raw (leds_raw_packet led)])
        else (wii, out) in
      if rumble_dirty f || led_dirty f
      then (wii, out ++ [feedback_clear_dirty (player_idx env)])
      else (wii, out)
    else (wii, []) in
  if (WII_U_KEEPALIVE_MS * 1000 <=? C.s32 (C.u32 (now env - last_keepalive wii)))
     && can_send env (sent_count out)
  then (set_last_keepalive wii (now env),
        out ++ [btstack_wiimote_send_raw status_request_packet])
  else (wii, out).

(** [wii_u_task]. *)
Definition wii_u_task (wii : wii_u_pro_data_t) (env : task_env)
  : wii_u_pro_data_t * list effect :=
  match state wii with
  | WII_U_STATE_WAIT_INIT =>
      if reached (now env) (init_time wii)
      then (set_state wii WII_U_STATE_SEND_STATUS_REQ, [])
      else (wii, [])
  | WII_U_STATE_SEND_STATUS_REQ =>
      send_step wii env status_request_packet WII_U_STATE_WAIT_STATUS
  | WII_U_STATE_WAIT_STATUS =>
      (wait_step wii env WII_U_STATE_SEND_STATUS_REQ WII_U_STATE_SEND_EXT_INIT1, [])
  | WII_U_STATE_SEND_EXT_INIT1 =>
      send_step wii env (write_data_packet 0xA400F0 0x55)
                WII_U_STATE_WAIT_EXT_INIT1_ACK
  | WII_U_STATE_WAIT_EXT_INIT1_ACK =>
      (wait_step wii env WII_U_STATE_SEND_EXT_INIT1 WII_U_STATE_SEND_EXT_INIT2, [])
  | WII_U_STATE_SEND_EXT_INIT2 =>
      send_step wii env (write_data_packet 0xA400FB 0x00)
                WII_U_STATE_WAIT_EXT_INIT2_ACK
  | WII_U_STATE_WAIT_EXT_INIT2_ACK =>
      (wait_step wii env WII_U_STATE_SEND_EXT_INIT2 WII_U_STATE_READ_EXT_TYPE, [])
  | WII_U_STATE_READ_EXT_TYPE =>
      send_step wii env (read_data_packet 0xA400FA 6) WII_U_STATE_WAIT_EXT_TYPE
  | WII_U_STATE_WAIT_EXT_TYPE =>
      (wait_step wii env WII_U_STATE_READ_EXT_TYPE WII_U_STATE_SEND_REPORT_MODE, [])
  | WII_U_STATE_SEND_REPORT_MODE =>
      send_step wii env report_mode_packet WII_U_STATE_WAIT_REPORT_ACK
  | WII_U_STATE_WAIT_REPORT_ACK =>
      (wait_step wii env WII_U_STATE_SEND_REPORT_MODE WII_U_STATE_SEND_LED, [])
  | WII_U_STATE_SEND_LED =>
      if can_send env 0%nat then
        (set_init_time
           (set_state (set_player_led wii 0x10) WII_U_STATE_WAIT_LED_ACK)
           (now env + 1000 * 1000),
         [btstack_wiimote_send_raw (leds_packet 1)])
      else (wii, [])
  | WII_U_STATE_WAIT_LED_ACK =>
      if reached (now env) (init_time wii) then
        let wii := set_init_retries wii (init_retries wii + 1) in
        if init_retries wii <? WII_U_INIT_MAX_RETRIES
        then (set_state wii WII_U_STATE_SEND_LED, [])
        else (set_last_report
                (set_last_keepalive
                   (set_state (set_init_retries wii 0) WII_U_STATE_READY)
                   (now env)) 0, [])
      else (wii, [])
  | WII_U_STATE_READY => ready_step wii env
  | WII_U_STATE_IDLE => (wii, [])
  end.

(** The zero-initialised entry of the static array [wii_u_data]. *)
Definition zero_slot : wii_u_pro_data_t :=
  {| event := init_input_event; initialized := false; player_led := 0;
     rumble_on := false; state := WII_U_STATE_IDLE; init_time := 0;
     init_retries := 0; last_keepalive := 0; last_report := 0 |}.

(** [wii_u_init] on the free slot [slot] at time [t]; the fields the function
    does not assign keep the value the slot had. *)
Definition wii_u_init (slot : wii_u_pro_data_t) (conn_index t : Z)
  : wii_u_pro_data_t :=
  let e := with_identity init_input_event conn_index 0
             INPUT_TYPE_GAMEPAD INPUT_TRANSPORT_BT_CLASSIC in
  {| event := with_button_count e 14; initialized := true; player_led := 0;
     rumble_on := rumble_on slot; state := WII_U_STATE_WAIT_INIT;
     init_time := C.u32 (t + WII_U_INIT_DELAY_MS * 1000);
     init_retries := 0; last_keepalive := last_keepalive slot;
     last_report := last_report slot |}.

(** [wii_u_disconnect]: what it leaves in the slot (the calls that tell the
    router and the player table are not part of this model). *)
Definition wii_u_disconnect (wii : wii_u_pro_data_t) : wii_u_pro_data_t :=
  {| event := init_input_event; initialized := false;
     player_led := player_led wii; rumble_on := rumble_on wii;
     state := WII_U_STATE_IDLE; init_time := init_time wii;
     init_retries := 0; last_keepalive := last_keepalive wii;
     last_report := last_report wii |}.

End WiiUPro.

(** ** Wiimote driver (wiimote_bt.c) *)

Module Wiimote.

Definition WIIMOTE_INIT_DELAY_MS : Z := 100.
Definition WIIMOTE_INIT_MAX_RETRIES : Z := 5.
Definition WIIMOTE_KEEPALIVE_MS : Z := 30000.

Definition WII_BTN_LEFT : Z := 0x0001.
Definition WII_BTN_RIGHT : Z := 0x0002.
Definition WII_BTN_DOWN : Z := 0x0004.
Definition WII_BTN_UP : Z := 0x0008.
Definition WII_BTN_PLUS : Z := 0x0010.
Definition WII_BTN_TWO : Z := 0x0100.
Definition WII_BTN_ONE : Z := 0x0200.
Definition WII_BTN_B : Z := 0x0400.
Definition WII_BTN_A : Z := 0x0800.
Definition WII_BTN_MINUS : Z := 0x1000.
Definition WII_BTN_HOME : Z := 0x8000.

Definition WII_BTN_Z : Z := 0x01.
Definition WII_BTN_C : Z := 0x02.

Definition WII_CC_BTN_RT : Z := 0x0002.
Definition WII_CC_BTN_PLUS : Z := 0x0004.
Definition WII_CC_BTN_HOME : Z := 0x0008.
Definition WII_CC_BTN_MINUS : Z := 0x0010.
Definition WII_CC_BTN_LT : Z := 0x0020.
Definition WII_CC_BTN_DOWN : Z := 0x0040.
Definition WII_CC_BTN_RIGHT : Z := 0x0080.
Definition WII_CC_BTN_UP : Z := 0x0100.
Definition WII_CC_BTN_LEFT : Z := 0x0200.
Definition WII_CC_BTN_ZR : Z := 0x0400.
Definition WII_CC_BTN_X : Z := 0x0800.
Definition WII_CC_BTN_A : Z := 0x1000.
Definition WII_CC_BTN_Y : Z := 0x2000.
Definition WII_CC_BTN_B : Z := 0x4000.
Definition WII_CC_BTN_ZL : Z := 0x8000.

Definition GH_BTN_STRUM_DOWN : Z := 0x0040.
Definition GH_BTN_MINUS : Z := 0x0010.
Definition GH_BTN_PLUS : Z := 0x0004.
Definition GH_BTN_STRUM_UP : Z := 0x0100.
Definition GH_BTN_GREEN : Z := 0x1000.
Definition GH_BTN_RED : Z := 0x4000.
Definition GH_BTN_YELLOW : Z := 0x0800.
Definition GH_BTN_BLUE : Z := 0x2000.
Definition GH_BTN_ORANGE : Z := 0x8000.

Definition WII_REPORT_STATUS : Z := 0x20.
Definition WII_REPORT_READ_DATA : Z := 0x21.
Definition WII_REPORT_ACK : Z := 0x22.
Definition WII_REPORT_BUTTONS_ACC : Z := 0x31.
Definition WII_REPORT_BUTTONS_EXT8 : Z := 0x32.
Definition WII_REPORT_BUTTONS_ACC_IR : Z := 0x33.
Definition WII_REPORT_BUTTONS_ACC_EXT16 : Z := 0x35.
Definition WII_REPORT_BUTTONS_ACC_IR_EXT6 : Z := 0x37.

Definition WII_ACCEL_CENTER : Z := 128.
Definition WII_ACCEL_THRESH_ON : Z := 20.
Definition WII_ACCEL_THRESH_OFF : Z := 12.

Definition WII_CMD_LED : Z := 0x11.
Definition WII_CMD_REPORT_MODE : Z := 0x12.
Definition WII_CMD_STATUS_REQ : Z := 0x15.
Definition WII_CMD_WRITE_DATA : Z := 0x16.
Definition WII_CMD_READ_DATA : Z := 0x17.

Inductive wiimote_ext_type_t : Set :=
  | WII_EXT_NONE | WII_EXT_NUNCHUK | WII_EXT_CLASSIC
  | WII_EXT_CLASSIC_MINI | WII_EXT_GUITAR.

Inductive wiimote_state_t : Set :=
  | WII_STATE_IDLE
  | WII_STATE_WAIT_INIT
  | WII_STATE_SEND_STATUS_REQ
  | WII_STATE_WAIT_STATUS
  | WII_STATE_SEND_EXT_INIT1
  | WII_STATE_WAIT_EXT_INIT1_ACK
  | WII_STATE_SEND_EXT_INIT2
  | WII_STATE_WAIT_EXT_INIT2_ACK
  | WII_STATE_READ_EXT_TYPE
  | WII_STATE_WAIT_EXT_TYPE
  | WII_STATE_SEND_REPORT_MODE
  | WII_STATE_WAIT_REPORT_ACK
  | WII_STATE_SEND_LED
  | WII_STATE_WAIT_LED_ACK
  | WII_STATE_READY.

Definition is_state (a b : wiimote_state_t) : bool :=
  match a, b with
  | WII_STATE_IDLE, WII_STATE_IDLE
  | WII_STATE_WAIT_INIT, WII_STATE_WAIT_INIT
  | WII_STATE_SEND_STATUS_REQ, WII_STATE_SEND_STATUS_REQ
  | WII_STATE_WAIT_STATUS, WII_STATE_WAIT_STATUS
  | WII_STATE_SEND_EXT_INIT1, WII_STATE_SEND_EXT_INIT1
  | WII_STATE_WAIT_EXT_INIT1_ACK, WII_STATE_WAIT_EXT_INIT1_ACK
  | WII_STATE_SEND_EXT_INIT2, WII_STATE_SEND_EXT_INIT2
  | WII_STATE_WAIT_EXT_INIT2_ACK, WII_STATE_WAIT_EXT_INIT2_ACK
  | WII_STATE_READ_EXT_TYPE, WII_STATE_READ_EXT_TYPE
  | WII_STATE_WAIT_EXT_TYPE, WII_STATE_WAIT_EXT_TYPE
  | WII_STATE_SEND_REPORT_MODE, WII_STATE_SEND_REPORT_MODE
  | WII_STATE_WAIT_REPORT_ACK, WII_STATE_WAIT_REPORT_ACK
  | WII_STATE_SEND_LED, WII_STATE_SEND_LED
  | WII_STATE_WAIT_LED_ACK, WII_STATE_WAIT_LED_ACK
  | WII_STATE_READY, WII_STATE_READY => true
  | _, _ => false
  end.

(** Detected orientation; [WII_ORIENT_HORIZONTAL] is the first enumerator,
    the value of zero-initialised driver data. *)
Inductive wiimote_orient_t : Set := WII_ORIENT_HORIZONTAL | WII_ORIENT_VERTICAL.

(** The orientation mode setting ([WII_ORIENT_MODE_*] of wiimote_bt.h). *)
Inductive orient_mode : Set :=
  | WII_ORIENT_MODE_AUTO | WII_ORIENT_MODE_HORIZONTAL | WII_ORIENT_MODE_VERTICAL.

Definition orient_mode_eqb (a b : orient_mode) : bool :=
  match a, b with
  | WII_ORIENT_MODE_AUTO, WII_ORIENT_MODE_AUTO
  | WII_ORIENT_MODE_HORIZONTAL, WII_ORIENT_MODE_HORIZONTAL
  | WII_ORIENT_MODE_VERTICAL, WII_ORIENT_MODE_VERTICAL => true
  | _, _ => false
  end.

Record wiimote_data_t : Set := {
  event : input_event_t;
  initialized : bool;
  state : wiimote_state_t;
  init_time : Z;
  init_retries : Z;
  last_keepalive : Z;
  ext_type : wiimote_ext_type_t;
  extension_connected : bool;
  player_led : Z;
  rumble_on : bool;
  orientation : wiimote_orient_t;
  orient_hotkey_active : bool
}.

Definition set_event (w : wiimote_data_t) (e : input_event_t) :=
  {| event := e; initialized := initialized w; state := state w;
     init_time := init_time w; init_retries := init_retries w;
     last_keepalive := last_keepalive w; ext_type := ext_type w;
     extension_connected := extension_connected w; player_led := player_led w;
     rumble_on := rumble_on w; orientation := orientation w;
     orient_hotkey_active := orient_hotkey_active w |}.

Definition set_state (w : wiimote_data_t) (s : wiimote_state_t) :=
  {| event := event w; initialized := initialized w; state := s;
     init_time := init_time w; init_retries := init_retries w;
     last_keepalive := last_keepalive w; ext_type := ext_type w;
     extension_connected := extension_connected w; player_led := player_led w;
     rumble_on := rumble_on w; orientation := orientation w;
     orient_hotkey_active := orient_hotkey_active w |}.

Definition set_init_time (w : wiimote_data_t) (t : Z) :=
  {| event := event w; initialized := initialized w; state := state w;
     init_time := C.u32 t; init_retries := init_retries w;
     last_keepalive := last_keepalive w; ext_type := ext_type w;
     extension_connected := extension_connected w; player_led := player_led w;
     rumble_on := rumble_on w; orientation := orientation w;
     orient_hotkey_active := orient_hotkey_active w |}.

Definition set_init_retries (w : wiimote_data_t) (n : Z) :=
  {| event := event w; initialized := initialized w; state := state w;
     init_time := init_time w; init_retries := C.u8 n;
     last_keepalive := last_keepalive w; ext_type := ext_type w;
     extension_connected := extension_connected w; player_led := player_led w;
     rumble_on := rumble_on w; orientation := orientation w;
     orient_hotkey_active := orient_hotkey_active w |}.

Definition set_last_keepalive (w : wiimote_data_t) (t : Z) :=
  {| event := event w; initialized := initialized w; state := state w;
     init_time := init_time w; init_retries := init_retries w;
     last_keepalive := C.u32 t; ext_type := ext_type w;
     extension_connected := extension_connected w; player_led := player_led w;
     rumble_on := rumble_on w; orientation := orientation w;
     orient_hotkey_active := orient_hotkey_active w |}.

Definition set_ext_type (w : wiimote_data_t) (x : wiimote_ext_type_t) :=
  {| event := event w; initialized := initialized w; state := state w;
     init_time := init_time w; init_retries := init_retries w;
     last_keepalive := last_keepalive w; ext_type := x;
     extension_connected := extension_connected w; player_led := player_led w;
     rumble_on := rumble_on w; orientation := orientation w;
     orient_hotkey_active := orient_hotkey_active w |}.

Definition set_extension_connected (w : wiimote_data_t) (b : bool) :=
  {| event := event w; initialized := initialized w; state := state w;
     init_time := init_time w; init_retries := init_retries w;
     last_keepalive := last_keepalive w; ext_type := ext_type w;
     extension_connected := b; player_led := player_led w;
     rumble_on := rumble_on w; orientation := orientation w;
     orient_hotkey_active := orient_hotkey_active w |}.

Definition set_player_led (w : wiimote_data_t) (l : Z) :=
  {| event := event w; initialized := initialized w; state := state w;
     init_time := init_time w; init_retries := init_retries w;
     last_keepalive := last_keepalive w; ext_type := ext_type w;
     extension_connected := extension_connected w; player_led := C.u8 l;
     rumble_on := rumble_on w; orientation := orientation w;
     orient_hotkey_active := orient_hotkey_active w |}.

Definition set_rumble_on (w : wiimote_data_t) (b : bool) :=
  {| event := event w; initialized := initialized w; state := state w;
     init_time := init_time w; init_retries := init_retries w;
     last_keepalive := last_keepalive w; ext_type := ext_type w;
     extension_connected := extension_connected w; player_led := player_led w;
     rumble_on := b; orientation := orientation w;
     orient_hotkey_active := orient_hotkey_active w |}.

Definition set_orientation (w : wiimote_data_t) (o : wiimote_orient_t) :=
  {| event := event w; initialized := initialized w; state := state w;
     init_time := init_time w; init_retries := init_retries w;
     last_keepalive := last_keepalive w; ext_type := ext_type w;
     extension_connected := extension_connected w; player_led := player_led w;
     rumble_on := rumble_on w; orientation := o;
     orient_hotkey_active := orient_hotkey_active w |}.

Definition set_orient_hotkey_active (w : wiimote_data_t) (b : bool) :=
  {| event := event w; initialized := initialized w; state := state w;
     init_time := init_time w; init_retries := init_retries w;
     last_keepalive := last_keepalive w; ext_type := ext_type w;
     extension_connected := extension_connected w; player_led := player_led w;
     rumble_on := rumble_on w; orientation := orientation w;
     orient_hotkey_active := b |}.

Inductive effect : Set :=
  | router_submit_input (e : input_event_t)
  | btstack_wiimote_send_raw (buf : list Z)
  | btstack_wiimote_send_control (buf : list Z)
  | feedback_clear_dirty (idx : Z)
  | flash_save (mode : orient_mode).

Definition is_submit (x : effect) : bool :=
  match x with router_submit_input _ => true | _ => false end.

Definition is_send (x : effect) : bool :=
  match x with
  | btstack_wiimote_send_raw _ | btstack_wiimote_send_control _ => true
  | _ => false
  end.

Definition sent_count (out : list effect) : nat := length (filter is_send out).

(** [wiimote_detect_orientation] *)
Definition wiimote_detect_orientation (accel_x : Z) (current : wiimote_orient_t)
  : wiimote_orient_t :=
  let x_dev := C.s32 (C.u8 accel_x - WII_ACCEL_CENTER) in
  let x_dev := if x_dev <? 0 then C.s32 (- x_dev) else x_dev in
  match current with
  | WII_ORIENT_VERTICAL =>
      if WII_ACCEL_THRESH_ON <=? x_dev then WII_ORIENT_HORIZONTAL else current
  | WII_ORIENT_HORIZONTAL =>
      if x_dev <? WII_ACCEL_THRESH_OFF then WII_ORIENT_VERTICAL else current
  end.

Section WithLayout.
Context `{ButtonLayout}.

Definition dpad_mask : Z :=
  Z.lor (Z.lor (Z.lor (JP_BUTTON DU) (JP_BUTTON DD)) (JP_BUTTON DL)) (JP_BUTTON DR).

Definition face_mask : Z :=
  Z.lor (Z.lor (Z.lor (JP_BUTTON B1) (JP_BUTTON B2)) (JP_BUTTON B3)) (JP_BUTTON B4).

(** [wiimote_rotate_controls] *)
Definition wiimote_rotate_controls (buttons : Z) (orient : wiimote_orient_t) : Z :=
  match orient with
  | WII_ORIENT_VERTICAL => buttons
  | WII_ORIENT_HORIZONTAL =>
      let dpad := Z.land buttons dpad_mask in
      let face := Z.land buttons face_mask in
      let other :=
        Z.land buttons
          (C.u32 (Z.lnot
             (Z.lor (Z.lor (Z.lor (Z.lor dpad_mask (JP_BUTTON B1)) (JP_BUTTON B2))
                           (JP_BUTTON B3)) (JP_BUTTON B4)))) in
      let rotated_dpad :=
        or_all [ (C.tst dpad (JP_BUTTON DU), JP_BUTTON DL);
                 (C.tst dpad (JP_BUTTON DL), JP_BUTTON DD);
                 (C.tst dpad (JP_BUTTON DD), JP_BUTTON DR);
                 (C.tst dpad (JP_BUTTON DR), JP_BUTTON DU) ] 0 in
      let swapped_face :=
        or_all [ (C.tst face (JP_BUTTON B1), JP_BUTTON B3);
                 (C.tst face (JP_BUTTON B2), JP_BUTTON B4);
                 (C.tst face (JP_BUTTON B3), JP_BUTTON B1);
                 (C.tst face (JP_BUTTON B4), JP_BUTTON B2) ] 0 in
      Z.lor (Z.lor other rotated_dpad) swapped_face
  end.

(** The core buttons of bytes 1-2. *)
Definition raw_buttons_of (data : list byte) : Z :=
  C.u16 (Z.lor (Z.land (at_ data 1) 0x1F)
               (Z.shiftl (Z.land (at_ data 2) 0x9F) 8)).

Definition core_buttons (raw_buttons : Z) : Z :=
  let r m := C.tst raw_buttons m in
  or_all [ (r WII_BTN_UP, JP_BUTTON DU); (r WII_BTN_DOWN, JP_BUTTON DD);
           (r WII_BTN_LEFT, JP_BUTTON DL); (r WII_BTN_RIGHT, JP_BUTTON DR);
           (r WII_BTN_A, JP_BUTTON B2); (r WII_BTN_B, JP_BUTTON B1);
           (r WII_BTN_ONE, JP_BUTTON B3); (r WII_BTN_TWO, JP_BUTTON B4);
           (r WII_BTN_MINUS, JP_BUTTON S1); (r WII_BTN_PLUS, JP_BUTTON S2);
           (r WII_BTN_HOME, JP_BUTTON A1) ] 0.

Definition hotkey_mask : Z :=
  Z.lor (Z.lor (Z.lor (Z.lor (JP_BUTTON S2) (JP_BUTTON DU)) (JP_BUTTON DD))
               (JP_BUTTON DL)) (JP_BUTTON DR).

(** The buttons of a Classic Controller (also NES/SNES Classic). *)
Definition classic_buttons (cc_buttons : Z) (buttons : Z) : Z :=
  let c m := C.tst cc_buttons m in
  or_all [ (c WII_CC_BTN_B, JP_BUTTON B1); (c WII_CC_BTN_A, JP_BUTTON B2);
           (c WII_CC_BTN_Y, JP_BUTTON B3); (c WII_CC_BTN_X, JP_BUTTON B4);
           (c WII_CC_BTN_LT, JP_BUTTON L1); (c WII_CC_BTN_RT, JP_BUTTON R1);
           (c WII_CC_BTN_ZL, JP_BUTTON L2); (c WII_CC_BTN_ZR, JP_BUTTON R2);
           (c WII_CC_BTN_MINUS, JP_BUTTON S1); (c WII_CC_BTN_PLUS, JP_BUTTON S2);
           (c WII_CC_BTN_HOME, JP_BUTTON A1);
           (c WII_CC_BTN_UP, JP_BUTTON DU); (c WII_CC_BTN_DOWN, JP_BUTTON DD);
           (c WII_CC_BTN_LEFT, JP_BUTTON DL); (c WII_CC_BTN_RIGHT, JP_BUTTON DR) ]
         buttons.

(** The extension part of a data report: the analog fields it writes into
    the cached event and the buttons it adds.  [off] is where the extension
    bytes start. *)
Definition parse_extension (wii : wiimote_data_t) (data : list byte) (off : Z)
  (buttons : Z) : input_event_t * Z :=
  let ext i := at_ data (off + i) in
  let e := event wii in
  let inv16 := C.u16 (Z.lnot (Z.lor (ext 4) (Z.shiftl (ext 5) 8))) in
  match ext_type wii with
  | WII_EXT_NUNCHUK =>
      let ext_buttons := C.u8 (Z.lnot (ext 5)) in
      let buttons :=
        or_all [ (C.tst ext_buttons WII_BTN_Z, JP_BUTTON L2);
                 (C.tst ext_buttons WII_BTN_C, JP_BUTTON L1) ] buttons in
      let e := with_analog e ANALOG_LX (ext 0) in
      let e := with_analog e ANALOG_LY (255 - ext 1) in
      (e, buttons)
  | WII_EXT_CLASSIC =>
      let lx := C.u8 (Z.land (ext 0) 0x3F) in
      let ly := C.u8 (Z.land (ext 1) 0x3F) in
      let rx := C.u8 (Z.lor (Z.lor (Z.land (Z.shiftr (ext 0) 3) 0x18)
                                   (Z.land (Z.shiftr (ext 1) 5) 0x06))
                            (Z.land (Z.shiftr (ext 2) 7) 0x01)) in
      let ry := C.u8 (Z.land (ext 2) 0x1F) in
      let lt := C.u8 (Z.lor (Z.land (Z.shiftr (ext 2) 5) 0x03)
                            (Z.land (Z.shiftr (ext 3) 2) 0x1C)) in
      let rt := C.u8 (Z.land (ext 3) 0x1F) in
      let e := with_analog e ANALOG_LX (Z.lor (Z.shiftl lx 2) (Z.shiftr lx 4)) in
      let e := with_analog e ANALOG_LY (255 - Z.lor (Z.shiftl ly 2) (Z.shiftr ly 4)) in
      let e := with_analog e ANALOG_RX (Z.lor (Z.shiftl rx 3) (Z.shiftr rx 2)) in
      let e := with_analog e ANALOG_RY (255 - Z.lor (Z.shiftl ry 3) (Z.shiftr ry 2)) in
      let e := with_analog e ANALOG_L2 (Z.lor (Z.shiftl lt 3) (Z.shiftr lt 2)) in
      let e := with_analog e ANALOG_R2 (Z.lor (Z.shiftl rt 3) (Z.shiftr rt 2)) in
      (e, classic_buttons inv16 buttons)
  | WII_EXT_CLASSIC_MINI => (e, classic_buttons inv16 buttons)
  | WII_EXT_GUITAR =>
      let stick_x := C.u8 (Z.land (ext 0) 0x3F) in
      let stick_y := C.u8 (Z.land (ext 1) 0x3F) in
      let whammy := C.u8 (Z.land (ext 3) 0x1F) in
      let e := with_analog e ANALOG_LX (Z.lor (Z.shiftl stick_x 2) (Z.shiftr stick_x 4)) in
      let e := with_analog e ANALOG_LY
                 (255 - Z.lor (Z.shiftl stick_y 2) (Z.shiftr stick_y 4)) in
      let e := with_analog e ANALOG_L2 (Z.lor (Z.shiftl whammy 3) (Z.shiftr whammy 2)) in
      let g m := C.tst inv16 m in
      (e, or_all [ (g GH_BTN_GREEN, JP_BUTTON B1); (g GH_BTN_RED, JP_BUTTON B2);
                   (g GH_BTN_YELLOW, JP_BUTTON B4); (g GH_BTN_BLUE, JP_BUTTON B3);
                   (g GH_BTN_ORANGE, JP_BUTTON L1);
                   (g GH_BTN_STRUM_UP, JP_BUTTON DU);
                   (g GH_BTN_STRUM_DOWN, JP_BUTTON DD);
                   (g GH_BTN_PLUS, JP_BUTTON S2); (g GH_BTN_MINUS, JP_BUTTON S1) ]
                 buttons)
  | WII_EXT_NONE => (e, buttons)   (* only a rate-limited debug print *)
  end.

(** The part of [wiimote_process_report] that handles the data reports
    carrying core buttons.  [mode] is the file-scope [wiimote_orient_mode];
    [flash_ok] is the result of [flash_load]. *)
Definition core_stage (mode : orient_mode) (wii : wiimote_data_t)
  (data : list byte) (flash_ok : bool)
  : orient_mode * wiimote_data_t * list effect :=
  let len := len_ data in
  let report_id := at_ data 0 in
  if ((0x30 <=? report_id) && (report_id <=? 0x37))
     || (report_id =? 0x3e) || (report_id =? 0x3f) then
    if 3 <=? len then
      let raw_buttons := raw_buttons_of data in
      let buttons := core_buttons raw_buttons in
      let plus_held := C.tst raw_buttons WII_BTN_PLUS in
      let up_held := C.tst raw_buttons WII_BTN_UP in
      let down_held := C.tst raw_buttons WII_BTN_DOWN in
      let left_held := C.tst raw_buttons WII_BTN_LEFT in
      let right_held := C.tst raw_buttons WII_BTN_RIGHT in
      let '(mode, wii, out, buttons) :=
        if plus_held && (up_held || down_held || left_held || right_held) then
          let '(mode, wii, out) :=
            if negb (orient_hotkey_active wii) then
              let wii := set_orient_hotkey_active wii true in
              let new_mode :=
                if up_held then WII_ORIENT_MODE_VERTICAL
                else if right_held then WII_ORIENT_MODE_HORIZONTAL
                else WII_ORIENT_MODE_AUTO in
              if negb (orient_mode_eqb new_mode mode)
              then (new_mode, wii, if flash_ok then [flash_save new_mode] else [])
              else (mode, wii, [])
            else (mode, wii, []) in
          (mode, wii, out, Z.land buttons (C.u32 (Z.lnot hotkey_mask)))
        else (mode, set_orient_hotkey_active wii false, [], buttons) in
      let new_orient :=
        match mode with
        | WII_ORIENT_MODE_HORIZONTAL => WII_ORIENT_HORIZONTAL
        | WII_ORIENT_MODE_VERTICAL => WII_ORIENT_VERTICAL
        | WII_ORIENT_MODE_AUTO =>
            let has_accel :=
              (report_id =? WII_REPORT_BUTTONS_ACC)
              || (report_id =? WII_REPORT_BUTTONS_ACC_EXT16)
              || (report_id =? WII_REPORT_BUTTONS_ACC_IR)
              || (report_id =? WII_REPORT_BUTTONS_ACC_IR_EXT6) in
            if has_accel && (6 <=? len)
            then wiimote_detect_orientation (at_ data 3) (orientation wii)
            else orientation wii
        end in
      let wii := set_orientation wii new_orient in
      let '(e, buttons) :=
        if (report_id =? WII_REPORT_BUTTONS_EXT8) && (9 <=? len)
        then parse_extension wii data 3 buttons
        else if (report_id =? WII_REPORT_BUTTONS_ACC_EXT16) && (22 <=? len)
        then parse_extension wii data 6 buttons
        else (event wii, buttons) in
      let buttons :=
        match ext_type wii with
        | WII_EXT_NONE =>
            if negb (extension_connected wii)
            then wiimote_rotate_controls buttons (orientation wii)
            else buttons
        | _ => buttons
        end in
      let e := with_buttons e buttons in
      let wii := set_event wii e in
      (mode, wii,
       out ++ (if is_state (state wii) WII_STATE_READY
               then [router_submit_input e] else []))
    else (mode, wii, [])
  else (mode, wii, []).

(** The status report (0x20), including the extension hot-swap. *)
Definition status_stage (wii : wiimote_data_t) (data : list byte)
  : wiimote_data_t * list effect :=
  if (at_ data 0 =? WII_REPORT_STATUS) && (4 <=? len_ data) then
    let flags := C.u8 (Z.land (at_ data 3) 0x0F) in
    let ext_now := negb (Z.land flags 0x02 =? 0) in
    if is_state (state wii) WII_STATE_WAIT_STATUS then
      let wii := set_extension_connected wii ext_now in
      (set_state wii (if extension_connected wii then WII_STATE_SEND_EXT_INIT1
                      else WII_STATE_SEND_REPORT_MODE), [])
    else if is_state (state wii) WII_STATE_READY then
      if negb (Bool.eqb ext_now (extension_connected wii)) then
        let wii := set_extension_connected wii ext_now in
        if ext_now then
          (set_state (set_ext_type wii WII_EXT_NONE) WII_STATE_SEND_EXT_INIT1, [])
        else
          let wii := set_ext_type wii WII_EXT_NONE in
          let e := event wii in
          let e := with_analog e ANALOG_LX 128 in
          let e := with_analog e ANALOG_LY 128 in
          let e := with_analog e ANALOG_RX 128 in
          let e := with_analog e ANALOG_RY 128 in
          let e := with_analog e ANALOG_L2 0 in
          let e := with_analog e ANALOG_R2 0 in
          (set_state (set_event wii e) WII_STATE_SEND_REPORT_MODE,
           [router_submit_input e])
      else (wii, [])
    else (wii, [])
  else (wii, []).

(** The acknowledgement report (0x22). *)
Definition ack_stage (wii : wiimote_data_t) (data : list byte) (t : Z)
  : wiimote_data_t :=
  if (at_ data 0 =? WII_REPORT_ACK) && (5 <=? len_ data) then
    let acked_report := at_ data 3 in
    let error_code := at_ data 4 in
    if error_code =? 0 then
      if is_state (state wii) WII_STATE_WAIT_EXT_INIT1_ACK
         && (acked_report =? WII_CMD_WRITE_DATA)
      then set_state wii WII_STATE_SEND_EXT_INIT2
      else if is_state (state wii) WII_STATE_WAIT_EXT_INIT2_ACK
              && (acked_report =? WII_CMD_WRITE_DATA)
      then set_state wii WII_STATE_READ_EXT_TYPE
      else if is_state (state wii) WII_STATE_WAIT_REPORT_ACK
              && (acked_report =? WII_CMD_REPORT_MODE)
      then set_state wii WII_STATE_SEND_LED
      else if is_state (state wii) WII_STATE_WAIT_LED_ACK
              && (acked_report =? WII_CMD_LED)
      then set_last_keepalive (set_state wii WII_STATE_READY) t
      else wii
    else wii
  else wii.

(** The read-memory response (0x21) that identifies the extension. *)
Definition read_stage (wii : wiimote_data_t) (data : list byte)
  : wiimote_data_t :=
  if (at_ data 0 =? WII_REPORT_READ_DATA) && (7 <=? len_ data) then
    let se := at_ data 3 in
    let error := C.u8 (Z.land se 0x0F) in
    if is_state (state wii) WII_STATE_WAIT_EXT_TYPE then
      let wii :=
        if (error =? 0) && (12 <=? len_ data) then
          if (at_ data 8 =? 0xA4) && (at_ data 9 =? 0x20) then
            if (at_ data 10 =? 0x00) && (at_ data 11 =? 0x00)
            then set_ext_type wii WII_EXT_NUNCHUK
            else if (at_ data 10 =? 0x01) && (at_ data 11 =? 0x01) then
              if 0x02 <=? at_ data 6
              then set_ext_type wii WII_EXT_CLASSIC_MINI
              else set_ext_type wii WII_EXT_CLASSIC
            else if (at_ data 10 =? 0x01) && (at_ data 11 =? 0x03)
            then set_ext_type wii WII_EXT_GUITAR
            else if (at_ data 10 =? 0x01) && (at_ data 11 =? 0x20)
            then wii
            else set_ext_type wii WII_EXT_NONE
          else wii
        else wii in
      set_state wii WII_STATE_SEND_REPORT_MODE
    else wii
  else wii.

(** [wiimote_process_report]: the four parts in the order of the source. *)
Definition wiimote_process_report (mode : orient_mode) (wii : wiimote_data_t)
  (data : list byte) (t : Z) (flash_ok : bool)
  : orient_mode * wiimote_data_t * list effect :=
  if len_ data <? 1 then (mode, wii, [])
  else
    let '(mode, wii, out1) := core_stage mode wii data flash_ok in
    let '(wii, out2) := status_stage wii data in
    let wii := ack_stage wii data t in
    let wii := read_stage wii data in
    (mode, wii, out1 ++ out2).

End WithLayout.

Definition leds_raw_packet (led_pattern : Z) : list Z :=
  [0xA2; WII_CMD_LED; C.u8 led_pattern].

Definition leds_packet (player : Z) : list Z :=
  leds_raw_packet (if (1 <=? player) && (player <=? 4)
                   then C.u8 (Z.shiftl 1 (player + 3)) else 0).

Definition status_request_packet : list Z := [0xA2; WII_CMD_STATUS_REQ; 0x00].

Definition write_data_packet (address data : Z) : list Z :=
  [0xA2; WII_CMD_WRITE_DATA; 0x04;
   C.u8 (Z.land (Z.shiftr address 16) 0xFF);
   C.u8 (Z.land (Z.shiftr address 8) 0xFF);
   C.u8 (Z.land address 0xFF);
   0x01; C.u8 data] ++ repeat 0 15.

Definition read_data_packet (address size : Z) : list Z :=
  [0xA2; WII_CMD_READ_DATA; 0x04;
   C.u8 (Z.land (Z.shiftr address 16) 0xFF);
   C.u8 (Z.land (Z.shiftr address 8) 0xFF);
   C.u8 (Z.land address 0xFF);
   C.u8 (Z.land (Z.shiftr size 8) 0xFF);
   C.u8 (Z.land size 0xFF)].

Definition report_mode_packet (has_extension : bool) : list Z :=
  [0xA2; WII_CMD_REPORT_MODE; 0x00; if has_extension then 0x35 else 0x31].

Definition rumble_packet (on : bool) : list Z :=
  [0xA2; 0x10; if on then 0x01 else 0x00].

Definition reached (now t : Z) : bool := 0 <=? C.s32 (C.u32 (now - t)).

Definition send_step (wii : wiimote_data_t) (env : task_env)
  (x : effect) (next : wiimote_state_t) : wiimote_data_t * list effect :=
  if can_send env 0%nat then
    (set_init_time (set_state wii next) (now env + 1000000), [x])
  else (wii, []).

Definition timeout_step (wii : wiimote_data_t) (env : task_env)
  (next : wiimote_state_t) : wiimote_data_t :=
  if reached (now env) (init_time wii) then set_state wii next else wii.

Definition ready_step (wii : wiimote_data_t) (env : task_env)
  : wiimote_data_t * list effect :=
  let '(wii, out) :=
    if 0 <=? player_idx env then
      let f := fb env in
      let rumble_wanted := (0 <? rumble_left f) || (0 <? rumble_right f) in
      let '(wii, out) :=
        if rumble_dirty f && negb (Bool.eqb rumble_wanted (rumble_on wii))
           && can_send env 0%nat
        then (set_rumble_on wii rumble_wanted,
              [btstack_wiimote_send_raw (rumble_packet rumble_wanted)])
        else (wii, []) in
      let led :=
        if negb (led_pattern f =? 0) then C.u8 (Z.shiftl (led_pattern f) 4)
        else C.u8 (Z.shiftl (PLAYER_LEDS env (player_idx env + 1)) 4) in
      let '(wii, out) :=
        if (led_dirty f || negb (led =? player_led wii))
           && can_send env (sent_count out)
        then (set_player_led wii led,
              out ++ [btstack_wiimote_send_raw (leds_raw_packet led)])
        else (wii, out) in
      if rumble_dirty f || led_dirty f
      then (wii, out ++ [feedback_clear_dirty (player_idx env)])
      else (wii, out)
    else (wii, []) in
  if (WIIMOTE_KEEPALIVE_MS * 1000 <=? C.s32 (C.u32 (now env - last_keepalive wii)))
     && can_send env (sent_count out)
  then (set_last_keepalive wii (now env),
        out ++ [btstack_wiimote_send_control status_request_packet])
  else (wii, out).

(** [wiimote_task] *)
Definition wiimote_task (wii : wiimote_data_t) (env : task_env)
  : wiimote_data_t * list effect :=
  match state wii with
  | WII_STATE_WAIT_INIT => (timeout_step wii env WII_STATE_SEND_STATUS_REQ, [])
  | WII_STATE_SEND_STATUS_REQ =>
      send_step wii env (btstack_wiimote_send_control status_request_packet)
                WII_STATE_WAIT_STATUS
  | WII_STATE_WAIT_STATUS =>
      if reached (now env) (init_time wii) then
        let wii := set_init_retries wii (init_retries wii + 1) in
        if init_retries wii <? WIIMOTE_INIT_MAX_RETRIES
        then (set_state wii WII_STATE_SEND_STATUS_REQ, [])
        else (set_init_retries (set_state wii WII_STATE_SEND_REPORT_MODE) 0, [])
      else (wii, [])
  | WII_STATE_SEND_EXT_INIT1 =>
      send_step wii env
        (btstack_wiimote_send_control (write_data_packet 0xA400F0 0x55))
        WII_STATE_WAIT_EXT_INIT1_ACK
  | WII_STATE_WAIT_EXT_INIT1_ACK =>
      (timeout_step wii env WII_STATE_SEND_EXT_INIT2, [])
  | WII_STATE_SEND_EXT_INIT2 =>
      send_step wii env
        (btstack_wiimote_send_control (write_data_packet 0xA400FB 0x00))
        WII_STATE_WAIT_EXT_INIT2_ACK
  | WII_STATE_WAIT_EXT_INIT2_ACK =>
      (timeout_step wii env WII_STATE_READ_EXT_TYPE, [])
  | WII_STATE_READ_EXT_TYPE =>
      send_step wii env
        (btstack_wiimote_send_control (read_data_packet 0xA400FA 6))
        WII_STATE_WAIT_EXT_TYPE
  | WII_STATE_WAIT_EXT_TYPE =>
      (timeout_step wii env WII_STATE_SEND_REPORT_MODE, [])
  | WII_STATE_SEND_REPORT_MODE =>
      send_step wii env
        (btstack_wiimote_send_raw (report_mode_packet (extension_connected wii)))
        WII_STATE_WAIT_REPORT_ACK
  | WII_STATE_WAIT_REPORT_ACK => (timeout_step wii env WII_STATE_SEND_LED, [])
  | WII_STATE_SEND_LED =>
      if can_send env 0%nat then
        (set_init_time (set_state (set_player_led wii 0x10) WII_STATE_WAIT_LED_ACK)
                       (now env + 1000000),
         [btstack_wiimote_send_raw (leds_packet 1)])
      else (wii, [])
  | WII_STATE_WAIT_LED_ACK =>
      if reached (now env) (init_time wii)
      then (set_last_keepalive (set_state wii WII_STATE_READY) (now env), [])
      else (wii, [])
  | WII_STATE_READY => ready_step wii env
  | WII_STATE_IDLE => (wii, [])
  end.

(** [wiimote_init] on the free slot [slot] at time [t]. *)
Definition wiimote_init (slot : wiimote_data_t) (conn_index t : Z)
  : wiimote_data_t :=
  let e := with_identity init_input_event conn_index 0
             INPUT_TYPE_GAMEPAD INPUT_TRANSPORT_BT_CLASSIC in
  {| event := with_button_count e 11; initialized := true;
     state := WII_STATE_WAIT_INIT;
     init_time := C.u32 (t + WIIMOTE_INIT_DELAY_MS * 1000);
     init_retries := 0; last_keepalive := last_keepalive slot;
     ext_type := WII_EXT_NONE; extension_connected := false;
     player_led := player_led slot; rumble_on := rumble_on slot;
     orientation := orientation slot;
     orient_hotkey_active := orient_hotkey_active slot |}.

(** What the driver does in response to one stimulus: a report from the
    controller or a tick of the main loop. *)
Inductive stimulus : Type :=
  | Report (data : list byte) (t : Z) (flash_ok : bool)
  | Tick (env : task_env).

Definition step `{ButtonLayout} (ms : orient_mode * wiimote_data_t)
  (x : stimulus) : orient_mode * wiimote_data_t * list effect :=
  match x with
  | Report data t flash_ok => wiimote_process_report (fst ms) (snd ms) data t flash_ok
  | Tick env => let (w, out) := wiimote_task (snd ms) env in (fst ms, w, out)
  end.

End Wiimote.

(** ** Hotkey detection service (core/services/hotkeys/hotkeys.c) *)

Module Hotkeys.

Inductive HotkeyTrigger : Set :=
  | HOTKEY_TRIGGER_ON_HOLD | HOTKEY_TRIGGER_ON_RELEASE | HOTKEY_TRIGGER_ON_TAP.

(** A registered callback is identified by a number; [None] is the null
    pointer. *)
Record HotkeyDef : Set := {
  hk_buttons : Z;
  trigger : HotkeyTrigger;
  duration_ms : Z;
  global : bool;
  callback : option nat
}.

(** A call [callback(player, held_ms)] made by the detector. *)
Record call : Set := { fn : nat; arg_player : Z; arg_held_ms : Z }.

(** Arrays indexed by hotkey id or by player are maps from the index; every
    access of the source is below [hotkey_count <= MAX_HOTKEYS], respectively
    below [MAX_PLAYERS]. *)
Definition upd {A : Type} (f : nat -> A) (i : nat) (v : A) : nat -> A :=
  fun j => if Nat.eqb j i then v else f j.

Record PlayerHoldState : Type := {
  held_buttons : Z;
  hold_start_ms : Z;
  holding : nat -> bool;
  triggered : nat -> bool
}.

Record hotkeys_state : Type := {
  registered_hotkeys : nat -> HotkeyDef;
  hotkey_active : nat -> bool;
  hotkey_count : nat;
  player_state : nat -> PlayerHoldState;
  global_buttons : Z;
  global_hold_start_ms : Z;
  global_holding : nat -> bool;
  global_triggered : nat -> bool
}.

Section WithLimits.
(** [MAX_HOTKEYS] and [MAX_PLAYERS] come from headers that are not among
    the sources. *)
Variable MAX_HOTKEYS : nat.
Variable MAX_PLAYERS : Z.

Definition null_hotkey : HotkeyDef :=
  {| hk_buttons := 0; trigger := HOTKEY_TRIGGER_ON_HOLD; duration_ms := 0;
     global := false; callback := None |}.

Definition idle_player : PlayerHoldState :=
  {| held_buttons := 0; hold_start_ms := 0;
     holding := fun _ => false; triggered := fun _ => false |}.

(** The zero-initialised file-scope state. *)
Definition initial_state : hotkeys_state :=
  {| registered_hotkeys := fun _ => null_hotkey;
     hotkey_active := fun _ => false;
     hotkey_count := 0;
     player_state := fun _ => idle_player;
     global_buttons := 0;
     global_hold_start_ms := 0;
     global_holding := fun _ => false;
     global_triggered := fun _ => false |}.

(** [hotkeys_register]: the new state and the returned id ([-1] when full). *)
Definition hotkeys_register (s : hotkeys_state) (hotkey : HotkeyDef)
  : hotkeys_state * Z :=
  if (MAX_HOTKEYS <=? hotkey_count s)%nat then (s, -1)
  else
    let id := hotkey_count s in
    ({| registered_hotkeys := upd (registered_hotkeys s) id hotkey;
        hotkey_active := upd (hotkey_active s) id true;
        hotkey_count := S id;
        player_state := player_state s;
        global_buttons := global_buttons s;
        global_hold_start_ms := global_hold_start_ms s;
        global_holding := global_holding s;
        global_triggered := global_triggered s |}, Z.of_nat id).

Definition buttons_match (current required : Z) : bool :=
  Z.land current required =? required.

Definition invoke (hk : HotkeyDef) (player held_ms : Z) : list call :=
  match callback hk with
  | Some f => [{| fn := f; arg_player := player; arg_held_ms := held_ms |}]
  | None => []
  end.

(** The hold tracking of one hotkey against one button word: shared by the
    per-player loop and the global loop, which differ in where the three
    pieces of state live and in the player number passed to the callback.
    Returns the new [hold_start], [holding[i]], [triggered[i]] and the calls. *)
Definition track (hk : HotkeyDef) (buttons now player : Z)
  (start : Z) (was_holding trig : bool) : Z * bool * bool * list call :=
  if buttons_match buttons (hk_buttons hk) then
    let start := if was_holding then start else now in
    let trig := if was_holding then trig else false in
    match trigger hk with
    | HOTKEY_TRIGGER_ON_HOLD =>
        if negb trig then
          let held_ms := C.u32 (now - start) in
          if duration_ms hk <=? held_ms
          then (start, true, true, invoke hk player held_ms)
          else (start, true, trig, [])
        else (start, true, trig, [])
    | _ => (start, true, trig, [])
    end
  else
    let calls :=
      if was_holding then
        let held_ms := C.u32 (now - start) in
        match trigger hk with
        | HOTKEY_TRIGGER_ON_RELEASE =>
            if duration_ms hk <=? held_ms then invoke hk player held_ms else []
        | HOTKEY_TRIGGER_ON_TAP =>
            if held_ms <? duration_ms hk then invoke hk player held_ms else []
        | HOTKEY_TRIGGER_ON_HOLD => []
        end
      else [] in
    (start, false, false, calls).

(** One iteration of the loop of [hotkeys_check]. *)
Definition check_body (s : hotkeys_state) (buttons player now : Z)
  (acc : PlayerHoldState * list call) (i : nat) : PlayerHoldState * list call :=
  let (st, calls) := acc in
  if negb (hotkey_active s i) then acc
  else
    let hk := registered_hotkeys s i in
    if global hk then acc
    else
      let '(start, h, t, c) :=
        track hk buttons now player (hold_start_ms st) (holding st i) (triggered st i) in
      ({| held_buttons := held_buttons st; hold_start_ms := start;
          holding := upd (holding st) i h;
          triggered := upd (triggered st) i t |}, calls ++ c).

(** [hotkeys_check]; [now] is [platform_time_ms()]. *)
Definition hotkeys_check (s : hotkeys_state) (buttons player now : Z)
  : hotkeys_state * list call :=
  let buttons := C.u32 buttons in
  let player := C.u8 player in
  if MAX_PLAYERS <=? player then (s, [])
  else
    let p := Z.to_nat player in
    let (st, calls) :=
      fold_left (check_body s buttons player now) (seq 0 (hotkey_count s))
                (player_state s p, []) in
    let st := {| held_buttons := buttons; hold_start_ms := hold_start_ms st;
                 holding := holding st; triggered := triggered st |} in
    ({| registered_hotkeys := registered_hotkeys s;
        hotkey_active := hotkey_active s;
        hotkey_count := hotkey_count s;
        player_state := upd (player_state s) p st;
        global_buttons := Z.lor (global_buttons s) buttons;
        global_hold_start_ms := global_hold_start_ms s;
        global_holding := global_holding s;
        global_triggered := global_triggered s |}, calls).

(** The part of the file-scope state the global loop works on. *)
Record global_hold : Type := {
  g_start : Z; g_holding : nat -> bool; g_triggered : nat -> bool
}.

Definition check_global_body (s : hotkeys_state) (now : Z)
  (acc : global_hold * list call) (i : nat) : global_hold * list call :=
  let (g, calls) := acc in
  if negb (hotkey_active s i) then acc
  else
    let hk := registered_hotkeys s i in
    if negb (global hk) then acc
    else
      let '(start, h, t, c) :=
        track hk (global_buttons s) now 0xFF (g_start g) (g_holding g i)
              (g_triggered g i) in
      ({| g_start := start; g_holding := upd (g_holding g) i h;
          g_triggered := upd (g_triggered g) i t |}, calls ++ c).

(** [hotkeys_check_global] *)
Definition hotkeys_check_global (s : hotkeys_state) (now : Z)
  : hotkeys_state * list call :=
  let (g, calls) :=
    fold_left (check_global_body s now) (seq 0 (hotkey_count s))
      ({| g_start := global_hold_start_ms s; g_holding := global_holding s;
          g_triggered := global_triggered s |}, []) in
  ({| registered_hotkeys := registered_hotkeys s;
      hotkey_active := hotkey_active s;
      hotkey_count := hotkey_count s;
      player_state := player_state s;
      global_buttons := 0;
      global_hold_start_ms := g_start g;
      global_holding := g_holding g;
      global_triggered := g_triggered g |}, calls).

(** A sequence of per-player checks [(buttons, player, now)], oldest first. *)
Fixpoint run_checks (s : hotkeys_state) (l : list (Z * Z * Z))
  : hotkeys_state * list call :=
  match l with
  | [] => (s, [])
  | (buttons, player, now) :: rest =>
      let (s1, c1) := hotkeys_check s buttons player now in
      let (s2, c2) := run_checks s1 rest in
      (s2, c1 ++ c2)
  end.

(** [hotkeys_unregister] *)
Definition hotkeys_unregister (s : hotkeys_state) (hotkey_id : Z)
  : hotkeys_state :=
  if (0 <=? hotkey_id) && (hotkey_id <? Z.of_nat MAX_HOTKEYS) then
    {| registered_hotkeys := registered_hotkeys s;
       hotkey_active := upd (hotkey_active s) (Z.to_nat hotkey_id) false;
       hotkey_count := hotkey_count s;
       player_state := player_state s;
       global_buttons := global_buttons s;
       global_hold_start_ms := global_hold_start_ms s;
       global_holding := global_holding s;
       global_triggered := global_triggered s |}
  else s.

(** [for (i = 0; i < MAX_HOTKEYS; i++) flags[i] = false;] *)
Definition clear_flags (flags : nat -> bool) : nat -> bool :=
  fold_left (fun f i => upd f i false) (seq 0 MAX_HOTKEYS) flags.

(** [hotkeys_clear] *)
Definition hotkeys_clear (s : hotkeys_state) : hotkeys_state :=
  {| registered_hotkeys := registered_hotkeys s;
     hotkey_active := clear_flags (hotkey_active s);
     hotkey_count := 0;
     player_state := player_state s;
     global_buttons := global_buttons s;
     global_hold_start_ms := global_hold_start_ms s;
     global_holding := global_holding s;
     global_triggered := global_triggered s |}.

(** [hotkeys_reset_player] *)
Definition hotkeys_reset_player (s : hotkeys_state) (player : Z)
  : hotkeys_state :=
  let player := C.u8 player in
  if MAX_PLAYERS <=? player then s
  else
    let p := Z.to_nat player in
    let st := player_state s p in
    {| registered_hotkeys := registered_hotkeys s;
       hotkey_active := hotkey_active s;
       hotkey_count := hotkey_count s;
       player_state :=
         upd (player_state s) p
             {| held_buttons := 0; hold_start_ms := 0;
                holding := clear_flags (holding st);
                triggered := clear_flags (triggered st) |};
       global_buttons := global_buttons s;
       global_hold_start_ms := global_hold_start_ms s;
       global_holding := global_holding s;
       global_triggered := global_triggered s |}.

End WithLimits.

End Hotkeys.

(** ** Native N64 host (native/host/n64/n64_host.c) *)

Module N64Host.

(** [N64_MAX_PORTS] is 1: every per-port array has the single entry of
    port 0 and each loop over the ports runs once. *)
Definition N64_MAX_PORTS : Z := 1.
Definition N64_STICK_MAX : Z := 80.

Record n64_report_t : Set := {
  a : bool; b : bool; z : bool; start : bool;
  dpad_up : bool; dpad_down : bool; dpad_left : bool; dpad_right : bool;
  l : bool; r : bool;
  c_up : bool; c_down : bool; c_left : bool; c_right : bool;
  stick_x : Z;   (* int8_t *)
  stick_y : Z    (* int8_t *)
}.

Record n64_state : Set := {
  initialized : bool;
  rumble_state : bool;
  rumble_pending : bool;
  rumble_pak_initialized : bool;
  connected_polls : Z;
  disconnect_debounce : Z;
  prev_buttons : Z;
  prev_stick_x : Z;
  prev_stick_y : Z;
  prev_l : bool;
  prev_r : bool
}.

(** What one call of the task observes: the feedback of the port (if any),
    the outcome of [N64Controller_Poll] and of the queries that follow it. *)
Record poll_env : Set := {
  feedback : option feedback_state_t;
  success : bool;                 (* N64Controller_Poll *)
  report : n64_report_t;
  is_connected : bool;            (* N64Controller_IsInitialized *)
  has_pak : bool;                 (* N64Controller_HasPak *)
  init_pak_ok : bool;             (* N64Controller_InitRumblePak *)
  rumble_time_reached : bool      (* time_reached(last_rumble_time) *)
}.

Inductive effect : Set :=
  | router_submit_input (e : input_event_t)
  | feedback_clear_dirty (port : Z)
  | N64Controller_InitRumblePak
  | N64Controller_SetRumble (on : bool).

Definition is_submit (x : effect) : bool :=
  match x with router_submit_input _ => true | _ => false end.

Definition convert_stick_axis (value : Z) : Z :=
  let value := C.s8 value in
  let scaled := Z.quot (C.s32 (value * 127)) N64_STICK_MAX in
  let scaled := if 127 <? scaled then 127 else scaled in
  let scaled := if scaled <? -128 then -128 else scaled in
  C.u8 (scaled + 128).

Definition map_c_buttons_to_analog (rp : n64_report_t) : Z * Z :=
  let rx := 128 in
  let ry := 128 in
  let rx := if c_left rp then 0 else rx in
  let rx := if c_right rp then 255 else rx in
  let ry := if c_up rp then 0 else ry in
  let ry := if c_down rp then 255 else ry in
  (rx, ry).

(** The event sent on a real disconnect of [port]. *)
Definition neutral_event (port : Z) : input_event_t :=
  let e := with_identity init_input_event (0xE0 + port) 0
             INPUT_TYPE_GAMEPAD (transport init_input_event) in
  let e := with_buttons e 0 in
  let e := with_analog e ANALOG_LX 128 in
  let e := with_analog e ANALOG_LY 128 in
  let e := with_analog e ANALOG_RX 128 in
  with_analog e ANALOG_RY 128.

Section WithLayout.
Context `{ButtonLayout}.

Definition map_n64_to_jp (rp : n64_report_t) : Z :=
  or_all [ (a rp, JP_BUTTON B1); (c_down rp, JP_BUTTON B2);
           (b rp, JP_BUTTON B3); (c_left rp, JP_BUTTON B4);
           (c_up rp, JP_BUTTON L3); (c_right rp, JP_BUTTON R3);
           (l rp, JP_BUTTON L2); (r rp, JP_BUTTON R2);
           (z rp, JP_BUTTON R1); (start rp, JP_BUTTON S2);
           (dpad_up rp, JP_BUTTON DU); (dpad_down rp, JP_BUTTON DD);
           (dpad_left rp, JP_BUTTON DL); (dpad_right rp, JP_BUTTON DR) ] 0.

(** The first loop of the task: rumble requests from the feedback system. *)
Definition rumble_feedback (s : n64_state) (env : poll_env) (port : Z)
  : n64_state * list effect :=
  match feedback env with
  | Some f =>
      if rumble_dirty f then
        let want_rumble := (0 <? rumble_left f) || (0 <? rumble_right f) in
        let s :=
          if negb (Bool.eqb want_rumble (rumble_state s)) then
            {| initialized := initialized s; rumble_state := want_rumble;
               rumble_pending := true;
               rumble_pak_initialized := rumble_pak_initialized s;
               connected_polls := connected_polls s;
               disconnect_debounce := disconnect_debounce s;
               prev_buttons := prev_buttons s; prev_stick_x := prev_stick_x s;
               prev_stick_y := prev_stick_y s; prev_l := prev_l s;
               prev_r := prev_r s |}
          else s in
        (s, [feedback_clear_dirty port])
      else (s, [])
  | None => (s, [])
  end.

(** The connection tracking at the head of the polling loop. *)
Definition track_connection (s : n64_state) (env : poll_env) (port : Z)
  : n64_state * list effect :=
  if negb (is_connected env) then
    if 0 <? connected_polls s then
      let d := C.u8 (disconnect_debounce s + 1) in
      if 30 <=? d then
        ({| initialized := initialized s; rumble_state := rumble_state s;
            rumble_pending := rumble_pending s;
            rumble_pak_initialized := false;
            connected_polls := 0; disconnect_debounce := 0;
            prev_buttons := 0; prev_stick_x := 0; prev_stick_y := 0;
            prev_l := false; prev_r := false |},
         [router_submit_input (neutral_event port)])
      else
        ({| initialized := initialized s; rumble_state := rumble_state s;
            rumble_pending := rumble_pending s;
            rumble_pak_initialized := rumble_pak_initialized s;
            connected_polls := connected_polls s; disconnect_debounce := d;
            prev_buttons := prev_buttons s; prev_stick_x := prev_stick_x s;
            prev_stick_y := prev_stick_y s; prev_l := prev_l s;
            prev_r := prev_r s |}, [])
    else (s, [])
  else
    ({| initialized := initialized s; rumble_state := rumble_state s;
        rumble_pending := rumble_pending s;
        rumble_pak_initialized := rumble_pak_initialized s;
        connected_polls := if connected_polls s =? 0 then 1 else connected_polls s;
        disconnect_debounce := 0;
        prev_buttons := prev_buttons s; prev_stick_x := prev_stick_x s;
        prev_stick_y := prev_stick_y s; prev_l := prev_l s;
        prev_r := prev_r s |}, []).

(** The one-time rumble pak initialisation after a stable connection. *)
Definition pak_init (s : n64_state) (env : poll_env) : n64_state * list effect :=
  if is_connected env && (0 <? connected_polls s) && (connected_polls s <? 255) then
    let n := C.u8 (connected_polls s + 1) in
    let try := (n =? 10) && negb (rumble_pak_initialized s) && has_pak env in
    ({| initialized := initialized s; rumble_state := rumble_state s;
        rumble_pending := rumble_pending s;
        rumble_pak_initialized :=
          if try && init_pak_ok env then true else rumble_pak_initialized s;
        connected_polls := n; disconnect_debounce := disconnect_debounce s;
        prev_buttons := prev_buttons s; prev_stick_x := prev_stick_x s;
        prev_stick_y := prev_stick_y s; prev_l := prev_l s;
        prev_r := prev_r s |},
     if try then [N64Controller_InitRumblePak] else [])
  else (s, []).

(** The input part of the loop body: nothing when the poll returned no
    data or when the state did not change. *)
Definition submit_input (s : n64_state) (env : poll_env) (port : Z)
  : n64_state * list effect :=
  if negb (success env) then (s, [])
  else
    let rp := report env in
    let stick_x' := convert_stick_axis (stick_x rp) in
    let stick_y' := convert_stick_axis (- stick_y rp) in
    let buttons := map_n64_to_jp rp in
    let (c_rx, c_ry) := map_c_buttons_to_analog rp in
    if (buttons =? prev_buttons s) && (stick_x rp =? prev_stick_x s)
       && (stick_y rp =? prev_stick_y s)
       && Bool.eqb (l rp) (prev_l s) && Bool.eqb (r rp) (prev_r s)
    then (s, [])
    else
      let e := with_identity init_input_event (0xE0 + port) 0
                 INPUT_TYPE_GAMEPAD (transport init_input_event) in
      let e := with_buttons e buttons in
      let e := with_analog e ANALOG_LX stick_x' in
      let e := with_analog e ANALOG_LY stick_y' in
      let e := with_analog e ANALOG_RX c_rx in
      let e := with_analog e ANALOG_RY c_ry in
      let e := with_analog e ANALOG_L2 0 in
      let e := with_analog e ANALOG_R2 0 in
      ({| initialized := initialized s; rumble_state := rumble_state s;
          rumble_pending := rumble_pending s;
          rumble_pak_initialized := rumble_pak_initialized s;
          connected_polls := connected_polls s;
          disconnect_debounce := disconnect_debounce s;
          prev_buttons := buttons; prev_stick_x := stick_x rp;
          prev_stick_y := stick_y rp; prev_l := l rp; prev_r := r rp |},
       [router_submit_input e]).

(** [n64_host_flush_rumble] *)
Definition n64_host_flush_rumble (s : n64_state) (env : poll_env)
  : n64_state * list effect :=
  if negb (initialized s) then (s, [])
  else if negb (is_connected env) then (s, [])
  else if rumble_pending s && rumble_time_reached env then
    ({| initialized := initialized s; rumble_state := rumble_state s;
        rumble_pending := false;
        rumble_pak_initialized := rumble_pak_initialized s;
        connected_polls := connected_polls s;
        disconnect_debounce := disconnect_debounce s;
        prev_buttons := prev_buttons s; prev_stick_x := prev_stick_x s;
        prev_stick_y := prev_stick_y s; prev_l := prev_l s; prev_r := prev_r s |},
     if rumble_pak_initialized s
     then [N64Controller_SetRumble (rumble_state s)] else [])
  else (s, []).

(** [n64_host_task] *)
Definition n64_host_task (s : n64_state) (env : poll_env)
  : n64_state * list effect :=
  if negb (initialized s) then (s, [])
  else
    let port := 0 in
    let (s, o1) := rumble_feedback s env port in
    let (s, o2) := track_connection s env port in
    let (s, o3) := pak_init s env in
    let (s, o4) := submit_input s env port in
    let (s, o5) := n64_host_flush_rumble s env in
    (s, o1 ++ o2 ++ o3 ++ o4 ++ o5).

(** The task called once per poll outcome, oldest first. *)
Fixpoint run (s : n64_state) (envs : list poll_env) : n64_state * list effect :=
  match envs with
  | [] => (s, [])
  | env :: rest =>
      let (s1, o1) := n64_host_task s env in
      let (s2, o2) := run s1 rest in
      (s2, o1 ++ o2)
  end.

End WithLayout.

(** The state after [n64_host_init_pin]. *)
Definition init_state : n64_state :=
  {| initialized := true; rumble_state := false; rumble_pending := false;
     rumble_pak_initialized := false; connected_polls := 0;
     disconnect_debounce := 0; prev_buttons := 0xFFFFFFFF;
     prev_stick_x := 0; prev_stick_y := 0; prev_l := false; prev_r := false |}.

(** The static initialisers of the file: the state at power-on. *)
Definition power_on : n64_state :=
  {| initialized := false; rumble_state := false; rumble_pending := false;
     rumble_pak_initialized := false; connected_polls := 0;
     disconnect_debounce := 0; prev_buttons := 0;
     prev_stick_x := 0; prev_stick_y := 0; prev_l := false; prev_r := false |}.

(** [n64_host_init_pin], with the joybus enabled: the assignments to the
    driver's own state. *)
Definition n64_host_init_pin (s : n64_state) : n64_state :=
  {| initialized := true; rumble_state := false;
     rumble_pending := rumble_pending s;
     rumble_pak_initialized := rumble_pak_initialized s;
     connected_polls := connected_polls s;
     disconnect_debounce := disconnect_debounce s;
     prev_buttons := 0xFFFFFFFF; prev_stick_x := 0; prev_stick_y := 0;
     prev_l := prev_l s; prev_r := prev_r s |}.

(** [n64_host_init] *)
Definition n64_host_init (s : n64_state) : n64_state :=
  if initialized s then s else n64_host_init_pin s.

(** [n64_host_set_rumble] *)
Definition n64_host_set_rumble (s : n64_state) (port : Z) (enabled : bool)
  : n64_state :=
  let port := C.u8 port in
  if N64_MAX_PORTS <=? port then s
  else if negb (initialized s) then s
  else if Bool.eqb (rumble_state s) enabled then s
  else
    {| initialized := initialized s; rumble_state := enabled;
       rumble_pending := true;
       rumble_pak_initialized := rumble_pak_initialized s;
       connected_polls := connected_polls s;
       disconnect_debounce := disconnect_debounce s;
       prev_buttons := prev_buttons s; prev_stick_x := prev_stick_x s;
       prev_stick_y := prev_stick_y s; prev_l := prev_l s;
       prev_r := prev_r s |}.

End N64Host.

(** ** Native GameCube host (native/host/gc/gc_host.c) *)

Module GcHost.

Definition GC_MAX_PORTS : Z := 1.

Record gc_report_t : Set := {
  a : bool; b : bool; x : bool; y : bool; start : bool;
  dpad_up : bool; dpad_down : bool; dpad_left : bool; dpad_right : bool;
  l : bool; r : bool; z : bool;
  stick_x : Z; stick_y : Z; cstick_x : Z; cstick_y : Z;   (* uint8_t *)
  l_analog : Z; r_analog : Z
}.

Record gc_state : Set := {
  initialized : bool;
  rumble_state : bool;
  disconnect_debounce : Z;
  was_connected : bool;
  prev_buttons : Z;
  prev_stick_x : Z; prev_stick_y : Z;
  prev_cstick_x : Z; prev_cstick_y : Z;
  prev_l_analog : Z; prev_r_analog : Z
}.

Record poll_env : Set := {
  feedback : option feedback_state_t;
  success : bool;                 (* GamecubeController_Poll *)
  report : gc_report_t;
  is_connected : bool             (* GamecubeController_IsInitialized *)
}.

Inductive effect : Set :=
  | router_submit_input (e : input_event_t)
  | feedback_clear_dirty (port : Z).

Definition is_submit (e : effect) : bool :=
  match e with router_submit_input _ => true | _ => false end.

Definition neutral_event (port : Z) : input_event_t :=
  let e := with_identity init_input_event (0xD0 + port) 0
             INPUT_TYPE_GAMEPAD (transport init_input_event) in
  let e := with_buttons e 0 in
  let e := with_analog e ANALOG_LX 128 in
  let e := with_analog e ANALOG_LY 128 in
  let e := with_analog e ANALOG_RX 128 in
  let e := with_analog e ANALOG_RY 128 in
  let e := with_analog e ANALOG_L2 0 in
  with_analog e ANALOG_R2 0.

Section WithLayout.
Context `{ButtonLayout}.

Definition map_gc_to_jp (rp : gc_report_t) : Z :=
  or_all [ (a rp, JP_BUTTON B2); (b rp, JP_BUTTON B1);
           (x rp, JP_BUTTON B4); (y rp, JP_BUTTON B3);
           (l rp, JP_BUTTON L2); (r rp, JP_BUTTON R2);
           (z rp, JP_BUTTON R1); (start rp, JP_BUTTON S2);
           (dpad_up rp, JP_BUTTON DU); (dpad_down rp, JP_BUTTON DD);
           (dpad_left rp, JP_BUTTON DL); (dpad_right rp, JP_BUTTON DR) ] 0.

Definition rumble_feedback (s : gc_state) (env : poll_env) (port : Z)
  : gc_state * list effect :=
  match feedback env with
  | Some f =>
      if rumble_dirty f then
        let want_rumble := (0 <? rumble_left f) || (0 <? rumble_right f) in
        let s :=
          if negb (Bool.eqb want_rumble (rumble_state s)) then
            {| initialized := initialized s; rumble_state := want_rumble;
               disconnect_debounce := disconnect_debounce s;
               was_connected := was_connected s;
               prev_buttons := prev_buttons s;
               prev_stick_x := prev_stick_x s; prev_stick_y := prev_stick_y s;
               prev_cstick_x := prev_cstick_x s; prev_cstick_y := prev_cstick_y s;
               prev_l_analog := prev_l_analog s; prev_r_analog := prev_r_analog s |}
          else s in
        (s, [feedback_clear_dirty port])
      else (s, [])
  | None => (s, [])
  end.

Definition track_connection (s : gc_state) (env : poll_env) (port : Z)
  : gc_state * list effect :=
  if negb (is_connected env) then
    if was_connected s then
      let d := C.u8 (disconnect_debounce s + 1) in
      if 30 <=? d then
        ({| initialized := initialized s; rumble_state := rumble_state s;
            disconnect_debounce := 0; was_connected := false;
            prev_buttons := 0; prev_stick_x := 128; prev_stick_y := 128;
            prev_cstick_x := 128; prev_cstick_y := 128;
            prev_l_analog := 0; prev_r_analog := 0 |},
         [router_submit_input (neutral_event port)])
      else
        ({| initialized := initialized s; rumble_state := rumble_state s;
            disconnect_debounce := d; was_connected := was_connected s;
            prev_buttons := prev_buttons s;
            prev_stick_x := prev_stick_x s; prev_stick_y := prev_stick_y s;
            prev_cstick_x := prev_cstick_x s; prev_cstick_y := prev_cstick_y s;
            prev_l_analog := prev_l_analog s; prev_r_analog := prev_r_analog s |},
         [])
    else (s, [])
  else
    ({| initialized := initialized s; rumble_state := rumble_state s;
        disconnect_debounce := 0; was_connected := true;
        prev_buttons := prev_buttons s;
        prev_stick_x := prev_stick_x s; prev_stick_y := prev_stick_y s;
        prev_cstick_x := prev_cstick_x s; prev_cstick_y := prev_cstick_y s;
        prev_l_analog := prev_l_analog s; prev_r_analog := prev_r_analog s |}, []).

Definition submit_input (s : gc_state) (env : poll_env) (port : Z)
  : gc_state * list effect :=
  if negb (success env) then (s, [])
  else
    let rp := report env in
    let buttons := map_gc_to_jp rp in
    let sx := C.u8 (stick_x rp) in
    let sy := C.u8 (255 - stick_y rp) in
    let cx := C.u8 (cstick_x rp) in
    let cy := C.u8 (255 - cstick_y rp) in
    let la := C.u8 (l_analog rp) in
    let ra := C.u8 (r_analog rp) in
    let e := with_identity init_input_event (0xD0 + port) 0
               INPUT_TYPE_GAMEPAD (transport init_input_event) in
    let e := with_buttons e buttons in
    let e := with_analog e ANALOG_LX sx in
    let e := with_analog e ANALOG_LY sy in
    let e := with_analog e ANALOG_RX cx in
    let e := with_analog e ANALOG_RY cy in
    let e := with_analog e ANALOG_L2 la in
    let e := with_analog e ANALOG_R2 ra in
    ({| initialized := initialized s; rumble_state := rumble_state s;
        disconnect_debounce := disconnect_debounce s;
        was_connected := was_connected s;
        prev_buttons := buttons; prev_stick_x := sx; prev_stick_y := sy;
        prev_cstick_x := cx; prev_cstick_y := cy;
        prev_l_analog := la; prev_r_analog := ra |},
     [router_submit_input e]).

(** [gc_host_task] *)
Definition gc_host_task (s : gc_state) (env : poll_env)
  : gc_state * list effect :=
  if negb (initialized s) then (s, [])
  else
    let port := 0 in
    let (s, o1) := rumble_feedback s env port in
    let (s, o2) := track_connection s env port in
    let (s, o3) := submit_input s env port in
    (s, o1 ++ o2 ++ o3).

Fixpoint run (s : gc_state) (envs : list poll_env) : gc_state * list effect :=
  match envs with
  | [] => (s, [])
  | env :: rest =>
      let (s1, o1) := gc_host_task s env in
      let (s2, o2) := run s1 rest in
      (s2, o1 ++ o2)
  end.

End WithLayout.

(** The state after [gc_host_init_pin]. *)
Definition init_state : gc_state :=
  {| initialized := true; rumble_state := false; disconnect_debounce := 0;
     was_connected := false; prev_buttons := 0xFFFFFFFF;
     prev_stick_x := 128; prev_stick_y := 128; prev_cstick_x := 128;
     prev_cstick_y := 128; prev_l_analog := 0; prev_r_analog := 0 |}.

End GcHost.

(** ** A concrete button layout

    The bit of each button is its position in the vocabulary.  It serves
    where a property has to be evaluated on concrete numbers; the general
    properties hold for every layout. *)

Definition sample_bit (b : button) : Z :=
  match b with
  | B1 => 0 | B2 => 1 | B3 => 2 | B4 => 3 | L1 => 4 | R1 => 5 | L2 => 6
  | R2 => 7 | S1 => 8 | S2 => 9 | L3 => 10 | R3 => 11 | DU => 12 | DD => 13
  | DL => 14 | DR => 15 | A1 => 16 | A2 => 17 | A3 => 18 | A4 => 19
  | L4 => 20 | R4 => 21
  end.

#[local] Instance sample_layout : ButtonLayout.
Proof.
  refine {| JP_BUTTON := fun b => 2 ^ sample_bit b; JP_bit := sample_bit |}.
  - reflexivity.
  - intros b; destruct b; cbn; lia.
  - intros a b; destruct a, b; cbn; intros E; first [reflexivity | discriminate E].
Defined.

(** ** Data used to exercise the generic gamepad driver *)

(** Every axis of the report map either is absent or has a logical maximum
    of at least 2 (within [uint32_t]). *)
Definition axes_well_scaled (m : Gamepad.ble_report_map_t) : Prop :=
  forall loc,
    In loc [Gamepad.xLoc m; Gamepad.yLoc m; Gamepad.zLoc m;
            Gamepad.rzLoc m; Gamepad.rxLoc m; Gamepad.ryLoc m] ->
    Gamepad.max loc = 0 \/ 2 <= Gamepad.max loc < 4294967296.

(** A report map whose X axis has logical maximum 1, and a report whose X
    field reads 0. *)
Definition degenerate_map : Gamepad.ble_report_map_t :=
  {| Gamepad.xLoc := {| Gamepad.byteIndex := 0; Gamepad.bitMask := 1; Gamepad.max := 1 |};
     Gamepad.yLoc := Gamepad.loc0; Gamepad.zLoc := Gamepad.loc0;
     Gamepad.rzLoc := Gamepad.loc0; Gamepad.rxLoc := Gamepad.loc0;
     Gamepad.ryLoc := Gamepad.loc0; Gamepad.hatLoc := Gamepad.loc0;
     Gamepad.buttonLoc := repeat Gamepad.loc0 12; Gamepad.buttonCnt := 0 |}.

Definition degenerate_gamepad : Gamepad.bthid_gamepad_data_t :=
  {| Gamepad.event := init_input_event; Gamepad.initialized := true;
     Gamepad.has_report_map := true; Gamepad.map := degenerate_map |}.

(** ** Reading the button word *)

(** Button [b] is set in the word [buttons]. *)
Definition pressed `{ButtonLayout} (buttons : Z) (b : button) : bool :=
  Z.testbit buttons (JP_bit b).

(** ** Sample reports *)

(** The 8BitDo report of the specification's first end-to-end scenario. *)
Definition bitdo_press_a : list byte :=
  [x03; x08; x80; x80; x80; x80; x00; x00; x01; x00; x50].

(** A Switch 2 notification (63 bytes, no header) whose packed stick field
    is the six bytes [axes]; everything else is zero. *)
Definition sw2_report (axes : list byte) : list byte :=
  repeat x00 10 ++ axes ++ repeat x00 47.

(** Sticks at rest: all four raw values are 0x800. *)
Definition sw2_centered : list byte := sw2_report [x00; x08; x80; x00; x08; x80].
(** Left stick fully left: raw LX = 0. *)
Definition sw2_lx_min : list byte := sw2_report [x00; x00; x80; x00; x08; x80].
(** Left stick fully up: raw LY = 0xFFF. *)
Definition sw2_ly_max : list byte := sw2_report [x00; xf8; xff; x00; x08; x80].
(** Raw LX = 0 and raw LX = 4000 (0xFA0), the other axes at 0x800. *)
Definition sw2_lx_0 : list byte := sw2_lx_min.
Definition sw2_lx_4000 : list byte := sw2_report [xa0; x0f; x80; x00; x08; x80].

(** A Wii U Pro 0x3D report: sticks LX, RX, LY, RY as little-endian pairs,
    no button pressed. *)
Definition wiiu_report (lx rx ly ry : byte * byte) : list byte :=
  [x3d; fst lx; snd lx; fst rx; snd rx; fst ly; snd ly; fst ry; snd ry;
   xff; xff; xff] ++ repeat x00 10.

(** Left stick pushed fully up: LY = 0x0CB0 = 2048 + 1200. *)
Definition wiiu_ly_max : list byte :=
  wiiu_report (x00, x08) (x00, x08) (xb0, x0c) (x00, x08).

Definition wiiu_ready : WiiUPro.wii_u_pro_data_t :=
  WiiUPro.set_state (WiiUPro.wii_u_init WiiUPro.zero_slot 0 0)
                    WiiUPro.WII_U_STATE_READY.

(** ** Calibration of the Switch 2 sticks, in closed form *)

Definition avg2 (a b : Z) : Z := (a + b) / 2.

(** The centre the driver holds after four samples. *)
Definition running_center (r1 r2 r3 r4 : Z) : Z :=
  avg2 (avg2 (avg2 r1 r2) r3) r4.

(** The arithmetic mean of four samples. *)
Definition mean4 (r1 r2 r3 r4 : Z) : Z := (r1 + r2 + r3 + r4) / 4.

(** A Switch 2 driver slot right after [switch2_ble_init] on a fresh array. *)
Definition sw2_fresh : Switch2.switch2_ble_data_t :=
  Switch2.switch2_ble_init 0 0x2069 Switch2.zero_slot.

(** ** Vocabulary for the native host polling loops *)

(** A poll that reports the controller absent and returns no data. *)
Definition n64_absent (env : N64Host.poll_env) : Prop :=
  N64Host.is_connected env = false /\ N64Host.success env = false.

(** The N64 driver regards the controller on the port as connected. *)
Definition n64_connected (s : N64Host.n64_state) : Prop :=
  N64Host.initialized s = true /\ 0 < N64Host.connected_polls s <= 255.

(** The events a task call handed to the router. *)
Definition n64_submitted (out : list N64Host.effect) : list N64Host.effect :=
  filter N64Host.is_submit out.

Definition gc_absent (env : GcHost.poll_env) : Prop :=
  GcHost.is_connected env = false /\ GcHost.success env = false.

Definition gc_connected (s : GcHost.gc_state) : Prop :=
  GcHost.initialized s = true /\ GcHost.was_connected s = true.

Definition gc_submitted (out : list GcHost.effect) : list GcHost.effect :=
  filter GcHost.is_submit out.

(** Stick axes at rest and no button. *)
Definition neutral (e : input_event_t) : Prop :=
  buttons e = 0 /\ lx (analog e) = 128 /\ ly (analog e) = 128
  /\ rx (analog e) = 128 /\ ry (analog e) = 128.

(** The neutral event of the port with device address [addr]: a gamepad
    event of that address, instance 0, no button, the four stick axes at
    128 and the triggers at 0. *)
Definition neutral_for (addr : Z) (e : input_event_t) : Prop :=
  dev_addr e = addr /\ instance e = 0 /\ type e = INPUT_TYPE_GAMEPAD
  /\ neutral e /\ l2 (analog e) = 0 /\ r2 (analog e) = 0.

(** Sample polls of the N64 port: an idle controller answering, and no
    answer at all. *)
Definition n64_idle_report : N64Host.n64_report_t :=
  {| N64Host.a := false; N64Host.b := false; N64Host.z := false;
     N64Host.start := false; N64Host.dpad_up := false; N64Host.dpad_down := false;
     N64Host.dpad_left := false; N64Host.dpad_right := false;
     N64Host.l := false; N64Host.r := false;
     N64Host.c_up := false; N64Host.c_down := false;
     N64Host.c_left := false; N64Host.c_right := false;
     N64Host.stick_x := 0; N64Host.stick_y := 0 |}.

Definition n64_present_poll : N64Host.poll_env :=
  {| N64Host.feedback := None; N64Host.success := true;
     N64Host.report := n64_idle_report; N64Host.is_connected := true;
     N64Host.has_pak := false; N64Host.init_pak_ok := false;
     N64Host.rumble_time_reached := true |}.

Definition n64_absent_poll : N64Host.poll_env :=
  {| N64Host.feedback := None; N64Host.success := false;
     N64Host.report := n64_idle_report; N64Host.is_connected := false;
     N64Host.has_pak := false; N64Host.init_pak_ok := false;
     N64Host.rumble_time_reached := true |}.

(** The N64 host after initialisation and one poll that found a controller. *)
Definition n64_after_connect `{ButtonLayout} : N64Host.n64_state :=
  fst (N64Host.n64_host_task N64Host.init_state n64_present_poll).

(** ** Wiimote: what the rotation does to each button *)

(** Where a button goes when the Wiimote is held sideways: the D-pad turns
    a quarter counter-clockwise, the face buttons swap in pairs. *)
Definition rotated (b : button) : button :=
  match b with
  | DU => DL | DL => DD | DD => DR | DR => DU
  | B1 => B3 | B3 => B1 | B2 => B4 | B4 => B2
  | other => other
  end.

(** [|accel_x - 128|] *)
Definition x_deviation (accel_x : Z) : Z := Z.abs (accel_x - 128).

(** The report ids that carry accelerometer bytes. *)
Definition has_accel (report_id : Z) : Prop :=
  report_id = 0x31 \/ report_id = 0x33 \/ report_id = 0x35 \/ report_id = 0x37.

(** A data report with core buttons. *)
Definition core_button_report (data : list byte) : Prop :=
  (0x30 <= at_ data 0 <= 0x37 \/ at_ data 0 = 0x3e \/ at_ data 0 = 0x3f)
  /\ 3 <= len_ data.

(** The orientation hotkey (Plus with a D-pad direction) is held. *)
Definition orient_hotkey_held (data : list byte) : bool :=
  let raw := C.u16 (Z.lor (Z.land (at_ data 1) 0x1F)
                          (Z.shiftl (Z.land (at_ data 2) 0x9F) 8)) in
  C.tst raw Wiimote.WII_BTN_PLUS
  && (C.tst raw Wiimote.WII_BTN_UP || C.tst raw Wiimote.WII_BTN_DOWN
      || C.tst raw Wiimote.WII_BTN_LEFT || C.tst raw Wiimote.WII_BTN_RIGHT).

(** A Wiimote with no extension, connected and initialised. *)
Definition wiimote_bare (s : Wiimote.wiimote_state_t) (o : Wiimote.wiimote_orient_t)
  : Wiimote.wiimote_data_t :=
  {| Wiimote.event := with_button_count
                        (with_identity init_input_event 0 0 INPUT_TYPE_GAMEPAD
                           INPUT_TRANSPORT_BT_CLASSIC) 11;
     Wiimote.initialized := true; Wiimote.state := s;
     Wiimote.init_time := 0; Wiimote.init_retries := 0;
     Wiimote.last_keepalive := 0; Wiimote.ext_type := Wiimote.WII_EXT_NONE;
     Wiimote.extension_connected := false; Wiimote.player_led := 0x10;
     Wiimote.rumble_on := false; Wiimote.orientation := o;
     Wiimote.orient_hotkey_active := false |}.

(** Report 0x31 with the A button held and the accelerometer X axis at 101
    (the Wiimote lying on its side). *)
Definition wiimote_a_sideways : list byte := [x31; x00; x08; x65; x80; x80].

(** The events among the effects of a Wiimote callback. *)
Definition wiimote_submitted (out : list Wiimote.effect) : list Wiimote.effect :=
  filter Wiimote.is_submit out.

(** The button a rotated button came from. *)
Definition unrotated (b : button) : button :=
  match b with
  | DL => DU | DD => DL | DR => DD | DU => DR
  | B1 => B3 | B3 => B1 | B2 => B4 | B4 => B2
  | other => other
  end.

(** The extension bit of a status report, as the driver reads it. *)
Definition status_ext_flag (data : list byte) : bool :=
  negb (Z.land (C.u8 (Z.land (at_ data 3) 0x0F)) 0x02 =? 0).

(** The cached event with the analog axes re-centred. *)
Definition recentred (e : input_event_t) : input_event_t :=
  with_analog
    (with_analog
       (with_analog
          (with_analog (with_analog (with_analog e ANALOG_LX 128) ANALOG_LY 128)
             ANALOG_RX 128) ANALOG_RY 128) ANALOG_L2 0) ANALOG_R2 0.

(** Status report: no extension plugged. *)
Definition wiimote_status_no_ext : list byte := [x20; x00; x00; x00; x00; x00; x50].

(** ** The connect sequence of the Wii U Pro driver *)

(** What reaches the driver: a report from the controller (with the time
    the clock shows during the call) or a call of the task. *)
Inductive wiiu_stimulus : Type :=
  | WiiU_report (data : list byte) (t : Z)
  | WiiU_tick (env : task_env).

Definition wiiu_step `{ButtonLayout} (wii : WiiUPro.wii_u_pro_data_t)
  (x : wiiu_stimulus) : WiiUPro.wii_u_pro_data_t * list WiiUPro.effect :=
  match x with
  | WiiU_report data t => WiiUPro.wii_u_process_report wii data t
  | WiiU_tick env => WiiUPro.wii_u_task wii env
  end.

(** The driver run over a sequence of stimuli, the effects in order. *)
Fixpoint wiiu_run `{ButtonLayout} (wii : WiiUPro.wii_u_pro_data_t)
  (xs : list wiiu_stimulus)
  : WiiUPro.wii_u_pro_data_t * list WiiUPro.effect :=
  match xs with
  | [] => (wii, [])
  | x :: rest =>
      let (w, out) := wiiu_step wii x in
      let (w', out') := wiiu_run w rest in
      (w', out ++ out')
  end.

(** The reports of the sequence, as the driver recognises them. *)
Definition wiiu_status_with_ext (data : list byte) : Prop :=
  at_ data 0 = 0x20 /\ 7 <= len_ data /\ Z.land (at_ data 3) 0x02 <> 0.

Definition wiiu_ack (cmd : Z) (data : list byte) : Prop :=
  at_ data 0 = 0x22 /\ 5 <= len_ data /\ at_ data 3 = cmd /\ at_ data 4 = 0.

Definition wiiu_read_response (data : list byte) : Prop :=
  at_ data 0 = 0x21 /\ 7 <= len_ data.

Definition wiiu_data_3d (data : list byte) : Prop :=
  at_ data 0 = 0x3D /\ 22 <= len_ data.

(** The channel accepts a packet at the start of the call. *)
Definition channel_free (env : task_env) : Prop := can_send env 0%nat = true.

(** The stimuli of a connection in which nothing goes wrong, started at
    [t0]: the delay elapses, each command finds the channel free and each
    answer arrives before the next call of the task; [d] is the first data
    report, received at [t]. *)
Inductive wiiu_happy_path (t0 : Z) (d : list byte) (t : Z)
  : list wiiu_stimulus -> Prop :=
  | wiiu_happy e1 e2 st t3 e4 a1 t5 e6 a2 t7 e8 rd t9 e10 a3 t11 e12 :
      WiiUPro.reached (now e1) (C.u32 (t0 + 100 * 1000)) = true ->
      channel_free e2 -> wiiu_status_with_ext st ->
      channel_free e4 -> wiiu_ack 0x16 a1 ->
      channel_free e6 -> wiiu_ack 0x16 a2 ->
      channel_free e8 -> wiiu_read_response rd ->
      channel_free e10 -> wiiu_ack 0x12 a3 ->
      channel_free e12 -> wiiu_data_3d d ->
      wiiu_happy_path t0 d t
        [WiiU_tick e1; WiiU_tick e2; WiiU_report st t3;
         WiiU_tick e4; WiiU_report a1 t5;
         WiiU_tick e6; WiiU_report a2 t7;
         WiiU_tick e8; WiiU_report rd t9;
         WiiU_tick e10; WiiU_report a3 t11;
         WiiU_tick e12; WiiU_report d t].

(** What a step of the sequence leaves alone. *)
Definition same_session (a b : WiiUPro.wii_u_pro_data_t) : Prop :=
  WiiUPro.last_report b = WiiUPro.last_report a
  /\ WiiUPro.event b = WiiUPro.event a.

(** The waiting states with the state that sends again and the state the
    machine goes on to when the retries are used up. *)
Definition wiiu_waits
  : list (WiiUPro.wii_u_state_t * WiiUPro.wii_u_state_t * WiiUPro.wii_u_state_t) :=
  [ (WiiUPro.WII_U_STATE_WAIT_STATUS, WiiUPro.WII_U_STATE_SEND_STATUS_REQ,
     WiiUPro.WII_U_STATE_SEND_EXT_INIT1);
    (WiiUPro.WII_U_STATE_WAIT_EXT_INIT1_ACK, WiiUPro.WII_U_STATE_SEND_EXT_INIT1,
     WiiUPro.WII_U_STATE_SEND_EXT_INIT2);
    (WiiUPro.WII_U_STATE_WAIT_EXT_INIT2_ACK, WiiUPro.WII_U_STATE_SEND_EXT_INIT2,
     WiiUPro.WII_U_STATE_READ_EXT_TYPE);
    (WiiUPro.WII_U_STATE_WAIT_EXT_TYPE, WiiUPro.WII_U_STATE_READ_EXT_TYPE,
     WiiUPro.WII_U_STATE_SEND_REPORT_MODE);
    (WiiUPro.WII_U_STATE_WAIT_REPORT_ACK, WiiUPro.WII_U_STATE_SEND_REPORT_MODE,
     WiiUPro.WII_U_STATE_SEND_LED);
    (WiiUPro.WII_U_STATE_WAIT_LED_ACK, WiiUPro.WII_U_STATE_SEND_LED,
     WiiUPro.WII_U_STATE_READY) ].

(** The sending states with their packet and the state that waits for the
    answer. *)
Definition wiiu_sends
  : list (WiiUPro.wii_u_state_t * list Z * WiiUPro.wii_u_state_t) :=
  [ (WiiUPro.WII_U_STATE_SEND_STATUS_REQ, WiiUPro.status_request_packet,
     WiiUPro.WII_U_STATE_WAIT_STATUS);
    (WiiUPro.WII_U_STATE_SEND_EXT_INIT1, WiiUPro.write_data_packet 0xA400F0 0x55,
     WiiUPro.WII_U_STATE_WAIT_EXT_INIT1_ACK);
    (WiiUPro.WII_U_STATE_SEND_EXT_INIT2, WiiUPro.write_data_packet 0xA400FB 0x00,
     WiiUPro.WII_U_STATE_WAIT_EXT_INIT2_ACK);
    (WiiUPro.WII_U_STATE_READ_EXT_TYPE, WiiUPro.read_data_packet 0xA400FA 6,
     WiiUPro.WII_U_STATE_WAIT_EXT_TYPE);
    (WiiUPro.WII_U_STATE_SEND_REPORT_MODE, WiiUPro.report_mode_packet,
     WiiUPro.WII_U_STATE_WAIT_REPORT_ACK);
    (WiiUPro.WII_U_STATE_SEND_LED, WiiUPro.leds_packet 1,
     WiiUPro.WII_U_STATE_WAIT_LED_ACK) ].

(** The time since the last keep-alive, as the task computes it. *)
Definition keepalive_elapsed (wii : WiiUPro.wii_u_pro_data_t) (env : task_env) : Z :=
  C.s32 (C.u32 (now env - WiiUPro.last_keepalive wii)).

(** A call of the task at [t] with the channel free and no player assigned. *)
Definition wiiu_env (t : Z) : task_env :=
  {| now := t; can_send := fun _ => true; player_idx := -1;
     fb := {| rumble_left := 0; rumble_right := 0; rumble_dirty := false;
              led_pattern := 0; led_dirty := false |};
     PLAYER_LEDS := fun _ => 0 |}.

Definition wiiu_status_sample : list byte := [x20; x00; x00; x02; x00; x00; x50].
Definition wiiu_ack_sample (cmd : byte) : list byte := [x22; x00; x00; cmd; x00].
Definition wiiu_read_sample : list byte :=
  [x21; x00; x00; x50; x00; xfa; x00; x00; xa4; x20; x01; x20].

(** A connection in which nothing goes wrong, started at [t0]. *)
Definition wiiu_sample_path (t0 : Z) : list wiiu_stimulus :=
  [ WiiU_tick (wiiu_env (t0 + 100000)); WiiU_tick (wiiu_env (t0 + 101000));
    WiiU_report wiiu_status_sample (t0 + 110000);
    WiiU_tick (wiiu_env (t0 + 111000));
    WiiU_report (wiiu_ack_sample x16) (t0 + 120000);
    WiiU_tick (wiiu_env (t0 + 121000));
    WiiU_report (wiiu_ack_sample x16) (t0 + 130000);
    WiiU_tick (wiiu_env (t0 + 131000));
    WiiU_report wiiu_read_sample (t0 + 140000);
    WiiU_tick (wiiu_env (t0 + 141000));
    WiiU_report (wiiu_ack_sample x12) (t0 + 150000);
    WiiU_tick (wiiu_env (t0 + 151000));
    WiiU_report wiiu_ly_max (t0 + 160000) ].

(** The slot after a first connection at time 0 has ended. *)
Definition wiiu_used_slot : WiiUPro.wii_u_pro_data_t :=
  WiiUPro.wii_u_disconnect
    (fst (wiiu_run (H := sample_layout)
            (WiiUPro.wii_u_init WiiUPro.zero_slot 0 0) (wiiu_sample_path 0))).

(** ** The hotkey detector, hotkey by hotkey *)

(** Hotkey [i] is active and not global: the loop of [hotkeys_check] looks
    at it. *)
Definition per_player (s : Hotkeys.hotkeys_state) (i : nat) : bool :=
  Hotkeys.hotkey_active s i
  && negb (Hotkeys.global (Hotkeys.registered_hotkeys s i)).

(** Hotkey [i] is active and global: the loop of [hotkeys_check_global]
    looks at it. *)
Definition is_global (s : Hotkeys.hotkeys_state) (i : nat) : bool :=
  Hotkeys.hotkey_active s i && Hotkeys.global (Hotkeys.registered_hotkeys s i).

(** The buttons contain the combination of hotkey [i]. *)
Definition matches (s : Hotkeys.hotkeys_state) (buttons : Z) (i : nat) : bool :=
  Hotkeys.buttons_match buttons (Hotkeys.hk_buttons (Hotkeys.registered_hotkeys s i)).

(** Hotkey [i] begins to be held in this check. *)
Definition starts (s : Hotkeys.hotkeys_state) (st : Hotkeys.PlayerHoldState)
  (buttons : Z) (i : nat) : bool :=
  per_player s i && matches s buttons i && negb (Hotkeys.holding st i).

(** The hold start the loop has reached when it comes to hotkey [i]: the
    time of this check if a hotkey before [i] begins to be held in it, the
    stored one otherwise. *)
Definition start_before (s : Hotkeys.hotkeys_state) (st : Hotkeys.PlayerHoldState)
  (buttons now : Z) (i : nat) : Z :=
  if existsb (starts s st buttons) (seq 0 i) then now
  else Hotkeys.hold_start_ms st.

(** What the loop computes for hotkey [i]. *)
Definition tracked (s : Hotkeys.hotkeys_state) (st : Hotkeys.PlayerHoldState)
  (buttons player now : Z) (i : nat) : Z * bool * bool * list Hotkeys.call :=
  Hotkeys.track (Hotkeys.registered_hotkeys s i) buttons now player
    (start_before s st buttons now i) (Hotkeys.holding st i)
    (Hotkeys.triggered st i).

Definition calls_of (s : Hotkeys.hotkeys_state) (st : Hotkeys.PlayerHoldState)
  (buttons player now : Z) (i : nat) : list Hotkeys.call :=
  if per_player s i then snd (tracked s st buttons player now i) else [].

(** Hotkey [i] is the only one the per-player loop looks at. *)
Definition alone (s : Hotkeys.hotkeys_state) (i : nat) : Prop :=
  forall j, j <> i -> per_player s j = false.

(** The hold time the detector computes at [now] for a hold begun at
    [start]. *)
Definition held_ms (now start : Z) : Z := C.u32 (now - start).

(** The buttons of the checks of valid players, ORed onto [acc]. *)
Definition or_checks (MAX_PLAYERS : Z) (acc : Z) (l : list (Z * Z * Z)) : Z :=
  fold_left
    (fun a c => let '(buttons, player, _) := c in
                if MAX_PLAYERS <=? C.u8 player then a
                else Z.lor a (C.u32 buttons))
    l acc.

(** Two hotkeys of one player: [first] on button mask 1, [second] on button
    mask 2, registered in this order on the initial state (four players,
    eight hotkeys). *)
Definition two_hotkeys (first second : Hotkeys.HotkeyTrigger) (d1 d2 : Z)
  : Hotkeys.hotkeys_state :=
  fst (Hotkeys.hotkeys_register 8
         (fst (Hotkeys.hotkeys_register 8 Hotkeys.initial_state
                 {| Hotkeys.hk_buttons := 1; Hotkeys.trigger := first;
                    Hotkeys.duration_ms := d1; Hotkeys.global := false;
                    Hotkeys.callback := Some 0%nat |}))
         {| Hotkeys.hk_buttons := 2; Hotkeys.trigger := second;
            Hotkeys.duration_ms := d2; Hotkeys.global := false;
            Hotkeys.callback := Some 1%nat |}).

(** One hotkey on button mask 1. *)
Definition one_hotkey (tr : Hotkeys.HotkeyTrigger) (d : Z) (g : bool)
  : Hotkeys.hotkeys_state :=
  fst (Hotkeys.hotkeys_register 8 Hotkeys.initial_state
         {| Hotkeys.hk_buttons := 1; Hotkeys.trigger := tr;
            Hotkeys.duration_ms := d; Hotkeys.global := g;
            Hotkeys.callback := Some 0%nat |}).

(** The single hotkey, its button pressed by player 0 at time 0. *)
Definition pressed_once (tr : Hotkeys.HotkeyTrigger) (d : Z) : Hotkeys.hotkeys_state :=
  fst (Hotkeys.hotkeys_check 4 (one_hotkey tr d false) 1 0 0).

(** ** The hotkey service as a whole *)

(** The calls of the public interface of hotkeys.c. *)
Inductive hotkey_op : Type :=
  | Op_register (hk : Hotkeys.HotkeyDef)
  | Op_unregister (hotkey_id : Z)
  | Op_clear
  | Op_reset_player (player : Z)
  | Op_check (buttons player now : Z)
  | Op_check_global (now : Z).

Definition is_clear (op : hotkey_op) : bool :=
  match op with Op_clear => true | _ => false end.

Section HotkeyOps.
Variable MAX_HOTKEYS : nat.
Variable MAX_PLAYERS : Z.

(** One call: the state it leaves and the callbacks it invoked. *)
Definition hotkey_step (s : Hotkeys.hotkeys_state) (op : hotkey_op)
  : Hotkeys.hotkeys_state * list Hotkeys.call :=
  match op with
  | Op_register hk => (fst (Hotkeys.hotkeys_register MAX_HOTKEYS s hk), [])
  | Op_unregister id => (Hotkeys.hotkeys_unregister MAX_HOTKEYS s id, [])
  | Op_clear => (Hotkeys.hotkeys_clear MAX_HOTKEYS s, [])
  | Op_reset_player p =>
      (Hotkeys.hotkeys_reset_player MAX_HOTKEYS MAX_PLAYERS s p, [])
  | Op_check buttons player now =>
      Hotkeys.hotkeys_check MAX_PLAYERS s buttons player now
  | Op_check_global now => Hotkeys.hotkeys_check_global s now
  end.

(** A sequence of calls, oldest first; the state it ends in. *)
Definition hotkey_run (s : Hotkeys.hotkeys_state) (ops : list hotkey_op)
  : Hotkeys.hotkeys_state :=
  fold_left (fun s op => fst (hotkey_step s op)) ops s.

End HotkeyOps.

(** The registry is well formed: no more than [MAX_HOTKEYS] entries, and
    only entries below [hotkey_count] are active. *)
Definition registry_ok (MAX_HOTKEYS : nat) (s : Hotkeys.hotkeys_state) : Prop :=
  (Hotkeys.hotkey_count s <= MAX_HOTKEYS)%nat
  /\ forall i, Hotkeys.hotkey_active s i = true -> (i < Hotkeys.hotkey_count s)%nat.

(** Registering a list of hotkeys one after the other: the state and the
    returned ids, in order. *)
Fixpoint register_all (MAX_HOTKEYS : nat) (s : Hotkeys.hotkeys_state)
  (hks : list Hotkeys.HotkeyDef) : Hotkeys.hotkeys_state * list Z :=
  match hks with
  | [] => (s, [])
  | hk :: rest =>
      let (s1, id) := Hotkeys.hotkeys_register MAX_HOTKEYS s hk in
      let (s2, ids) := register_all MAX_HOTKEYS s1 rest in
      (s2, id :: ids)
  end.

(** The id the [i]-th registration gets when [n] hotkeys are there already. *)
Definition expected_id (MAX_HOTKEYS n i : nat) : Z :=
  if (n + i <? MAX_HOTKEYS)%nat then Z.of_nat (n + i) else -1.

(** A registry of two entries, both taken. *)
Definition two_hotkeys_small : Hotkeys.hotkeys_state :=
  fst (register_all 2 Hotkeys.initial_state
         [ {| Hotkeys.hk_buttons := 1; Hotkeys.trigger := Hotkeys.HOTKEY_TRIGGER_ON_TAP;
              Hotkeys.duration_ms := 500; Hotkeys.global := false;
              Hotkeys.callback := Some 0%nat |};
           {| Hotkeys.hk_buttons := 2; Hotkeys.trigger := Hotkeys.HOTKEY_TRIGGER_ON_HOLD;
              Hotkeys.duration_ms := 1000; Hotkeys.global := true;
              Hotkeys.callback := Some 1%nat |} ]).

(** What entitles hotkey [hk] to the call [c] in a check of [player]:
    [matching] says whether the buttons of the check contain the combination,
    [was_holding] whether they did at the check before. *)
Definition justified (hk : Hotkeys.HotkeyDef) (player : Z)
  (matching was_holding : bool) (c : Hotkeys.call) : Prop :=
  Hotkeys.callback hk = Some (Hotkeys.fn c)
  /\ Hotkeys.arg_player c = player
  /\ 0 <= Hotkeys.arg_held_ms c < 2 ^ 32
  /\ match Hotkeys.trigger hk with
     | Hotkeys.HOTKEY_TRIGGER_ON_TAP =>
         matching = false /\ was_holding = true
         /\ Hotkeys.arg_held_ms c < Hotkeys.duration_ms hk
     | Hotkeys.HOTKEY_TRIGGER_ON_RELEASE =>
         matching = false /\ was_holding = true
         /\ Hotkeys.duration_ms hk <= Hotkeys.arg_held_ms c
     | Hotkeys.HOTKEY_TRIGGER_ON_HOLD =>
         matching = true /\ Hotkeys.duration_ms hk <= Hotkeys.arg_held_ms c
     end.

(** Two states of the service that no call of the interface can tell
    apart. *)
Definition same_hold (a b : Hotkeys.PlayerHoldState) : Prop :=
  Hotkeys.held_buttons a = Hotkeys.held_buttons b
  /\ Hotkeys.hold_start_ms a = Hotkeys.hold_start_ms b
  /\ (forall i, Hotkeys.holding a i = Hotkeys.holding b i)
  /\ (forall i, Hotkeys.triggered a i = Hotkeys.triggered b i).

Definition same_hotkeys (a b : Hotkeys.hotkeys_state) : Prop :=
  Hotkeys.registered_hotkeys a = Hotkeys.registered_hotkeys b
  /\ Hotkeys.hotkey_active a = Hotkeys.hotkey_active b
  /\ Hotkeys.hotkey_count a = Hotkeys.hotkey_count b
  /\ (forall p, same_hold (Hotkeys.player_state a p) (Hotkeys.player_state b p))
  /\ Hotkeys.global_buttons a = Hotkeys.global_buttons b
  /\ Hotkeys.global_hold_start_ms a = Hotkeys.global_hold_start_ms b
  /\ Hotkeys.global_holding a = Hotkeys.global_holding b
  /\ Hotkeys.global_triggered a = Hotkeys.global_triggered b.

(** ** The native hosts over a session *)

(** The attempts to initialise the rumble pak among the effects. *)
Definition n64_pak_inits (out : list N64Host.effect) : nat :=
  length (filter (fun x => match x with
                           | N64Host.N64Controller_InitRumblePak => true
                           | _ => false
                           end) out).

(** The polls of a run at which the controller did not answer as
    initialised. *)
Definition n64_dropouts (envs : list N64Host.poll_env) : Z :=
  Z.of_nat (length (filter (fun env => negb (N64Host.is_connected env)) envs)).

(** The buttons of an N64 report, in the order of the structure. *)
Definition n64_buttons_of (rp : N64Host.n64_report_t) : list bool :=
  [ N64Host.a rp; N64Host.b rp; N64Host.z rp; N64Host.start rp;
    N64Host.dpad_up rp; N64Host.dpad_down rp; N64Host.dpad_left rp;
    N64Host.dpad_right rp; N64Host.l rp; N64Host.r rp;
    N64Host.c_up rp; N64Host.c_down rp; N64Host.c_left rp;
    N64Host.c_right rp ].

(** The event carries the converted state of the report [rp]. *)
Definition n64_event_of `{ButtonLayout} (rp : N64Host.n64_report_t)
  (e : input_event_t) : Prop :=
  dev_addr e = 0xE0 /\ type e = INPUT_TYPE_GAMEPAD
  /\ buttons e = N64Host.map_n64_to_jp rp
  /\ lx (analog e) = N64Host.convert_stick_axis (N64Host.stick_x rp)
  /\ ly (analog e) = N64Host.convert_stick_axis (- N64Host.stick_y rp)
  /\ (rx (analog e), ry (analog e)) = N64Host.map_c_buttons_to_analog rp
  /\ l2 (analog e) = 0 /\ r2 (analog e) = 0.

(** The comparison of the task: buttons word and raw stick of [rp] against
    those of [rp']. *)
Definition n64_same_input `{ButtonLayout} (rp rp' : N64Host.n64_report_t) : bool :=
  (N64Host.map_n64_to_jp rp =? N64Host.map_n64_to_jp rp')
  && (N64Host.stick_x rp =? N64Host.stick_x rp')
  && (N64Host.stick_y rp =? N64Host.stick_y rp').

(** A poll that returned the report [rp] of a connected controller. *)
Definition n64_poll_of (rp : N64Host.n64_report_t) : N64Host.poll_env :=
  {| N64Host.feedback := None; N64Host.success := true;
     N64Host.report := rp; N64Host.is_connected := true;
     N64Host.has_pak := true; N64Host.init_pak_ok := true;
     N64Host.rumble_time_reached := true |}.

(** The JP button word decoded: which field of the N64 report each canonical
    button stands for (none for the buttons the N64 pad has no source of). *)
Definition n64_button_source (rp : N64Host.n64_report_t) (k : button) : bool :=
  match k with
  | B1 => N64Host.a rp | B2 => N64Host.c_down rp
  | B3 => N64Host.b rp | B4 => N64Host.c_left rp
  | L3 => N64Host.c_up rp | R3 => N64Host.c_right rp
  | L2 => N64Host.l rp | R2 => N64Host.r rp
  | R1 => N64Host.z rp | S2 => N64Host.start rp
  | DU => N64Host.dpad_up rp | DD => N64Host.dpad_down rp
  | DL => N64Host.dpad_left rp | DR => N64Host.dpad_right rp
  | _ => false
  end.

(** The last submitted input the N64 task remembers. *)
Definition n64_prevs (s : N64Host.n64_state) : Z * Z * Z * bool * bool :=
  (N64Host.prev_buttons s, N64Host.prev_stick_x s, N64Host.prev_stick_y s,
   N64Host.prev_l s, N64Host.prev_r s).

(** Whether an initialisation of the pak occurs among the effects. *)
Definition n64_has_pak_init (out : list N64Host.effect) : bool :=
  existsb (fun x => match x with
                    | N64Host.N64Controller_InitRumblePak => true
                    | _ => false
                    end) out.

(** No rumble command among the effects. *)
Definition n64_no_rumble (out : list N64Host.effect) : Prop :=
  forall on, ~ In (N64Host.N64Controller_SetRumble on) out.

(** What the task remembers of a report once it has passed it on. *)
Definition n64_remembered `{ButtonLayout} (rp : N64Host.n64_report_t)
  : Z * Z * Z * bool * bool :=
  (N64Host.map_n64_to_jp rp, N64Host.stick_x rp, N64Host.stick_y rp,
   N64Host.l rp, N64Host.r rp).

(** How many initialisations of the pak the connection counter still
    allows: one until the tenth poll, none after it. *)
Definition n64_pak_credit (s : N64Host.n64_state) : nat :=
  if N64Host.connected_polls s <? 10 then 1 else 0.

(** A poll at which the feedback system asks for rumble. *)
Definition n64_rumble_poll : N64Host.poll_env :=
  {| N64Host.feedback :=
       Some {| rumble_left := 200; rumble_right := 0; rumble_dirty := true;
               led_pattern := 0; led_dirty := false |};
     N64Host.success := false;
     N64Host.report := n64_idle_report; N64Host.is_connected := true;
     N64Host.has_pak := true; N64Host.init_pak_ok := true;
     N64Host.rumble_time_reached := true |}.

(** The JP button word of the GameCube host decoded. *)
Definition gc_button_source (rp : GcHost.gc_report_t) (k : button) : bool :=
  match k with
  | B2 => GcHost.a rp | B1 => GcHost.b rp
  | B4 => GcHost.x rp | B3 => GcHost.y rp
  | L2 => GcHost.l rp | R2 => GcHost.r rp
  | R1 => GcHost.z rp | S2 => GcHost.start rp
  | DU => GcHost.dpad_up rp | DD => GcHost.dpad_down rp
  | DL => GcHost.dpad_left rp | DR => GcHost.dpad_right rp
  | _ => false
  end.

Definition gc_buttons_of (rp : GcHost.gc_report_t) : list bool :=
  [ GcHost.a rp; GcHost.b rp; GcHost.x rp; GcHost.y rp; GcHost.start rp;
    GcHost.dpad_up rp; GcHost.dpad_down rp; GcHost.dpad_left rp;
    GcHost.dpad_right rp; GcHost.l rp; GcHost.r rp; GcHost.z rp ].

(** The bytes of a GameCube report are bytes. *)
Definition gc_report_bytes (rp : GcHost.gc_report_t) : Prop :=
  0 <= GcHost.stick_x rp <= 255 /\ 0 <= GcHost.stick_y rp <= 255
  /\ 0 <= GcHost.cstick_x rp <= 255 /\ 0 <= GcHost.cstick_y rp <= 255
  /\ 0 <= GcHost.l_analog rp <= 255 /\ 0 <= GcHost.r_analog rp <= 255.

(** The effect carries the state of the report [rp], the vertical axes
    turned over. *)
Definition gc_event_of `{ButtonLayout} (rp : GcHost.gc_report_t)
  (x : GcHost.effect) : Prop :=
  exists e, x = GcHost.router_submit_input e
  /\ dev_addr e = 0xD0 /\ type e = INPUT_TYPE_GAMEPAD
  /\ buttons e = GcHost.map_gc_to_jp rp
  /\ lx (analog e) = GcHost.stick_x rp
  /\ ly (analog e) = 255 - GcHost.stick_y rp
  /\ rx (analog e) = GcHost.cstick_x rp
  /\ ry (analog e) = 255 - GcHost.cstick_y rp
  /\ l2 (analog e) = GcHost.l_analog rp
  /\ r2 (analog e) = GcHost.r_analog rp.

(** A poll answered by a connected controller with valid bytes. *)
Definition gc_answered (env : GcHost.poll_env) : Prop :=
  GcHost.success env = true /\ GcHost.is_connected env = true
  /\ gc_report_bytes (GcHost.report env).

Definition gc_sample_report : GcHost.gc_report_t :=
  {| GcHost.a := true; GcHost.b := false; GcHost.x := false; GcHost.y := false;
     GcHost.start := false; GcHost.dpad_up := false; GcHost.dpad_down := false;
     GcHost.dpad_left := false; GcHost.dpad_right := false;
     GcHost.l := false; GcHost.r := false; GcHost.z := false;
     GcHost.stick_x := 128; GcHost.stick_y := 200;
     GcHost.cstick_x := 128; GcHost.cstick_y := 128;
     GcHost.l_analog := 0; GcHost.r_analog := 30 |}.

Definition gc_sample_poll : GcHost.poll_env :=
  {| GcHost.feedback := None; GcHost.success := true;
     GcHost.report := gc_sample_report; GcHost.is_connected := true |}.

(** ** The 8BitDo report decoded *)

(** The hat nibble of a report. *)
Definition bitdo_hat (data : list byte) : Z :=
  Z.land (at_ data Bitdo.OFFSET_HAT) Bitdo.HAT_MASK.

(** Where each canonical button comes from in an 8BitDo report: a bit of
    the two button bytes, or a set of positions of the hat. *)
Definition bitdo_button_source (data : list byte) (k : button) : bool :=
  let lo := at_ data Bitdo.OFFSET_BUTTONS_LO in
  let hi := at_ data Bitdo.OFFSET_BUTTONS_HI in
  let hat := bitdo_hat data in
  match k with
  | B1 => Z.testbit lo 0 | B2 => Z.testbit lo 1
  | B3 => Z.testbit lo 2 | B4 => Z.testbit lo 3
  | L1 => Z.testbit lo 4 | R1 => Z.testbit lo 5
  | L2 => Z.testbit lo 6 | R2 => Z.testbit lo 7
  | S1 => Z.testbit hi 0 | S2 => Z.testbit hi 1
  | L3 => Z.testbit hi 2 | R3 => Z.testbit hi 3
  | A1 => Z.testbit hi 4 | A2 => Z.testbit hi 5
  | A3 => Z.testbit hi 6 | A4 => Z.testbit hi 7
  | DU => (hat =? 0) || (hat =? 1) || (hat =? 7)
  | DR => (hat =? 1) || (hat =? 2) || (hat =? 3)
  | DD => (hat =? 3) || (hat =? 4) || (hat =? 5)
  | DL => (hat =? 5) || (hat =? 6) || (hat =? 7)
  | L4 | R4 => false
  end.

(** The report is one the driver acts on. *)
Definition bitdo_accepted (data : list byte) : bool :=
  (10 <=? len_ data) && (at_ data 0 =? Bitdo.REPORT_ID_GAMEPAD).

(** The rumble level sent for a requested level. *)
Definition bitdo_level (v : Z) : Z := Z.quot (v * 100) 255.

(** A rumble request of the feedback system. *)
Definition rumble_request (left right : Z) : feedback_state_t :=
  {| rumble_left := left; rumble_right := right; rumble_dirty := true;
     led_pattern := 0; led_dirty := false |}.

(** The slots of the table that are in use. *)
Definition bitdo_in_use (slots : list Bitdo.bitdo_data_t) : nat :=
  length (filter Bitdo.initialized slots).

(** A slot as the static initialiser leaves it. *)
Definition bitdo_zero_slot : Bitdo.bitdo_data_t :=
  {| Bitdo.event := init_input_event; Bitdo.initialized := false;
     Bitdo.rumble_left := 0; Bitdo.rumble_right := 0 |}.

(** The player of a device with feedback pending. *)
Definition bitdo_env (f : feedback_state_t) : BitdoTask.task_env :=
  {| BitdoTask.player_idx := 0; BitdoTask.fb := Some f |}.

(** ** Switch 2: scaling, framing, reconnection *)

(** [x] limited to [lo .. hi]. *)
Definition clamp (lo hi x : Z) : Z := Z.max lo (Z.min hi x).

(** The bit of the controller's 32-bit button field behind each canonical
    button; the NSO GameCube pad has the shoulder pairs exchanged. *)
Definition sw2_button_bit (is_gc : bool) (k : button) : option Z :=
  match k with
  | B1 => Some Switch2.SW2_B | B2 => Some Switch2.SW2_A
  | B3 => Some Switch2.SW2_Y | B4 => Some Switch2.SW2_X
  | L1 => Some (if is_gc then Switch2.SW2_ZL else Switch2.SW2_L)
  | R1 => Some (if is_gc then Switch2.SW2_ZR else Switch2.SW2_R)
  | L2 => Some (if is_gc then Switch2.SW2_L else Switch2.SW2_ZL)
  | R2 => Some (if is_gc then Switch2.SW2_R else Switch2.SW2_ZR)
  | S1 => Some Switch2.SW2_MINUS | S2 => Some Switch2.SW2_PLUS
  | L3 => Some Switch2.SW2_LJ | R3 => Some Switch2.SW2_RJ
  | DU => Some Switch2.SW2_UP | DD => Some Switch2.SW2_DOWN
  | DL => Some Switch2.SW2_LEFT | DR => Some Switch2.SW2_RIGHT
  | A1 => Some Switch2.SW2_HOME | A2 => Some Switch2.SW2_CAPTURE
  | A3 => Some Switch2.SW2_C
  | L4 => Some Switch2.SW2_GL | R4 => Some Switch2.SW2_GR
  | A4 => None
  end.

(** A buffer the driver takes as a bare report: long enough and not
    mistaken for one with the 0xA1 header. *)
Definition sw2_bare (r : list byte) : Prop :=
  63 <= len_ r /\ (len_ r = 63 \/ at_ r 0 <> 0xA1).

(** A connection that ends and a new one that takes the slot over. *)
Definition sw2_reconnect `{ButtonLayout} (sw2 : Switch2.switch2_ble_data_t)
  (conn_index product_id : Z) : Switch2.switch2_ble_data_t :=
  Switch2.switch2_ble_init conn_index product_id
    (fst (Switch2Life.switch2_ble_disconnect sw2)).

(** ** Wii U Pro: scaling, decoding, the handshake left alone *)

(** The bit of the three button bytes of the extension data (bit [i] of
    the 24-bit little-endian value) behind each canonical button. *)
Definition wiiu_button_bit (k : button) : option Z :=
  match k with
  | R1 => Some 1 | S2 => Some 2 | A1 => Some 3 | S1 => Some 4 | L1 => Some 5
  | DD => Some 6 | DR => Some 7 | DU => Some 8 | DL => Some 9
  | R2 => Some 10 | B4 => Some 11 | B2 => Some 12 | B3 => Some 13
  | B1 => Some 14 | L2 => Some 15 | R3 => Some 16 | L3 => Some 17
  | _ => None
  end.

(** Bit [i] of the button bytes, which start at [data[off + 8]]. *)
Definition wiiu_ext_bit (data : list byte) (off i : Z) : bool :=
  Z.testbit (at_ data (off + 8 + i / 8)) (i mod 8).

(** The stages of the handshake still ahead in a state, the current one
    included. *)
Definition wiiu_stages_left (s : WiiUPro.wii_u_state_t) : Z :=
  match s with
  | WiiUPro.WII_U_STATE_WAIT_INIT => 6
  | WiiUPro.WII_U_STATE_SEND_STATUS_REQ | WiiUPro.WII_U_STATE_WAIT_STATUS => 6
  | WiiUPro.WII_U_STATE_SEND_EXT_INIT1
  | WiiUPro.WII_U_STATE_WAIT_EXT_INIT1_ACK => 5
  | WiiUPro.WII_U_STATE_SEND_EXT_INIT2
  | WiiUPro.WII_U_STATE_WAIT_EXT_INIT2_ACK => 4
  | WiiUPro.WII_U_STATE_READ_EXT_TYPE | WiiUPro.WII_U_STATE_WAIT_EXT_TYPE => 3
  | WiiUPro.WII_U_STATE_SEND_REPORT_MODE
  | WiiUPro.WII_U_STATE_WAIT_REPORT_ACK => 2
  | WiiUPro.WII_U_STATE_SEND_LED | WiiUPro.WII_U_STATE_WAIT_LED_ACK => 1
  | WiiUPro.WII_U_STATE_READY | WiiUPro.WII_U_STATE_IDLE => 0
  end.

Inductive wiiu_phase : Set := Phase_delay | Phase_send | Phase_wait | Phase_done.

Definition wiiu_phase_of (s : WiiUPro.wii_u_state_t) : wiiu_phase :=
  match s with
  | WiiUPro.WII_U_STATE_WAIT_INIT => Phase_delay
  | WiiUPro.WII_U_STATE_SEND_STATUS_REQ | WiiUPro.WII_U_STATE_SEND_EXT_INIT1
  | WiiUPro.WII_U_STATE_SEND_EXT_INIT2 | WiiUPro.WII_U_STATE_READ_EXT_TYPE
  | WiiUPro.WII_U_STATE_SEND_REPORT_MODE | WiiUPro.WII_U_STATE_SEND_LED =>
      Phase_send
  | WiiUPro.WII_U_STATE_WAIT_STATUS | WiiUPro.WII_U_STATE_WAIT_EXT_INIT1_ACK
  | WiiUPro.WII_U_STATE_WAIT_EXT_INIT2_ACK | WiiUPro.WII_U_STATE_WAIT_EXT_TYPE
  | WiiUPro.WII_U_STATE_WAIT_REPORT_ACK | WiiUPro.WII_U_STATE_WAIT_LED_ACK =>
      Phase_wait
  | WiiUPro.WII_U_STATE_READY | WiiUPro.WII_U_STATE_IDLE => Phase_done
  end.

(** The task calls still needed to reach READY when no answer ever comes:
    every command is sent five times, a second apart. *)
Definition wiiu_calls_left (wii : WiiUPro.wii_u_pro_data_t) : Z :=
  let st := wiiu_stages_left (WiiUPro.state wii) in
  let r := WiiUPro.init_retries wii in
  match wiiu_phase_of (WiiUPro.state wii) with
  | Phase_delay => 10 * (st - 1) + 2 * (5 - r) + 1
  | Phase_send => 10 * (st - 1) + 2 * (5 - r)
  | Phase_wait => 10 * (st - 1) + 2 * (5 - r) - 1
  | Phase_done => 0
  end.

(** The packets still to be sent on the way. *)
Definition wiiu_sends_left (wii : WiiUPro.wii_u_pro_data_t) : Z :=
  let st := wiiu_stages_left (WiiUPro.state wii) in
  let r := WiiUPro.init_retries wii in
  match wiiu_phase_of (WiiUPro.state wii) with
  | Phase_delay | Phase_send => 5 * (st - 1) + (5 - r)
  | Phase_wait => 5 * (st - 1) + (5 - r) - 1
  | Phase_done => 0
  end.

(** Task calls at least a second (and less than 2^31 microseconds) apart,
    each finding the channel free; [prev] is the time of the call before. *)
Fixpoint wiiu_spaced (prev : Z) (envs : list task_env) : Prop :=
  match envs with
  | [] => True
  | env :: rest =>
      1000000 <= now env - prev < 2147483648 /\ channel_free env
      /\ wiiu_spaced (now env) rest
  end.

Definition wiiu_is_submit (x : WiiUPro.effect) : bool :=
  match x with WiiUPro.router_submit_input _ => true | _ => false end.

(** The task called at the times [t0 + 100 ms + k s], k = 0 .. n. *)
Definition wiiu_seconds (t0 : Z) (n : nat) : list task_env :=
  map (fun k => wiiu_env (t0 + 100000 + 1000000 * Z.of_nat k)) (seq 0 (S n)).

(** ** Generic gamepad: the fixed layout *)

(** The bit of the first two report bytes (little-endian) behind each
    canonical button in the fallback layout. *)
Definition fallback_button_bit (k : button) : option Z :=
  match k with
  | B1 => Some 0 | B2 => Some 1 | B3 => Some 2 | B4 => Some 3
  | L1 => Some 4 | R1 => Some 5 | L2 => Some 6 | R2 => Some 7
  | S1 => Some 8 | S2 => Some 9 | L3 => Some 10 | R3 => Some 11
  | A1 => Some 12
  | _ => None
  end.

(** A four-byte report of a pad without descriptor: A pressed, the left
    stick at the left edge. *)
Definition fallback_sample : list byte := [x01; x00; x00; x80].

(** ** Wiimote: the handshake left alone *)

(** The task called once per environment, oldest first. *)
Fixpoint wiimote_ticks (wii : Wiimote.wiimote_data_t) (envs : list task_env)
  : Wiimote.wiimote_data_t * list Wiimote.effect :=
  match envs with
  | [] => (wii, [])
  | env :: rest =>
      let (w, out) := Wiimote.wiimote_task wii env in
      let (w', out') := wiimote_ticks w rest in
      (w', out ++ out')
  end.

(** The task calls still needed to reach READY when the Wiimote answers
    nothing: only the status request is repeated. *)
Definition wiimote_calls_left (wii : Wiimote.wiimote_data_t) : Z :=
  let r := Wiimote.init_retries wii in
  match Wiimote.state wii with
  | Wiimote.WII_STATE_IDLE | Wiimote.WII_STATE_READY => 0
  | Wiimote.WII_STATE_WAIT_LED_ACK => 1
  | Wiimote.WII_STATE_SEND_LED => 2
  | Wiimote.WII_STATE_WAIT_REPORT_ACK => 3
  | Wiimote.WII_STATE_SEND_REPORT_MODE => 4
  | Wiimote.WII_STATE_WAIT_EXT_TYPE => 5
  | Wiimote.WII_STATE_READ_EXT_TYPE => 6
  | Wiimote.WII_STATE_WAIT_EXT_INIT2_ACK => 7
  | Wiimote.WII_STATE_SEND_EXT_INIT2 => 8
  | Wiimote.WII_STATE_WAIT_EXT_INIT1_ACK => 9
  | Wiimote.WII_STATE_SEND_EXT_INIT1 => 10
  | Wiimote.WII_STATE_WAIT_STATUS => 4 + 2 * (5 - r) - 1
  | Wiimote.WII_STATE_SEND_STATUS_REQ => 4 + 2 * (5 - r)
  | Wiimote.WII_STATE_WAIT_INIT => 4 + 2 * (5 - r) + 1
  end.

(** The packets still to be sent on the way. *)
Definition wiimote_sends_left (wii : Wiimote.wiimote_data_t) : Z :=
  let r := Wiimote.init_retries wii in
  match Wiimote.state wii with
  | Wiimote.WII_STATE_IDLE | Wiimote.WII_STATE_READY
  | Wiimote.WII_STATE_WAIT_LED_ACK => 0
  | Wiimote.WII_STATE_SEND_LED | Wiimote.WII_STATE_WAIT_REPORT_ACK => 1
  | Wiimote.WII_STATE_SEND_REPORT_MODE | Wiimote.WII_STATE_WAIT_EXT_TYPE => 2
  | Wiimote.WII_STATE_READ_EXT_TYPE | Wiimote.WII_STATE_WAIT_EXT_INIT2_ACK => 3
  | Wiimote.WII_STATE_SEND_EXT_INIT2 | Wiimote.WII_STATE_WAIT_EXT_INIT1_ACK => 4
  | Wiimote.WII_STATE_SEND_EXT_INIT1 => 5
  | Wiimote.WII_STATE_WAIT_STATUS => 2 + (5 - r) - 1
  | Wiimote.WII_STATE_SEND_STATUS_REQ | Wiimote.WII_STATE_WAIT_INIT =>
      2 + (5 - r)
  end.

(** The states in which the task waits for a deadline. *)
Definition wiimote_waiting (s : Wiimote.wiimote_state_t) : bool :=
  match s with
  | Wiimote.WII_STATE_WAIT_INIT | Wiimote.WII_STATE_WAIT_STATUS
  | Wiimote.WII_STATE_WAIT_EXT_INIT1_ACK | Wiimote.WII_STATE_WAIT_EXT_INIT2_ACK
  | Wiimote.WII_STATE_WAIT_EXT_TYPE | Wiimote.WII_STATE_WAIT_REPORT_ACK
  | Wiimote.WII_STATE_WAIT_LED_ACK => true
  | _ => false
  end.

(** The zero-initialised entry of the static array [wiimote_data]. *)
Definition wiimote_zero_slot : Wiimote.wiimote_data_t :=
  {| Wiimote.event := init_input_event; Wiimote.initialized := false;
     Wiimote.state := Wiimote.WII_STATE_IDLE; Wiimote.init_time := 0;
     Wiimote.init_retries := 0; Wiimote.last_keepalive := 0;
     Wiimote.ext_type := Wiimote.WII_EXT_NONE;
     Wiimote.extension_connected := false; Wiimote.player_led := 0;
     Wiimote.rumble_on := false;
     Wiimote.orientation := Wiimote.WII_ORIENT_HORIZONTAL;
     Wiimote.orient_hotkey_active := false |}.

(** ** The tasks and the channel *)

(** Every packet among the effects was allowed by the channel, asked after
    the packets sent before it in the same call. *)
Definition allowed {E : Type} (is_send : E -> bool) (env : task_env)
  (out : list E) : Prop :=
  forall k, (k < length (filter is_send out))%nat -> can_send env k = true.

(** ** Generic gamepad: the buttons of the descriptor path *)

(** Which HID button (0-based) stands behind each canonical button for a
    pad with [count] buttons: the DirectInput order from ten buttons on,
    and otherwise the buttons in order with Select and Start taken from the
    last two. *)
Definition gamepad_button_index (count : Z) (k : button) : option Z :=
  if 10 <=? count then
    match k with
    | B1 => Some 1 | B2 => Some 2 | B3 => Some 0 | B4 => Some 3
    | L1 => Some 4 | R1 => Some 5 | L2 => Some 6 | R2 => Some 7
    | S1 => Some 8 | S2 => Some 9 | L3 => Some 10 | R3 => Some 11
    | _ => None
    end
  else
    match k with
    | B1 => Some 0 | B2 => Some 1 | B3 => Some 2 | B4 => Some 3
    | L1 => if 7 <=? count then Some 4 else None
    | R1 => if 8 <=? count then Some 5 else None
    | L2 => if 9 <=? count then Some 6 else None
    | S1 => if 2 <=? count then Some (count - 2) else None
    | S2 => if 2 <=? count then Some (count - 1) else None
    | _ => None
    end.

(** The direction the descriptor path reads from the hat field, 8 (none)
    when the pad has no hat or the value is out of range. *)
Definition gamepad_hat_direction (data : list byte)
  (m : Gamepad.ble_report_map_t) : Z :=
  let loc := Gamepad.hatLoc m in
  if negb (Gamepad.bitMask loc =? 0) && (Gamepad.byteIndex loc <? len_ data)
  then
    let v := C.u8 (Z.land (at_ data (Gamepad.byteIndex loc))
                          (Gamepad.bitMask loc)) in
    if v <=? 8 then v else 8
  else 8.

(** The d-pad buttons of a hat direction. *)
Definition hat_shows (direction : Z) (k : button) : bool :=
  match k with
  | DU => (direction =? 0) || (direction =? 1) || (direction =? 7)
  | DR => (direction =? 1) || (direction =? 2) || (direction =? 3)
  | DD => (direction =? 3) || (direction =? 4) || (direction =? 5)
  | DL => (direction =? 5) || (direction =? 6) || (direction =? 7)
  | _ => false
  end.

(** The button count the descriptor path works with. *)
Definition gamepad_button_count (m : Gamepad.ble_report_map_t) : Z :=
  Z.min 12 (C.u8 (Gamepad.buttonCnt m)).

(** A pad whose descriptor declares four 8-bit axes in bytes 1 to 4, a hat
    in the low nibble of byte 5 and twelve buttons in bytes 6 and 7. *)
Definition gamepad_sample_map : Gamepad.ble_report_map_t :=
  let axis i :=
    {| Gamepad.byteIndex := i; Gamepad.bitMask := 0xFF; Gamepad.max := 255 |} in
  let btn i m :=
    {| Gamepad.byteIndex := i; Gamepad.bitMask := m; Gamepad.max := 0 |} in
  {| Gamepad.xLoc := axis 1; Gamepad.yLoc := axis 2;
     Gamepad.zLoc := axis 3; Gamepad.rzLoc := axis 4;
     Gamepad.rxLoc := Gamepad.loc0; Gamepad.ryLoc := Gamepad.loc0;
     Gamepad.hatLoc := btn 5 0x0F;
     Gamepad.buttonLoc :=
       [ btn 6 1; btn 6 2; btn 6 4; btn 6 8; btn 6 16; btn 6 32; btn 6 64;
         btn 6 128; btn 7 1; btn 7 2; btn 7 4; btn 7 8 ];
     Gamepad.buttonCnt := 12 |}.

Definition gamepad_sample : Gamepad.bthid_gamepad_data_t :=
  {| Gamepad.event := init_input_event; Gamepad.initialized := true;
     Gamepad.has_report_map := true; Gamepad.map := gamepad_sample_map |}.

(** Sticks centred, hat to the north-east, HID buttons 1 and 10 down. *)
Definition gamepad_sample_report : list byte :=
  [x01; x80; x80; x80; x80; x01; x01; x02].

(** ** Wiimote: the cached event, read off the report *)

(** The core button behind each canonical button: the byte of the report
    (1 or 2) and the bit in it.  Byte 1 holds Left, Right, Down, Up and Plus
    in bits 0 to 4, byte 2 holds Two, One, B, A and Minus in bits 0 to 4 and
    Home in bit 7. *)
Definition wiimote_core_bit (k : button) : option (Z * Z) :=
  match k with
  | DL => Some (1, 0) | DR => Some (1, 1) | DD => Some (1, 2)
  | DU => Some (1, 3) | S2 => Some (1, 4)
  | B4 => Some (2, 0) | B3 => Some (2, 1) | B1 => Some (2, 2)
  | B2 => Some (2, 3) | S1 => Some (2, 4) | A1 => Some (2, 7)
  | _ => None
  end.

(** The core button of [k] is down in the report. *)
Definition wiimote_core_down (data : list byte) (k : button) : bool :=
  match wiimote_core_bit k with
  | Some (i, b) => Z.testbit (at_ data i) b
  | None => false
  end.

(** Plus is down together with a direction of the D-pad: the orientation
    hotkey. *)
Definition wiimote_hotkey_down (data : list byte) : bool :=
  wiimote_core_down data S2
  && (wiimote_core_down data DU || wiimote_core_down data DD
      || wiimote_core_down data DL || wiimote_core_down data DR).

(** The buttons the hotkey consumes. *)
Definition wiimote_hotkey_button (k : button) : bool :=
  match k with S2 | DU | DD | DL | DR => true | _ => false end.

(** The core buttons that go into the event: those that are down, less the
    hotkey buttons while the hotkey is down. *)
Definition wiimote_core_pressed (data : list byte) (k : button) : bool :=
  wiimote_core_down data k
  && negb (wiimote_hotkey_down data && wiimote_hotkey_button k).

(** Where the extension bytes of a report start: byte 3 of report 0x32 (at
    least 9 bytes), byte 6 of report 0x35 (at least 22 bytes); the other
    reports carry none the driver reads. *)
Definition wiimote_ext_offset (data : list byte) : option Z :=
  if (at_ data 0 =? 0x32) && (9 <=? len_ data) then Some 3
  else if (at_ data 0 =? 0x35) && (22 <=? len_ data) then Some 6
  else None.

(** Bit [i] of the two button bytes of an extension (bytes 4 and 5 of the
    extension data, little-endian); a button that is down reads 0. *)
Definition wiimote_ext_bit (data : list byte) (off i : Z) : bool :=
  if i <? 8 then Z.testbit (at_ data (off + 4)) i
  else Z.testbit (at_ data (off + 5)) (i - 8).

(** The bit of a Classic Controller behind each canonical button. *)
Definition wiimote_classic_bit (k : button) : option Z :=
  match k with
  | R1 => Some 1 | S2 => Some 2 | A1 => Some 3 | S1 => Some 4 | L1 => Some 5
  | DD => Some 6 | DR => Some 7 | DU => Some 8 | DL => Some 9
  | R2 => Some 10 | B4 => Some 11 | B2 => Some 12 | B3 => Some 13
  | B1 => Some 14 | L2 => Some 15
  | _ => None
  end.

(** The bit of a guitar behind each canonical button: the frets Green, Red,
    Yellow, Blue and Orange, the strum bar, Plus and Minus. *)
Definition wiimote_guitar_bit (k : button) : option Z :=
  match k with
  | S2 => Some 2 | S1 => Some 4 | DD => Some 6 | DU => Some 8
  | B4 => Some 11 | B1 => Some 12 | B3 => Some 13 | B2 => Some 14
  | L1 => Some 15
  | _ => None
  end.

(** The buttons an extension of type [x] adds, read off the extension bytes
    at [off]: Z and C of the Nunchuk (bits 0 and 1 of byte 5) as L2 and L1,
    the buttons of the Classic Controller and of the guitar by their bit. *)
Definition wiimote_ext_pressed (x : Wiimote.wiimote_ext_type_t)
  (data : list byte) (off : Z) (k : button) : bool :=
  match x with
  | Wiimote.WII_EXT_NUNCHUK =>
      match k with
      | L2 => negb (Z.testbit (at_ data (off + 5)) 0)
      | L1 => negb (Z.testbit (at_ data (off + 5)) 1)
      | _ => false
      end
  | Wiimote.WII_EXT_CLASSIC | Wiimote.WII_EXT_CLASSIC_MINI =>
      match wiimote_classic_bit k with
      | Some i => negb (wiimote_ext_bit data off i)
      | None => false
      end
  | Wiimote.WII_EXT_GUITAR =>
      match wiimote_guitar_bit k with
      | Some i => negb (wiimote_ext_bit data off i)
      | None => false
      end
  | Wiimote.WII_EXT_NONE => false
  end.

(** The buttons of the cached event after a report with core buttons, for
    the driver data [wii] the report met and the orientation [o] the report
    left.  A Wiimote on its own shows its core buttons, turned while it is
    held sideways; one with an extension shows them as they are, together
    with the buttons of the extension. *)
Definition wiimote_cached_pressed (wii : Wiimote.wiimote_data_t)
  (o : Wiimote.wiimote_orient_t) (data : list byte) (k : button) : bool :=
  match Wiimote.ext_type wii, Wiimote.extension_connected wii with
  | Wiimote.WII_EXT_NONE, false =>
      wiimote_core_pressed data
        (match o with
         | Wiimote.WII_ORIENT_HORIZONTAL => unrotated k
         | Wiimote.WII_ORIENT_VERTICAL => k
         end)
  | x, _ =>
      wiimote_core_pressed data k
      || match wiimote_ext_offset data with
         | Some off => wiimote_ext_pressed x data off k
         | None => false
         end
  end.

(** A 6-bit and a 5-bit field stretched to 8 bits. *)
Definition stretch6 (v : Z) : Z := 4 * v + v / 16.
Definition stretch5 (v : Z) : Z := 8 * v + v / 4.

(** The analog axes an extension of type [x] writes, from the extension
    bytes at [off]; the axes it does not write stay as in [old]. *)
Definition wiimote_ext_analog (x : Wiimote.wiimote_ext_type_t)
  (data : list byte) (off : Z) (old : analog_t) : analog_t :=
  let ext i := at_ data (off + i) in
  match x with
  | Wiimote.WII_EXT_NUNCHUK =>
      {| lx := ext 0; ly := 255 - ext 1;
         rx := rx old; ry := ry old; l2 := l2 old; r2 := r2 old |}
  | Wiimote.WII_EXT_CLASSIC =>
      {| lx := stretch6 (ext 0 mod 64);
         ly := 255 - stretch6 (ext 1 mod 64);
         rx := stretch5 (8 * (ext 0 / 64) + 2 * (ext 1 / 64) + ext 2 / 128);
         ry := 255 - stretch5 (ext 2 mod 32);
         l2 := stretch5 ((ext 2 / 32) mod 4 + 4 * ((ext 3 / 16) mod 8));
         r2 := stretch5 (ext 3 mod 32) |}
  | Wiimote.WII_EXT_GUITAR =>
      {| lx := stretch6 (ext 0 mod 64);
         ly := 255 - stretch6 (ext 1 mod 64);
         rx := rx old; ry := ry old;
         l2 := stretch5 (ext 3 mod 32); r2 := r2 old |}
  | Wiimote.WII_EXT_CLASSIC_MINI | Wiimote.WII_EXT_NONE => old
  end.

(** The analog axes of the cached event after a report with core buttons. *)
Definition wiimote_cached_analog (wii : Wiimote.wiimote_data_t)
  (data : list byte) : analog_t :=
  match wiimote_ext_offset data with
  | Some off =>
      wiimote_ext_analog (Wiimote.ext_type wii) data off
        (analog (Wiimote.event wii))
  | None => analog (Wiimote.event wii)
  end.

(** The orientation mode after a report: the hotkey, when it goes down, sets
    it (Up: vertical, otherwise Right: horizontal, otherwise automatic). *)
Definition wiimote_mode_after (mode : Wiimote.orient_mode)
  (wii : Wiimote.wiimote_data_t) (data : list byte) : Wiimote.orient_mode :=
  if wiimote_hotkey_down data && negb (Wiimote.orient_hotkey_active wii) then
    if wiimote_core_down data DU then Wiimote.WII_ORIENT_MODE_VERTICAL
    else if wiimote_core_down data DR then Wiimote.WII_ORIENT_MODE_HORIZONTAL
    else Wiimote.WII_ORIENT_MODE_AUTO
  else mode.

(** The orientation after a report, under the mode the report left: a forced
    mode decides; the automatic mode applies the detector to byte 3 of the
    reports with accelerometer bytes (0x31, 0x33, 0x35, 0x37, at least 6
    bytes) and keeps the orientation on the others. *)
Definition wiimote_orientation_after (mode : Wiimote.orient_mode)
  (data : list byte) (current : Wiimote.wiimote_orient_t)
  : Wiimote.wiimote_orient_t :=
  match mode with
  | Wiimote.WII_ORIENT_MODE_HORIZONTAL => Wiimote.WII_ORIENT_HORIZONTAL
  | Wiimote.WII_ORIENT_MODE_VERTICAL => Wiimote.WII_ORIENT_VERTICAL
  | Wiimote.WII_ORIENT_MODE_AUTO =>
      if ((at_ data 0 =? 0x31) || (at_ data 0 =? 0x33) || (at_ data 0 =? 0x35)
          || (at_ data 0 =? 0x37)) && (6 <=? len_ data)
      then Wiimote.wiimote_detect_orientation (at_ data 3) current
      else current
  end.

(** A Wiimote with a Nunchuk, the handshake waiting for the LED
    acknowledgement. *)
Definition wiimote_with_nunchuk : Wiimote.wiimote_data_t :=
  Wiimote.set_extension_connected
    (Wiimote.set_ext_type
       (wiimote_bare Wiimote.WII_STATE_WAIT_LED_ACK Wiimote.WII_ORIENT_VERTICAL)
       Wiimote.WII_EXT_NUNCHUK) true.

(** Report 0x32: the A button down, the Nunchuk stick at (200, 60), Z down
    and C up. *)
Definition wiimote_nunchuk_report : list byte :=
  [x32; x00; x08; xc8; x3c; x80; x80; x80; x02].

(* ====================================================================== *)
(** * Part II: properties *)
(* ====================================================================== *)

(** ** Integer conversions on values that fit *)

Lemma u8_small x : 0 <= x < 256 -> C.u8 x = x.
Proof. intros Hx. unfold C.u8. apply Z.mod_small. change (2 ^ 8) with 256. lia. Qed.

Lemma u16_small x : 0 <= x < 65536 -> C.u16 x = x.
Proof. intros Hx. unfold C.u16. apply Z.mod_small. change (2 ^ 16) with 65536. lia. Qed.

Lemma u32_small x : 0 <= x < 4294967296 -> C.u32 x = x.
Proof.
  intros Hx. unfold C.u32. apply Z.mod_small.
  change (2 ^ 32) with 4294967296. lia.
Qed.

Lemma s32_small x : -2147483648 <= x < 2147483648 -> C.s32 x = x.
Proof.
  intros Hx. unfold C.s32. change (2 ^ 31) with 2147483648.
  change (2 ^ 32) with 4294967296.
  rewrite Z.mod_small by lia. lia.
Qed.

Lemma u8_range x : 0 <= C.u8 x < 256.
Proof. unfold C.u8. change (2 ^ 8) with 256. apply Z.mod_pos_bound. lia. Qed.

Lemma u16_range x : 0 <= C.u16 x < 65536.
Proof. unfold C.u16. change (2 ^ 16) with 65536. apply Z.mod_pos_bound. lia. Qed.

Lemma u32_range x : 0 <= C.u32 x < 4294967296.
Proof. unfold C.u32. change (2 ^ 32) with 4294967296. apply Z.mod_pos_bound. lia. Qed.

Lemma byte_val_range b : 0 <= byte_val b < 256.
Proof.
  unfold byte_val. pose proof (Byte.to_N_bounded b) as Hb.
  split; [apply N2Z.is_nonneg | lia].
Qed.

Lemma at_range data i : 0 <= at_ data i < 256.
Proof. apply byte_val_range. Qed.

(** ** Generic gamepad: axis scaling *)

Section GamepadScaling.
Import Gamepad.

Lemma scale_analog_total v M :
  2 <= M < 4294967296 -> scale_analog v M <> None.
Proof.
  intros HM. unfold scale_analog.
  rewrite (u32_small M) by lia.
  assert (Hmid : 1 <= M / 2 < 2147483648).
  { split; [apply Z.div_le_lower_bound | apply Z.div_lt_upper_bound]; lia. }
  rewrite (s32_small (M / 2)) by lia.
  destruct (C.u16 v <=? C.u16 (M / 2)).
  - destruct (Z.eqb_spec (M / 2) 0); [lia | discriminate].
  - rewrite (u32_small (M / 2)) by lia.
    assert (Hden : 1 <= M - M / 2 < 4294967296).
    { pose proof (Z.mul_div_le M 2 ltac:(lia)). lia. }
    rewrite (u32_small (M - M / 2)) by lia.
    destruct (Z.eqb_spec (M - M / 2) 0); [lia | discriminate].
Qed.

Lemma scale_analog_zero_below_2 M : 0 <= M < 2 -> scale_analog 0 M = None.
Proof.
  intros HM. assert (E : M = 0 \/ M = 1) by lia.
  destruct E as [-> | ->]; reflexivity.
Qed.

Lemma scale_analog_matches_spec v M :
  2 <= M < 131072 -> 0 <= v <= M -> v < 65536 ->
  scale_analog v M = Some (scale_analog_spec v M) /\
  1 <= scale_analog_spec v M <= 255.
Proof.
  intros HM Hv Hv16. unfold scale_analog, scale_analog_spec.
  rewrite (u32_small M) by lia. rewrite (u16_small v) by lia.
  assert (Hmid : 1 <= M / 2 < 65536).
  { split; [apply Z.div_le_lower_bound | apply Z.div_lt_upper_bound]; lia. }
  assert (Hhalf : 2 * (M / 2) <= M) by (apply Z.mul_div_le; lia).
  rewrite (s32_small (M / 2)) by lia.
  rewrite (u16_small (M / 2)) by lia.
  destruct (Z.leb_spec v (M / 2)) as [Hle | Hgt].
  - destruct (Z.eqb_spec (M / 2) 0); [lia |].
    rewrite (s32_small (v * 127)) by lia.
    rewrite Z.quot_div_nonneg by lia.
    assert (Hq : 0 <= v * 127 / (M / 2) <= 127).
    { split; [apply Z.div_pos; lia | apply Z.div_le_upper_bound; lia]. }
    rewrite s32_small by lia. rewrite u8_small by lia.
    split; [reflexivity | lia].
  - rewrite (u32_small (M / 2)) by lia.
    rewrite (u32_small (M - M / 2)) by lia.
    destruct (Z.eqb_spec (M - M / 2) 0); [lia |].
    rewrite (s32_small (v - M / 2)) by lia.
    rewrite (s32_small ((v - M / 2) * 127)) by lia.
    rewrite (u32_small ((v - M / 2) * 127)) by lia.
    assert (Hq : 0 <= (v - M / 2) * 127 / (M - M / 2) <= 127).
    { split; [apply Z.div_pos; lia | apply Z.div_le_upper_bound; lia]. }
    rewrite u32_small by lia. rewrite u8_small by lia.
    split; [reflexivity | lia].
Qed.

Lemma scale_analog_result_byte v M r :
  scale_analog v M = Some r -> 0 <= r < 256.
Proof.
  unfold scale_analog.
  destruct (_ <=? _).
  - destruct (_ =? 0); [discriminate |]. intros [= <-]. apply u8_range.
  - destruct (_ =? 0); [discriminate |]. intros [= <-]. apply u8_range.
Qed.

End GamepadScaling.

Section GamepadClaims.
Import Gamepad.
Context `{ButtonLayout}.

Lemma axis_byte data loc d r :
  0 <= d < 256 -> axis data loc d = Some r -> 0 <= r < 256.
Proof.
  intros Hd. unfold axis. destruct (max loc =? 0).
  - intros [= <-]. exact Hd.
  - apply scale_analog_result_byte.
Qed.

Lemma keep_stick_range a : 0 <= a < 256 -> 1 <= keep_stick a <= 255.
Proof. intros Ha. unfold keep_stick. destruct (Z.eqb_spec a 0); lia. Qed.

Lemma process_report_dynamic_ranges gp data gp' evs :
  process_report_dynamic gp data = Some (gp', evs) ->
  evs = [event gp'] /\ sticks_in_range (event gp') /\ triggers_in_range (event gp').
Proof.
  unfold process_report_dynamic.
  destruct (axis data (xLoc (map gp)) 128) as [a1|] eqn:E1; [|discriminate].
  destruct (axis data (yLoc (map gp)) 128) as [a2|] eqn:E2; [|discriminate].
  destruct (axis data (zLoc (map gp)) 128) as [a3|] eqn:E3; [|discriminate].
  destruct (axis data (rzLoc (map gp)) 128) as [a4|] eqn:E4; [|discriminate].
  destruct (axis data (rxLoc (map gp)) 0) as [a5|] eqn:E5; [|discriminate].
  destruct (axis data (ryLoc (map gp)) 0) as [a6|] eqn:E6; [|discriminate].
  intros [= <- <-].
  apply axis_byte in E1, E2, E3, E4, E5, E6; try lia.
  pose proof (keep_stick_range a1 E1). pose proof (keep_stick_range a2 E2).
  pose proof (keep_stick_range a3 E3). pose proof (keep_stick_range a4 E4).
  split; [reflexivity |].
  unfold sticks_in_range, triggers_in_range. cbn -[C.u8 keep_stick].
  rewrite !u8_small by lia. lia.
Qed.

Lemma axis_total data loc d :
  max loc = 0 \/ 2 <= max loc < 4294967296 -> axis data loc d <> None.
Proof.
  intros [E | HM]; unfold axis.
  - rewrite E. discriminate.
  - destruct (max loc =? 0); [discriminate |]. now apply scale_analog_total.
Qed.

Lemma process_report_dynamic_total gp data :
  axes_well_scaled (map gp) ->
  exists gp', process_report_dynamic gp data = Some (gp', [event gp']).
Proof.
  intros Hw. unfold process_report_dynamic.
  destruct (axis data (xLoc (map gp)) 128) eqn:E1;
    [| exfalso; revert E1; apply axis_total, Hw; cbn; tauto].
  destruct (axis data (yLoc (map gp)) 128) eqn:E2;
    [| exfalso; revert E2; apply axis_total, Hw; cbn; tauto].
  destruct (axis data (zLoc (map gp)) 128) eqn:E3;
    [| exfalso; revert E3; apply axis_total, Hw; cbn; tauto].
  destruct (axis data (rzLoc (map gp)) 128) eqn:E4;
    [| exfalso; revert E4; apply axis_total, Hw; cbn; tauto].
  destruct (axis data (rxLoc (map gp)) 0) eqn:E5;
    [| exfalso; revert E5; apply axis_total, Hw; cbn; tauto].
  destruct (axis data (ryLoc (map gp)) 0) eqn:E6;
    [| exfalso; revert E6; apply axis_total, Hw; cbn; tauto].
  cbv zeta.
  match goal with |- exists _, Some (?g, _) = _ => exists g; reflexivity end.
Qed.

(** C10.  [scale_analog] divides by [mid = max_value / 2] and by
    [max_value - mid] without a guard: for a logical maximum [M] of the
    parameter's type it is free of division by zero for every raw value
    exactly when [M >= 2].  The caller [process_report_dynamic] scales an
    axis whenever its stored maximum is non-zero, so a descriptor with logical
    maximum 1 and a raw value 0 reaches the division by zero. *)
Theorem scale_analog_division_by_zero (M : Z) (HM : 0 <= M < 4294967296) :
  ((forall v, scale_analog v M <> None) <-> 2 <= M)
  /\ (forall data loc d, max loc <> 0 ->
        axis data loc d = scale_analog (extract_field data loc) (max loc))
  /\ scale_analog 0 1 = None
  /\ (forall gp data,
        max (xLoc (map gp)) = 1 -> extract_field data (xLoc (map gp)) = 0 ->
        process_report_dynamic gp data = None).
Proof.
  repeat split.
  - intros Hall. destruct (Z.le_gt_cases 2 M) as [|Hlt]; [assumption |].
    exfalso. apply (Hall 0). apply scale_analog_zero_below_2. lia.
  - intros HM2 v. apply scale_analog_total. lia.
  - intros data loc d Hmax. unfold axis.
    destruct (Z.eqb_spec (max loc) 0); [contradiction | reflexivity].
  - intros gp data Hmax Hraw. unfold process_report_dynamic, axis.
    rewrite Hmax, Hraw. reflexivity.
Qed.

End GamepadClaims.

Lemma scale_analog_division_by_zero_witness :
  0 <= 1 < 4294967296 /\
  ~ (forall v, Gamepad.scale_analog v 1 <> None) /\
  Gamepad.process_report_dynamic degenerate_gamepad [x00] = None.
Proof.
  pose proof (scale_analog_division_by_zero (H := sample_layout) 1 ltac:(lia))
    as [Hiff [_ [_ Hcaller]]].
  split; [lia |]. split.
  - intros Hall. apply Hiff in Hall. lia.
  - apply Hcaller; reflexivity.
Defined.

Section GamepadFormula.
Import Gamepad.
Context `{ButtonLayout}.

Lemma scale_analog_spec_at_0 M : 2 <= M -> scale_analog_spec 0 M = 1.
Proof.
  intros HM. unfold scale_analog_spec.
  assert (1 <= M / 2) by (apply Z.div_le_lower_bound; lia).
  destruct (Z.leb_spec 0 (M / 2)); [| lia]. reflexivity.
Qed.

Lemma scale_analog_spec_at_mid M : 2 <= M -> scale_analog_spec (M / 2) M = 128.
Proof.
  intros HM. unfold scale_analog_spec.
  assert (1 <= M / 2) by (apply Z.div_le_lower_bound; lia).
  rewrite Z.leb_refl, (Z.mul_comm (M / 2) 127), Z.div_mul by lia. reflexivity.
Qed.

Lemma scale_analog_spec_at_max M : 2 <= M -> scale_analog_spec M M = 255.
Proof.
  intros HM. unfold scale_analog_spec.
  assert (2 * (M / 2) <= M) by (apply Z.mul_div_le; lia).
  assert (1 <= M / 2) by (apply Z.div_le_lower_bound; lia).
  destruct (Z.leb_spec M (M / 2)); [lia |].
  rewrite (Z.mul_comm (M - M / 2) 127), Z.div_mul by lia. reflexivity.
Qed.

(** C6, as amended.  For an axis whose logical maximum [M] satisfies
    [2 <= M < 2^17] and a raw 16-bit value [v] in [[0, M]], [scale_analog]
    returns [1 + (v*127)/mid] when [v <= mid] and
    [128 + ((v-mid)*127)/(M-mid)] otherwise, with [mid = M / 2]; hence 0
    yields 1, [mid] yields 128 and (when [M] itself is a 16-bit value) [M]
    yields 255.  For any report map whose axes are absent or have a maximum
    of at least 2, [process_report_dynamic] submits exactly one event and its
    four stick axes are in [[1, 255]]. *)
Theorem gamepad_scaling_formula (v M : Z)
  (HM : 2 <= M < 131072) (Hv : 0 <= v <= M) (Hv16 : v < 65536) :
  scale_analog v M = Some (scale_analog_spec v M)
  /\ scale_analog_spec v M =
       (if v <=? M / 2 then 1 + (v * 127) / (M / 2)
        else 128 + ((v - M / 2) * 127) / (M - M / 2))
  /\ scale_analog 0 M = Some 1
  /\ scale_analog (M / 2) M = Some 128
  /\ (M < 65536 -> scale_analog M M = Some 255)
  /\ (forall gp data, axes_well_scaled (map gp) ->
        exists gp', process_report_dynamic gp data = Some (gp', [event gp'])
                    /\ sticks_in_range (event gp')).
Proof.
  assert (Hmid : 1 <= M / 2 <= M /\ M / 2 < 65536).
  { repeat split;
      [apply Z.div_le_lower_bound; lia
      | pose proof (Z.mul_div_le M 2 ltac:(lia)); lia
      | apply Z.div_lt_upper_bound; lia]. }
  split; [apply scale_analog_matches_spec; assumption |].
  split; [reflexivity |].
  split.
  { destruct (scale_analog_matches_spec 0 M) as [E _]; try lia.
    rewrite (scale_analog_spec_at_0 M ltac:(lia)) in E. exact E. }
  split.
  { destruct (scale_analog_matches_spec (M / 2) M) as [E _]; try lia.
    rewrite (scale_analog_spec_at_mid M ltac:(lia)) in E. exact E. }
  split.
  { intros HM16.
    destruct (scale_analog_matches_spec M M) as [E _]; try lia.
    rewrite (scale_analog_spec_at_max M ltac:(lia)) in E. exact E. }
  intros gp data Hw.
  destruct (process_report_dynamic_total gp data Hw) as [gp' E].
  exists gp'. split; [exact E |].
  now apply (process_report_dynamic_ranges gp data gp' _ E).
Qed.

End GamepadFormula.

Lemma gamepad_scaling_formula_witness :
  Gamepad.scale_analog 200 255 = Some (Gamepad.scale_analog_spec 200 255)
  /\ Gamepad.scale_analog_spec 200 255 = 200.
Proof.
  split.
  - apply (gamepad_scaling_formula (H := sample_layout) 200 255); lia.
  - reflexivity.
Defined.

(** C6 as stated fails for a logical maximum beyond 17 bits: with
    [M = 131073] the comparison against [(uint16_t)mid = 0] sends the raw
    value 1 to the second branch, whose unsigned division yields 65408, and
    the result converted to [uint8_t] is 0, where the formula gives 1. *)
Lemma gamepad_scaling_fails_for_wide_maximum :
  2 <= 131073 /\ 0 <= 1 <= 131073
  /\ Gamepad.scale_analog 1 131073 = Some 0
  /\ Gamepad.scale_analog_spec 1 131073 = 1
  /\ Gamepad.scale_analog 1 131073 <> Some (Gamepad.scale_analog_spec 1 131073).
Proof.
  repeat split; try lia; try reflexivity.
  vm_compute. discriminate.
Qed.

(** ** Button words *)

Section ButtonWords.
Context `{ButtonLayout}.

Lemma JP_testbit a b : Z.testbit (JP_BUTTON a) (JP_bit b) = button_eqb a b.
Proof.
  rewrite JP_BUTTON_bit, Z.pow2_bits_eqb by apply JP_bit_range.
  destruct (Z.eqb_spec (JP_bit a) (JP_bit b)) as [E | N].
  - apply JP_bit_inj in E. subst b. destruct a; reflexivity.
  - destruct a, b; try reflexivity; exfalso; apply N; reflexivity.
Qed.

Lemma pressed_JP a b : pressed (JP_BUTTON a) b = button_eqb a b.
Proof. apply JP_testbit. Qed.

Lemma pressed_lor x y b : pressed (Z.lor x y) b = pressed x b || pressed y b.
Proof. apply Z.lor_spec. Qed.

Lemma pressed_0 b : pressed 0 b = false.
Proof. apply Z.bits_0. Qed.

Lemma JP_BUTTON_pos b : 0 < JP_BUTTON b.
Proof.
  rewrite JP_BUTTON_bit. apply Z.pow_pos_nonneg; [lia | apply JP_bit_range].
Qed.

End ButtonWords.

(** ** 8BitDo Ultimate *)

Section BitdoClaims.
Import Bitdo.
Context `{ButtonLayout}.

Lemma bitdo_triggers gp data :
  at_ data 0 = REPORT_ID_GAMEPAD -> 10 <= len_ data ->
  exists e, bitdo_process_report gp data = (fst (bitdo_process_report gp data), [e])
            /\ l2 (analog e) = at_ data OFFSET_RT
            /\ r2 (analog e) = at_ data OFFSET_LT.
Proof.
  intros Hid Hlen. unfold bitdo_process_report.
  destruct (Z.ltb_spec (len_ data) 1); [lia |].
  rewrite Hid, Z.eqb_refl. cbn [negb orb].
  destruct (Z.leb_spec (len_ data) OFFSET_BUTTONS_HI);
    [unfold OFFSET_BUTTONS_HI in *; lia |].
  eexists. split; [reflexivity |].
  cbn -[C.u8 at_ or_all]. rewrite !u8_small by apply at_range. split; reflexivity.
Qed.

(** C2, as amended.  On the report
    [03 08 80 80 80 80 00 00 01 00 50] the driver submits one event whose
    button word is exactly B1 (the hat nibble 8 is the released position and
    adds no direction), whose four stick axes are 128 and whose trigger axes
    are 0, [analog[L2]] being byte 7 and [analog[R2]] byte 6 of the report. *)
Theorem bitdo_press_a_event (gp : bitdo_data_t) :
  exists e,
    bitdo_process_report gp bitdo_press_a =
      ({| event := e; initialized := initialized gp;
          rumble_left := rumble_left gp; rumble_right := rumble_right gp |}, [e])
    /\ buttons e = JP_BUTTON B1
    /\ (forall b, pressed (buttons e) b = button_eqb B1 b)
    /\ lx (analog e) = 128 /\ ly (analog e) = 128
    /\ rx (analog e) = 128 /\ ry (analog e) = 128
    /\ l2 (analog e) = at_ bitdo_press_a 7 /\ l2 (analog e) = 0
    /\ r2 (analog e) = at_ bitdo_press_a 6 /\ r2 (analog e) = 0.
Proof.
  eexists. split; [reflexivity |].
  split; [reflexivity |].
  split; [intros b; apply pressed_JP |].
  repeat split; reflexivity.
Qed.

End BitdoClaims.

(** C2 as stated fails: the hat nibble of byte 1 is 8, so no D-pad bit is
    set and the button word is B1 alone, not DU|B1; and the driver does not
    read byte 10, so the battery level stays what it was (0 after
    [bitdo_init]) rather than 80. *)
Lemma bitdo_press_a_has_no_dpad_no_battery :
  exists e,
    snd (Bitdo.bitdo_process_report (Bitdo.bitdo_init 0) bitdo_press_a) = [e]
    /\ buttons e = JP_BUTTON B1
    /\ buttons e <> Z.lor (JP_BUTTON DU) (JP_BUTTON B1)
    /\ pressed (buttons e) DU = false
    /\ battery_level e = 0
    /\ battery_level e <> 80.
Proof.
  eexists. split; [reflexivity |].
  repeat split; try reflexivity; vm_compute; discriminate.
Qed.

(** ** Switch 2 BLE: calibration *)

Section Switch2Claims.
Import Switch2.
Context `{ButtonLayout}.

Lemma len_skipn1 (data : list byte) : 1 <= len_ data -> len_ (skipn 1 data) = len_ data - 1.
Proof. unfold len_. rewrite length_skipn. lia. Qed.

Lemma select_report_len data report :
  select_report data = Some report -> 63 <= len_ report.
Proof.
  unfold select_report.
  destruct (Z.leb_spec 64 (len_ data)) as [H64 | H64]; cbn [andb].
  - destruct (at_ data 0 =? 0xA1).
    + intros [= E]. subst report. change (63 <= len_ (skipn 1 data)).
      rewrite len_skipn1; lia.
    + destruct (Z.leb_spec 63 (len_ data)); [intros [= E]; subst; lia | discriminate].
  - destruct (Z.leb_spec 63 (len_ data)); [intros [= E]; subst; lia | discriminate].
Qed.

Lemma process_invalid sw2 data :
  select_report data = None -> switch2_ble_process_report sw2 data = (sw2, []).
Proof. intros E. unfold switch2_ble_process_report. now rewrite E. Qed.

Lemma process_calibrating sw2 data report :
  select_report data = Some report -> cal_samples sw2 < CAL_SAMPLES_NEEDED ->
  switch2_ble_process_report sw2 data = (calibrate sw2 report, []).
Proof.
  intros E Hc. unfold switch2_ble_process_report. rewrite E.
  apply select_report_len in E.
  destruct (Z.ltb_spec (len_ report) 16); [lia |].
  destruct (Z.ltb_spec (cal_samples sw2) CAL_SAMPLES_NEEDED); [reflexivity | lia].
Qed.

Lemma process_calibrated sw2 data report :
  select_report data = Some report -> CAL_SAMPLES_NEEDED <= cal_samples sw2 ->
  switch2_ble_process_report sw2 data =
    ({| event := build_event sw2 report; initialized := initialized sw2;
        pid := pid sw2;
        cal_lx_center := cal_lx_center sw2; cal_ly_center := cal_ly_center sw2;
        cal_rx_center := cal_rx_center sw2; cal_ry_center := cal_ry_center sw2;
        cal_samples := cal_samples sw2 |}, [build_event sw2 report]).
Proof.
  intros E Hc. unfold switch2_ble_process_report. rewrite E.
  apply select_report_len in E.
  destruct (Z.ltb_spec (len_ report) 16); [lia |].
  destruct (Z.ltb_spec (cal_samples sw2) CAL_SAMPLES_NEEDED); [lia | reflexivity].
Qed.

Lemma no_submit_while_calibrating sw2 data :
  cal_samples sw2 < CAL_SAMPLES_NEEDED ->
  snd (switch2_ble_process_report sw2 data) = [].
Proof.
  intros Hc. destruct (select_report data) as [report |] eqn:E.
  - now rewrite (process_calibrating sw2 data report E Hc).
  - now rewrite (process_invalid sw2 data E).
Qed.

(** The raw stick values are 12-bit. *)
Lemma lor_lt_pow2 a b n :
  0 <= a < 2 ^ n -> 0 <= b < 2 ^ n -> 0 <= Z.lor a b < 2 ^ n.
Proof.
  intros Ha Hb. split; [apply Z.lor_nonneg; lia |].
  destruct (Z.eq_dec (Z.lor a b) 0) as [E | N]; [rewrite E; lia |].
  assert (0 <= Z.lor a b) by (apply Z.lor_nonneg; lia).
  assert (Hn : 0 < n).
  { destruct (Z.lt_trichotomy n 0) as [Hneg | [-> | Hpos]]; [| | exact Hpos].
    - rewrite Z.pow_neg_r in Ha by lia. lia.
    - change (2 ^ 0) with 1 in *. assert (a = 0) by lia. assert (b = 0) by lia.
      subst. now contradiction N. }
  apply Z.log2_lt_pow2; [lia |].
  rewrite Z.log2_lor by lia.
  apply Z.max_lub_lt.
  - destruct (Z.eq_dec a 0) as [-> | ]; [exact Hn | apply Z.log2_lt_pow2; lia].
  - destruct (Z.eq_dec b 0) as [-> | ]; [exact Hn | apply Z.log2_lt_pow2; lia].
Qed.

Lemma low_nibble_shifted x : 0 <= x -> 0 <= Z.shiftl (Z.land x 0x0F) 8 < 2 ^ 12.
Proof.
  intros Hx. change 0x0F with (Z.ones 4). rewrite Z.land_ones by lia.
  rewrite Z.shiftl_mul_pow2 by lia.
  pose proof (Z.mod_pos_bound x (2 ^ 4) ltac:(lia)).
  change (2 ^ 4) with 16 in *. change (2 ^ 8) with 256. change (2 ^ 12) with 4096. lia.
Qed.

Lemma high_nibble x : 0 <= x < 256 -> 0 <= Z.shiftr x 4 < 2 ^ 12.
Proof.
  intros Hx. rewrite Z.shiftr_div_pow2 by lia. change (2 ^ 4) with 16.
  change (2 ^ 12) with 4096.
  split; [apply Z.div_pos; lia | apply Z.div_lt_upper_bound; lia].
Qed.

Lemma byte_shifted_4 x : 0 <= x < 256 -> 0 <= Z.shiftl x 4 < 2 ^ 12.
Proof.
  intros Hx. rewrite Z.shiftl_mul_pow2 by lia. change (2 ^ 4) with 16.
  change (2 ^ 12) with 4096. lia.
Qed.

Lemma raw_12_bit report :
  0 <= raw_lx report < 4096 /\ 0 <= raw_ly report < 4096 /\
  0 <= raw_rx report < 4096 /\ 0 <= raw_ry report < 4096.
Proof.
  assert (B : forall i, 0 <= at_ report i < 2 ^ 12).
  { intros i. pose proof (at_range report i). change (2 ^ 12) with 4096. lia. }
  assert (P : forall a b, 0 <= a < 2 ^ 12 -> 0 <= b < 2 ^ 12 ->
                          0 <= C.u16 (Z.lor a b) < 4096).
  { intros a b Ha Hb. pose proof (lor_lt_pow2 a b 12 Ha Hb) as Hl.
    change (2 ^ 12) with 4096 in Hl. rewrite u16_small; lia. }
  unfold raw_lx, raw_ly, raw_rx, raw_ry.
  repeat split; apply P; try apply B;
    first [ apply low_nibble_shifted; apply at_range
          | apply high_nibble; apply at_range
          | apply byte_shifted_4; apply at_range ].
Qed.

Lemma avg_in_range c r :
  0 <= c < 65536 -> 0 <= r < 65536 ->
  C.u16 (Z.quot (c + r) 2) = avg2 c r /\ 0 <= avg2 c r < 65536.
Proof.
  intros Hc Hr. unfold avg2. rewrite Z.quot_div_nonneg by lia.
  assert (0 <= (c + r) / 2 < 65536).
  { split; [apply Z.div_pos; lia | apply Z.div_lt_upper_bound; lia]. }
  rewrite u16_small by lia. split; [reflexivity | lia].
Qed.

End Switch2Claims.

Section Switch2Calibration.
Import Switch2.
Context `{ButtonLayout}.

Lemma calibrate_first sw2 report :
  cal_samples sw2 = 0 ->
  cal_samples (calibrate sw2 report) = 1
  /\ cal_lx_center (calibrate sw2 report) = raw_lx report
  /\ cal_ly_center (calibrate sw2 report) = raw_ly report
  /\ cal_rx_center (calibrate sw2 report) = raw_rx report
  /\ cal_ry_center (calibrate sw2 report) = raw_ry report.
Proof. intros E. unfold calibrate. cbn [cal_samples cal_lx_center cal_ly_center cal_rx_center cal_ry_center]. rewrite E. repeat split. Qed.

Lemma calibrate_next sw2 report :
  0 < cal_samples sw2 < 255 ->
  0 <= cal_lx_center sw2 < 65536 -> 0 <= cal_ly_center sw2 < 65536 ->
  0 <= cal_rx_center sw2 < 65536 -> 0 <= cal_ry_center sw2 < 65536 ->
  cal_samples (calibrate sw2 report) = cal_samples sw2 + 1
  /\ cal_lx_center (calibrate sw2 report) = avg2 (cal_lx_center sw2) (raw_lx report)
  /\ cal_ly_center (calibrate sw2 report) = avg2 (cal_ly_center sw2) (raw_ly report)
  /\ cal_rx_center (calibrate sw2 report) = avg2 (cal_rx_center sw2) (raw_rx report)
  /\ cal_ry_center (calibrate sw2 report) = avg2 (cal_ry_center sw2) (raw_ry report).
Proof.
  intros Hs Hlx Hly Hrx Hry. unfold calibrate.
  cbn [cal_samples cal_lx_center cal_ly_center cal_rx_center cal_ry_center].
  destruct (Z.eqb_spec (cal_samples sw2) 0); [lia |].
  pose proof (raw_12_bit report) as (Rlx & Rly & Rrx & Rry).
  rewrite u8_small by lia.
  split; [reflexivity |].
  repeat split; apply avg_in_range; lia.
Qed.

Lemma avg2_range c r : 0 <= c < 65536 -> 0 <= r < 4096 -> 0 <= avg2 c r < 65536.
Proof. intros Hc Hr. apply avg_in_range; lia. Qed.

Lemma build_event_axes s report :
  let left_range :=
    if pid s =? SW2_GC_PID then SW2_GC_AXIS_RANGE else SW2_PRO_AXIS_RANGE in
  let right_range :=
    if pid s =? SW2_GC_PID then SW2_GC_CSTICK_RANGE else SW2_PRO_AXIS_RANGE in
  lx (analog (build_event s report)) =
    scale_analog_calibrated (raw_lx report) (cal_lx_center s) left_range
  /\ ly (analog (build_event s report)) =
       C.u8 (255 - scale_analog_calibrated (raw_ly report) (cal_ly_center s) left_range)
  /\ rx (analog (build_event s report)) =
       scale_analog_calibrated (raw_rx report) (cal_rx_center s) right_range
  /\ ry (analog (build_event s report)) =
       C.u8 (255 - scale_analog_calibrated (raw_ry report) (cal_ry_center s) right_range).
Proof.
  intros left_range right_range. unfold build_event.
  fold left_range. fold right_range.
  cbn -[C.u8 scale_analog_calibrated].
  repeat split.
  - apply u8_small, u8_range.
  - unfold C.u8 at 1. apply Z.mod_mod. discriminate.
  - apply u8_small, u8_range.
  - unfold C.u8 at 1. apply Z.mod_mod. discriminate.
Qed.

(** C3, as amended.  From a slot with no calibration sample, the first four
    valid reports are used for calibration only: none of them reaches the
    router, the first sets each centre to the raw 12-bit value, and each of
    the next three replaces the centre by [(centre + raw) / 2], a running
    pairwise average.  Every later valid report is forwarded as one event,
    scaled around these centres with the range of the controller type, the
    Y axes inverted.  While fewer than four samples were taken no report is
    ever forwarded, and too short a buffer changes nothing. *)
Theorem switch2_calibration_then_forward
  (sw2 : switch2_ble_data_t) (d1 d2 d3 d4 d5 r1 r2 r3 r4 r5 : list byte)
  (H0 : cal_samples sw2 = 0)
  (E1 : select_report d1 = Some r1) (E2 : select_report d2 = Some r2)
  (E3 : select_report d3 = Some r3) (E4 : select_report d4 = Some r4)
  (E5 : select_report d5 = Some r5) :
  let s4 := fst (run sw2 [d1; d2; d3; d4]) in
  let left_range :=
    if pid sw2 =? SW2_GC_PID then SW2_GC_AXIS_RANGE else SW2_PRO_AXIS_RANGE in
  let right_range :=
    if pid sw2 =? SW2_GC_PID then SW2_GC_CSTICK_RANGE else SW2_PRO_AXIS_RANGE in
  snd (run sw2 [d1; d2; d3; d4]) = []
  /\ cal_samples s4 = CAL_SAMPLES_NEEDED
  /\ cal_lx_center s4 = running_center (raw_lx r1) (raw_lx r2) (raw_lx r3) (raw_lx r4)
  /\ cal_ly_center s4 = running_center (raw_ly r1) (raw_ly r2) (raw_ly r3) (raw_ly r4)
  /\ cal_rx_center s4 = running_center (raw_rx r1) (raw_rx r2) (raw_rx r3) (raw_rx r4)
  /\ cal_ry_center s4 = running_center (raw_ry r1) (raw_ry r2) (raw_ry r3) (raw_ry r4)
  /\ (0 <= raw_lx r1 < 4096 /\ 0 <= raw_ly r1 < 4096 /\
      0 <= raw_rx r1 < 4096 /\ 0 <= raw_ry r1 < 4096)
  /\ snd (switch2_ble_process_report s4 d5) = [build_event s4 r5]
  /\ cal_samples (fst (switch2_ble_process_report s4 d5)) = CAL_SAMPLES_NEEDED
  /\ lx (analog (build_event s4 r5)) =
       scale_analog_calibrated (raw_lx r5) (cal_lx_center s4) left_range
  /\ ly (analog (build_event s4 r5)) =
       C.u8 (255 - scale_analog_calibrated (raw_ly r5) (cal_ly_center s4) left_range)
  /\ rx (analog (build_event s4 r5)) =
       scale_analog_calibrated (raw_rx r5) (cal_rx_center s4) right_range
  /\ ry (analog (build_event s4 r5)) =
       C.u8 (255 - scale_analog_calibrated (raw_ry r5) (cal_ry_center s4) right_range)
  /\ (forall s data, cal_samples s < CAL_SAMPLES_NEEDED ->
        snd (switch2_ble_process_report s data) = [])
  /\ (forall s data, select_report data = None ->
        switch2_ble_process_report s data = (s, [])).
Proof.
  intros s4 left_range right_range.
  pose proof (raw_12_bit r1) as (A1 & A2 & A3 & A4).
  pose proof (raw_12_bit r2) as (B1' & B2' & B3' & B4').
  pose proof (raw_12_bit r3) as (C1 & C2 & C3 & C4).
  pose proof (raw_12_bit r4) as (D1 & D2 & D3 & D4).
  destruct (calibrate_first sw2 r1 H0) as (S1 & X1 & Y1 & Z1 & W1).
  set (c1 := calibrate sw2 r1) in *.
  destruct (calibrate_next c1 r2) as (S2' & X2 & Y2 & Z2 & W2); try lia.
  set (c2 := calibrate c1 r2) in *.
  assert (Q2 : 0 <= cal_lx_center c2 < 65536 /\ 0 <= cal_ly_center c2 < 65536 /\
               0 <= cal_rx_center c2 < 65536 /\ 0 <= cal_ry_center c2 < 65536).
  { rewrite X2, Y2, Z2, W2, X1, Y1, Z1, W1. repeat split; apply avg2_range; lia. }
  destruct (calibrate_next c2 r3) as (S3' & X3 & Y3 & Z3 & W3); try lia.
  set (c3 := calibrate c2 r3) in *.
  assert (Q3 : 0 <= cal_lx_center c3 < 65536 /\ 0 <= cal_ly_center c3 < 65536 /\
               0 <= cal_rx_center c3 < 65536 /\ 0 <= cal_ry_center c3 < 65536).
  { rewrite X3, Y3, Z3, W3. repeat split; apply avg2_range; lia. }
  destruct (calibrate_next c3 r4) as (S4' & X4 & Y4 & Z4 & W4); try lia.
  set (c4 := calibrate c3 r4) in *.
  assert (R : run sw2 [d1; d2; d3; d4] = (c4, [])).
  { cbn [run].
    rewrite (process_calibrating sw2 d1 r1 E1) by (unfold CAL_SAMPLES_NEEDED; lia).
    fold c1.
    rewrite (process_calibrating c1 d2 r2 E2) by (unfold CAL_SAMPLES_NEEDED; lia).
    fold c2.
    rewrite (process_calibrating c2 d3 r3 E3) by (unfold CAL_SAMPLES_NEEDED; lia).
    fold c3.
    rewrite (process_calibrating c3 d4 r4 E4) by (unfold CAL_SAMPLES_NEEDED; lia).
    reflexivity. }
  assert (Es4 : s4 = c4) by (unfold s4; now rewrite R).
  assert (P4 : pid c4 = pid sw2) by reflexivity.
  rewrite R, Es4. cbn [snd].
  assert (S4 : cal_samples c4 = CAL_SAMPLES_NEEDED) by (unfold CAL_SAMPLES_NEEDED; lia).
  rewrite (process_calibrated c4 d5 r5 E5) by lia.
  cbn [fst snd cal_samples].
  pose proof (build_event_axes c4 r5) as Ax. cbv zeta in Ax. rewrite P4 in Ax.
  fold left_range in Ax. fold right_range in Ax.
  destruct Ax as (Ax1 & Ax2 & Ax3 & Ax4).
  rewrite Ax1, Ax2, Ax3, Ax4.
  unfold running_center.
  rewrite X4, Y4, Z4, W4, X3, Y3, Z3, W3, X2, Y2, Z2, W2, X1, Y1, Z1, W1.
  repeat split; try lia; try reflexivity.
  - apply no_submit_while_calibrating.
  - apply process_invalid.
Qed.

End Switch2Calibration.

Lemma switch2_calibration_then_forward_witness :
  snd (Switch2.run sw2_fresh [sw2_centered; sw2_centered; sw2_centered; sw2_centered]) = []
  /\ Switch2.cal_lx_center
       (fst (Switch2.run sw2_fresh
               [sw2_centered; sw2_centered; sw2_centered; sw2_centered])) = 2048
  /\ exists e,
       snd (Switch2.switch2_ble_process_report
              (fst (Switch2.run sw2_fresh
                      [sw2_centered; sw2_centered; sw2_centered; sw2_centered]))
              sw2_lx_4000) = [e]
       /\ lx (analog e) = 255.
Proof.
  pose proof (switch2_calibration_then_forward (H := sample_layout) sw2_fresh
                sw2_centered sw2_centered sw2_centered sw2_centered sw2_lx_4000
                sw2_centered sw2_centered sw2_centered sw2_centered sw2_lx_4000
                eq_refl eq_refl eq_refl eq_refl eq_refl eq_refl) as T.
  cbv zeta in T.
  destruct T as (T1 & _ & T3 & _ & _ & _ & _ & T8 & _).
  split; [exact T1 |]. split; [rewrite T3; reflexivity |].
  eexists. split; [exact T8 | reflexivity].
Defined.

(** C3 as stated fails where it says the centres are the average of the
    four samples: for the raw LX samples 0, 0, 0, 4000 the driver ends with
    the centre 2000, while their average is 1000. *)
Lemma switch2_center_is_not_the_mean :
  Switch2.raw_lx sw2_lx_0 = 0 /\ Switch2.raw_lx sw2_lx_4000 = 4000
  /\ Switch2.cal_lx_center
       (fst (Switch2.run sw2_fresh [sw2_lx_0; sw2_lx_0; sw2_lx_0; sw2_lx_4000])) = 2000
  /\ mean4 0 0 0 4000 = 1000
  /\ Switch2.cal_lx_center
       (fst (Switch2.run sw2_fresh [sw2_lx_0; sw2_lx_0; sw2_lx_0; sw2_lx_4000]))
     <> mean4 (Switch2.raw_lx sw2_lx_0) (Switch2.raw_lx sw2_lx_0)
              (Switch2.raw_lx sw2_lx_0) (Switch2.raw_lx sw2_lx_4000).
Proof.
  repeat split; try reflexivity. vm_compute. discriminate.
Qed.

(** ** Stick axes of the Switch 2 and Wii U Pro drivers *)

Section StickAxisRanges.
Context `{ButtonLayout}.

Lemma scale_stick_range val : 1 <= WiiUPro.scale_stick val <= 255.
Proof.
  unfold WiiUPro.scale_stick. cbv zeta.
  match goal with
  | |- context [if 255 <? ?t then _ else _] =>
      destruct (Z.ltb_spec 255 t) as [Hhi | Hhi]
  end.
  - rewrite u8_small; lia.
  - match type of Hhi with
    | (if ?s <? 1 then _ else _) <= _ =>
        revert Hhi; destruct (Z.ltb_spec s 1); intros Hhi; rewrite u8_small; lia
    end.
Qed.

Lemma scale_analog_calibrated_range val center range :
  0 <= Switch2.scale_analog_calibrated val center range <= 255.
Proof.
  unfold Switch2.scale_analog_calibrated. cbv zeta.
  match goal with
  | |- context [if 127 <? ?t then _ else _] =>
      destruct (Z.ltb_spec 127 t) as [Hhi | Hhi]
  end.
  - rewrite u8_small; lia.
  - match type of Hhi with
    | (if ?s <? -128 then _ else _) <= _ =>
        revert Hhi; destruct (Z.ltb_spec s (-128)); intros Hhi; rewrite u8_small; lia
    end.
Qed.

(** C1: the invariant is broken by both drivers.  A Wii U Pro report with
    the left stick fully up ([LY = 2048 + 1200]) is submitted with
    [analog[LY] = 255 - 255 = 0]; after calibration at rest, a Switch 2
    report with raw [LX = 0] is submitted with [analog[LX] = 0] and one with
    raw [LY = 0xFFF] with [analog[LY] = 255 - 255 = 0].  What does hold:
    [scale_stick] stays in [[1, 255]] and [scale_analog_calibrated] in
    [[0, 255]]. *)
Theorem stick_axis_zero_is_submitted :
  (exists e,
     snd (WiiUPro.wii_u_process_report wiiu_ready wiiu_ly_max 5000)
       = [WiiUPro.router_submit_input e]
     /\ ly (analog e) = 0 /\ ~ sticks_in_range e)
  /\ (exists e,
        snd (Switch2.run sw2_fresh
               [sw2_centered; sw2_centered; sw2_centered; sw2_centered; sw2_lx_min])
          = [e]
        /\ lx (analog e) = 0 /\ ~ sticks_in_range e)
  /\ (exists e,
        snd (Switch2.run sw2_fresh
               [sw2_centered; sw2_centered; sw2_centered; sw2_centered; sw2_ly_max])
          = [e]
        /\ ly (analog e) = 0 /\ ~ sticks_in_range e)
  /\ (forall val, 1 <= WiiUPro.scale_stick val <= 255)
  /\ (forall val center range,
        0 <= Switch2.scale_analog_calibrated val center range <= 255).
Proof.
  split; [| split; [| split; [| split]]].
  - eexists. split; [reflexivity |]. split; [reflexivity |].
    intros (_ & Hly & _). change (1 <= 0 <= 255) in Hly. lia.
  - eexists. split; [reflexivity |]. split; [reflexivity |].
    intros (Hlx & _). change (1 <= 0 <= 255) in Hlx. lia.
  - eexists. split; [reflexivity |]. split; [reflexivity |].
    intros (_ & Hly & _). change (1 <= 0 <= 255) in Hly. lia.
  - apply scale_stick_range.
  - apply scale_analog_calibrated_range.
Qed.

End StickAxisRanges.

(** ** Native hosts: disconnect debounce *)

Section N64Debounce.
Import N64Host.
Context `{ButtonLayout}.

Lemma n64_rumble_feedback_frame s env port :
  let s' := fst (rumble_feedback s env port) in
  initialized s' = initialized s
  /\ connected_polls s' = connected_polls s
  /\ disconnect_debounce s' = disconnect_debounce s
  /\ rumble_pak_initialized s' = rumble_pak_initialized s
  /\ prev_buttons s' = prev_buttons s
  /\ prev_stick_x s' = prev_stick_x s /\ prev_stick_y s' = prev_stick_y s
  /\ prev_l s' = prev_l s /\ prev_r s' = prev_r s
  /\ n64_submitted (snd (rumble_feedback s env port)) = [].
Proof.
  unfold rumble_feedback.
  destruct (feedback env) as [f |]; [| cbn; tauto].
  destruct (rumble_dirty f); [| cbn; tauto].
  destruct (negb _); cbn; tauto.
Qed.

Lemma n64_submit_input_frame s env port :
  let s' := fst (submit_input s env port) in
  initialized s' = initialized s
  /\ connected_polls s' = connected_polls s
  /\ disconnect_debounce s' = disconnect_debounce s.
Proof.
  unfold submit_input. destruct (negb (success env)); [cbn; tauto |].
  destruct (map_c_buttons_to_analog _). destruct (_ && _); cbn; tauto.
Qed.

Lemma n64_flush_frame s env :
  let s' := fst (n64_host_flush_rumble s env) in
  initialized s' = initialized s
  /\ connected_polls s' = connected_polls s
  /\ disconnect_debounce s' = disconnect_debounce s.
Proof.
  unfold n64_host_flush_rumble.
  destruct (negb (initialized s)); [cbn; tauto |].
  destruct (negb (is_connected env)); [cbn; tauto |].
  destruct (_ && _); cbn; tauto.
Qed.

Lemma n64_absent_step s env :
  n64_connected s -> 0 <= disconnect_debounce s < 30 -> n64_absent env ->
  let s' := fst (n64_host_task s env) in
  let out := snd (n64_host_task s env) in
  initialized s' = true
  /\ (disconnect_debounce s < 29 ->
        n64_submitted out = []
        /\ connected_polls s' = connected_polls s
        /\ disconnect_debounce s' = disconnect_debounce s + 1
        /\ rumble_pak_initialized s' = rumble_pak_initialized s
        /\ prev_buttons s' = prev_buttons s
        /\ prev_stick_x s' = prev_stick_x s /\ prev_stick_y s' = prev_stick_y s
        /\ prev_l s' = prev_l s /\ prev_r s' = prev_r s)
  /\ (disconnect_debounce s = 29 ->
        n64_submitted out = [router_submit_input (neutral_event 0)]
        /\ connected_polls s' = 0
        /\ disconnect_debounce s' = 0).
Proof.
  intros [Hi Hc] Hd [Ha Hs]. unfold n64_host_task. rewrite Hi. cbn [negb].
  pose proof (n64_rumble_feedback_frame s env 0) as F. cbv zeta in F.
  destruct (rumble_feedback s env 0) as [s1 o1]. cbn [fst snd] in F.
  destruct F as (F1 & F2 & F3 & F4 & F5 & F6 & F7 & F8 & F9 & F10).
  unfold track_connection. rewrite Ha. cbn [negb].
  destruct (Z.ltb_spec 0 (connected_polls s1)); [| lia].
  rewrite u8_small by lia.
  destruct (Z.leb_spec 30 (disconnect_debounce s1 + 1)) as [H30 | H30].
  - unfold pak_init, submit_input, n64_host_flush_rumble.
    rewrite Ha, Hs. cbn [andb negb connected_polls initialized].
    rewrite F1, Hi. cbn [negb fst snd].
    unfold n64_submitted in *. rewrite !filter_app, F10. cbn.
    repeat split; intros; try lia; reflexivity.
  - unfold pak_init, submit_input, n64_host_flush_rumble.
    rewrite Ha, Hs. cbn [andb negb connected_polls initialized].
    rewrite F1, Hi. cbn [negb fst snd].
    unfold n64_submitted in *. rewrite !filter_app, F10. cbn.
    repeat split; intros; try lia; try congruence.
Qed.

(** The connection part of one task call, for any poll outcome. *)
Lemma n64_connection_step s env :
  n64_connected s -> 0 <= disconnect_debounce s < 30 ->
  let s' := fst (n64_host_task s env) in
  (is_connected env = true ->
     disconnect_debounce s' = 0 /\ 0 < connected_polls s' <= 255)
  /\ (is_connected env = false ->
        (connected_polls s' = 0 <-> disconnect_debounce s = 29)).
Proof.
  intros [Hi Hc] Hd. unfold n64_host_task. rewrite Hi. cbn [negb].
  pose proof (n64_rumble_feedback_frame s env 0) as F. cbv zeta in F.
  destruct (rumble_feedback s env 0) as [s1 o1]. cbn [fst snd] in F.
  destruct F as (F1 & F2 & F3 & _).
  destruct (track_connection s1 env 0) as [s2 o2] eqn:T.
  destruct (pak_init s2 env) as [s3 o3] eqn:P.
  pose proof (n64_submit_input_frame s3 env 0) as F3'. cbv zeta in F3'.
  destruct (submit_input s3 env 0) as [s4 o4]. cbn [fst] in F3'.
  pose proof (n64_flush_frame s4 env) as F4'. cbv zeta in F4'.
  destruct (n64_host_flush_rumble s4 env) as [s5 o5]. cbn [fst] in F4'.
  destruct F3' as (_ & G2 & G3). destruct F4' as (_ & K2 & K3).
  cbn [fst]. rewrite K2, K3, G2, G3.
  unfold track_connection in T. unfold pak_init in P.
  split; intros Hconn; rewrite Hconn in *; cbn [negb andb] in *.
  - injection T as <- _. cbn [connected_polls disconnect_debounce] in P.
    destruct (Z.eqb_spec (connected_polls s1) 0); [lia |].
    destruct (Z.ltb_spec 0 (connected_polls s1)); [| lia].
    destruct (Z.ltb_spec (connected_polls s1) 255); cbn [andb] in P.
    + injection P as <- _. cbn. rewrite u8_small by lia. lia.
    + injection P as <- _. cbn. lia.
  - injection P as <- _.
    destruct (Z.ltb_spec 0 (connected_polls s1)); [| lia].
    rewrite u8_small in T by lia.
    destruct (Z.leb_spec 30 (disconnect_debounce s1 + 1));
      injection T as <- _; cbn; lia.
Qed.

Lemma n64_run_app s l1 l2 :
  run s (l1 ++ l2) =
    (fst (run (fst (run s l1)) l2), snd (run s l1) ++ snd (run (fst (run s l1)) l2)).
Proof.
  revert s. induction l1 as [| env l1 IH]; intros s; cbn [run app].
  - cbn. now destruct (run s l2).
  - destruct (n64_host_task s env) as [s1 o1]. rewrite IH.
    destruct (run s1 l1) as [s2 o2]. cbn [fst snd].
    destruct (run s2 l2) as [s3 o3]. cbn [fst snd]. now rewrite app_assoc.
Qed.

(** A run of absent polls shorter than what is left of the debounce window
    submits nothing and leaves the connection and the input tracking alone. *)
Lemma n64_short_run envs : forall s,
  n64_connected s -> 0 <= disconnect_debounce s ->
  Forall n64_absent envs ->
  disconnect_debounce s + Z.of_nat (length envs) < 30 ->
  let s' := fst (run s envs) in
  n64_submitted (snd (run s envs)) = []
  /\ n64_connected s'
  /\ connected_polls s' = connected_polls s
  /\ disconnect_debounce s' = disconnect_debounce s + Z.of_nat (length envs)
  /\ rumble_pak_initialized s' = rumble_pak_initialized s
  /\ prev_buttons s' = prev_buttons s
  /\ prev_stick_x s' = prev_stick_x s /\ prev_stick_y s' = prev_stick_y s
  /\ prev_l s' = prev_l s /\ prev_r s' = prev_r s.
Proof.
  induction envs as [| env envs IH]; intros s Hc Hd Hall Hlen.
  - cbn. repeat split; try apply Hc; lia.
  - inversion Hall as [| ? ? Hab Hrest]; subst.
    cbn [length] in Hlen. rewrite Nat2Z.inj_succ in Hlen.
    destruct (n64_absent_step s env Hc ltac:(lia) Hab) as (Si & Slt & _).
    destruct Slt as (S1' & S2' & S3' & S4' & S5' & S6' & S7' & S8' & S9'); [lia |].
    cbn [run]. destruct (n64_host_task s env) as [s1 o1]. cbn [fst snd] in *.
    assert (Hc1 : n64_connected s1).
    { destruct Hc as [_ Hc]. split; [exact Si | lia]. }
    specialize (IH s1 Hc1 ltac:(lia) Hrest ltac:(lia)). cbv zeta in IH.
    destruct (run s1 envs) as [s2 o2]. cbn [fst snd] in *.
    destruct IH as (I1 & I2 & I3 & I4 & I5 & I6 & I7 & I8 & I9 & I10).
    unfold n64_submitted in *. rewrite filter_app, S1', I1.
    cbn [length]. rewrite Nat2Z.inj_succ.
    repeat split; try apply I2; try congruence; lia.
Qed.

Lemma n64_thirtieth envs s :
  n64_connected s -> disconnect_debounce s = 0 ->
  Forall n64_absent envs -> length envs = 30%nat ->
  n64_submitted (snd (run s envs)) = [router_submit_input (neutral_event 0)]
  /\ connected_polls (fst (run s envs)) = 0
  /\ disconnect_debounce (fst (run s envs)) = 0.
Proof.
  intros Hc Hd Hall Hlen.
  destruct (exists_last (l := envs)) as (front & last & ->);
    [intros ->; discriminate |].
  rewrite length_app in Hlen. cbn in Hlen.
  apply Forall_app in Hall as [Hfront Hlast].
  inversion Hlast as [| ? ? Hab _]; subst.
  rewrite n64_run_app.
  destruct (n64_short_run front s Hc ltac:(lia) Hfront ltac:(lia))
    as (F1 & F2 & F3 & F4 & _).
  set (s1 := fst (run s front)) in *.
  cbn [run fst snd].
  destruct (n64_absent_step s1 last F2 ltac:(lia) Hab) as (_ & _ & S29).
  destruct S29 as (T1 & T2 & T3); [lia |].
  destruct (n64_host_task s1 last) as [s2 o2]. cbn [fst snd] in *.
  unfold n64_submitted in *. rewrite filter_app, F1, app_nil_r.
  cbn [app]. repeat split; assumption.
Qed.

End N64Debounce.

Section GcDebounce.
Import GcHost.
Context `{ButtonLayout}.

Lemma gc_rumble_feedback_frame s env port :
  let s' := fst (rumble_feedback s env port) in
  initialized s' = initialized s
  /\ was_connected s' = was_connected s
  /\ disconnect_debounce s' = disconnect_debounce s
  /\ prev_buttons s' = prev_buttons s
  /\ gc_submitted (snd (rumble_feedback s env port)) = [].
Proof.
  unfold rumble_feedback.
  destruct (feedback env) as [f |]; [| cbn; tauto].
  destruct (rumble_dirty f); [| cbn; tauto].
  destruct (negb _); cbn; tauto.
Qed.

Lemma gc_absent_step s env :
  gc_connected s -> 0 <= disconnect_debounce s < 30 -> gc_absent env ->
  let s' := fst (gc_host_task s env) in
  let out := snd (gc_host_task s env) in
  initialized s' = true
  /\ (disconnect_debounce s < 29 ->
        gc_submitted out = []
        /\ was_connected s' = true
        /\ disconnect_debounce s' = disconnect_debounce s + 1
        /\ prev_buttons s' = prev_buttons s)
  /\ (disconnect_debounce s = 29 ->
        gc_submitted out = [router_submit_input (neutral_event 0)]
        /\ was_connected s' = false
        /\ disconnect_debounce s' = 0).
Proof.
  intros [Hi Hc] Hd [Ha Hs]. unfold gc_host_task. rewrite Hi. cbn [negb].
  pose proof (gc_rumble_feedback_frame s env 0) as F. cbv zeta in F.
  destruct (rumble_feedback s env 0) as [s1 o1]. cbn [fst snd] in F.
  destruct F as (F1 & F2 & F3 & F4 & F5).
  unfold track_connection, submit_input. rewrite Ha, Hs, F2, Hc. cbn [negb].
  rewrite u8_small by lia.
  destruct (Z.leb_spec 30 (disconnect_debounce s1 + 1)) as [H30 | H30];
    cbn [fst snd initialized was_connected disconnect_debounce prev_buttons];
    unfold gc_submitted in *; rewrite !filter_app, F5; cbn;
    repeat split; intros; try lia; try congruence.
Qed.

Lemma gc_connection_step s env :
  gc_connected s -> 0 <= disconnect_debounce s < 30 ->
  let s' := fst (gc_host_task s env) in
  (is_connected env = true ->
     disconnect_debounce s' = 0 /\ was_connected s' = true)
  /\ (is_connected env = false ->
        (was_connected s' = false <-> disconnect_debounce s = 29)).
Proof.
  intros [Hi Hc] Hd. unfold gc_host_task. rewrite Hi. cbn [negb].
  pose proof (gc_rumble_feedback_frame s env 0) as F. cbv zeta in F.
  destruct (rumble_feedback s env 0) as [s1 o1]. cbn [fst snd] in F.
  destruct F as (F1 & F2 & F3 & _).
  unfold track_connection, submit_input. rewrite F2, Hc.
  split; intros Hconn; rewrite Hconn; cbn [negb].
  - destruct (negb (success env)); cbn; tauto.
  - rewrite u8_small by lia.
    destruct (Z.leb_spec 30 (disconnect_debounce s1 + 1));
      destruct (negb (success env)); cbn; rewrite ?F2, ?Hc;
      split; intros; try lia; try congruence.
Qed.

Lemma gc_run_app s l1 l2 :
  run s (l1 ++ l2) =
    (fst (run (fst (run s l1)) l2), snd (run s l1) ++ snd (run (fst (run s l1)) l2)).
Proof.
  revert s. induction l1 as [| env l1 IH]; intros s; cbn [run app].
  - cbn. now destruct (run s l2).
  - destruct (gc_host_task s env) as [s1 o1]. rewrite IH.
    destruct (run s1 l1) as [s2 o2]. cbn [fst snd].
    destruct (run s2 l2) as [s3 o3]. cbn [fst snd]. now rewrite app_assoc.
Qed.

Lemma gc_short_run envs : forall s,
  gc_connected s -> 0 <= disconnect_debounce s ->
  Forall gc_absent envs ->
  disconnect_debounce s + Z.of_nat (length envs) < 30 ->
  let s' := fst (run s envs) in
  gc_submitted (snd (run s envs)) = []
  /\ gc_connected s'
  /\ disconnect_debounce s' = disconnect_debounce s + Z.of_nat (length envs)
  /\ prev_buttons s' = prev_buttons s.
Proof.
  induction envs as [| env envs IH]; intros s Hc Hd Hall Hlen.
  - cbn. repeat split; try apply Hc; lia.
  - inversion Hall as [| ? ? Hab Hrest]; subst.
    cbn [length] in Hlen. rewrite Nat2Z.inj_succ in Hlen.
    destruct (gc_absent_step s env Hc ltac:(lia) Hab) as (Si & Slt & _).
    destruct Slt as (S1' & S2' & S3' & S4'); [lia |].
    cbn [run]. destruct (gc_host_task s env) as [s1 o1]. cbn [fst snd] in *.
    assert (Hc1 : gc_connected s1) by (split; assumption).
    specialize (IH s1 Hc1 ltac:(lia) Hrest ltac:(lia)). cbv zeta in IH.
    destruct (run s1 envs) as [s2 o2]. cbn [fst snd] in *.
    destruct IH as (I1 & I2 & I3 & I4).
    unfold gc_submitted in *. rewrite filter_app, S1', I1.
    cbn [length]. rewrite Nat2Z.inj_succ.
    repeat split; try apply I2; try congruence; lia.
Qed.

Lemma gc_thirtieth envs s :
  gc_connected s -> disconnect_debounce s = 0 ->
  Forall gc_absent envs -> length envs = 30%nat ->
  gc_submitted (snd (run s envs)) = [router_submit_input (neutral_event 0)]
  /\ was_connected (fst (run s envs)) = false
  /\ disconnect_debounce (fst (run s envs)) = 0.
Proof.
  intros Hc Hd Hall Hlen.
  destruct (exists_last (l := envs)) as (front & last & ->);
    [intros ->; discriminate |].
  rewrite length_app in Hlen. cbn in Hlen.
  apply Forall_app in Hall as [Hfront Hlast].
  inversion Hlast as [| ? ? Hab _]; subst.
  rewrite gc_run_app.
  destruct (gc_short_run front s Hc ltac:(lia) Hfront ltac:(lia))
    as (F1 & F2 & F3 & _).
  set (s1 := fst (run s front)) in *.
  cbn [run fst snd].
  destruct (gc_absent_step s1 last F2 ltac:(lia) Hab) as (_ & _ & S29).
  destruct S29 as (T1 & T2 & T3); [lia |].
  destruct (gc_host_task s1 last) as [s2 o2]. cbn [fst snd] in *.
  unfold gc_submitted in *. rewrite filter_app, F1, app_nil_r.
  cbn [app]. repeat split; assumption.
Qed.

End GcDebounce.

Section NativeHostClaim.
Context `{ButtonLayout}.

(** C8.  A controller the N64 or GameCube host regards as connected, whose
    last poll found it present (debounce counter 0), is declared
    disconnected only by the 30th of 30 consecutive absent polls.  On that
    poll the driver submits one neutral event for the port (a gamepad event
    with the address of the port, 0xE0 for the N64 port and 0xD0 for the
    GameCube port, instance 0, no button, the four stick axes at 128, the
    triggers at 0) and forgets the connection; any shorter run of
    absent polls submits nothing and leaves the connection state and the
    input tracking as they were, the run being merely counted.  A poll that
    finds the controller present restarts the count, and a single poll
    declares a disconnect exactly when it is absent and 29 absent polls
    precede it. *)
Theorem native_host_disconnect_debounce :
  (forall s envs,
     n64_connected s -> N64Host.disconnect_debounce s = 0 ->
     Forall n64_absent envs ->
     ((length envs < 30)%nat ->
        n64_submitted (snd (N64Host.run s envs)) = []
        /\ n64_connected (fst (N64Host.run s envs))
        /\ N64Host.connected_polls (fst (N64Host.run s envs)) = N64Host.connected_polls s
        /\ N64Host.rumble_pak_initialized (fst (N64Host.run s envs))
             = N64Host.rumble_pak_initialized s
        /\ N64Host.prev_buttons (fst (N64Host.run s envs)) = N64Host.prev_buttons s
        /\ N64Host.disconnect_debounce (fst (N64Host.run s envs))
             = Z.of_nat (length envs))
     /\ (length envs = 30%nat ->
           n64_submitted (snd (N64Host.run s envs))
             = [N64Host.router_submit_input (N64Host.neutral_event 0)]
           /\ N64Host.connected_polls (fst (N64Host.run s envs)) = 0))
  /\ neutral_for 0xE0 (N64Host.neutral_event 0)
  /\ (forall s env,
        n64_connected s -> 0 <= N64Host.disconnect_debounce s < 30 ->
        (N64Host.is_connected env = true ->
           N64Host.disconnect_debounce (fst (N64Host.n64_host_task s env)) = 0
           /\ n64_connected (fst (N64Host.n64_host_task s env)))
        /\ (N64Host.is_connected env = false ->
              (N64Host.connected_polls (fst (N64Host.n64_host_task s env)) = 0
               <-> N64Host.disconnect_debounce s = 29)))
  /\ (forall s envs,
        gc_connected s -> GcHost.disconnect_debounce s = 0 ->
        Forall gc_absent envs ->
        ((length envs < 30)%nat ->
           gc_submitted (snd (GcHost.run s envs)) = []
           /\ gc_connected (fst (GcHost.run s envs))
           /\ GcHost.prev_buttons (fst (GcHost.run s envs)) = GcHost.prev_buttons s
           /\ GcHost.disconnect_debounce (fst (GcHost.run s envs))
                = Z.of_nat (length envs))
        /\ (length envs = 30%nat ->
              gc_submitted (snd (GcHost.run s envs))
                = [GcHost.router_submit_input (GcHost.neutral_event 0)]
              /\ GcHost.was_connected (fst (GcHost.run s envs)) = false))
  /\ neutral_for 0xD0 (GcHost.neutral_event 0)
  /\ (forall s env,
        gc_connected s -> 0 <= GcHost.disconnect_debounce s < 30 ->
        (GcHost.is_connected env = true ->
           GcHost.disconnect_debounce (fst (GcHost.gc_host_task s env)) = 0
           /\ GcHost.was_connected (fst (GcHost.gc_host_task s env)) = true)
        /\ (GcHost.is_connected env = false ->
              (GcHost.was_connected (fst (GcHost.gc_host_task s env)) = false
               <-> GcHost.disconnect_debounce s = 29))).
Proof.
  split; [| split; [| split; [| split; [| split]]]].
  - intros s envs Hc Hd Hall. split.
    + intros Hlen.
      destruct (n64_short_run envs s Hc ltac:(lia) Hall ltac:(lia))
        as (A1 & A2 & A3 & A4 & A5 & A6 & _).
      repeat split; try apply A2; try assumption. lia.
    + intros Hlen.
      destruct (n64_thirtieth envs s Hc Hd Hall Hlen) as (T1 & T2 & _).
      split; assumption.
  - repeat split.
  - intros s env Hc Hd.
    destruct (n64_connection_step s env Hc Hd) as [P A]. split; [| exact A].
    intros Hp. destruct (P Hp) as [P1 P2]. split; [exact P1 |].
    split; [| exact P2].
    destruct Hc as [Hi _].
    unfold N64Host.n64_host_task. rewrite Hi. cbn [negb].
    pose proof (n64_rumble_feedback_frame s env 0) as F. cbv zeta in F.
    destruct (N64Host.rumble_feedback s env 0) as [s1 o1]. cbn [fst] in F.
    destruct F as (F1 & _).
    assert (T1 : N64Host.initialized (fst (N64Host.track_connection s1 env 0))
                 = N64Host.initialized s1).
    { unfold N64Host.track_connection.
      destruct (negb _); [destruct (0 <? _); [destruct (30 <=? _) |] |]; reflexivity. }
    destruct (N64Host.track_connection s1 env 0) as [s2 o2]. cbn [fst] in T1.
    assert (T2 : N64Host.initialized (fst (N64Host.pak_init s2 env))
                 = N64Host.initialized s2).
    { unfold N64Host.pak_init. destruct (_ && _); reflexivity. }
    destruct (N64Host.pak_init s2 env) as [s3 o3]. cbn [fst] in T2.
    pose proof (n64_submit_input_frame s3 env 0) as (G1 & _).
    destruct (N64Host.submit_input s3 env 0) as [s4 o4]. cbn [fst] in G1.
    pose proof (n64_flush_frame s4 env) as (K1 & _).
    destruct (N64Host.n64_host_flush_rumble s4 env) as [s5 o5]. cbn [fst] in *.
    congruence.
  - intros s envs Hc Hd Hall. split.
    + intros Hlen.
      destruct (gc_short_run envs s Hc ltac:(lia) Hall ltac:(lia))
        as (A1 & A2 & A3 & A4).
      repeat split; try apply A2; try assumption. lia.
    + intros Hlen.
      destruct (gc_thirtieth envs s Hc Hd Hall Hlen) as (T1 & T2 & _).
      split; assumption.
  - repeat split.
  - intros s env Hc Hd. apply gc_connection_step; assumption.
Qed.

End NativeHostClaim.

Lemma native_host_disconnect_debounce_witness :
  n64_submitted (snd (N64Host.run n64_after_connect (repeat n64_absent_poll 29))) = []
  /\ n64_submitted (snd (N64Host.run n64_after_connect (repeat n64_absent_poll 30)))
       = [N64Host.router_submit_input (N64Host.neutral_event 0)]
  /\ dev_addr (N64Host.neutral_event 0) = 0xE0
  /\ type (N64Host.neutral_event 0) = INPUT_TYPE_GAMEPAD.
Proof.
  destruct (native_host_disconnect_debounce (H := sample_layout))
    as (N & (Na & _ & Nt & _) & _).
  assert (Hc : n64_connected n64_after_connect).
  { split; [reflexivity | vm_compute; split; [reflexivity | discriminate]]. }
  assert (Hall : forall n, Forall n64_absent (repeat n64_absent_poll n)).
  { intros n. apply Forall_forall. intros x Hx. apply repeat_spec in Hx.
    subst x. split; reflexivity. }
  split; [| split; [| split; [exact Na | exact Nt]]].
  - apply (N n64_after_connect (repeat n64_absent_poll 29) Hc eq_refl (Hall _)).
    rewrite repeat_length. lia.
  - apply (N n64_after_connect (repeat n64_absent_poll 30) Hc eq_refl (Hall _)).
    apply repeat_length.
Defined.

(** ** Wiimote: orientation *)

Section WiimoteOrientation.
Import Wiimote.
Context `{ButtonLayout}.

Lemma land_pow2 x k :
  0 <= k -> Z.land x (2 ^ k) = if Z.testbit x k then 2 ^ k else 0.
Proof.
  intros Hk. apply Z.bits_inj'. intros n Hn.
  rewrite Z.land_spec, Z.pow2_bits_eqb by lia.
  destruct (Z.eqb_spec k n) as [-> | Hne].
  - destruct (Z.testbit x n) eqn:E; cbn.
    + now rewrite Z.pow2_bits_eqb, Z.eqb_refl by lia.
    + now rewrite Z.bits_0.
  - rewrite andb_false_r. destruct (Z.testbit x k).
    + rewrite Z.pow2_bits_eqb by lia. symmetry. now apply Z.eqb_neq.
    + now rewrite Z.bits_0.
Qed.

Lemma tst_JP x b : C.tst x (JP_BUTTON b) = pressed x b.
Proof.
  unfold C.tst, pressed. rewrite JP_BUTTON_bit.
  rewrite land_pow2 by apply JP_bit_range.
  destruct (Z.testbit x (JP_bit b)).
  - pose proof (JP_BUTTON_pos b) as P. rewrite JP_BUTTON_bit in P.
    destruct (Z.eqb_spec (2 ^ JP_bit b) 0); [lia | reflexivity].
  - reflexivity.
Qed.

Lemma pressed_land x y b : pressed (Z.land x y) b = pressed x b && pressed y b.
Proof. apply Z.land_spec. Qed.

Lemma pressed_u32_lnot x b : pressed (C.u32 (Z.lnot x)) b = negb (pressed x b).
Proof.
  unfold pressed, C.u32. pose proof (JP_bit_range b).
  rewrite Z.testbit_mod_pow2 by lia.
  destruct (Z.ltb_spec (JP_bit b) 32); [| lia].
  cbn [andb]. apply Z.lnot_spec. lia.
Qed.

Lemma pressed_or_if c m acc b :
  pressed (or_if c m acc) b = pressed acc b || (c && pressed m b).
Proof.
  unfold or_if. destruct c; cbn [andb].
  - apply pressed_lor.
  - now rewrite orb_false_r.
Qed.

(** The effect of the rotation on every button, while horizontal. *)
Lemma rotate_horizontal_pressed x b :
  pressed (wiimote_rotate_controls x WII_ORIENT_HORIZONTAL) (rotated b)
  = pressed x b.
Proof.
  unfold wiimote_rotate_controls, or_all, dpad_mask, face_mask.
  cbn [fold_left fst snd].
  repeat first [ rewrite pressed_lor | rewrite pressed_or_if | rewrite tst_JP
               | rewrite pressed_land | rewrite pressed_u32_lnot
               | rewrite pressed_JP | rewrite pressed_0 ].
  destruct b; cbn [rotated button_eqb negb andb orb];
    repeat match goal with
           | |- context [pressed x ?c] => destruct (pressed x c)
           end; reflexivity.
Qed.

Lemma rotate_vertical x : wiimote_rotate_controls x WII_ORIENT_VERTICAL = x.
Proof. reflexivity. Qed.

(** The detector, in terms of [|accel_x - 128|]. *)
Lemma detect_orientation_spec accel_x current :
  0 <= accel_x < 256 ->
  wiimote_detect_orientation accel_x current =
    match current with
    | WII_ORIENT_VERTICAL =>
        if 20 <=? x_deviation accel_x then WII_ORIENT_HORIZONTAL
        else WII_ORIENT_VERTICAL
    | WII_ORIENT_HORIZONTAL =>
        if x_deviation accel_x <? 12 then WII_ORIENT_VERTICAL
        else WII_ORIENT_HORIZONTAL
    end.
Proof.
  intros Hx. unfold wiimote_detect_orientation, x_deviation, WII_ACCEL_CENTER,
    WII_ACCEL_THRESH_ON, WII_ACCEL_THRESH_OFF.
  rewrite u8_small by lia. rewrite (s32_small (accel_x - 128)) by lia.
  destruct (Z.ltb_spec (accel_x - 128) 0).
  - rewrite s32_small by lia. rewrite Z.abs_neq by lia. destruct current; reflexivity.
  - rewrite Z.abs_eq by lia. destruct current; reflexivity.
Qed.

End WiimoteOrientation.

Section WiimoteCoreStage.
Import Wiimote.
Context `{ButtonLayout}.

Lemma has_accel_is_core id :
  has_accel id ->
  ((0x30 <=? id) && (id <=? 0x37) || (id =? 0x3e) || (id =? 0x3f)) = true
  /\ ((id =? WII_REPORT_BUTTONS_ACC) || (id =? WII_REPORT_BUTTONS_ACC_EXT16)
      || (id =? WII_REPORT_BUTTONS_ACC_IR)
      || (id =? WII_REPORT_BUTTONS_ACC_IR_EXT6)) = true
  /\ (id =? WII_REPORT_BUTTONS_EXT8) = false.
Proof. intros [-> | [-> | [-> | ->]]]; repeat split. Qed.

(** A bare Wiimote in automatic mode receiving a report with accelerometer
    bytes, the orientation hotkey not being held: the orientation follows
    the detector and the cached buttons are the core buttons rotated for the
    new orientation; the event is submitted when (and only when) READY. *)
Lemma core_stage_bare_auto wii data flash_ok :
  ext_type wii = WII_EXT_NONE -> extension_connected wii = false ->
  has_accel (at_ data 0) -> 6 <= len_ data ->
  orient_hotkey_held data = false ->
  let o' := wiimote_detect_orientation (at_ data 3) (orientation wii) in
  let e' := with_buttons (event wii)
              (wiimote_rotate_controls (core_buttons (raw_buttons_of data)) o') in
  core_stage WII_ORIENT_MODE_AUTO wii data flash_ok =
    (WII_ORIENT_MODE_AUTO,
     set_event (set_orientation (set_orient_hotkey_active wii false) o') e',
     if is_state (state wii) WII_STATE_READY then [router_submit_input e'] else []).
Proof.
  intros Hx Hc Hacc Hlen Hhot o' e'. unfold core_stage.
  destruct (has_accel_is_core _ Hacc) as (I1 & I2 & I3).
  rewrite I1, I2, I3.
  destruct (Z.leb_spec 3 (len_ data)); [| lia].
  destruct (Z.leb_spec 6 (len_ data)); [| lia].
  unfold orient_hotkey_held in Hhot. fold (raw_buttons_of data) in Hhot.
  rewrite Hhot. cbn [andb].
  cbn [orientation set_orient_hotkey_active set_orientation ext_type
       extension_connected event state].
  fold o'.
  destruct ((at_ data 0 =? WII_REPORT_BUTTONS_ACC_EXT16) && (22 <=? len_ data)).
  - unfold parse_extension.
    cbn [ext_type set_orientation set_orient_hotkey_active event].
    rewrite Hx, Hc. reflexivity.
  - rewrite Hx, Hc. reflexivity.
Qed.

End WiimoteCoreStage.

Section WiimoteCoreStageMore.
Import Wiimote.
Context `{ButtonLayout}.

(** The same for every report that leaves the mode automatic, the hotkey
    held or not: with the hotkey held the hotkey buttons are masked out
    before the rotation. *)
Lemma core_stage_auto_stays wii data flash_ok :
  ext_type wii = WII_EXT_NONE -> extension_connected wii = false ->
  has_accel (at_ data 0) -> 6 <= len_ data ->
  fst (fst (core_stage WII_ORIENT_MODE_AUTO wii data flash_ok))
    = WII_ORIENT_MODE_AUTO ->
  let wii' := snd (fst (core_stage WII_ORIENT_MODE_AUTO wii data flash_ok)) in
  orientation wii' = wiimote_detect_orientation (at_ data 3) (orientation wii)
  /\ buttons (event wii')
     = wiimote_rotate_controls
         (if orient_hotkey_held data
          then Z.land (core_buttons (raw_buttons_of data))
                      (C.u32 (Z.lnot hotkey_mask))
          else core_buttons (raw_buttons_of data))
         (orientation wii').
Proof.
  intros Hx Hc Hacc Hlen. unfold core_stage, orient_hotkey_held.
  fold (raw_buttons_of data).
  destruct (has_accel_is_core _ Hacc) as (I1 & I2 & I3).
  rewrite I1, I2, I3.
  destruct (Z.leb_spec 3 (len_ data)); [| lia].
  destruct (Z.leb_spec 6 (len_ data)); [| lia].
  unfold parse_extension.
  destruct (C.tst (raw_buttons_of data) WII_BTN_PLUS &&
            (C.tst (raw_buttons_of data) WII_BTN_UP
             || C.tst (raw_buttons_of data) WII_BTN_DOWN
             || C.tst (raw_buttons_of data) WII_BTN_LEFT
             || C.tst (raw_buttons_of data) WII_BTN_RIGHT)).
  - destruct (orient_hotkey_active wii); cbn [negb];
      [| destruct (C.tst (raw_buttons_of data) WII_BTN_UP);
         [| destruct (C.tst (raw_buttons_of data) WII_BTN_RIGHT)];
         cbn [orient_mode_eqb negb]; try destruct flash_ok ];
      cbn [andb orientation set_orient_hotkey_active set_orientation ext_type
           extension_connected event state set_event];
      destruct ((at_ data 0 =? WII_REPORT_BUTTONS_ACC_EXT16) && (22 <=? len_ data));
      cbn [andb orientation set_orient_hotkey_active set_orientation ext_type
           extension_connected event state set_event];
      rewrite ?Hx, ?Hc; cbn [negb fst snd orientation event set_event buttons
                             with_buttons set_orientation];
      intros E; try discriminate E; split; reflexivity.
  - cbn [andb orientation set_orient_hotkey_active set_orientation ext_type
         extension_connected event state set_event].
    destruct ((at_ data 0 =? WII_REPORT_BUTTONS_ACC_EXT16) && (22 <=? len_ data));
      cbn [andb orientation set_orient_hotkey_active set_orientation ext_type
           extension_connected event state set_event];
      rewrite ?Hx, ?Hc; cbn [negb fst snd orientation event set_event buttons
                             with_buttons set_orientation];
      intros _; split; reflexivity.
Qed.

End WiimoteCoreStageMore.

Section WiimoteOrientationClaim.
Import Wiimote.
Context `{ButtonLayout}.

Lemma later_stages_skip wii data t :
  at_ data 0 <> WII_REPORT_STATUS -> at_ data 0 <> WII_REPORT_ACK ->
  at_ data 0 <> WII_REPORT_READ_DATA ->
  status_stage wii data = (wii, [])
  /\ ack_stage wii data t = wii /\ read_stage wii data = wii.
Proof.
  intros N1 N2 N3. unfold status_stage, ack_stage, read_stage.
  destruct (Z.eqb_spec (at_ data 0) WII_REPORT_STATUS); [contradiction |].
  destruct (Z.eqb_spec (at_ data 0) WII_REPORT_ACK); [contradiction |].
  destruct (Z.eqb_spec (at_ data 0) WII_REPORT_READ_DATA); [contradiction |].
  repeat split.
Qed.

Lemma core_report_is_not_control data :
  core_button_report data ->
  at_ data 0 <> WII_REPORT_STATUS /\ at_ data 0 <> WII_REPORT_ACK
  /\ at_ data 0 <> WII_REPORT_READ_DATA.
Proof.
  unfold core_button_report, WII_REPORT_STATUS, WII_REPORT_ACK, WII_REPORT_READ_DATA.
  lia.
Qed.

Lemma has_accel_core_report data :
  has_accel (at_ data 0) -> 6 <= len_ data -> core_button_report data.
Proof. unfold has_accel, core_button_report. lia. Qed.

Lemma process_bare_auto wii data t flash_ok :
  ext_type wii = WII_EXT_NONE -> extension_connected wii = false ->
  has_accel (at_ data 0) -> 6 <= len_ data ->
  orient_hotkey_held data = false ->
  let o' := wiimote_detect_orientation (at_ data 3) (orientation wii) in
  let e' := with_buttons (event wii)
              (wiimote_rotate_controls (core_buttons (raw_buttons_of data)) o') in
  wiimote_process_report WII_ORIENT_MODE_AUTO wii data t flash_ok =
    (WII_ORIENT_MODE_AUTO,
     set_event (set_orientation (set_orient_hotkey_active wii false) o') e',
     if is_state (state wii) WII_STATE_READY then [router_submit_input e'] else []).
Proof.
  intros Hx Hc Hacc Hlen Hhot o' e'. unfold wiimote_process_report.
  destruct (Z.ltb_spec (len_ data) 1); [lia |].
  rewrite (core_stage_bare_auto wii data flash_ok Hx Hc Hacc Hlen Hhot).
  fold o'. fold e'.
  destruct (core_report_is_not_control data (has_accel_core_report data Hacc Hlen))
    as (N1 & N2 & N3).
  destruct (later_stages_skip
              (set_event (set_orientation (set_orient_hotkey_active wii false) o') e')
              data t N1 N2 N3) as (S1' & S2' & S3').
  rewrite S1', S2', S3'. now rewrite app_nil_r.
Qed.

Lemma process_accel_report mode wii data t flash_ok :
  has_accel (at_ data 0) -> 6 <= len_ data ->
  wiimote_process_report mode wii data t flash_ok
  = core_stage mode wii data flash_ok.
Proof.
  intros Hacc Hlen. unfold wiimote_process_report.
  destruct (Z.ltb_spec (len_ data) 1); [lia |].
  destruct (core_stage mode wii data flash_ok) as [[m w] out].
  destruct (core_report_is_not_control data (has_accel_core_report data Hacc Hlen))
    as (N1 & N2 & N3).
  destruct (later_stages_skip w data t N1 N2 N3) as (S1' & S2' & S3').
  rewrite S1', S2', S3'. now rewrite app_nil_r.
Qed.

Lemma rotated_unrotated b : rotated (unrotated b) = b.
Proof. destruct b; reflexivity. Qed.

Lemma rotate_horizontal_pressed_from x b :
  pressed (wiimote_rotate_controls x WII_ORIENT_HORIZONTAL) b
  = pressed x (unrotated b).
Proof.
  rewrite <- (rotated_unrotated b) at 1. apply rotate_horizontal_pressed.
Qed.

(** C5.  The detector moves a vertical Wiimote to horizontal exactly when
    [|accel_x - 128| >= 20] and a horizontal one back to vertical exactly
    when [|accel_x - 128| < 12], and leaves the state alone otherwise.  A
    Wiimote without extension in automatic mode applies the detector to
    byte 3 of every report that carries the accelerometer and leaves the
    mode automatic, and submits the core buttons (less the hotkey buttons
    while the orientation hotkey is held) rotated for the resulting
    orientation: unchanged while
    vertical; while horizontal each D-pad direction moved a quarter turn
    counter-clockwise (U->L, L->D, D->R, R->U), B1 and B3 swapped, B2 and
    B4 swapped, every other button in place.  The physical A button
    (raw B2) of a Wiimote lying on its side is thus submitted as B4. *)
Theorem wiimote_orientation_and_rotation :
  (forall accel_x, 0 <= accel_x < 256 ->
     (wiimote_detect_orientation accel_x WII_ORIENT_VERTICAL = WII_ORIENT_HORIZONTAL
        <-> 20 <= x_deviation accel_x)
     /\ (wiimote_detect_orientation accel_x WII_ORIENT_HORIZONTAL = WII_ORIENT_VERTICAL
           <-> x_deviation accel_x < 12)
     /\ (x_deviation accel_x < 20 ->
           wiimote_detect_orientation accel_x WII_ORIENT_VERTICAL = WII_ORIENT_VERTICAL)
     /\ (12 <= x_deviation accel_x ->
           wiimote_detect_orientation accel_x WII_ORIENT_HORIZONTAL
             = WII_ORIENT_HORIZONTAL))
  /\ (forall wii data t flash_ok,
        ext_type wii = WII_EXT_NONE -> extension_connected wii = false ->
        state wii = WII_STATE_READY ->
        has_accel (at_ data 0) -> 6 <= len_ data ->
        orient_hotkey_held data = false ->
        exists wii' e,
          wiimote_process_report WII_ORIENT_MODE_AUTO wii data t flash_ok
            = (WII_ORIENT_MODE_AUTO, wii', [router_submit_input e])
          /\ event wii' = e
          /\ orientation wii'
               = wiimote_detect_orientation (at_ data 3) (orientation wii)
          /\ buttons e
               = wiimote_rotate_controls (core_buttons (raw_buttons_of data))
                                         (orientation wii'))
  /\ (forall wii data t flash_ok,
        ext_type wii = WII_EXT_NONE -> extension_connected wii = false ->
        has_accel (at_ data 0) -> 6 <= len_ data ->
        fst (fst (wiimote_process_report WII_ORIENT_MODE_AUTO wii data t flash_ok))
          = WII_ORIENT_MODE_AUTO ->
        let wii' :=
          snd (fst (wiimote_process_report WII_ORIENT_MODE_AUTO wii data t
                      flash_ok)) in
        orientation wii'
          = wiimote_detect_orientation (at_ data 3) (orientation wii)
        /\ buttons (event wii')
           = wiimote_rotate_controls
               (if orient_hotkey_held data
                then Z.land (core_buttons (raw_buttons_of data))
                            (C.u32 (Z.lnot hotkey_mask))
                else core_buttons (raw_buttons_of data))
               (orientation wii'))
  /\ (forall x, wiimote_rotate_controls x WII_ORIENT_VERTICAL = x)
  /\ (forall x b,
        pressed (wiimote_rotate_controls x WII_ORIENT_HORIZONTAL) (rotated b)
          = pressed x b)
  /\ (rotated DU = DL /\ rotated DL = DD /\ rotated DD = DR /\ rotated DR = DU
      /\ rotated B1 = B3 /\ rotated B3 = B1 /\ rotated B2 = B4 /\ rotated B4 = B2
      /\ forall b, ~ In b [DU; DD; DL; DR; B1; B2; B3; B4] -> rotated b = b)
  /\ (core_buttons WII_BTN_A = JP_BUTTON B2
      /\ forall o t flash_ok,
           exists wii' e,
             wiimote_process_report WII_ORIENT_MODE_AUTO
               (wiimote_bare WII_STATE_READY o) wiimote_a_sideways t flash_ok
               = (WII_ORIENT_MODE_AUTO, wii', [router_submit_input e])
             /\ orientation wii' = WII_ORIENT_HORIZONTAL
             /\ forall b, pressed (buttons e) b = button_eqb B4 b).
Proof.
  split; [| split; [| split; [| split; [| split; [| split]]]]].
  - intros accel_x Hx.
    rewrite !(detect_orientation_spec accel_x) by assumption.
    repeat split.
    + destruct (Z.leb_spec 20 (x_deviation accel_x)); [lia | discriminate].
    + intros Hd. destruct (Z.leb_spec 20 (x_deviation accel_x)); [reflexivity | lia].
    + destruct (Z.ltb_spec (x_deviation accel_x) 12); [lia | discriminate].
    + intros Hd. destruct (Z.ltb_spec (x_deviation accel_x) 12); [reflexivity | lia].
    + intros Hd. destruct (Z.leb_spec 20 (x_deviation accel_x)); [lia | reflexivity].
    + intros Hd. destruct (Z.ltb_spec (x_deviation accel_x) 12); [lia | reflexivity].
  - intros wii data t flash_ok Hx Hc Hs Hacc Hlen Hhot.
    rewrite (process_bare_auto wii data t flash_ok Hx Hc Hacc Hlen Hhot).
    rewrite Hs. cbn [is_state].
    eexists. eexists. split; [reflexivity |]. repeat split.
  - intros wii data t flash_ok Hx Hc Hacc Hlen.
    rewrite (process_accel_report _ wii data t flash_ok Hacc Hlen).
    apply core_stage_auto_stays; assumption.
  - apply rotate_vertical.
  - apply rotate_horizontal_pressed.
  - repeat split.
    intros b Hb. destruct b; try reflexivity; exfalso; apply Hb; cbn; tauto.
  - split; [reflexivity |].
    intros o t flash_ok.
    assert (Ho : wiimote_detect_orientation (at_ wiimote_a_sideways 3)
                   (orientation (wiimote_bare WII_STATE_READY o))
                 = WII_ORIENT_HORIZONTAL) by (destruct o; reflexivity).
    pose proof (process_bare_auto (wiimote_bare WII_STATE_READY o) wiimote_a_sideways
                  t flash_ok eq_refl eq_refl (or_introl eq_refl)
                  ltac:(vm_compute; discriminate) eq_refl) as E.
    cbv zeta in E. rewrite Ho in E.
    change (core_buttons (raw_buttons_of wiimote_a_sideways)) with (JP_BUTTON B2) in E.
    rewrite E. eexists. eexists. split; [reflexivity |].
    split; [reflexivity |].
    intros b. cbn [buttons with_buttons].
    rewrite rotate_horizontal_pressed_from, pressed_JP. destruct b; reflexivity.
Qed.

End WiimoteOrientationClaim.

Lemma wiimote_orientation_and_rotation_witness :
  Wiimote.wiimote_detect_orientation 101 Wiimote.WII_ORIENT_VERTICAL
    = Wiimote.WII_ORIENT_HORIZONTAL
  /\ Wiimote.wiimote_detect_orientation 120 Wiimote.WII_ORIENT_HORIZONTAL
       = Wiimote.WII_ORIENT_VERTICAL
  /\ exists wii' e,
       Wiimote.wiimote_process_report Wiimote.WII_ORIENT_MODE_AUTO
         (wiimote_bare Wiimote.WII_STATE_READY Wiimote.WII_ORIENT_VERTICAL)
         wiimote_a_sideways 0 true
         = (Wiimote.WII_ORIENT_MODE_AUTO, wii', [Wiimote.router_submit_input e])
       /\ buttons e = JP_BUTTON B4.
Proof.
  destruct (wiimote_orientation_and_rotation (H := sample_layout))
    as (D & P & _).
  destruct (D 101 ltac:(lia)) as (D1 & _).
  destruct (D 120 ltac:(lia)) as (_ & D2 & _).
  split; [apply D1; vm_compute; discriminate |].
  split; [apply D2; reflexivity |].
  destruct (P (wiimote_bare Wiimote.WII_STATE_READY Wiimote.WII_ORIENT_VERTICAL)
              wiimote_a_sideways 0 true eq_refl eq_refl eq_refl
              (or_introl eq_refl) ltac:(vm_compute; discriminate) eq_refl)
    as (wii' & e & E & _ & _ & B).
  exists wii', e. split; [exact E |]. rewrite B.
  injection E as <- _. reflexivity.
Defined.

Section WiimoteSubmitClaim.
Import Wiimote.
Context `{ButtonLayout}.

Lemma core_report_cond data :
  core_button_report data ->
  ((0x30 <=? at_ data 0) && (at_ data 0 <=? 0x37) || (at_ data 0 =? 0x3e)
   || (at_ data 0 =? 0x3f)) = true /\ (3 <=? len_ data) = true.
Proof.
  intros [Hid Hlen]. split; [| now apply Z.leb_le].
  destruct Hid as [[L U] | [-> | ->]]; [| reflexivity | reflexivity].
  apply Z.leb_le in L, U. now rewrite L, U.
Qed.

Ltac wii_cbn :=
  cbn [event initialized state init_time init_retries last_keepalive ext_type
       extension_connected player_led rumble_on orientation orient_hotkey_active
       set_event set_state set_orientation set_orient_hotkey_active].

Lemma core_stage_any_state mode wii data flash_ok s :
  core_button_report data ->
  exists mode' wii' pre,
    core_stage mode wii data flash_ok
      = (mode', wii',
         pre ++ (if is_state (state wii) WII_STATE_READY
                 then [router_submit_input (event wii')] else []))
    /\ core_stage mode (set_state wii s) data flash_ok
       = (mode', set_state wii' s,
          pre ++ (if is_state s WII_STATE_READY
                  then [router_submit_input (event wii')] else []))
    /\ filter is_submit pre = [] /\ state wii' = state wii.
Proof.
  intros Hcore. destruct (core_report_cond data Hcore) as [C1 C2].
  unfold core_stage, parse_extension. rewrite C1, C2. wii_cbn.
  destruct (C.tst (raw_buttons_of data) WII_BTN_PLUS &&
            (C.tst (raw_buttons_of data) WII_BTN_UP
             || C.tst (raw_buttons_of data) WII_BTN_DOWN
             || C.tst (raw_buttons_of data) WII_BTN_LEFT
             || C.tst (raw_buttons_of data) WII_BTN_RIGHT));
    [ destruct (orient_hotkey_active wii); cbn [negb];
      [ | match goal with
          | |- context [negb (orient_mode_eqb ?m mode)] =>
              destruct (negb (orient_mode_eqb m mode)); [destruct flash_ok |]
          end ] | ];
    wii_cbn.
  all: destruct (ext_type wii); wii_cbn.
  all: destruct ((at_ data 0 =? WII_REPORT_BUTTONS_EXT8) && (9 <=? len_ data));
    [| destruct ((at_ data 0 =? WII_REPORT_BUTTONS_ACC_EXT16) && (22 <=? len_ data))].
  all: match goal with
       | |- exists m w p, (?a, ?b, ?c ++ _) = _ /\ _ => exists a, b, c
       end; repeat split.
Qed.

Lemma core_stage_other mode wii data flash_ok :
  ~ core_button_report data -> core_stage mode wii data flash_ok = (mode, wii, []).
Proof.
  intros Hn. unfold core_stage.
  destruct ((0x30 <=? at_ data 0) && (at_ data 0 <=? 0x37) || (at_ data 0 =? 0x3e)
            || (at_ data 0 =? 0x3f)) eqn:E; [| reflexivity].
  destruct (Z.leb_spec 3 (len_ data)); [| reflexivity].
  exfalso. apply Hn. split; [| assumption].
  apply orb_true_iff in E. destruct E as [E | E]; [| right; right; lia].
  apply orb_true_iff in E. destruct E as [E | E]; [| right; left; lia].
  apply andb_true_iff in E. left. lia.
Qed.

Lemma set_state_same wii : set_state wii (state wii) = wii.
Proof. now destruct wii. Qed.

Lemma status_stage_submit wii data :
  snd (status_stage wii data) <> [] ->
  state wii = WII_STATE_READY /\ extension_connected wii = true
  /\ status_ext_flag data = false /\ at_ data 0 = WII_REPORT_STATUS
  /\ 4 <= len_ data.
Proof.
  unfold status_stage, status_ext_flag.
  destruct (Z.eqb_spec (at_ data 0) WII_REPORT_STATUS); cbn [andb];
    [| intros F; exfalso; apply F; reflexivity].
  destruct (Z.leb_spec 4 (len_ data)); [| intros F; exfalso; apply F; reflexivity].
  destruct (state wii) eqn:Es; cbn [is_state];
    try (intros F; exfalso; apply F; reflexivity).
  wii_cbn.
  destruct (negb (Z.land (C.u8 (Z.land (at_ data 3) 15)) 2 =? 0));
    destruct (extension_connected wii); cbn [negb Bool.eqb];
    try (intros F; exfalso; apply F; reflexivity).
  intros _. repeat split; assumption.
Qed.

Lemma status_stage_removal wii data :
  state wii = WII_STATE_READY -> extension_connected wii = true ->
  at_ data 0 = WII_REPORT_STATUS -> 4 <= len_ data ->
  status_ext_flag data = false ->
  status_stage wii data
  = (set_state
       (set_event (set_ext_type (set_extension_connected wii false) WII_EXT_NONE)
                  (recentred (event wii)))
       WII_STATE_SEND_REPORT_MODE,
     [router_submit_input (recentred (event wii))]).
Proof.
  intros Hs Hc Hid Hlen Hf. unfold status_stage. unfold status_ext_flag in Hf.
  rewrite Hid. destruct (Z.leb_spec 4 (len_ data)); [| lia].
  rewrite Hs. cbn [Z.eqb andb is_state Pos.eqb WII_REPORT_STATUS].
  rewrite Hf, Hc. reflexivity.
Qed.

Lemma task_never_submits wii env :
  filter is_submit (snd (wiimote_task wii env)) = [].
Proof.
  unfold wiimote_task, send_step, ready_step.
  destruct (state wii); cbn [snd]; try reflexivity;
    repeat match goal with
      | |- context [if ?c then _ else _] => destruct c
      end; reflexivity.
Qed.
Lemma core_button_report_dec data :
  core_button_report data \/ ~ core_button_report data.
Proof. unfold core_button_report. lia. Qed.

Lemma not_ready_is_state wii :
  state wii <> WII_STATE_READY -> is_state (state wii) WII_STATE_READY = false.
Proof. destruct (state wii); intros N; try reflexivity. now contradiction N. Qed.

Lemma filter_submit_app (a b : list effect) :
  filter is_submit a = [] -> filter is_submit b = [] ->
  filter is_submit (a ++ b) = [].
Proof. intros Ha Hb. now rewrite filter_app, Ha, Hb. Qed.

Lemma core_stage_before_ready mode wii data flash_ok :
  state wii <> WII_STATE_READY ->
  exists mode' wii' out,
    core_stage mode wii data flash_ok = (mode', wii', out)
    /\ state wii' = state wii /\ filter is_submit out = [].
Proof.
  intros N. destruct (core_button_report_dec data) as [Hc | Hc].
  - destruct (core_stage_any_state mode wii data flash_ok (state wii) Hc)
      as (m & w & pre & E & _ & P & S).
    rewrite (not_ready_is_state wii N) in E.
    exists m, w, (pre ++ []). repeat split; try assumption.
    now apply filter_submit_app.
  - rewrite (core_stage_other mode wii data flash_ok Hc).
    exists mode, wii, []. repeat split.
Qed.

Lemma status_stage_before_ready wii data :
  state wii <> WII_STATE_READY ->
  snd (status_stage wii data) = []
  /\ event (fst (status_stage wii data)) = event wii.
Proof.
  intros N. split.
  - destruct (snd (status_stage wii data)) eqn:E; [reflexivity |].
    destruct (status_stage_submit wii data) as (S & _); [| contradiction].
    rewrite E. discriminate.
  - unfold status_stage.
    destruct ((at_ data 0 =? WII_REPORT_STATUS) && (4 <=? len_ data));
      [| reflexivity].
    rewrite (not_ready_is_state wii N).
    destruct (is_state (state wii) WII_STATE_WAIT_STATUS); reflexivity.
Qed.

Lemma ack_stage_event wii data t : event (ack_stage wii data t) = event wii.
Proof.
  unfold ack_stage.
  repeat match goal with
    | |- context [if ?c then _ else _] => destruct c
    end; reflexivity.
Qed.

Lemma read_stage_event wii data : event (read_stage wii data) = event wii.
Proof.
  unfold read_stage.
  repeat match goal with
    | |- context [if ?c then _ else _] => destruct c
    end; reflexivity.
Qed.

Lemma process_core_report mode wii data t flash_ok :
  core_button_report data ->
  wiimote_process_report mode wii data t flash_ok
  = core_stage mode wii data flash_ok.
Proof.
  intros Hc. unfold wiimote_process_report.
  destruct (Z.ltb_spec (len_ data) 1); [destruct Hc; lia |].
  destruct (core_stage mode wii data flash_ok) as [[m w] out].
  destruct (core_report_is_not_control data Hc) as (N1 & N2 & N3).
  destruct (later_stages_skip w data t N1 N2 N3) as (S1' & S2' & S3').
  rewrite S1', S2', S3'. now rewrite app_nil_r.
Qed.

End WiimoteSubmitClaim.

Section WiiUConnect.
Import WiiUPro.
Context `{ButtonLayout}.

Lemma s32_u32 x : C.s32 (C.u32 x) = C.s32 x.
Proof.
  unfold C.s32, C.u32.
  rewrite Zplus_mod_idemp_l. reflexivity.
Qed.

Lemma reached_spec now t :
  - 2147483648 <= now - t < 2147483648 -> reached now (C.u32 t) = (t <=? now).
Proof.
  intros Hr. unfold reached. rewrite s32_u32.
  assert (E : C.s32 (now - C.u32 t) = now - t).
  { rewrite <- (s32_small (now - t)) by lia.
    unfold C.s32, C.u32.
    rewrite <- (Zplus_mod_idemp_l (now - t mod 2 ^ 32)).
    rewrite Zminus_mod_idemp_r.
    rewrite Zplus_mod_idemp_l. reflexivity. }
  rewrite E. destruct (Z.leb_spec 0 (now - t)), (Z.leb_spec t now); lia || reflexivity.
Qed.

Ltac wiiu_cbn :=
  cbn [event initialized player_led rumble_on state init_time init_retries
       last_keepalive last_report set_event set_state set_init_time
       set_init_retries set_last_keepalive set_last_report set_player_led
       set_rumble_on fst snd].

Lemma send_step_free wii env pkt next :
  channel_free env ->
  send_step wii env pkt next
  = (set_init_time (set_state wii next) (now env + 1000 * 1000),
     [btstack_wiimote_send_raw pkt]).
Proof. intros F. unfold send_step. now rewrite F. Qed.

Lemma task_sends s pkt w wii env :
  In (s, pkt, w) wiiu_sends -> state wii = s ->
  (channel_free env ->
   wii_u_task wii env
   = (set_init_time
        (set_state (if state_eqb s WII_U_STATE_SEND_LED
                    then set_player_led wii 0x10 else wii) w)
        (now env + 1000 * 1000),
      [btstack_wiimote_send_raw pkt]))
  /\ (can_send env 0%nat = false -> wii_u_task wii env = (wii, [])).
Proof.
  intros Hin Hs. unfold wii_u_task, send_step, channel_free. rewrite Hs.
  cbn in Hin.
  repeat (destruct Hin as [[= <- <- <-] | Hin];
          [split; intros F; rewrite F; reflexivity |]).
  contradiction.
Qed.

Lemma task_waits w again onward wii env :
  In (w, again, onward) wiiu_waits -> state wii = w ->
  snd (wii_u_task wii env) = []
  /\ (reached (now env) (init_time wii) = false -> fst (wii_u_task wii env) = wii)
  /\ (reached (now env) (init_time wii) = true ->
      C.u8 (init_retries wii + 1) < WII_U_INIT_MAX_RETRIES ->
      fst (wii_u_task wii env)
      = set_state (set_init_retries wii (init_retries wii + 1)) again)
  /\ (reached (now env) (init_time wii) = true ->
      WII_U_INIT_MAX_RETRIES <= C.u8 (init_retries wii + 1) ->
      state (fst (wii_u_task wii env)) = onward
      /\ init_retries (fst (wii_u_task wii env)) = 0).
Proof.
  intros Hin Hs. unfold wii_u_task, wait_step. rewrite Hs. cbn in Hin.
  repeat (destruct Hin as [[= <- <- <-] | Hin];
          [ wiiu_cbn;
            destruct (reached (now env) (init_time wii));
            [ destruct (Z.ltb_spec (C.u8 (init_retries wii + 1))
                                   WII_U_INIT_MAX_RETRIES)
            | ];
            wiiu_cbn; repeat split; intros; try reflexivity;
            try discriminate; lia |]).
  contradiction.
Qed.

Lemma ready_step_shape wii env :
  (forall n, can_send env n = true) ->
  exists w1 out1,
    last_keepalive w1 = last_keepalive wii /\ state w1 = state wii
    /\ ~ In (btstack_wiimote_send_raw status_request_packet) out1
    /\ ready_step wii env
       = if WII_U_KEEPALIVE_MS * 1000 <=? keepalive_elapsed wii env
         then (set_last_keepalive w1 (now env),
               out1 ++ [btstack_wiimote_send_raw status_request_packet])
         else (w1, out1).
Proof.
  intros Hfree. unfold ready_step, keepalive_elapsed.
  rewrite ?Hfree, ?andb_true_r.
  destruct (0 <=? player_idx env).
  - destruct (rumble_dirty (fb env) &&
              negb (Bool.eqb ((0 <? rumble_left (fb env))
                              || (0 <? rumble_right (fb env))) (rumble_on wii)));
      wiiu_cbn; rewrite ?Hfree, ?andb_true_r;
      match goal with
      | |- context [led_dirty (fb env) || negb (?l =? ?p)] =>
          generalize l; intros led;
          destruct (led_dirty (fb env) || negb (led =? p))
      end;
      destruct (rumble_dirty (fb env) || led_dirty (fb env));
      wiiu_cbn; rewrite ?Hfree, ?andb_true_r;
      match goal with
      | |- exists w1 out1, _ /\ _ /\ _ /\
             (if ?c then (set_last_keepalive ?w _, ?o ++ _) else _) = _ =>
          exists w, o
      end;
      (split; [reflexivity | split; [reflexivity | split; [| reflexivity]]]);
      cbn; unfold leds_raw_packet, rumble_packet, status_request_packet,
             WIIU_CMD_STATUS_REQ;
      intros Hin;
      repeat (destruct Hin as [Hin | Hin];
              [ try discriminate Hin;
                destruct ((0 <? rumble_left (fb env)) || (0 <? rumble_right (fb env)));
                discriminate Hin |]);
      contradiction.
  - exists wii, []. rewrite ?Hfree, ?andb_true_r.
    split; [reflexivity | split; [reflexivity | split; [intros [] | reflexivity]]].
Qed.

Lemma ready_keepalive wii env :
  state wii = WII_U_STATE_READY -> (forall n, can_send env n = true) ->
  (In (btstack_wiimote_send_raw status_request_packet) (snd (wii_u_task wii env))
   <-> WII_U_KEEPALIVE_MS * 1000 <= keepalive_elapsed wii env)
  /\ last_keepalive (fst (wii_u_task wii env))
     = (if WII_U_KEEPALIVE_MS * 1000 <=? keepalive_elapsed wii env
        then C.u32 (now env) else last_keepalive wii)
  /\ state (fst (wii_u_task wii env)) = WII_U_STATE_READY.
Proof.
  intros Hs Hfree. unfold wii_u_task. rewrite Hs.
  destruct (ready_step_shape wii env Hfree) as (w1 & out1 & K & S & N & E).
  rewrite E.
  destruct (Z.leb_spec (WII_U_KEEPALIVE_MS * 1000) (keepalive_elapsed wii env));
    wiiu_cbn.
  - split; [| split; [reflexivity | congruence]].
    split; [intros _; assumption |].
    intros _. apply in_or_app. right. now left.
  - split; [| split; [assumption | congruence]].
    split; [intros Hin; contradiction | lia].
Qed.

Lemma wiiu_run_tick wii env xs w out :
  wii_u_task wii env = (w, out) ->
  wiiu_run wii (WiiU_tick env :: xs)
  = (fst (wiiu_run w xs), out ++ snd (wiiu_run w xs)).
Proof.
  intros E. cbn [wiiu_run wiiu_step]. rewrite E. now destruct (wiiu_run w xs).
Qed.

Lemma wiiu_run_report wii data t xs w out :
  wii_u_process_report wii data t = (w, out) ->
  wiiu_run wii (WiiU_report data t :: xs)
  = (fst (wiiu_run w xs), out ++ snd (wiiu_run w xs)).
Proof.
  intros E. cbn [wiiu_run wiiu_step]. rewrite E. now destruct (wiiu_run w xs).
Qed.

Lemma tick_init_delay wii env :
  state wii = WII_U_STATE_WAIT_INIT ->
  reached (now env) (init_time wii) = true ->
  exists wii',
    wii_u_task wii env = (wii', [])
    /\ state wii' = WII_U_STATE_SEND_STATUS_REQ /\ same_session wii wii'.
Proof.
  intros Hs Hr. unfold wii_u_task. rewrite Hs, Hr.
  eexists. split; [reflexivity |]. repeat split.
Qed.

Lemma tick_sends s pkt w wii env :
  In (s, pkt, w) wiiu_sends -> state wii = s -> channel_free env ->
  exists wii',
    wii_u_task wii env = (wii', [btstack_wiimote_send_raw pkt])
    /\ state wii' = w /\ same_session wii wii'
    /\ init_time wii' = C.u32 (now env + 1000 * 1000)
    /\ init_retries wii' = init_retries wii.
Proof.
  intros Hin Hs F. destruct (task_sends s pkt w wii env Hin Hs) as [E _].
  rewrite (E F). eexists. split; [reflexivity |].
  destruct (state_eqb s WII_U_STATE_SEND_LED); repeat split.
Qed.

Ltac report_conditions Hlen :=
  unfold wii_u_process_report;
  match type of Hlen with
  | ?n <= len_ ?data =>
      destruct (Z.ltb_spec (len_ data) 1); [lia |];
      unfold WIIU_REPORT_EXT_21, WIIU_REPORT_EXT_16, WIIU_REPORT_EXT_19,
        WIIU_REPORT_STATUS, WIIU_REPORT_ACK, WIIU_REPORT_READ_DATA;
      cbn [Z.eqb Pos.eqb andb];
      destruct (Z.leb_spec n (len_ data)); [| lia]
  end.

Lemma report_status wii data t :
  state wii = WII_U_STATE_WAIT_STATUS -> wiiu_status_with_ext data ->
  wii_u_process_report wii data t
  = (set_state wii WII_U_STATE_SEND_EXT_INIT1, []).
Proof.
  intros Hs (Hid & Hlen & Hf). report_conditions Hlen. rewrite Hid.
  cbn [Z.eqb Pos.eqb andb]. destruct (Z.leb_spec 7 (len_ data)); [| lia].
  rewrite Hs. cbn [state_eqb state_value Z.eqb Pos.eqb].
  destruct (Z.eqb_spec (Z.land (at_ data 3) 2) 0); [contradiction | reflexivity].
Qed.

Lemma report_ack wii data t cmd :
  wiiu_ack cmd data ->
  (state wii = WII_U_STATE_WAIT_EXT_INIT1_ACK -> cmd = WIIU_CMD_WRITE_DATA ->
   wii_u_process_report wii data t
   = (set_state wii WII_U_STATE_SEND_EXT_INIT2, []))
  /\ (state wii = WII_U_STATE_WAIT_EXT_INIT2_ACK -> cmd = WIIU_CMD_WRITE_DATA ->
      wii_u_process_report wii data t
      = (set_state wii WII_U_STATE_READ_EXT_TYPE, []))
  /\ (state wii = WII_U_STATE_WAIT_REPORT_ACK -> cmd = WIIU_CMD_REPORT_MODE ->
      wii_u_process_report wii data t
      = (set_state wii WII_U_STATE_SEND_LED, []))
  /\ (state wii = WII_U_STATE_WAIT_LED_ACK -> cmd = WIIU_CMD_LED ->
      wii_u_process_report wii data t
      = (set_last_report
           (set_last_keepalive (set_state wii WII_U_STATE_READY) t) 0, [])).
Proof.
  intros (Hid & Hlen & Hc & He).
  repeat split; intros Hs ->; report_conditions Hlen; rewrite Hid;
    cbn [Z.eqb Pos.eqb andb];
    (destruct (Z.leb_spec 5 (len_ data)); [| lia]);
    rewrite He, Hs, Hc; reflexivity.
Qed.

Lemma report_read wii data t :
  state wii = WII_U_STATE_WAIT_EXT_TYPE -> wiiu_read_response data ->
  wii_u_process_report wii data t
  = (set_state wii WII_U_STATE_SEND_REPORT_MODE, []).
Proof.
  intros Hs (Hid & Hlen). report_conditions Hlen. rewrite Hid.
  cbn [Z.eqb Pos.eqb andb]. destruct (Z.leb_spec 7 (len_ data)); [| lia].
  rewrite Hs. reflexivity.
Qed.

Lemma report_data wii data t :
  wiiu_data_3d data ->
  let wii1 := set_last_report (first_data_report wii) t in
  let e := decode_ext (event wii) data 1 in
  wii_u_process_report wii data t = (set_event wii1 e, [router_submit_input e]).
Proof.
  intros (Hid & Hlen) wii1 e. report_conditions Hlen. rewrite Hid.
  cbn [Z.eqb Pos.eqb andb]. destruct (Z.leb_spec 22 (len_ data)); [| lia].
  subst wii1 e. unfold first_data_report.
  destruct (last_report wii =? 0); [| reflexivity].
  destruct (state_value (state wii) <? state_value WII_U_STATE_WAIT_LED_ACK);
    [reflexivity |].
  destruct (state_eqb (state wii) WII_U_STATE_WAIT_LED_ACK); reflexivity.
Qed.

Lemma first_data_report_spec wii :
  (last_report wii = 0 -> state wii = WII_U_STATE_WAIT_LED_ACK ->
   first_data_report wii = set_state wii WII_U_STATE_READY)
  /\ (last_report wii <> 0 -> first_data_report wii = wii).
Proof.
  unfold first_data_report. split.
  - intros -> ->. reflexivity.
  - intros N. destruct (Z.eqb_spec (last_report wii) 0); [contradiction | reflexivity].
Qed.

Lemma happy_path_run slot conn t0 d t xs :
  last_report slot = 0 -> wiiu_happy_path t0 d t xs ->
  exists final,
    wiiu_run (wii_u_init slot conn t0) xs
    = (final,
       [ btstack_wiimote_send_raw status_request_packet;
         btstack_wiimote_send_raw (write_data_packet 0xA400F0 0x55);
         btstack_wiimote_send_raw (write_data_packet 0xA400FB 0x00);
         btstack_wiimote_send_raw (read_data_packet 0xA400FA 6);
         btstack_wiimote_send_raw report_mode_packet;
         btstack_wiimote_send_raw (leds_packet 1);
         router_submit_input (event final) ])
    /\ state final = WII_U_STATE_READY
    /\ event final = decode_ext (event (wii_u_init slot conn t0)) d 1
    /\ last_report final = C.u32 t.
Proof.
  intros L Hp. destruct Hp as [e1 e2 st t3 e4 a1 t5 e6 a2 t7 e8 rd t9 e10 a3 t11 e12
                                 R1 F2 S3 F4 A5 F6 A7 F8 R9 F10 A11 F12 D13].
  set (w0 := wii_u_init slot conn t0).
  assert (L0 : last_report w0 = 0) by exact L.
  destruct (tick_init_delay w0 e1 eq_refl R1) as (w1 & E1 & S1 & L1 & V1).
  destruct (tick_sends _ _ _ w1 e2 (or_introl eq_refl) S1 F2)
    as (w2 & E2 & S2 & (L2 & V2) & _).
  pose proof (report_status w2 st t3 S2 S3) as E3.
  set (w3 := set_state w2 WII_U_STATE_SEND_EXT_INIT1) in E3.
  destruct (tick_sends _ _ _ w3 e4 (or_intror (or_introl eq_refl)) eq_refl F4)
    as (w4 & E4 & S4 & (L4 & V4) & _).
  destruct (report_ack w4 a1 t5 _ A5) as (E5 & _). specialize (E5 S4 eq_refl).
  set (w5 := set_state w4 WII_U_STATE_SEND_EXT_INIT2) in E5.
  destruct (tick_sends _ _ _ w5 e6
              (or_intror (or_intror (or_introl eq_refl))) eq_refl F6)
    as (w6 & E6 & S6 & (L6 & V6) & _).
  destruct (report_ack w6 a2 t7 _ A7) as (_ & E7 & _). specialize (E7 S6 eq_refl).
  set (w7 := set_state w6 WII_U_STATE_READ_EXT_TYPE) in E7.
  destruct (tick_sends _ _ _ w7 e8
              (or_intror (or_intror (or_intror (or_introl eq_refl)))) eq_refl F8)
    as (w8 & E8 & S8 & (L8 & V8) & _).
  pose proof (report_read w8 rd t9 S8 R9) as E9.
  set (w9 := set_state w8 WII_U_STATE_SEND_REPORT_MODE) in E9.
  destruct (tick_sends _ _ _ w9 e10
              (or_intror (or_intror (or_intror (or_intror (or_introl eq_refl)))))
              eq_refl F10)
    as (w10 & E10 & S10 & (L10 & V10) & _).
  destruct (report_ack w10 a3 t11 _ A11) as (_ & _ & E11 & _).
  specialize (E11 S10 eq_refl).
  set (w11 := set_state w10 WII_U_STATE_SEND_LED) in E11.
  destruct (tick_sends _ _ _ w11 e12
              (or_intror (or_intror (or_intror (or_intror
                 (or_intror (or_introl eq_refl)))))) eq_refl F12)
    as (w12 & E12 & S12 & (L12 & V12) & _).
  pose proof (report_data w12 d t D13) as E13. cbv zeta in E13.
  assert (L12' : last_report w12 = 0).
  { rewrite L12. subst w11. wiiu_cbn. rewrite L10. subst w9. wiiu_cbn.
    rewrite L8. subst w7. wiiu_cbn. rewrite L6. subst w5. wiiu_cbn.
    rewrite L4. subst w3. wiiu_cbn. rewrite L2, L1. exact L0. }
  assert (V12' : event w12 = event w0).
  { rewrite V12. subst w11. wiiu_cbn. rewrite V10. subst w9. wiiu_cbn.
    rewrite V8. subst w7. wiiu_cbn. rewrite V6. subst w5. wiiu_cbn.
    rewrite V4. subst w3. wiiu_cbn. rewrite V2, V1. reflexivity. }
  destruct (first_data_report_spec w12) as [FD _].
  rewrite (FD L12' S12), V12' in E13.
  rewrite (wiiu_run_tick _ _ _ _ _ E1), (wiiu_run_tick _ _ _ _ _ E2),
    (wiiu_run_report _ _ _ _ _ _ E3), (wiiu_run_tick _ _ _ _ _ E4),
    (wiiu_run_report _ _ _ _ _ _ E5), (wiiu_run_tick _ _ _ _ _ E6),
    (wiiu_run_report _ _ _ _ _ _ E7), (wiiu_run_tick _ _ _ _ _ E8),
    (wiiu_run_report _ _ _ _ _ _ E9), (wiiu_run_tick _ _ _ _ _ E10),
    (wiiu_run_report _ _ _ _ _ _ E11), (wiiu_run_tick _ _ _ _ _ E12),
    (wiiu_run_report _ _ _ _ _ _ E13).
  cbn [wiiu_run fst snd app].
  exists (set_event (set_last_report (set_state w12 WII_U_STATE_READY) t)
            (decode_ext (event w0) d 1)).
  repeat split.
Qed.

(** The connect sequence on a slot whose [last_report] is 0, as on the first
    connection of a slot.  The connection in
    which nothing goes wrong sends, in this order, the status request (once
    the 100 ms delay has elapsed), the write of 0x55 to 0xA400F0, the write
    of 0x00 to 0xA400FB, the read of 6 bytes at 0xA400FA, report mode 0x3D
    and the LED of player 1 (report 0x11, bit 4); the first 0x3D report then
    moves the machine to READY and the decoded event is submitted.  With a
    [last_report] other than 0 a 0x3D report is submitted and the state
    stays.  Every send arms a timeout of one second; when it expires the
    retry counter, which all steps share, is incremented and the step is
    sent again while the counter is below 5, otherwise the counter is
    cleared and the machine goes on.  In READY, with the channel free, a
    call of the task sends a status request exactly when 30 s have passed
    since the last keep-alive, and then restarts that period. *)
Theorem wii_u_connect_sequence :
  (forall slot conn t0 d t xs,
     last_report slot = 0 -> wiiu_happy_path t0 d t xs ->
     exists final,
       wiiu_run (wii_u_init slot conn t0) xs
       = (final,
          [ btstack_wiimote_send_raw status_request_packet;
            btstack_wiimote_send_raw (write_data_packet 0xA400F0 0x55);
            btstack_wiimote_send_raw (write_data_packet 0xA400FB 0x00);
            btstack_wiimote_send_raw (read_data_packet 0xA400FA 6);
            btstack_wiimote_send_raw report_mode_packet;
            btstack_wiimote_send_raw (leds_packet 1);
            router_submit_input (event final) ])
       /\ state final = WII_U_STATE_READY
       /\ event final = decode_ext (event (wii_u_init slot conn t0)) d 1
       /\ last_report final = C.u32 t)
  /\ (status_request_packet = [0xA2; 0x15; 0x00]
      /\ write_data_packet 0xA400F0 0x55
         = [0xA2; 0x16; 0x04; 0xA4; 0x00; 0xF0; 0x01; 0x55] ++ repeat 0 15
      /\ write_data_packet 0xA400FB 0x00
         = [0xA2; 0x16; 0x04; 0xA4; 0x00; 0xFB; 0x01; 0x00] ++ repeat 0 15
      /\ read_data_packet 0xA400FA 6
         = [0xA2; 0x17; 0x04; 0xA4; 0x00; 0xFA; 0x00; 0x06]
      /\ report_mode_packet = [0xA2; 0x12; 0x04; 0x3D]
      /\ leds_packet 1 = [0xA2; 0x11; 0x10])
  /\ (forall slot conn t0 env,
        state (wii_u_init slot conn t0) = WII_U_STATE_WAIT_INIT
        /\ init_time (wii_u_init slot conn t0)
           = C.u32 (t0 + WII_U_INIT_DELAY_MS * 1000)
        /\ init_retries (wii_u_init slot conn t0) = 0
        /\ (reached (now env) (init_time (wii_u_init slot conn t0)) = false ->
            wii_u_task (wii_u_init slot conn t0) env
            = (wii_u_init slot conn t0, [])))
  /\ (forall wii d t,
        wiiu_data_3d d -> last_report wii <> 0 ->
        exists wii',
          wii_u_process_report wii d t
          = (wii', [router_submit_input (decode_ext (event wii) d 1)])
          /\ state wii' = state wii)
  /\ (forall s pkt w wii env,
        In (s, pkt, w) wiiu_sends -> state wii = s ->
        (channel_free env ->
         exists wii',
           wii_u_task wii env = (wii', [btstack_wiimote_send_raw pkt])
           /\ state wii' = w
           /\ init_time wii' = C.u32 (now env + 1000 * 1000)
           /\ init_retries wii' = init_retries wii)
        /\ (can_send env 0%nat = false -> wii_u_task wii env = (wii, [])))
  /\ (forall w again onward wii env,
        In (w, again, onward) wiiu_waits -> state wii = w ->
        snd (wii_u_task wii env) = []
        /\ (reached (now env) (init_time wii) = false ->
            fst (wii_u_task wii env) = wii)
        /\ (reached (now env) (init_time wii) = true ->
            C.u8 (init_retries wii + 1) < WII_U_INIT_MAX_RETRIES ->
            fst (wii_u_task wii env)
            = set_state (set_init_retries wii (init_retries wii + 1)) again)
        /\ (reached (now env) (init_time wii) = true ->
            WII_U_INIT_MAX_RETRIES <= C.u8 (init_retries wii + 1) ->
            state (fst (wii_u_task wii env)) = onward
            /\ init_retries (fst (wii_u_task wii env)) = 0))
  /\ (forall now t,
        - 2147483648 <= now - t < 2147483648 ->
        reached now (C.u32 t) = (t <=? now))
  /\ (forall wii env,
        state wii = WII_U_STATE_READY -> (forall n, can_send env n = true) ->
        (In (btstack_wiimote_send_raw status_request_packet)
            (snd (wii_u_task wii env))
         <-> WII_U_KEEPALIVE_MS * 1000 <= keepalive_elapsed wii env)
        /\ last_keepalive (fst (wii_u_task wii env))
           = (if WII_U_KEEPALIVE_MS * 1000 <=? keepalive_elapsed wii env
              then C.u32 (now env) else last_keepalive wii)
        /\ state (fst (wii_u_task wii env)) = WII_U_STATE_READY).
Proof.
  split; [exact happy_path_run |].
  split; [repeat split |].
  split.
  { intros slot conn t0 env. repeat split.
    intros R. unfold wii_u_task.
    change (state (wii_u_init slot conn t0)) with WII_U_STATE_WAIT_INIT.
    cbv iota. now rewrite R. }
  split.
  { intros wii d t D N. rewrite (report_data wii d t D).
    destruct (first_data_report_spec wii) as [_ F]. rewrite (F N).
    eexists. split; [reflexivity | reflexivity]. }
  split.
  { intros s pkt w wii env Hin Hs. split.
    - intros F. destruct (tick_sends s pkt w wii env Hin Hs F)
        as (wii' & E & S & _ & T & R).
      exists wii'. repeat split; assumption.
    - apply (task_sends s pkt w wii env Hin Hs). }
  split; [exact task_waits |].
  split; [exact reached_spec | exact ready_keepalive].
Qed.

End WiiUConnect.

Lemma wii_u_connect_sequence_witness :
  exists final,
    wiiu_run (H := sample_layout)
      (WiiUPro.wii_u_init WiiUPro.zero_slot 0 0) (wiiu_sample_path 0)
    = (final,
       [ WiiUPro.btstack_wiimote_send_raw [0xA2; 0x15; 0x00];
         WiiUPro.btstack_wiimote_send_raw
           ([0xA2; 0x16; 0x04; 0xA4; 0x00; 0xF0; 0x01; 0x55] ++ repeat 0 15);
         WiiUPro.btstack_wiimote_send_raw
           ([0xA2; 0x16; 0x04; 0xA4; 0x00; 0xFB; 0x01; 0x00] ++ repeat 0 15);
         WiiUPro.btstack_wiimote_send_raw
           [0xA2; 0x17; 0x04; 0xA4; 0x00; 0xFA; 0x00; 0x06];
         WiiUPro.btstack_wiimote_send_raw [0xA2; 0x12; 0x04; 0x3D];
         WiiUPro.btstack_wiimote_send_raw [0xA2; 0x11; 0x10];
         WiiUPro.router_submit_input (WiiUPro.event final) ])
    /\ WiiUPro.state final = WiiUPro.WII_U_STATE_READY.
Proof.
  destruct (wii_u_connect_sequence (H := sample_layout)) as (P & _).
  destruct (P WiiUPro.zero_slot 0 0 wiiu_ly_max 160000 (wiiu_sample_path 0)
              eq_refl)
    as (final & E & S & _).
  - apply wiiu_happy; try reflexivity; repeat split; vm_compute; congruence.
  - exists final. split; [exact E | exact S].
Defined.

(** C4.  The first 0x3D report of a connection should move the machine to
    READY, and on the first connection of a slot it does.  On a slot that has
    been used before it does not: [wii_u_process_report] takes a 0x3D report
    for the first one only while [last_report] is 0, the first connection
    leaves [last_report] at the time of its last data report, and neither
    [wii_u_disconnect] nor [wii_u_init] clears it.  The same sequence of
    stimuli, received on the second connection of the slot, ends in
    WAIT_LED_ACK: the report is decoded and submitted, the state stays. *)
Lemma wii_u_reconnect_first_report_not_ready :
  WiiUPro.last_report WiiUPro.zero_slot = 0
  /\ wiiu_happy_path 0 wiiu_ly_max 160000 (wiiu_sample_path 0)
  /\ WiiUPro.state
       (fst (wiiu_run (H := sample_layout)
               (WiiUPro.wii_u_init WiiUPro.zero_slot 0 0) (wiiu_sample_path 0)))
     = WiiUPro.WII_U_STATE_READY
  /\ WiiUPro.last_report wiiu_used_slot = 160000
  /\ wiiu_happy_path 10000000 wiiu_ly_max 10160000 (wiiu_sample_path 10000000)
  /\ WiiUPro.state
       (fst (wiiu_run (H := sample_layout)
               (WiiUPro.wii_u_init wiiu_used_slot 0 10000000)
               (wiiu_sample_path 10000000)))
     = WiiUPro.WII_U_STATE_WAIT_LED_ACK
  /\ filter wiiu_is_submit
       (snd (wiiu_run (H := sample_layout)
               (WiiUPro.wii_u_init wiiu_used_slot 0 10000000)
               (wiiu_sample_path 10000000)))
     = [WiiUPro.router_submit_input
          (WiiUPro.event
             (fst (wiiu_run (H := sample_layout)
                     (WiiUPro.wii_u_init wiiu_used_slot 0 10000000)
                     (wiiu_sample_path 10000000))))].
Proof.
  split; [reflexivity |]. split.
  { apply wiiu_happy; try reflexivity; repeat split; vm_compute; congruence. }
  split; [vm_compute; reflexivity |].
  split; [vm_compute; reflexivity |]. split.
  { apply wiiu_happy; try reflexivity; repeat split; vm_compute; congruence. }
  split; vm_compute; reflexivity.
Qed.

Section HotkeyDetector.
Import Hotkeys.

Lemma track_start hk buttons now player start wh tr :
  fst (fst (fst (track hk buttons now player start wh tr)))
  = if buttons_match buttons (hk_buttons hk) && negb wh then now else start.
Proof.
  unfold track.
  destruct (buttons_match buttons (hk_buttons hk)), wh, (trigger hk), tr;
    cbn [negb andb]; try reflexivity;
    match goal with |- context [if ?c then _ else _] => destruct c end;
    reflexivity.
Qed.

Lemma track_holding hk buttons now player start wh tr :
  snd (fst (fst (track hk buttons now player start wh tr)))
  = buttons_match buttons (hk_buttons hk).
Proof.
  unfold track.
  destruct (buttons_match buttons (hk_buttons hk)), wh, (trigger hk), tr;
    cbn [negb andb]; try reflexivity;
    match goal with |- context [if ?c then _ else _] => destruct c end;
    reflexivity.
Qed.

(** The calls and the trigger flag of [track], trigger by trigger. *)
Lemma track_on_tap hk buttons now player start wh tr :
  trigger hk = HOTKEY_TRIGGER_ON_TAP ->
  snd (track hk buttons now player start wh tr)
  = if negb (buttons_match buttons (hk_buttons hk)) && wh
       && (held_ms now start <? duration_ms hk)
    then invoke hk player (held_ms now start) else [].
Proof.
  intros E. unfold track, held_ms. rewrite E.
  destruct (buttons_match buttons (hk_buttons hk)), wh; cbn [negb andb snd];
    try reflexivity.
Qed.

Lemma track_on_release hk buttons now player start wh tr :
  trigger hk = HOTKEY_TRIGGER_ON_RELEASE ->
  snd (track hk buttons now player start wh tr)
  = if negb (buttons_match buttons (hk_buttons hk)) && wh
       && (duration_ms hk <=? held_ms now start)
    then invoke hk player (held_ms now start) else [].
Proof.
  intros E. unfold track, held_ms. rewrite E.
  destruct (buttons_match buttons (hk_buttons hk)), wh; cbn [negb andb snd];
    try reflexivity.
Qed.

Lemma track_on_hold hk buttons now player start (wh tr : bool) :
  trigger hk = HOTKEY_TRIGGER_ON_HOLD ->
  let start' := if wh then start else now in
  let due := duration_ms hk <=? held_ms now start' in
  snd (track hk buttons now player start wh tr)
  = (if buttons_match buttons (hk_buttons hk) && negb (wh && tr) && due
     then invoke hk player (held_ms now start') else [])
  /\ snd (fst (track hk buttons now player start wh tr))
     = buttons_match buttons (hk_buttons hk) && ((wh && tr) || due).
Proof.
  intros E. unfold track, held_ms. rewrite E.
  destruct (buttons_match buttons (hk_buttons hk)), wh, tr;
    cbn [negb andb orb snd fst]; try (split; reflexivity);
    match goal with |- context [if ?c then _ else _] => destruct c end;
    split; reflexivity.
Qed.

Lemma ltb_succ_other (j n : nat) :
  j <> n -> (j <? S n)%nat = (j <? n)%nat.
Proof.
  intros N. destruct (Nat.ltb_spec j (S n)), (Nat.ltb_spec j n); lia || reflexivity.
Qed.

Lemma ltb_succ_diag (n : nat) : (n <? S n)%nat = true.
Proof. apply Nat.ltb_lt. lia. Qed.

Lemma start_before_succ s st buttons now n :
  start_before s st buttons now (S n)
  = if starts s st buttons n then now else start_before s st buttons now n.
Proof.
  unfold start_before. rewrite seq_S, existsb_app. cbn [existsb Nat.add].
  rewrite orb_false_r.
  destruct (existsb (starts s st buttons) (seq 0 n)), (starts s st buttons n);
    reflexivity.
Qed.

(** The loop of [hotkeys_check] in closed form: the state and the calls
    after the first [n] hotkeys. *)
Lemma check_fold s buttons player now st n :
  let r := fold_left (check_body s buttons player now) (seq 0 n) (st, []) in
  hold_start_ms (fst r) = start_before s st buttons now n
  /\ (forall j, holding (fst r) j
                = if (j <? n)%nat && per_player s j
                  then matches s buttons j else holding st j)
  /\ (forall j, triggered (fst r) j
                = if (j <? n)%nat && per_player s j
                  then snd (fst (tracked s st buttons player now j))
                  else triggered st j)
  /\ held_buttons (fst r) = held_buttons st
  /\ snd r = flat_map (calls_of s st buttons player now) (seq 0 n).
Proof.
  induction n as [| n IH].
  - cbn. repeat split.
  - cbv zeta in *. rewrite seq_S, fold_left_app. cbn [Nat.add].
    destruct (fold_left (check_body s buttons player now) (seq 0 n) (st, []))
      as [stn cn].
    cbn [fst snd] in IH. destruct IH as (Hs & Hh & Ht & Hb & Hc).
    rewrite flat_map_app, start_before_succ. cbn [flat_map fold_left].
    rewrite app_nil_r.
    assert (Hbody :
      check_body s buttons player now (stn, cn) n
      = if per_player s n
        then let '(start, h, t, c) :=
               track (registered_hotkeys s n) buttons now player
                 (hold_start_ms stn) (holding stn n) (triggered stn n) in
             ({| held_buttons := held_buttons stn; hold_start_ms := start;
                 holding := upd (holding stn) n h;
                 triggered := upd (triggered stn) n t |}, cn ++ c)
        else (stn, cn)).
    { unfold check_body, per_player.
      destruct (hotkey_active s n), (global (registered_hotkeys s n));
        reflexivity. }
    rewrite Hbody. clear Hbody. unfold calls_of at 2, starts.
    destruct (per_player s n) eqn:Ep; cbn [andb].
    + rewrite Hs, (Hh n), (Ht n), Nat.ltb_irrefl. cbn [andb].
      fold (tracked s st buttons player now n).
      pose proof (track_start (registered_hotkeys s n) buttons now player
                    (start_before s st buttons now n) (holding st n)
                    (triggered st n)) as Ts.
      pose proof (track_holding (registered_hotkeys s n) buttons now player
                    (start_before s st buttons now n) (holding st n)
                    (triggered st n)) as Th.
      fold (tracked s st buttons player now n) in Ts, Th.
      fold (matches s buttons n) in Ts, Th.
      destruct (tracked s st buttons player now n) as [[[start h] t] c] eqn:T.
      cbn [fst snd] in *. cbn [hold_start_ms holding triggered held_buttons].
      repeat split.
      * exact Ts.
      * intros j. unfold upd. destruct (Nat.eqb_spec j n) as [-> | N].
        -- rewrite ltb_succ_diag, Ep. exact Th.
        -- rewrite Hh. now rewrite (ltb_succ_other j n N).
      * intros j. unfold upd. destruct (Nat.eqb_spec j n) as [-> | N].
        -- rewrite ltb_succ_diag, Ep. now rewrite T.
        -- rewrite Ht. now rewrite (ltb_succ_other j n N).
      * exact Hb.
      * now rewrite Hc.
    + cbn [fst snd]. rewrite app_nil_r.
      repeat split; try assumption.
      * intros j. rewrite Hh. destruct (Nat.eq_dec j n) as [-> | N].
        -- now rewrite Ep, !andb_false_r.
        -- now rewrite (ltb_succ_other j n N).
      * intros j. rewrite Ht. destruct (Nat.eq_dec j n) as [-> | N].
        -- now rewrite Ep, !andb_false_r.
        -- now rewrite (ltb_succ_other j n N).
Qed.

Lemma existsb_without {A : Type} (f : A -> bool) (i : A) (l : list A) :
  (forall j, j <> i -> f j = false) -> ~ In i l -> existsb f l = false.
Proof.
  intros Hf. induction l as [| a l IH]; [reflexivity |].
  intros Hn. cbn [existsb]. rewrite (Hf a), IH; [reflexivity | |].
  - intros Hi. apply Hn. now right.
  - intros ->. apply Hn. now left.
Qed.

Lemma existsb_only {A : Type} (f : A -> bool) (i : A) (l : list A) :
  (forall j, j <> i -> f j = false) -> In i l -> existsb f l = f i.
Proof.
  intros Hf Hi. destruct (f i) eqn:E.
  - apply existsb_exists. now exists i.
  - destruct (existsb f l) eqn:Ex; [| reflexivity].
    apply existsb_exists in Ex. destruct Ex as (j & _ & Hj).
    destruct (Hf j) as []; [| congruence ..].
    intros ->. congruence.
Qed.

Lemma flat_map_without {A B : Type} (f : A -> list B) (i : A) (l : list A) :
  (forall j, j <> i -> f j = []) -> ~ In i l -> flat_map f l = [].
Proof.
  intros Hf. induction l as [| a l IH]; [reflexivity |].
  intros Hn. cbn [flat_map]. rewrite (Hf a), IH; [reflexivity | |].
  - intros Hi. apply Hn. now right.
  - intros ->. apply Hn. now left.
Qed.

Lemma flat_map_only {A B : Type} (f : A -> list B) (i : A) (l : list A) :
  (forall j, j <> i -> f j = []) -> NoDup l -> In i l -> flat_map f l = f i.
Proof.
  intros Hf Hd. induction Hd as [| a l Ha Hd IH]; [intros [] |].
  intros [-> | Hi]; cbn [flat_map].
  - rewrite (flat_map_without f i l Hf Ha). apply app_nil_r.
  - rewrite (Hf a), IH; [reflexivity | assumption |].
    intros ->. contradiction.
Qed.

Section Limits.
Variable MAX_PLAYERS : Z.

(** A check for a player number that is not below [MAX_PLAYERS] does
    nothing. *)
Lemma hotkeys_check_invalid s buttons player now :
  MAX_PLAYERS <= C.u8 player ->
  hotkeys_check MAX_PLAYERS s buttons player now = (s, []).
Proof.
  intros Hp. unfold hotkeys_check.
  destruct (Z.leb_spec MAX_PLAYERS (C.u8 player)); [reflexivity | lia].
Qed.

(** A check for a valid player, hotkey by hotkey. *)
Lemma hotkeys_check_valid s buttons player now :
  C.u8 player < MAX_PLAYERS ->
  let b := C.u32 buttons in
  let pl := C.u8 player in
  let p := Z.to_nat pl in
  let st := player_state s p in
  let r := hotkeys_check MAX_PLAYERS s buttons player now in
  snd r = flat_map (calls_of s st b pl now) (seq 0 (hotkey_count s))
  /\ hold_start_ms (player_state (fst r) p)
     = start_before s st b now (hotkey_count s)
  /\ (forall j, holding (player_state (fst r) p) j
                = if (j <? hotkey_count s)%nat && per_player s j
                  then matches s b j else holding st j)
  /\ (forall j, triggered (player_state (fst r) p) j
                = if (j <? hotkey_count s)%nat && per_player s j
                  then snd (fst (tracked s st b pl now j))
                  else triggered st j)
  /\ held_buttons (player_state (fst r) p) = b
  /\ (forall q, q <> p -> player_state (fst r) q = player_state s q)
  /\ global_buttons (fst r) = Z.lor (global_buttons s) b
  /\ registered_hotkeys (fst r) = registered_hotkeys s
  /\ hotkey_active (fst r) = hotkey_active s
  /\ hotkey_count (fst r) = hotkey_count s
  /\ global_hold_start_ms (fst r) = global_hold_start_ms s
  /\ global_holding (fst r) = global_holding s
  /\ global_triggered (fst r) = global_triggered s.
Proof.
  intros Hp b pl p st r. subst r. unfold hotkeys_check.
  destruct (Z.leb_spec MAX_PLAYERS (C.u8 player)); [lia |].
  fold b pl p st.
  destruct (check_fold s b pl now st (hotkey_count s)) as (Hs & Hh & Ht & _ & Hc).
  destruct (fold_left (check_body s b pl now) (seq 0 (hotkey_count s)) (st, []))
    as [stn cn].
  cbn [fst snd] in *.
  cbn [player_state global_buttons registered_hotkeys hotkey_active hotkey_count
       global_hold_start_ms global_holding global_triggered].
  unfold upd. rewrite Nat.eqb_refl.
  cbn [hold_start_ms holding triggered held_buttons].
  repeat split; try assumption.
  intros q N. destruct (Nat.eqb_spec q p); [contradiction | reflexivity].
Qed.

(** When hotkey [i] is the only per-player hotkey, a check does to it what
    [track] says, from the stored hold start. *)
Lemma hotkeys_check_alone s buttons player now i :
  C.u8 player < MAX_PLAYERS ->
  alone s i -> (i < hotkey_count s)%nat -> per_player s i = true ->
  let b := C.u32 buttons in
  let pl := C.u8 player in
  let st := player_state s (Z.to_nat pl) in
  let st' := player_state (fst (hotkeys_check MAX_PLAYERS s buttons player now))
               (Z.to_nat pl) in
  let t := track (registered_hotkeys s i) b now pl
             (hold_start_ms st) (holding st i) (triggered st i) in
  snd (hotkeys_check MAX_PLAYERS s buttons player now) = snd t
  /\ hold_start_ms st' = fst (fst (fst t))
  /\ holding st' i = snd (fst (fst t))
  /\ triggered st' i = snd (fst t).
Proof.
  intros Hp Ha Hi Ep b pl st st' t.
  destruct (hotkeys_check_valid s buttons player now Hp)
    as (Hc & Hs & Hh & Ht & _).
  fold b pl st in Hc, Hs, Hh, Ht. fold st' in Hs, Hh, Ht.
  assert (Hin : In i (seq 0 (hotkey_count s))) by (apply in_seq; lia).
  assert (Hstarts : forall j, j <> i -> starts s st b j = false).
  { intros j N. unfold starts. now rewrite (Ha j N). }
  assert (Hbefore : start_before s st b now i = hold_start_ms st).
  { unfold start_before. rewrite (existsb_without _ i); [reflexivity | assumption |].
    rewrite in_seq. lia. }
  assert (Htr : tracked s st b pl now i = t).
  { unfold tracked. now rewrite Hbefore. }
  assert (Hcalls : forall j, j <> i -> calls_of s st b pl now j = []).
  { intros j N. unfold calls_of. now rewrite (Ha j N). }
  split; [| split; [| split]].
  - rewrite Hc, (flat_map_only _ i _ Hcalls (seq_NoDup _ _) Hin).
    unfold calls_of. now rewrite Ep, Htr.
  - rewrite Hs. unfold start_before.
    rewrite (existsb_only _ i _ Hstarts Hin). subst t.
    rewrite track_start. unfold starts. rewrite Ep. reflexivity.
  - rewrite (Hh i). destruct (Nat.ltb_spec i (hotkey_count s)); [| lia].
    rewrite Ep. subst t. now rewrite track_holding.
  - rewrite (Ht i). destruct (Nat.ltb_spec i (hotkey_count s)); [| lia].
    rewrite Ep. cbn [andb]. now rewrite Htr.
Qed.

(** The checks between two global checks leave the registry alone and OR
    their buttons into [global_buttons]. *)
Lemma run_checks_global s l :
  let s' := fst (run_checks MAX_PLAYERS s l) in
  global_buttons s' = or_checks MAX_PLAYERS (global_buttons s) l
  /\ registered_hotkeys s' = registered_hotkeys s
  /\ hotkey_active s' = hotkey_active s
  /\ hotkey_count s' = hotkey_count s.
Proof.
  revert s. induction l as [| [[buttons player] now] l IH]; intros s.
  - repeat split.
  - cbn [run_checks or_checks fold_left].
    destruct (hotkeys_check MAX_PLAYERS s buttons player now) as [s1 c1] eqn:E1.
    specialize (IH s1).
    destruct (run_checks MAX_PLAYERS s1 l) as [s2 c2]. cbn [fst] in *.
    destruct IH as (Hg & Hr & Ha & Hn).
    assert (S1 : global_buttons s1
                 = (if MAX_PLAYERS <=? C.u8 player then global_buttons s
                    else Z.lor (global_buttons s) (C.u32 buttons))
                 /\ registered_hotkeys s1 = registered_hotkeys s
                 /\ hotkey_active s1 = hotkey_active s
                 /\ hotkey_count s1 = hotkey_count s).
    { destruct (Z.leb_spec MAX_PLAYERS (C.u8 player)) as [Hp | Hp].
      - rewrite (hotkeys_check_invalid s buttons player now Hp) in E1.
        injection E1 as <- _. repeat split.
      - destruct (hotkeys_check_valid s buttons player now Hp)
          as (_ & _ & _ & _ & _ & _ & G & R & A & N & _).
        rewrite E1 in G, R, A, N. cbn [fst] in *. repeat split; assumption. }
    destruct S1 as (G1 & R1 & A1 & N1).
    unfold or_checks in Hg. rewrite Hg, G1, Hr, R1, Ha, A1, Hn, N1.
    repeat split.
Qed.

End Limits.

(** The loop of [hotkeys_check_global]: which global hotkeys are held
    afterwards. *)
Lemma check_global_fold s now g n :
  forall j,
    g_holding (fst (fold_left (check_global_body s now) (seq 0 n) (g, []))) j
    = if (j <? n)%nat && is_global s j
      then matches s (global_buttons s) j else g_holding g j.
Proof.
  induction n as [| n IH]; intros j; [reflexivity |].
  rewrite seq_S, fold_left_app. cbn [Nat.add fold_left].
  destruct (fold_left (check_global_body s now) (seq 0 n) (g, [])) as [gn cn].
  cbn [fst] in IH. unfold check_global_body.
  destruct (is_global s n) eqn:Eg; unfold is_global in Eg.
  - apply andb_true_iff in Eg. destruct Eg as [Ea Eg]. rewrite Ea, Eg.
    cbn [negb].
    pose proof (track_holding (registered_hotkeys s n) (global_buttons s) now 255
                  (g_start gn) (g_holding gn n) (g_triggered gn n)) as Th.
    destruct (track (registered_hotkeys s n) (global_buttons s) now 255
                (g_start gn) (g_holding gn n) (g_triggered gn n))
      as [[[start h] t] c].
    cbn [fst snd g_holding] in *. unfold upd.
    destruct (Nat.eqb_spec j n) as [-> | N].
    + rewrite ltb_succ_diag. unfold is_global. rewrite Ea, Eg. exact Th.
    + rewrite IH. now rewrite (ltb_succ_other j n N).
  - assert (E : (if negb (hotkey_active s n) then (gn, cn)
                 else if negb (global (registered_hotkeys s n)) then (gn, cn)
                 else let '(start, h, t, c) :=
                        track (registered_hotkeys s n) (global_buttons s) now 255
                          (g_start gn) (g_holding gn n) (g_triggered gn n) in
                      ({| g_start := start; g_holding := upd (g_holding gn) n h;
                          g_triggered := upd (g_triggered gn) n t |}, cn ++ c))
                = (gn, cn)).
    { destruct (hotkey_active s n), (global (registered_hotkeys s n));
        try reflexivity; discriminate. }
    rewrite E. cbn [fst]. rewrite IH.
    destruct (Nat.eq_dec j n) as [-> | N].
    + unfold is_global. rewrite Eg, Nat.ltb_irrefl, !andb_false_r. reflexivity.
    + now rewrite (ltb_succ_other j n N).
Qed.

Lemma hotkeys_check_global_spec s now :
  let s' := fst (hotkeys_check_global s now) in
  global_buttons s' = 0
  /\ (forall j, global_holding s' j
                = if (j <? hotkey_count s)%nat && is_global s j
                  then matches s (global_buttons s) j else global_holding s j)
  /\ registered_hotkeys s' = registered_hotkeys s
  /\ hotkey_active s' = hotkey_active s
  /\ hotkey_count s' = hotkey_count s
  /\ player_state s' = player_state s.
Proof.
  unfold hotkeys_check_global.
  pose proof (check_global_fold s now
                {| g_start := global_hold_start_ms s;
                   g_holding := global_holding s;
                   g_triggered := global_triggered s |} (hotkey_count s)) as Hf.
  destruct (fold_left (check_global_body s now) (seq 0 (hotkey_count s)) _)
    as [g calls].
  cbn [fst g_holding] in *. repeat split. exact Hf.
Qed.

(** The detector as the code has it.  A check for a valid player treats every
    active, non-global
    hotkey [i] in the order of registration as [track] says, with the hold
    start the player's hotkeys share: the time of this check if an earlier
    hotkey of the player begins to match in it, the stored one otherwise; the
    stored one becomes the time of the check whenever any of them begins to
    match.  With the hold time [held_ms] counted from that start: ON_TAP
    calls back when the combination stops matching with [held_ms] below the
    duration, ON_RELEASE when it stops matching with [held_ms] at least the
    duration, ON_HOLD when it matches with [held_ms] at least the duration
    and the hotkey has not triggered since it began to match.  If the hotkey
    is the player's only one, the start is the time at which it began to
    match.  The checks of valid players OR their buttons into
    [global_buttons]; the global check matches the global hotkeys against
    that word and clears it. *)
Theorem hotkey_detector_semantics (MAX_PLAYERS : Z) :
  (forall s buttons player now,
     C.u8 player < MAX_PLAYERS ->
     let b := C.u32 buttons in
     let pl := C.u8 player in
     let st := player_state s (Z.to_nat pl) in
     let r := hotkeys_check MAX_PLAYERS s buttons player now in
     let st' := player_state (fst r) (Z.to_nat pl) in
     snd r = flat_map (calls_of s st b pl now) (seq 0 (hotkey_count s))
     /\ hold_start_ms st' = start_before s st b now (hotkey_count s)
     /\ (forall j, (j < hotkey_count s)%nat -> per_player s j = true ->
                   holding st' j = matches s b j
                   /\ triggered st' j = snd (fst (tracked s st b pl now j)))
     /\ (forall j, per_player s j = false ->
                   holding st' j = holding st j
                   /\ triggered st' j = triggered st j))
  /\ (forall s buttons player now,
        MAX_PLAYERS <= C.u8 player ->
        hotkeys_check MAX_PLAYERS s buttons player now = (s, []))
  /\ (forall s buttons player now i,
        C.u8 player < MAX_PLAYERS ->
        alone s i -> (i < hotkey_count s)%nat -> per_player s i = true ->
        let b := C.u32 buttons in
        let pl := C.u8 player in
        let st := player_state s (Z.to_nat pl) in
        let st' := player_state
                     (fst (hotkeys_check MAX_PLAYERS s buttons player now))
                     (Z.to_nat pl) in
        let t := track (registered_hotkeys s i) b now pl
                   (hold_start_ms st) (holding st i) (triggered st i) in
        snd (hotkeys_check MAX_PLAYERS s buttons player now) = snd t
        /\ hold_start_ms st' = fst (fst (fst t))
        /\ holding st' i = snd (fst (fst t))
        /\ triggered st' i = snd (fst t))
  /\ (forall hk buttons now player start (wh tr : bool),
        let m := buttons_match buttons (hk_buttons hk) in
        let start' := if wh then start else now in
        let due := duration_ms hk <=? held_ms now start' in
        fst (fst (fst (track hk buttons now player start wh tr)))
          = (if m && negb wh then now else start)
        /\ snd (fst (fst (track hk buttons now player start wh tr))) = m
        /\ (trigger hk = HOTKEY_TRIGGER_ON_TAP ->
            snd (track hk buttons now player start wh tr)
            = if negb m && wh && (held_ms now start <? duration_ms hk)
              then invoke hk player (held_ms now start) else [])
        /\ (trigger hk = HOTKEY_TRIGGER_ON_RELEASE ->
            snd (track hk buttons now player start wh tr)
            = if negb m && wh && (duration_ms hk <=? held_ms now start)
              then invoke hk player (held_ms now start) else [])
        /\ (trigger hk = HOTKEY_TRIGGER_ON_HOLD ->
            snd (track hk buttons now player start wh tr)
            = (if m && negb (wh && tr) && due
               then invoke hk player (held_ms now start') else [])
            /\ snd (fst (track hk buttons now player start wh tr))
               = m && ((wh && tr) || due)))
  /\ (forall s l now,
        let s1 := fst (run_checks MAX_PLAYERS s l) in
        let s2 := fst (hotkeys_check_global s1 now) in
        global_buttons s1 = or_checks MAX_PLAYERS (global_buttons s) l
        /\ global_buttons s2 = 0
        /\ (forall j, (j < hotkey_count s)%nat -> is_global s j = true ->
                      global_holding s2 j
                      = buttons_match
                          (or_checks MAX_PLAYERS (global_buttons s) l)
                          (hk_buttons (registered_hotkeys s j)))).
Proof.
  split; [| split; [| split; [| split]]].
  - intros s buttons player now Hp b pl st r st'.
    destruct (hotkeys_check_valid MAX_PLAYERS s buttons player now Hp)
      as (Hc & Hs & Hh & Ht & _).
    fold b pl st r in Hc, Hs, Hh, Ht. fold st' in Hs, Hh, Ht.
    split; [exact Hc |]. split; [exact Hs |]. split.
    + intros j Hj Ep. rewrite (Hh j), (Ht j).
      destruct (Nat.ltb_spec j (hotkey_count s)); [| lia].
      rewrite Ep. split; reflexivity.
    + intros j Ep. rewrite (Hh j), (Ht j), Ep, andb_false_r.
      split; reflexivity.
  - exact (hotkeys_check_invalid MAX_PLAYERS).
  - exact (hotkeys_check_alone MAX_PLAYERS).
  - intros hk buttons now player start wh tr m start' due.
    split; [apply track_start |]. split; [apply track_holding |].
    split; [apply track_on_tap |]. split; [apply track_on_release |].
    apply track_on_hold.
  - intros s l now s1 s2.
    destruct (run_checks_global MAX_PLAYERS s l) as (Hg & Hr & Ha & Hn).
    fold s1 in Hg, Hr, Ha, Hn.
    destruct (hotkeys_check_global_spec s1 now) as (Hz & Hh & _).
    fold s2 in Hz, Hh.
    split; [exact Hg |]. split; [exact Hz |].
    intros j Hj Eg. rewrite (Hh j), Hn.
    destruct (Nat.ltb_spec j (hotkey_count s)); [| lia].
    unfold is_global in *. rewrite Ha, Hr, Eg. cbn [andb].
    unfold matches. now rewrite Hr, Hg.
Qed.

End HotkeyDetector.

Lemma hotkey_detector_semantics_witness :
  snd (Hotkeys.hotkeys_check 4 (pressed_once Hotkeys.HOTKEY_TRIGGER_ON_TAP 500)
         0 0 300)
  = [ {| Hotkeys.fn := 0; Hotkeys.arg_player := 0; Hotkeys.arg_held_ms := 300 |} ].
Proof.
  destruct (hotkey_detector_semantics 4) as (_ & _ & A & _).
  destruct (A (pressed_once Hotkeys.HOTKEY_TRIGGER_ON_TAP 500) 0 0 300 0%nat)
    as (Hc & _).
  - reflexivity.
  - intros j N. destruct j; [contradiction | reflexivity].
  - vm_compute. lia.
  - reflexivity.
  - rewrite Hc. reflexivity.
Defined.

(** C7.  A hotkey should fire on the time its own combination has been held:
    ON_TAP when it is released after less than the duration, ON_HOLD once the
    duration is reached while it is still held.  The detector keeps one hold
    start per player, and every hotkey of the player that begins to match
    overwrites it.  Button 1 (ON_TAP, 500 ms) pressed at 0, button 2 pressed
    with it at 1000, button 1 released at 1100: the tap calls back with a hold
    time of 100 after a hold of 1100.  Button 1 (ON_HOLD, 500 ms) pressed at
    0, button 2 pressed with it at 400, both held until 850 and released at
    860: no call at all after a hold of 850. *)
Lemma hotkey_hold_time_is_shared :
  snd (Hotkeys.run_checks 4
         (two_hotkeys Hotkeys.HOTKEY_TRIGGER_ON_TAP Hotkeys.HOTKEY_TRIGGER_ON_HOLD
            500 5000)
         [(1, 0, 0); (3, 0, 1000); (2, 0, 1100)])
  = [ {| Hotkeys.fn := 0; Hotkeys.arg_player := 0; Hotkeys.arg_held_ms := 100 |} ]
  /\ snd (Hotkeys.run_checks 4
            (two_hotkeys Hotkeys.HOTKEY_TRIGGER_ON_HOLD
               Hotkeys.HOTKEY_TRIGGER_ON_RELEASE 500 5000)
            [(1, 0, 0); (3, 0, 400); (3, 0, 600); (3, 0, 850); (0, 0, 860)])
     = [].
Proof. split; vm_compute; reflexivity. Qed.

Section HotkeyRegistry.
Import Hotkeys.
Variable MAX_HOTKEYS : nat.
Variable MAX_PLAYERS : Z.

Lemma clear_flags_spec flags j :
  clear_flags MAX_HOTKEYS flags j
  = if (j <? MAX_HOTKEYS)%nat then false else flags j.
Proof.
  unfold clear_flags. induction MAX_HOTKEYS as [| n IH]; [reflexivity |].
  rewrite seq_S, fold_left_app. cbn [fold_left Nat.add]. unfold upd at 1.
  destruct (Nat.eqb_spec j n) as [-> | N].
  - now rewrite ltb_succ_diag.
  - rewrite IH. now rewrite (ltb_succ_other j n N).
Qed.

Lemma register_full s hk :
  (MAX_HOTKEYS <= hotkey_count s)%nat ->
  hotkeys_register MAX_HOTKEYS s hk = (s, -1).
Proof.
  intros Hc. unfold hotkeys_register.
  destruct (Nat.leb_spec MAX_HOTKEYS (hotkey_count s)); [reflexivity | lia].
Qed.

Lemma register_room s hk :
  (hotkey_count s < MAX_HOTKEYS)%nat ->
  let r := hotkeys_register MAX_HOTKEYS s hk in
  snd r = Z.of_nat (hotkey_count s)
  /\ hotkey_count (fst r) = S (hotkey_count s)
  /\ registered_hotkeys (fst r) (hotkey_count s) = hk
  /\ hotkey_active (fst r) (hotkey_count s) = true
  /\ (forall i, i <> hotkey_count s ->
        registered_hotkeys (fst r) i = registered_hotkeys s i
        /\ hotkey_active (fst r) i = hotkey_active s i)
  /\ player_state (fst r) = player_state s
  /\ global_buttons (fst r) = global_buttons s.
Proof.
  intros Hc r. subst r. unfold hotkeys_register.
  destruct (Nat.leb_spec MAX_HOTKEYS (hotkey_count s)); [lia |].
  cbn [fst snd hotkey_count registered_hotkeys hotkey_active player_state
       global_buttons].
  unfold upd. rewrite Nat.eqb_refl. repeat split.
  - destruct (Nat.eqb_spec i (hotkey_count s)); [contradiction | reflexivity].
  - destruct (Nat.eqb_spec i (hotkey_count s)); [contradiction | reflexivity].
Qed.

Lemma step_registry_ok s op :
  registry_ok MAX_HOTKEYS s ->
  registry_ok MAX_HOTKEYS (fst (hotkey_step MAX_HOTKEYS MAX_PLAYERS s op)).
Proof.
  intros [Hc Ha]. destruct op as [hk | id | | p | b p now | now]; cbn [hotkey_step fst].
  - unfold hotkeys_register.
    destruct (Nat.leb_spec MAX_HOTKEYS (hotkey_count s)); cbn [fst].
    + now split.
    + split; cbn [hotkey_count hotkey_active]; [lia |].
      intros i. unfold upd. destruct (Nat.eqb_spec i (hotkey_count s)).
      * lia.
      * intros Hi. specialize (Ha i Hi). lia.
  - unfold hotkeys_unregister.
    destruct ((0 <=? id) && (id <? Z.of_nat MAX_HOTKEYS)); [| now split].
    split; cbn [hotkey_count hotkey_active]; [assumption |].
    intros i. unfold upd. destruct (Nat.eqb_spec i (Z.to_nat id)); [discriminate |].
    apply Ha.
  - split; cbn [hotkeys_clear hotkey_count hotkey_active]; [lia |].
    intros i. rewrite clear_flags_spec.
    destruct (Nat.ltb_spec i MAX_HOTKEYS); [discriminate |].
    intros Hi. specialize (Ha i Hi). lia.
  - unfold hotkeys_reset_player.
    destruct (MAX_PLAYERS <=? C.u8 p); now split.
  - unfold hotkeys_check. destruct (MAX_PLAYERS <=? C.u8 p).
    + now split.
    + destruct (fold_left _ _ _). now split.
  - unfold hotkeys_check_global. destruct (fold_left _ _ _). now split.
Qed.

Lemma register_all_spec hks : forall s,
  let r := register_all MAX_HOTKEYS s hks in
  snd r = map (expected_id MAX_HOTKEYS (hotkey_count s)) (seq 0 (length hks))
  /\ hotkey_count (fst r) = Nat.max (hotkey_count s)
                              (Nat.min (hotkey_count s + length hks) MAX_HOTKEYS)
  /\ (forall i, (i < length hks)%nat ->
        (hotkey_count s + i < MAX_HOTKEYS)%nat ->
        registered_hotkeys (fst r) (hotkey_count s + i) = nth i hks null_hotkey
        /\ hotkey_active (fst r) (hotkey_count s + i) = true)
  /\ (forall j, (j < hotkey_count s)%nat ->
        registered_hotkeys (fst r) j = registered_hotkeys s j
        /\ hotkey_active (fst r) j = hotkey_active s j).
Proof.
  induction hks as [| hk rest IH]; intros s.
  - cbn. repeat split; intros; lia.
  - cbn [register_all length].
    destruct (Nat.ltb_spec (hotkey_count s) MAX_HOTKEYS) as [Hroom | Hfull].
    + destruct (register_room s hk Hroom) as (Hid & Hc & Hr & Ha & Ho & _).
      destruct (hotkeys_register MAX_HOTKEYS s hk) as [s1 id]. cbn [fst snd] in *.
      specialize (IH s1).
      destruct (register_all MAX_HOTKEYS s1 rest) as [s2 ids]. cbn [fst snd] in *.
      destruct IH as (Iids & Ic & Ie & Ik). rewrite Hc in *.
      split; [| split; [| split]].
      * cbn [seq map]. rewrite <- seq_shift, map_map. f_equal.
        -- unfold expected_id. rewrite Nat.add_0_r.
           destruct (Nat.ltb_spec (hotkey_count s) MAX_HOTKEYS); [assumption | lia].
        -- rewrite Iids. apply map_ext. intros i. unfold expected_id.
           now replace (S (hotkey_count s) + i)%nat with (hotkey_count s + S i)%nat by lia.
      * rewrite Ic. lia.
      * intros [| i] Hi Hlt.
        -- rewrite Nat.add_0_r. destruct (Ik (hotkey_count s)) as [K1 K2]; [lia |].
           rewrite K1, K2. now split.
        -- replace (hotkey_count s + S i)%nat with (S (hotkey_count s) + i)%nat by lia.
           apply Ie; lia.
      * intros j Hj. destruct (Ik j) as [K1 K2]; [lia |].
        destruct (Ho j) as [O1 O2]; [lia |]. rewrite K1, K2. now split.
    + rewrite (register_full s hk Hfull). specialize (IH s).
      destruct (register_all MAX_HOTKEYS s rest) as [s2 ids]. cbn [fst snd] in *.
      destruct IH as (Iids & Ic & Ie & Ik).
      split; [| split; [| split]].
      * cbn [seq map]. rewrite <- seq_shift, map_map. f_equal.
        -- unfold expected_id.
           destruct (Nat.ltb_spec (hotkey_count s + 0) MAX_HOTKEYS); [lia | reflexivity].
        -- rewrite Iids. apply map_ext_in. intros i _. unfold expected_id.
           destruct (Nat.ltb_spec (hotkey_count s + i) MAX_HOTKEYS),
                    (Nat.ltb_spec (hotkey_count s + S i) MAX_HOTKEYS);
             try lia; reflexivity.
      * rewrite Ic. lia.
      * intros i Hi Hlt. lia.
      * exact Ik.
Qed.

Lemma run_registry_ok ops : forall s,
  registry_ok MAX_HOTKEYS s ->
  registry_ok MAX_HOTKEYS (hotkey_run MAX_HOTKEYS MAX_PLAYERS s ops).
Proof.
  induction ops as [| op ops IH]; intros s Hs; [exact Hs |].
  cbn [hotkey_run fold_left]. apply IH. now apply step_registry_ok.
Qed.

Lemma initial_registry_ok : registry_ok MAX_HOTKEYS initial_state.
Proof. split; [cbn; lia | intros i; discriminate]. Qed.

Lemma step_count_grows s op :
  is_clear op = false ->
  (hotkey_count s
   <= hotkey_count (fst (hotkey_step MAX_HOTKEYS MAX_PLAYERS s op)))%nat.
Proof.
  destruct op as [hk | id | | p | b p now | now]; cbn [hotkey_step fst is_clear];
    intros E; try discriminate E.
  - unfold hotkeys_register.
    destruct (MAX_HOTKEYS <=? hotkey_count s)%nat; cbn; lia.
  - unfold hotkeys_unregister.
    destruct ((0 <=? id) && (id <? Z.of_nat MAX_HOTKEYS)); cbn; lia.
  - unfold hotkeys_reset_player. destruct (MAX_PLAYERS <=? C.u8 p); cbn; lia.
  - unfold hotkeys_check. destruct (MAX_PLAYERS <=? C.u8 p); [cbn [fst]; lia |].
    destruct (fold_left _ _ _). cbn [fst hotkey_count]. lia.
  - unfold hotkeys_check_global. destruct (fold_left _ _ _).
    cbn [fst hotkey_count]. lia.
Qed.

Lemma run_count_grows ops : forall s,
  forallb (fun op => negb (is_clear op)) ops = true ->
  (hotkey_count s <= hotkey_count (hotkey_run MAX_HOTKEYS MAX_PLAYERS s ops))%nat.
Proof.
  induction ops as [| op ops IH]; intros s Hn; [cbn; lia |].
  cbn [forallb] in Hn. apply andb_true_iff in Hn. destruct Hn as [H1 H2].
  cbn [hotkey_run fold_left]. etransitivity; [| apply IH; assumption].
  apply step_count_grows. now destruct (is_clear op).
Qed.

(** X1.  The ids [hotkeys_register] hands out are consecutive, each returned id
    finds its hotkey stored and active, the hotkeys registered before stay
    as they are, and from the [MAX_HOTKEYS]-th entry on the answer is -1. *)
Theorem hotkeys_register_in_sequence (s : hotkeys_state)
  (hks : list HotkeyDef) :
  let r := register_all MAX_HOTKEYS s hks in
  snd r = map (expected_id MAX_HOTKEYS (hotkey_count s)) (seq 0 (length hks))
  /\ (forall i, (i < length hks)%nat ->
        (hotkey_count s + i < MAX_HOTKEYS)%nat ->
        registered_hotkeys (fst r) (hotkey_count s + i) = nth i hks null_hotkey
        /\ hotkey_active (fst r) (hotkey_count s + i) = true)
  /\ (forall j, (j < hotkey_count s)%nat ->
        registered_hotkeys (fst r) j = registered_hotkeys s j
        /\ hotkey_active (fst r) j = hotkey_active s j).
Proof.
  destruct (register_all_spec hks s) as (A & _ & B & C). repeat split.
  - exact A.
  - now apply B.
  - now apply B.
  - now apply C.
  - now apply C.
Qed.

(** X2.  Whatever is called, in whatever order, from the initial state: the
    registry never holds more than [MAX_HOTKEYS] entries and no entry at or
    above [hotkey_count] is active. *)
Theorem hotkeys_registry_stays_in_bounds (ops : list hotkey_op) :
  registry_ok MAX_HOTKEYS
    (hotkey_run MAX_HOTKEYS MAX_PLAYERS initial_state ops).
Proof. apply run_registry_ok, initial_registry_ok. Qed.

(** X3.  [hotkeys_unregister] does not give the entry back: once the registry is
    full, [hotkeys_register] answers -1 and changes nothing, whatever has
    been unregistered, reset or checked since, until [hotkeys_clear]. *)
Theorem hotkeys_capacity_is_not_released (s : hotkeys_state)
  (ops : list hotkey_op) (hk : HotkeyDef) :
  (MAX_HOTKEYS <= hotkey_count s)%nat ->
  forallb (fun op => negb (is_clear op)) ops = true ->
  hotkeys_register MAX_HOTKEYS (hotkey_run MAX_HOTKEYS MAX_PLAYERS s ops) hk
  = (hotkey_run MAX_HOTKEYS MAX_PLAYERS s ops, -1).
Proof.
  intros Hfull Hn. apply register_full.
  pose proof (run_count_grows ops s Hn). lia.
Qed.

End HotkeyRegistry.

Lemma hotkeys_capacity_is_not_released_witness :
  snd (Hotkeys.hotkeys_register 2
         (hotkey_run 2 4 (two_hotkeys_small) [Op_unregister 0; Op_unregister 1])
         Hotkeys.null_hotkey) = -1.
Proof.
  rewrite (hotkeys_capacity_is_not_released 2 4 two_hotkeys_small
             [Op_unregister 0; Op_unregister 1] Hotkeys.null_hotkey).
  - reflexivity.
  - vm_compute. lia.
  - reflexivity.
Defined.

Section HotkeyCalls.
Import Hotkeys.
Variable MAX_HOTKEYS : nat.
Variable MAX_PLAYERS : Z.

Lemma held_ms_range now start : 0 <= held_ms now start < 2 ^ 32.
Proof. unfold held_ms. apply u32_range. Qed.

Lemma invoke_in hk player h c :
  In c (invoke hk player h) ->
  callback hk = Some (fn c) /\ arg_player c = player /\ arg_held_ms c = h.
Proof.
  unfold invoke. destruct (callback hk) as [f |]; [| intros []].
  intros [<- | []]. repeat split.
Qed.

Lemma track_justified hk buttons now player start wh tr c :
  In c (snd (track hk buttons now player start wh tr)) ->
  justified hk player (buttons_match buttons (hk_buttons hk)) wh c.
Proof.
  unfold track, justified.
  destruct (buttons_match buttons (hk_buttons hk)) eqn:Em.
  - destruct (trigger hk) eqn:Et; cbn [snd]; try (intros []).
    destruct (negb (if wh then tr else false)); cbn [snd]; [| intros []].
    match goal with |- context [if ?c then _ else _] => destruct c eqn:Ed end;
      cbn [snd]; [| intros []].
    intros Hin. apply invoke_in in Hin. destruct Hin as (Hf & Hp & Hh).
    rewrite Hh. repeat split; try assumption; try apply u32_range.
    now apply Z.leb_le.
  - cbn [snd]. destruct wh; [| intros []].
    destruct (trigger hk) eqn:Et; try (intros []).
    + match goal with |- context [if ?c then _ else _] => destruct c eqn:Ed end;
        [| intros []].
      intros Hin. apply invoke_in in Hin. destruct Hin as (Hf & Hp & Hh).
      rewrite Hh. repeat split; try assumption; try apply u32_range.
      now apply Z.leb_le.
    + match goal with |- context [if ?c then _ else _] => destruct c eqn:Ed end;
        [| intros []].
      intros Hin. apply invoke_in in Hin. destruct Hin as (Hf & Hp & Hh).
      rewrite Hh. repeat split; try assumption; try apply u32_range.
      now apply Z.ltb_lt.
Qed.

(** The loop of [hotkeys_check_global]: every call it makes is justified by
    an active global hotkey, checked against [global_buttons]. *)
Lemma check_global_calls s now g n :
  let r := fold_left (check_global_body s now) (seq 0 n) (g, []) in
  (forall j, (n <= j)%nat -> g_holding (fst r) j = g_holding g j)
  /\ forall c, In c (snd r) ->
       exists i, (i < n)%nat /\ is_global s i = true
         /\ justified (registered_hotkeys s i) 255
              (matches s (global_buttons s) i) (g_holding g i) c.
Proof.
  induction n as [| n IH]; [split; [reflexivity | intros c []] |].
  cbv zeta in *. rewrite seq_S, fold_left_app. cbn [Nat.add fold_left].
  destruct (fold_left (check_global_body s now) (seq 0 n) (g, [])) as [gn cn].
  cbn [fst snd] in IH. destruct IH as [Hh Hc]. unfold check_global_body.
  assert (Hold : forall c, In c cn ->
            exists i, (i < S n)%nat /\ is_global s i = true
              /\ justified (registered_hotkeys s i) 255
                   (matches s (global_buttons s) i) (g_holding g i) c).
  { intros c Hin. destruct (Hc c Hin) as (i & Hi & R). exists i. split; [lia | exact R]. }
  destruct (hotkey_active s n) eqn:Ea; cbn [negb];
    [destruct (global (registered_hotkeys s n)) eqn:Eg; cbn [negb] |].
  - pose proof (track_justified (registered_hotkeys s n) (global_buttons s) now 255
                  (g_start gn) (g_holding gn n) (g_triggered gn n)) as Tj.
    destruct (track (registered_hotkeys s n) (global_buttons s) now 255
                (g_start gn) (g_holding gn n) (g_triggered gn n))
      as [[[start h] t] c0].
    cbn [fst snd g_holding] in *. split.
    + intros j Hj. unfold upd. destruct (Nat.eqb_spec j n); [lia |]. apply Hh. lia.
    + intros c Hin. apply in_app_or in Hin. destruct Hin as [Hin | Hin].
      * now apply Hold.
      * exists n. split; [lia |]. split.
        -- unfold is_global. now rewrite Ea, Eg.
        -- rewrite <- (Hh n) by lia. now apply Tj.
  - cbn [fst snd]. split; [intros j Hj; apply Hh; lia | exact Hold].
  - cbn [fst snd]. split; [intros j Hj; apply Hh; lia | exact Hold].
Qed.

Lemma calls_justified (s : hotkeys_state) :
  (forall buttons player now c,
     In c (snd (hotkeys_check MAX_PLAYERS s buttons player now)) ->
     C.u8 player < MAX_PLAYERS
     /\ exists i, (i < hotkey_count s)%nat /\ per_player s i = true
          /\ justified (registered_hotkeys s i) (C.u8 player)
               (matches s (C.u32 buttons) i)
               (holding (player_state s (Z.to_nat (C.u8 player))) i) c)
  /\ (forall now c,
        In c (snd (hotkeys_check_global s now)) ->
        exists i, (i < hotkey_count s)%nat /\ is_global s i = true
          /\ justified (registered_hotkeys s i) 255
               (matches s (global_buttons s) i) (global_holding s i) c).
Proof.
  split.
  - intros buttons player now c Hin.
    destruct (Z.ltb_spec (C.u8 player) MAX_PLAYERS) as [Hp | Hp].
    + split; [exact Hp |].
      destruct (hotkeys_check_valid MAX_PLAYERS s buttons player now Hp) as (Hc & _).
      rewrite Hc in Hin. apply in_flat_map in Hin.
      destruct Hin as (i & Hi & Hin). apply in_seq in Hi.
      unfold calls_of in Hin. destruct (per_player s i) eqn:Ep; [| destruct Hin].
      exists i. split; [lia |]. split; [exact Ep |].
      unfold tracked in Hin. now apply track_justified in Hin.
    + rewrite (hotkeys_check_invalid MAX_PLAYERS s buttons player now Hp) in Hin.
      destruct Hin.
  - intros now c Hin. unfold hotkeys_check_global in Hin.
    destruct (check_global_calls s now
                {| g_start := global_hold_start_ms s; g_holding := global_holding s;
                   g_triggered := global_triggered s |} (hotkey_count s))
      as [_ Hc].
    destruct (fold_left (check_global_body s now) (seq 0 (hotkey_count s)) _)
      as [g calls].
    cbn [fst snd g_holding] in *. now apply Hc.
Qed.


(** X4.  Every callback the detector invokes has a reason.  A call made by
    [hotkeys_check] belongs to an active, non-global entry below
    [hotkey_count], carries the checked player and a hold time that the
    entry's trigger admits: below the duration and on release for ON_TAP,
    at least the duration and on release for ON_RELEASE, at least the
    duration and while matching for ON_HOLD.  A call made by
    [hotkeys_check_global] belongs in the same way to an active global
    entry and carries player 0xFF. *)
Theorem hotkey_calls_are_justified (s : hotkeys_state) :
  (forall buttons player now c,
     In c (snd (hotkeys_check MAX_PLAYERS s buttons player now)) ->
     C.u8 player < MAX_PLAYERS
     /\ exists i, (i < hotkey_count s)%nat /\ per_player s i = true
          /\ justified (registered_hotkeys s i) (C.u8 player)
               (matches s (C.u32 buttons) i)
               (holding (player_state s (Z.to_nat (C.u8 player))) i) c)
  /\ (forall now c,
        In c (snd (hotkeys_check_global s now)) ->
        exists i, (i < hotkey_count s)%nat /\ is_global s i = true
          /\ justified (registered_hotkeys s i) 255
               (matches s (global_buttons s) i) (global_holding s i) c).
Proof. exact (calls_justified s). Qed.

Lemma step_keeps_unregistered s op i :
  is_clear op = false ->
  (i < hotkey_count s)%nat -> hotkey_active s i = false ->
  let s' := fst (hotkey_step MAX_HOTKEYS MAX_PLAYERS s op) in
  (i < hotkey_count s')%nat /\ hotkey_active s' i = false.
Proof.
  intros Hn Hi Ha s'. subst s'.
  pose proof (step_count_grows MAX_HOTKEYS MAX_PLAYERS s op Hn) as Hg.
  split; [lia |].
  destruct op as [hk | id | | p | b p now | now]; cbn [hotkey_step fst is_clear] in *;
    try discriminate Hn.
  - unfold hotkeys_register.
    destruct (MAX_HOTKEYS <=? hotkey_count s)%nat; cbn [fst hotkey_active];
      [assumption |].
    unfold upd. destruct (Nat.eqb_spec i (hotkey_count s)); [lia | assumption].
  - unfold hotkeys_unregister.
    destruct ((0 <=? id) && (id <? Z.of_nat MAX_HOTKEYS)); [| assumption].
    cbn [hotkey_active]. unfold upd.
    destruct (i =? Z.to_nat id)%nat; [reflexivity | assumption].
  - unfold hotkeys_reset_player. destruct (MAX_PLAYERS <=? C.u8 p); assumption.
  - unfold hotkeys_check. destruct (MAX_PLAYERS <=? C.u8 p); [assumption |].
    destruct (fold_left _ _ _). assumption.
  - unfold hotkeys_check_global. destruct (fold_left _ _ _). assumption.
Qed.

Lemma run_keeps_unregistered ops : forall s i,
  forallb (fun op => negb (is_clear op)) ops = true ->
  (i < hotkey_count s)%nat -> hotkey_active s i = false ->
  hotkey_active (hotkey_run MAX_HOTKEYS MAX_PLAYERS s ops) i = false.
Proof.
  induction ops as [| op ops IH]; intros s i Hn Hi Ha; [exact Ha |].
  cbn [forallb] in Hn. apply andb_true_iff in Hn. destruct Hn as [H1 H2].
  cbn [hotkey_run fold_left].
  destruct (step_keeps_unregistered s op i) as [Hi' Ha']; try assumption.
  - now destruct (is_clear op).
  - now apply IH.
Qed.

(** X5.  An unregistered hotkey stays silent.  After [hotkeys_unregister] of a
    registered id, whatever is called next short of [hotkeys_clear], the
    entry is inactive, and every call a check makes belongs to another
    entry. *)
Theorem hotkeys_unregister_is_final (s : hotkeys_state) (id : Z)
  (ops : list hotkey_op) :
  0 <= id -> (Z.to_nat id < hotkey_count s)%nat ->
  (hotkey_count s <= MAX_HOTKEYS)%nat ->
  forallb (fun op => negb (is_clear op)) ops = true ->
  let s' := hotkey_run MAX_HOTKEYS MAX_PLAYERS
              (hotkeys_unregister MAX_HOTKEYS s id) ops in
  hotkey_active s' (Z.to_nat id) = false
  /\ (forall buttons player now c,
        In c (snd (hotkeys_check MAX_PLAYERS s' buttons player now)) ->
        exists i, i <> Z.to_nat id /\ per_player s' i = true
          /\ justified (registered_hotkeys s' i) (C.u8 player)
               (matches s' (C.u32 buttons) i)
               (holding (player_state s' (Z.to_nat (C.u8 player))) i) c)
  /\ (forall now c,
        In c (snd (hotkeys_check_global s' now)) ->
        exists i, i <> Z.to_nat id /\ is_global s' i = true
          /\ justified (registered_hotkeys s' i) 255
               (matches s' (global_buttons s') i) (global_holding s' i) c).
Proof.
  intros H0 Hid Hmax Hn s'.
  assert (Ha : hotkey_active s' (Z.to_nat id) = false).
  { subst s'. apply run_keeps_unregistered; [assumption | |].
    - unfold hotkeys_unregister.
      destruct ((0 <=? id) && (id <? Z.of_nat MAX_HOTKEYS)); assumption.
    - unfold hotkeys_unregister.
      destruct (Z.leb_spec 0 id); [| lia].
      destruct (Z.ltb_spec id (Z.of_nat MAX_HOTKEYS)); [| lia].
      cbn [andb hotkey_active]. unfold upd. now rewrite Nat.eqb_refl. }
  split; [exact Ha |].
  destruct (calls_justified s') as [Hc Hg]. split.
  - intros buttons player now c Hin.
    destruct (Hc buttons player now c Hin) as (_ & i & _ & Ep & J).
    exists i. split; [| split; [exact Ep | exact J]].
    intros ->. unfold per_player in Ep. rewrite Ha in Ep. discriminate.
  - intros now c Hin. destruct (Hg now c Hin) as (i & _ & Eg & J).
    exists i. split; [| split; [exact Eg | exact J]].
    intros ->. unfold is_global in Eg. rewrite Ha in Eg. discriminate.
Qed.

End HotkeyCalls.

Lemma hotkeys_unregister_is_final_witness :
  Hotkeys.hotkey_active
    (hotkey_run 2 4 (Hotkeys.hotkeys_unregister 2 two_hotkeys_small 0)
       [Op_check 1 0 0; Op_register Hotkeys.null_hotkey; Op_check 0 0 100])
    0%nat = false.
Proof.
  destruct (hotkeys_unregister_is_final 2 4 two_hotkeys_small 0
              [Op_check 1 0 0; Op_register Hotkeys.null_hotkey; Op_check 0 0 100])
    as (A & _).
  - lia.
  - vm_compute. lia.
  - vm_compute. lia.
  - reflexivity.
  - exact A.
Defined.

Section HotkeyRepeat.
Import Hotkeys.
Variable MAX_PLAYERS : Z.

Lemma existsb_false_in {A : Type} (f : A -> bool) (l : list A) :
  existsb f l = false -> forall x, In x l -> f x = false.
Proof.
  intros E x Hx. destruct (f x) eqn:Ef; [| reflexivity].
  assert (existsb f l = true) by (apply existsb_exists; now exists x).
  congruence.
Qed.

Lemma existsb_all_false {A : Type} (f : A -> bool) (l : list A) :
  (forall x, In x l -> f x = false) -> existsb f l = false.
Proof.
  intros Hf. destruct (existsb f l) eqn:E; [| reflexivity].
  apply existsb_exists in E. destruct E as (x & Hx & Ex).
  rewrite (Hf x Hx) in Ex. discriminate.
Qed.

Lemma flat_map_all_nil {A B : Type} (f : A -> list B) (l : list A) :
  (forall x, In x l -> f x = []) -> flat_map f l = [].
Proof.
  induction l as [| a l IH]; intros Hf; [reflexivity |].
  cbn [flat_map]. rewrite (Hf a (or_introl eq_refl)), IH; [reflexivity |].
  intros x Hx. apply Hf. now right.
Qed.

Lemma u32_diag now : C.u32 (now - now) = 0.
Proof. now rewrite Z.sub_diag. Qed.

(** The same hotkey looked at a second time with the same buttons at the
    same time: no call, and the trigger flag stays. *)
Lemma track_again hk buttons now player start0 S1 (wh0 tr0 : bool) :
  let m := buttons_match buttons (hk_buttons hk) in
  let t1 := snd (fst (track hk buttons now player start0 wh0 tr0)) in
  S1 = now \/ (S1 = start0 /\ (m = true -> wh0 = true)) ->
  snd (track hk buttons now player S1 m t1) = []
  /\ snd (fst (track hk buttons now player S1 m t1)) = t1.
Proof.
  intros m t1 HS. subst t1. unfold track. fold m.
  destruct m eqn:Em; [| split; reflexivity].
  destruct (trigger hk) eqn:Et.
  - (* ON_HOLD *)
    destruct wh0, tr0; cbn [negb fst snd];
      repeat match goal with
        | |- context [if ?c then _ else _] =>
            lazymatch c with
            | (_ <=? _) => destruct (Z.leb_spec0 (duration_ms hk) (C.u32 (now - now)));
                           try destruct (Z.leb_spec0 (duration_ms hk) (C.u32 (now - start0)));
                           try destruct (Z.leb_spec0 (duration_ms hk) (C.u32 (now - S1)))
            end
        end;
      cbn [negb fst snd]; try (split; reflexivity);
      exfalso;
      repeat match goal with
        | H : context [C.u32 (now - now)] |- _ => rewrite u32_diag in H
        end;
      pose proof (u32_range (now - start0));
      destruct HS as [-> | [-> Hw]];
      repeat match goal with
        | H : context [C.u32 (now - now)] |- _ => rewrite u32_diag in H
        end;
      try lia; specialize (Hw eq_refl); discriminate.
  - destruct wh0, tr0; cbn [negb fst snd]; split; reflexivity.
  - destruct wh0, tr0; cbn [negb fst snd]; split; reflexivity.
Qed.

Lemma same_hold_refl a : same_hold a a.
Proof. repeat split. Qed.

Lemma start_before_le s st buttons now n m :
  (n <= m)%nat ->
  existsb (starts s st buttons) (seq 0 m) = false ->
  start_before s st buttons now n = hold_start_ms st.
Proof.
  intros Hnm E. unfold start_before.
  rewrite existsb_all_false; [reflexivity |].
  intros j Hj. apply (existsb_false_in _ _ E). apply in_seq in Hj. apply in_seq. lia.
Qed.

(** Checking a player twice with the same buttons at the same time: the
    second check invokes no callback and changes nothing. *)
Lemma check_twice s buttons player now :
  let r1 := hotkeys_check MAX_PLAYERS s buttons player now in
  let r2 := hotkeys_check MAX_PLAYERS (fst r1) buttons player now in
  snd r2 = [] /\ same_hotkeys (fst r2) (fst r1).
Proof.
  intros r1 r2. subst r2 r1.
  destruct (Z.ltb_spec (C.u8 player) MAX_PLAYERS) as [Hp | Hp].
  2:{ rewrite (hotkeys_check_invalid MAX_PLAYERS s buttons player now Hp).
      cbn [fst]. rewrite (hotkeys_check_invalid MAX_PLAYERS s buttons player now Hp).
      split; [reflexivity |]. repeat split. }
  pose proof (hotkeys_check_valid MAX_PLAYERS s buttons player now Hp) as V1.
  cbv zeta in V1.
  set (s1 := fst (hotkeys_check MAX_PLAYERS s buttons player now)) in *.
  pose proof (hotkeys_check_valid MAX_PLAYERS s1 buttons player now Hp) as V2.
  cbv zeta in V2.
  set (s2 := fst (hotkeys_check MAX_PLAYERS s1 buttons player now)) in *.
  set (b := C.u32 buttons) in *. set (pl := C.u8 player) in *.
  set (p := Z.to_nat pl) in *.
  set (st0 := player_state s p) in *. set (st1 := player_state s1 p) in *.
  destruct V1 as (_ & S1 & H1 & T1 & B1 & O1 & G1 & R1 & A1 & N1 & GS1 & GH1 & GT1).
  destruct V2 as (C2 & S2 & H2 & T2 & B2 & O2 & G2 & R2 & A2 & N2 & GS2 & GH2 & GT2).
  assert (PP : forall j, per_player s1 j = per_player s j).
  { intros j. unfold per_player. now rewrite A1, R1. }
  assert (MM : forall j, matches s1 b j = matches s b j).
  { intros j. unfold matches. now rewrite R1. }
  assert (NS : forall j, (j < hotkey_count s)%nat -> starts s1 st1 b j = false).
  { intros j Hj. unfold starts. rewrite PP, MM, (H1 j).
    destruct (Nat.ltb_spec j (hotkey_count s)); [| lia].
    destruct (per_player s j); cbn [andb]; [| reflexivity].
    now destruct (matches s b j). }
  assert (SB : forall n, (n <= hotkey_count s)%nat ->
                start_before s1 st1 b now n = hold_start_ms st1).
  { intros n Hn. unfold start_before. rewrite existsb_all_false; [reflexivity |].
    intros j Hj. apply in_seq in Hj. apply NS. lia. }
  assert (TA : forall j, (j < hotkey_count s)%nat -> per_player s j = true ->
                snd (tracked s1 st1 b pl now j) = []
                /\ snd (fst (tracked s1 st1 b pl now j)) = triggered st1 j).
  { intros j Hj Ep. unfold tracked at 1 2. rewrite (SB j) by lia.
    rewrite (H1 j), (T1 j), R1.
    destruct (Nat.ltb_spec j (hotkey_count s)); [| lia].
    rewrite Ep. cbn [andb]. unfold matches, tracked.
    apply track_again. rewrite S1.
    destruct (existsb (starts s st0 b) (seq 0 (hotkey_count s))) eqn:Ex.
    { left. unfold start_before. now rewrite Ex. }
    right. split.
    - rewrite (start_before_le s st0 b now j (hotkey_count s)) by (lia || assumption).
      unfold start_before. now rewrite Ex.
    - intros Em.
      assert (Es : starts s st0 b j = false).
      { apply (existsb_false_in _ _ Ex). apply in_seq. lia. }
      unfold starts, matches in Es. rewrite Ep, Em in Es. cbn [andb] in Es.
      now destruct (holding st0 j). }
  split.
  - rewrite C2, N1. apply flat_map_all_nil. intros j Hj. apply in_seq in Hj.
    unfold calls_of. rewrite PP.
    destruct (per_player s j) eqn:Ep; [| reflexivity].
    apply TA; [lia | assumption].
  - unfold same_hotkeys. rewrite R2, A2, N2, G2, G1, GS2, GH2, GT2.
    do 3 (split; [reflexivity |]).
    split; [| split; [| repeat split]].
    + intros q. destruct (Nat.eq_dec q p) as [-> | Nq].
      * fold st1. split; [| split; [| split]].
        -- now rewrite B2, B1.
        -- rewrite S2, N1. apply SB. lia.
        -- intros j. rewrite (H2 j), N1, PP, MM, (H1 j).
           now destruct ((j <? hotkey_count s)%nat && per_player s j).
        -- intros j. rewrite (T2 j), N1, PP.
           destruct (Nat.ltb_spec j (hotkey_count s)); [| reflexivity].
           destruct (per_player s j) eqn:Ep; [| reflexivity].
           cbn [andb]. apply TA; assumption.
      * rewrite (O2 q Nq). apply same_hold_refl.
    + now rewrite <- Z.lor_assoc, Z.lor_diag.
Qed.

(** X6.  Checking a player twice with the same buttons at the same time: the
    second check invokes no callback and leaves the state of the service as
    the first check left it (hold flags, trigger flags, hold start, global
    button word and registry). *)
Theorem hotkeys_check_is_idempotent (s : hotkeys_state)
  (buttons player now : Z) :
  let r1 := hotkeys_check MAX_PLAYERS s buttons player now in
  let r2 := hotkeys_check MAX_PLAYERS (fst r1) buttons player now in
  snd r2 = [] /\ same_hotkeys (fst r2) (fst r1).
Proof. exact (check_twice s buttons player now). Qed.

End HotkeyRepeat.

Section HotkeyReset.
Import Hotkeys.
Variable MAX_HOTKEYS : nat.
Variable MAX_PLAYERS : Z.

Lemma track_fresh hk buttons now player start tr c :
  In c (snd (track hk buttons now player start false tr)) ->
  arg_held_ms c = 0 /\ trigger hk = HOTKEY_TRIGGER_ON_HOLD
  /\ duration_ms hk <= 0 /\ buttons_match buttons (hk_buttons hk) = true.
Proof.
  unfold track. destruct (buttons_match buttons (hk_buttons hk)); [| intros []].
  destruct (trigger hk); cbn [negb snd]; try (intros []).
  rewrite u32_diag.
  destruct (Z.leb_spec (duration_ms hk) 0); cbn [snd]; [| intros []].
  intros Hin. apply invoke_in in Hin. destruct Hin as (_ & _ & Hh).
  repeat split; assumption.
Qed.

(** X7.  [hotkeys_reset_player] forgets what the player was holding: in the next
    check of that player no ON_TAP and no ON_RELEASE hotkey calls back, and
    a call can only come from a matching ON_HOLD hotkey whose duration is
    zero, with a hold time of zero.  The other players and the registry are
    left alone; a player number that is not below [MAX_PLAYERS] changes
    nothing. *)
Theorem hotkeys_reset_player_forgets (s : hotkeys_state) (player : Z) :
  (hotkey_count s <= MAX_HOTKEYS)%nat ->
  let s' := hotkeys_reset_player MAX_HOTKEYS MAX_PLAYERS s player in
  (MAX_PLAYERS <= C.u8 player -> s' = s)
  /\ (forall q, q <> Z.to_nat (C.u8 player) ->
        player_state s' q = player_state s q)
  /\ registered_hotkeys s' = registered_hotkeys s
  /\ hotkey_active s' = hotkey_active s
  /\ hotkey_count s' = hotkey_count s
  /\ (forall buttons now c,
        In c (snd (hotkeys_check MAX_PLAYERS s' buttons player now)) ->
        arg_held_ms c = 0 /\ arg_player c = C.u8 player
        /\ exists i, (i < hotkey_count s)%nat /\ per_player s i = true
             /\ callback (registered_hotkeys s i) = Some (fn c)
             /\ trigger (registered_hotkeys s i) = HOTKEY_TRIGGER_ON_HOLD
             /\ duration_ms (registered_hotkeys s i) <= 0
             /\ matches s (C.u32 buttons) i = true).
Proof.
  intros Hmax s'. subst s'. unfold hotkeys_reset_player.
  destruct (Z.leb_spec MAX_PLAYERS (C.u8 player)) as [Hp | Hp].
  - split; [reflexivity |]. split; [reflexivity |].
    do 3 (split; [reflexivity |]).
    intros buttons now c Hin.
    rewrite (hotkeys_check_invalid MAX_PLAYERS s buttons player now Hp) in Hin.
    destruct Hin.
  - set (p := Z.to_nat (C.u8 player)).
    set (s' := Build_hotkeys_state _ _ _ _ _ _ _ _).
    split; [lia |]. split.
    { intros q Nq. cbn [player_state s']. unfold upd.
      destruct (Nat.eqb_spec q p); [contradiction | reflexivity]. }
    do 3 (split; [reflexivity |]).
    intros buttons now c Hin.
    destruct (hotkeys_check_valid MAX_PLAYERS s' buttons player now Hp) as (Hc & _).
    rewrite Hc in Hin. apply in_flat_map in Hin.
    destruct Hin as (i & Hi & Hin). apply in_seq in Hi.
    cbn [hotkey_count s'] in Hi.
    unfold calls_of in Hin.
    destruct (per_player s' i) eqn:Ep; [| destruct Hin].
    unfold tracked in Hin.
    assert (Hh : holding (player_state s' (Z.to_nat (C.u8 player))) i = false).
    { cbn [player_state s']. fold p. unfold upd. rewrite Nat.eqb_refl.
      cbn [holding]. rewrite clear_flags_spec.
      destruct (Nat.ltb_spec i MAX_HOTKEYS); [reflexivity | lia]. }
    rewrite Hh in Hin.
    pose proof (track_justified _ _ _ _ _ _ _ _ Hin) as (Hf & Hpl & _).
    apply track_fresh in Hin. destruct Hin as (H0 & Ht & Hd & Hm).
    split; [exact H0 |]. split; [exact Hpl |].
    exists i. split; [lia |]. repeat split; assumption.
Qed.

End HotkeyReset.

Lemma hotkeys_reset_player_forgets_witness :
  snd (Hotkeys.hotkeys_check 4
         (Hotkeys.hotkeys_reset_player 8 4
            (pressed_once Hotkeys.HOTKEY_TRIGGER_ON_TAP 500) 0)
         0 0 300) = [].
Proof.
  destruct (hotkeys_reset_player_forgets 8 4
              (pressed_once Hotkeys.HOTKEY_TRIGGER_ON_TAP 500) 0)
    as (_ & _ & _ & _ & _ & Hc); [vm_compute; lia |].
  destruct (snd _) as [| c rest] eqn:E; [reflexivity |].
  destruct (Hc 0 300 c) as (_ & _ & i & Hi & _ & _ & Ht & _).
  - rewrite E. now left.
  - exfalso. destruct i as [| i]; [discriminate Ht |].
    revert Hi. vm_compute. lia.
Defined.

(* ====================================================================== *)
(** * The N64 host beyond the debounce *)
(* ====================================================================== *)

Section N64Stick.
Import N64Host.

Lemma s8_small x : -128 <= x < 128 -> C.s8 x = x.
Proof. intros Hx. unfold C.s8. rewrite Z.mod_small; lia. Qed.

(** The scaling [v * 127 / 80] is monotone. *)
Lemma stick_quot_mono a b :
  a <= b -> Z.quot (a * 127) 80 <= Z.quot (b * 127) 80.
Proof. intros. apply Z.quot_le_mono; lia. Qed.

(** The bounds of the scaled value that decide the clamps. *)
Lemma stick_quot_bounds v :
  (80 <= v -> 127 <= Z.quot (v * 127) 80)
  /\ (v <= 80 -> Z.quot (v * 127) 80 <= 127)
  /\ (v <= 79 -> Z.quot (v * 127) 80 <= 126)
  /\ (v <= -81 -> Z.quot (v * 127) 80 <= -128)
  /\ (-80 <= v -> -127 <= Z.quot (v * 127) 80).
Proof.
  repeat split; intros Hb.
  - pose proof (stick_quot_mono 80 v Hb) as Q. exact Q.
  - pose proof (stick_quot_mono v 80 Hb) as Q. exact Q.
  - pose proof (stick_quot_mono v 79 Hb) as Q.
    change (Z.quot (79 * 127) 80) with 125 in Q. lia.
  - pose proof (stick_quot_mono v (-81) Hb) as Q. exact Q.
  - pose proof (stick_quot_mono (-80) v Hb) as Q. exact Q.
Qed.

Lemma convert_stick_axis_spec v :
  -128 <= v <= 127 ->
  convert_stick_axis v =
    if 80 <=? v then 255
    else if v <=? -81 then 0
    else 128 + Z.quot (v * 127) 80.
Proof.
  intros Hv. unfold convert_stick_axis, N64_STICK_MAX.
  rewrite s8_small by lia. rewrite s32_small by lia.
  destruct (stick_quot_bounds v) as (B1 & B2 & _ & B4 & B5).
  destruct (Z.leb_spec 80 v).
  - destruct (Z.ltb_spec 127 (Z.quot (v * 127) 80)); cbn.
    + reflexivity.
    + replace (Z.quot (v * 127) 80) with 127 by lia. reflexivity.
  - destruct (Z.ltb_spec 127 (Z.quot (v * 127) 80)); [lia |].
    destruct (Z.leb_spec v (-81)).
    + destruct (Z.ltb_spec (Z.quot (v * 127) 80) (-128)); cbn; [reflexivity |].
      replace (Z.quot (v * 127) 80) with (-128) by lia. reflexivity.
    + destruct (Z.ltb_spec (Z.quot (v * 127) 80) (-128)); [lia |].
      rewrite Z.add_comm. apply u8_small. lia.
Qed.

Lemma convert_stick_axis_range v : 0 <= convert_stick_axis v < 256.
Proof. unfold convert_stick_axis, C.u8. apply Z.mod_pos_bound. lia. Qed.

Lemma convert_stick_axis_mono v w :
  -128 <= v <= w -> w <= 127 -> convert_stick_axis v <= convert_stick_axis w.
Proof.
  intros Hv Hw. rewrite !convert_stick_axis_spec by lia.
  pose proof (stick_quot_mono v w ltac:(lia)) as Q.
  destruct (stick_quot_bounds v) as (_ & _ & Qv & _ & _).
  destruct (stick_quot_bounds w) as (_ & _ & _ & _ & Qw).
  destruct (Z.leb_spec 80 v), (Z.leb_spec 80 w),
    (Z.leb_spec v (-81)), (Z.leb_spec w (-81)); lia.
Qed.

Lemma convert_stick_axis_inner v :
  -80 <= v <= 80 -> convert_stick_axis v = 128 + Z.quot (v * 127) 80.
Proof.
  intros G. rewrite convert_stick_axis_spec by lia.
  destruct (Z.leb_spec 80 v).
  - replace v with 80 by lia. reflexivity.
  - destruct (Z.leb_spec v (-81)); [lia | reflexivity].
Qed.

(** X8.  The stick conversion of the N64 host: the raw range -80..80 is
    stretched over 1..255 around the centre 128, in order and
    symmetrically; deflections beyond it saturate at 255 and at 0. *)
Theorem n64_stick_conversion v w :
  -128 <= v <= w -> w <= 127 ->
  let c := convert_stick_axis in
  0 <= c v <= 255
  /\ c v <= c w
  /\ c 0 = 128
  /\ (80 <= v -> c v = 255)
  /\ (v <= -81 -> c v = 0)
  /\ (-80 <= v <= 80 ->
      c v = 128 + Z.quot (v * 127) 80 /\ 1 <= c v /\ c (- v) = 256 - c v).
Proof.
  intros Hv Hw c. subst c.
  pose proof (convert_stick_axis_range v) as R.
  pose proof (convert_stick_axis_mono v w Hv Hw) as M.
  split; [lia |]. split; [exact M |]. split; [reflexivity |].
  split; [| split].
  - intros G. rewrite convert_stick_axis_spec by lia.
    destruct (Z.leb_spec 80 v); [reflexivity | lia].
  - intros G. rewrite convert_stick_axis_spec by lia.
    destruct (Z.leb_spec 80 v); [lia |].
    destruct (Z.leb_spec v (-81)); [reflexivity | lia].
  - intros G.
    destruct (stick_quot_bounds v) as (_ & _ & _ & _ & Qv).
    rewrite (convert_stick_axis_inner v), (convert_stick_axis_inner (- v)) by lia.
    split; [reflexivity |]. split; [lia |].
    rewrite Z.mul_opp_l, Z.quot_opp_l by lia. lia.
Qed.

Lemma n64_stick_conversion_witness :
  let c := convert_stick_axis in
  0 <= c 40 <= 255 /\ c 40 <= c 85 /\ c 0 = 128.
Proof.
  destruct (n64_stick_conversion 40 85) as (A & B & C & _); [lia | lia |].
  cbv zeta. split; [exact A |]. split; [exact B | exact C].
Defined.

End N64Stick.

Section N64Buttons.
Import N64Host.
Context `{ButtonLayout}.

Lemma pressed_or_all l : forall acc k,
  pressed (or_all l acc) k
  = pressed acc k || existsb (fun cm => fst cm && pressed (snd cm) k) l.
Proof.
  unfold or_all. induction l as [| cm l IH]; intros acc k; cbn [fold_left existsb].
  - now rewrite orb_false_r.
  - rewrite IH, pressed_or_if. now rewrite orb_assoc.
Qed.

Lemma or_if_range c m acc n :
  0 <= acc < 2 ^ n -> 0 <= m < 2 ^ n -> 0 <= or_if c m acc < 2 ^ n.
Proof.
  intros Ha Hm. unfold or_if. destruct c; [| exact Ha].
  now apply lor_lt_pow2.
Qed.

Lemma or_all_range l : forall acc,
  0 <= acc < 2 ^ 32 ->
  Forall (fun cm => 0 <= snd cm < 2 ^ 32) l ->
  0 <= or_all l acc < 2 ^ 32.
Proof.
  unfold or_all. induction l as [| cm l IH]; intros acc Ha Hl; cbn [fold_left].
  - exact Ha.
  - inversion Hl as [| ? ? Hc Hr]; subst.
    apply IH; [| exact Hr]. apply or_if_range; [exact Ha | exact Hc].
Qed.

Lemma JP_BUTTON_range k : 0 <= JP_BUTTON k < 2 ^ 32.
Proof.
  rewrite JP_BUTTON_bit. pose proof (JP_bit_range k).
  split; [apply Z.pow_nonneg; lia | apply Z.pow_lt_mono_r; lia].
Qed.

Lemma n64_pressed rp k :
  pressed (map_n64_to_jp rp) k = n64_button_source rp k.
Proof.
  unfold map_n64_to_jp. rewrite pressed_or_all, pressed_0.
  cbn [existsb fst snd orb]. rewrite !pressed_JP.
  destruct k; cbn [button_eqb n64_button_source];
    rewrite ?andb_false_r, ?andb_true_r, ?orb_false_r, ?orb_false_l;
    reflexivity.
Qed.

Lemma n64_word_range rp : 0 <= map_n64_to_jp rp < 2 ^ 32.
Proof.
  unfold map_n64_to_jp. apply or_all_range; [lia |].
  repeat constructor; apply JP_BUTTON_range.
Qed.

Lemma n64_word_buttons rp rp' :
  map_n64_to_jp rp = map_n64_to_jp rp' -> n64_buttons_of rp = n64_buttons_of rp'.
Proof.
  intros E.
  assert (P : forall k, n64_button_source rp k = n64_button_source rp' k)
    by (intros k; rewrite <- !n64_pressed, E; reflexivity).
  unfold n64_buttons_of.
  pose proof (P B1) as P1. pose proof (P B2) as P2. pose proof (P B3) as P3.
  pose proof (P B4) as P4. pose proof (P L3) as P5. pose proof (P R3) as P6.
  pose proof (P L2) as P7. pose proof (P R2) as P8. pose proof (P R1) as P9.
  pose proof (P S2) as P10. pose proof (P DU) as P11. pose proof (P DD) as P12.
  pose proof (P DL) as P13. pose proof (P DR) as P14.
  cbn [n64_button_source] in *. congruence.
Qed.

Lemma n64_word_not_sentinel rp : map_n64_to_jp rp <> 0xFFFFFFFF.
Proof.
  intros E. pose proof (n64_pressed rp S1) as P. rewrite E in P.
  cbn [n64_button_source] in P. unfold pressed in P.
  change 0xFFFFFFFF with (Z.ones 32) in P.
  rewrite Z.ones_spec_low in P by apply JP_bit_range. discriminate.
Qed.

(** X9.  The button word of the N64 host can be decoded: every N64 button has a
    bit of its own, so that two reports with the same word have the same
    buttons; the bits without an N64 source are never set, and the word
    fits in 32 bits. *)
Theorem n64_button_word_decodes rp :
  (forall k, pressed (map_n64_to_jp rp) k = n64_button_source rp k)
  /\ (forall rp', map_n64_to_jp rp = map_n64_to_jp rp' ->
                  n64_buttons_of rp = n64_buttons_of rp')
  /\ 0 <= map_n64_to_jp rp < 2 ^ 32.
Proof.
  split; [apply n64_pressed |]. split; [apply n64_word_buttons |].
  apply n64_word_range.
Qed.

End N64Buttons.

Section N64Changes.
Import N64Host.
Context `{ButtonLayout}.

Lemma n64_track_connected s env port :
  is_connected env = true ->
  n64_prevs (fst (track_connection s env port)) = n64_prevs s
  /\ initialized (fst (track_connection s env port)) = initialized s
  /\ snd (track_connection s env port) = [].
Proof.
  intros Hc. unfold track_connection. rewrite Hc. cbn. tauto.
Qed.

Lemma n64_pak_init_prevs s env :
  n64_prevs (fst (pak_init s env)) = n64_prevs s
  /\ initialized (fst (pak_init s env)) = initialized s
  /\ n64_submitted (snd (pak_init s env)) = [].
Proof.
  unfold pak_init. destruct (_ && _); [| cbn; tauto].
  cbn [fst snd]. split; [reflexivity |]. split; [reflexivity |].
  destruct (_ && _); reflexivity.
Qed.

Lemma n64_flush_prevs s env :
  n64_prevs (fst (n64_host_flush_rumble s env)) = n64_prevs s
  /\ n64_submitted (snd (n64_host_flush_rumble s env)) = [].
Proof.
  unfold n64_host_flush_rumble.
  destruct (negb (initialized s)); [cbn; tauto |].
  destruct (negb (is_connected env)); [cbn; tauto |].
  destruct (_ && _); [| cbn; tauto].
  cbn [fst snd]. split; [reflexivity |].
  destruct (rumble_pak_initialized s); reflexivity.
Qed.

Lemma n64_feedback_prevs s env port :
  n64_prevs (fst (rumble_feedback s env port)) = n64_prevs s
  /\ initialized (fst (rumble_feedback s env port)) = initialized s
  /\ connected_polls (fst (rumble_feedback s env port)) = connected_polls s
  /\ n64_submitted (snd (rumble_feedback s env port)) = [].
Proof.
  destruct (n64_rumble_feedback_frame s env port)
    as (A & B & _ & _ & C & D & E & F & G & I).
  cbv zeta in *. unfold n64_prevs. rewrite C, D, E, F, G. tauto.
Qed.

Lemma n64_submit_prevs s env port :
  success env = true ->
  n64_prevs (fst (submit_input s env port)) = n64_remembered (report env).
Proof.
  intros Hs. unfold submit_input. rewrite Hs. cbn [negb].
  destruct (map_c_buttons_to_analog _).
  destruct (Z.eqb_spec (map_n64_to_jp (report env)) (prev_buttons s)) as [E1 |];
    [| reflexivity].
  destruct (Z.eqb_spec (stick_x (report env)) (prev_stick_x s)) as [E2 |];
    [| reflexivity].
  destruct (Z.eqb_spec (stick_y (report env)) (prev_stick_y s)) as [E3 |];
    [| reflexivity].
  destruct (Bool.eqb (l (report env)) (prev_l s)) eqn:E4; [| reflexivity].
  destruct (Bool.eqb (r (report env)) (prev_r s)) eqn:E5; [| reflexivity].
  apply eqb_prop in E4, E5. cbn [andb fst]. unfold n64_prevs, n64_remembered.
  congruence.
Qed.

Lemma n64_submit_same s env port :
  success env = true -> n64_prevs s = n64_remembered (report env) ->
  snd (submit_input s env port) = [].
Proof.
  intros Hs E. unfold n64_prevs, n64_remembered in E.
  injection E as E1 E2 E3 E4 E5.
  unfold submit_input. rewrite Hs. cbn [negb].
  destruct (map_c_buttons_to_analog _).
  rewrite E1, E2, E3, E4, E5, !Z.eqb_refl, !Bool.eqb_reflx. reflexivity.
Qed.

Lemma n64_submit_changed s env :
  success env = true -> n64_prevs s <> n64_remembered (report env) ->
  exists e, snd (submit_input s env 0) = [router_submit_input e]
            /\ n64_event_of (report env) e.
Proof.
  intros Hs N. unfold submit_input. rewrite Hs. cbn [negb].
  destruct (map_c_buttons_to_analog (report env)) as [c_rx c_ry] eqn:Ec.
  destruct (_ && _) eqn:Eq.
  - exfalso. apply N.
    apply andb_prop in Eq as [Eq E5]. apply andb_prop in Eq as [Eq E4].
    apply andb_prop in Eq as [Eq E3]. apply andb_prop in Eq as [E1 E2].
    apply Z.eqb_eq in E1, E2, E3. apply eqb_prop in E4, E5.
    unfold n64_prevs, n64_remembered. congruence.
  - eexists. split; [reflexivity |].
    pose proof (convert_stick_axis_range (stick_x (report env))).
    pose proof (convert_stick_axis_range (- stick_y (report env))).
    unfold n64_event_of. cbn [dev_addr type buttons analog with_analog
      with_buttons with_identity set_analog lx ly rx ry l2 r2].
    rewrite !u8_small by lia.
    repeat split.
    unfold map_c_buttons_to_analog in *.
    injection Ec as <- <-.
    destruct (c_left _), (c_right _), (c_up _), (c_down _); reflexivity.
Qed.

(** A task call on a connected controller: its events are those of the
    input part, run on the n64_remembered input. *)
Lemma n64_task_connected s env :
  initialized s = true -> is_connected env = true ->
  exists s0, n64_prevs s0 = n64_prevs s
    /\ n64_submitted (snd (n64_host_task s env)) = snd (submit_input s0 env 0)
    /\ (success env = true ->
        n64_prevs (fst (n64_host_task s env)) = n64_remembered (report env)).
Proof.
  intros Hi Hc. unfold n64_host_task. rewrite Hi. cbn [negb].
  destruct (n64_feedback_prevs s env 0) as (A1 & _ & _ & A2).
  destruct (rumble_feedback s env 0) as [s1 o1]. cbn [fst snd] in *.
  destruct (n64_track_connected s1 env 0 Hc) as (B1 & _ & B2).
  destruct (track_connection s1 env 0) as [s2 o2]. cbn [fst snd] in *.
  destruct (n64_pak_init_prevs s2 env) as (C1 & _ & C2).
  destruct (pak_init s2 env) as [s3 o3]. cbn [fst snd] in *.
  pose proof (n64_submit_prevs s3 env 0) as D1.
  assert (D2 : n64_submitted (snd (submit_input s3 env 0))
               = snd (submit_input s3 env 0)).
  { unfold submit_input. destruct (negb _); [reflexivity |].
    destruct (map_c_buttons_to_analog _). destruct (_ && _); reflexivity. }
  destruct (submit_input s3 env 0) as [s4 o4] eqn:Es. cbn [fst snd] in *.
  destruct (n64_flush_prevs s4 env) as (E1 & E2).
  destruct (n64_host_flush_rumble s4 env) as [s5 o5]. cbn [fst snd] in *.
  exists s3. split; [congruence |]. split.
  - unfold n64_submitted in *. subst o2.
    rewrite !filter_app, A2, C2, D2, E2. cbn [filter app].
    rewrite app_nil_r, Es. reflexivity.
  - intros Hs. rewrite E1. now apply D1.
Qed.

(** After a successful poll the task remembers the report, connected or
    not. *)
Lemma n64_task_remembers s env :
  initialized s = true -> success env = true ->
  n64_prevs (fst (n64_host_task s env)) = n64_remembered (report env).
Proof.
  intros Hi Hs. unfold n64_host_task. rewrite Hi. cbn [negb].
  destruct (rumble_feedback s env 0) as [s1 o1].
  destruct (track_connection s1 env 0) as [s2 o2].
  destruct (pak_init s2 env) as [s3 o3].
  pose proof (n64_submit_prevs s3 env 0 Hs) as D1.
  destruct (submit_input s3 env 0) as [s4 o4]. cbn [fst snd] in *.
  destruct (n64_flush_prevs s4 env) as (E1 & _).
  destruct (n64_host_flush_rumble s4 env) as [s5 o5]. cbn [fst snd] in *.
  congruence.
Qed.

Lemma n64_task_initialized s env :
  initialized (fst (n64_host_task s env)) = initialized s.
Proof.
  unfold n64_host_task. destruct (initialized s) eqn:Hi; [| exact Hi].
  cbn [negb].
  destruct (n64_feedback_prevs s env 0) as (_ & A & _).
  destruct (rumble_feedback s env 0) as [s1 o1]. cbn [fst snd] in *.
  assert (B : initialized (fst (track_connection s1 env 0)) = initialized s1).
  { unfold track_connection. destruct (negb _); [| reflexivity].
    destruct (0 <? _); [| reflexivity]. destruct (30 <=? _); reflexivity. }
  destruct (track_connection s1 env 0) as [s2 o2]. cbn [fst snd] in *.
  destruct (n64_pak_init_prevs s2 env) as (_ & C & _).
  destruct (pak_init s2 env) as [s3 o3]. cbn [fst snd] in *.
  destruct (n64_submit_input_frame s3 env 0) as (D & _).
  destruct (submit_input s3 env 0) as [s4 o4]. cbn [fst snd] in *.
  destruct (n64_flush_frame s4 env) as (E & _).
  destruct (n64_host_flush_rumble s4 env) as [s5 o5]. cbn [fst snd] in *.
  congruence.
Qed.

Lemma n64_same_input_spec rp rp' :
  n64_same_input rp rp' = true <-> n64_remembered rp' = n64_remembered rp.
Proof.
  unfold n64_same_input, n64_remembered. split.
  - intros E. apply andb_prop in E as [E E3]. apply andb_prop in E as [E1 E2].
    apply Z.eqb_eq in E1, E2, E3.
    pose proof (n64_pressed rp L2) as PL. pose proof (n64_pressed rp R2) as PR.
    rewrite E1, n64_pressed in PL, PR. cbn [n64_button_source] in PL, PR.
    congruence.
  - intros E. injection E as E1 E2 E3 _ _.
    rewrite E1, E2, E3, !Z.eqb_refl. reflexivity.
Qed.

(** X10.  The N64 host reports changes only: after a poll that returned a report,
    the next poll of the connected controller is passed on exactly when its
    button word or its raw stick position differs, and the event then
    carries the converted report. *)
Theorem n64_reports_changes_only s env env' :
  initialized s = true -> success env = true ->
  success env' = true -> is_connected env' = true ->
  let s1 := fst (n64_host_task s env) in
  let out := n64_submitted (snd (n64_host_task s1 env')) in
  if n64_same_input (report env') (report env) then out = []
  else exists e, out = [router_submit_input e] /\ n64_event_of (report env') e.
Proof.
  intros Hi Hs Hs' Hc' s1 out. subst s1 out.
  pose proof (n64_task_remembers s env Hi Hs) as R.
  assert (Hi1 : initialized (fst (n64_host_task s env)) = true)
    by (rewrite n64_task_initialized; exact Hi).
  destruct (n64_task_connected _ env' Hi1 Hc') as (s0 & P & O & _).
  rewrite O.
  destruct (n64_same_input (report env') (report env)) eqn:Same.
  - apply n64_submit_same; [exact Hs' |].
    apply n64_same_input_spec in Same. congruence.
  - apply n64_submit_changed; [exact Hs' |].
    intros E. rewrite P, R in E.
    assert (T : n64_same_input (report env') (report env) = true)
      by (apply n64_same_input_spec; congruence).
    congruence.
Qed.

End N64Changes.

Lemma n64_reports_changes_only_witness :
  n64_submitted
    (snd (N64Host.n64_host_task (fst (N64Host.n64_host_task N64Host.init_state n64_present_poll))
            n64_present_poll)) = [].
Proof.
  pose proof (n64_reports_changes_only (H := sample_layout) N64Host.init_state
                n64_present_poll n64_present_poll
                eq_refl eq_refl eq_refl eq_refl) as W.
  exact W.
Defined.


Section N64Sentinel.
Import N64Host.
Context `{ButtonLayout}.

Lemma n64_track_never_connected s env port :
  connected_polls s = 0 -> is_connected env = false ->
  track_connection s env port = (s, []).
Proof.
  intros Hp Hc. unfold track_connection. rewrite Hc, Hp. reflexivity.
Qed.

Lemma n64_pak_init_absent s env :
  is_connected env = false -> pak_init s env = (s, []).
Proof. intros Hc. unfold pak_init. rewrite Hc. reflexivity. Qed.

Lemma n64_flush_absent s env :
  is_connected env = false -> n64_host_flush_rumble s env = (s, []).
Proof.
  intros Hc. unfold n64_host_flush_rumble. rewrite Hc.
  destruct (negb (initialized s)); reflexivity.
Qed.

Lemma n64_submit_only s env port :
  n64_submitted (snd (submit_input s env port)) = snd (submit_input s env port).
Proof.
  unfold submit_input. destruct (negb _); [reflexivity |].
  destruct (map_c_buttons_to_analog _). destruct (_ && _); reflexivity.
Qed.

(** A task call of a driver that never saw the controller connected. *)
Lemma n64_task_fresh s env :
  initialized s = true -> connected_polls s = 0 ->
  exists s0, n64_prevs s0 = n64_prevs s
    /\ n64_submitted (snd (n64_host_task s env)) = snd (submit_input s0 env 0).
Proof.
  intros Hi Hp.
  destruct (is_connected env) eqn:Hc.
  - destruct (n64_task_connected s env Hi Hc) as (s0 & P & O & _).
    exists s0. split; [exact P | exact O].
  - unfold n64_host_task. rewrite Hi. cbn [negb].
    destruct (n64_feedback_prevs s env 0) as (A1 & _ & A3 & A2).
    destruct (rumble_feedback s env 0) as [s1 o1]. cbn [fst snd] in *.
    rewrite (n64_track_never_connected s1 env 0) by congruence.
    rewrite n64_pak_init_absent by exact Hc.
    pose proof (n64_submit_only s1 env 0) as D.
    destruct (submit_input s1 env 0) as [s4 o4] eqn:Es. cbn [fst snd] in *.
    rewrite n64_flush_absent by exact Hc.
    exists s1. split; [exact A1 |].
    unfold n64_submitted in *. rewrite Es. cbn [snd].
    rewrite !filter_app, A2, D. cbn [filter app snd]. now rewrite app_nil_r.
Qed.

(** X11.  The first report polled after initialisation is always passed on,
    whatever it holds: the button word remembered by [n64_host_init] is one
    no report maps to. *)
Theorem n64_first_report_is_submitted s env :
  initialized s = false -> connected_polls s = 0 -> success env = true ->
  exists e,
    n64_submitted (snd (n64_host_task (n64_host_init s) env))
      = [router_submit_input e]
    /\ n64_event_of (report env) e.
Proof.
  intros Hi Hp Hs. unfold n64_host_init. rewrite Hi.
  destruct (n64_task_fresh (n64_host_init_pin s) env eq_refl Hp) as (s0 & P & O).
  rewrite O. apply n64_submit_changed; [exact Hs |].
  rewrite P. unfold n64_prevs, n64_remembered. cbn [n64_host_init_pin prev_buttons].
  intros E. injection E as E _ _ _ _.
  symmetry in E. now apply n64_word_not_sentinel in E.
Qed.

(** X12.  After the disconnect has been reported, a controller that comes back
    at rest is not reported again: the neutral state is what the task then
    remembers. *)
Theorem n64_idle_reconnect_is_silent s env env' :
  initialized s = true -> success env = false ->
  n64_submitted (snd (n64_host_task s env)) <> [] ->
  success env' = true -> is_connected env' = true ->
  report env' = n64_idle_report ->
  n64_submitted (snd (n64_host_task (fst (n64_host_task s env)) env')) = [].
Proof.
  intros Hi Hs Hout Hs' Hc' Hr.
  assert (Hi1 : initialized (fst (n64_host_task s env)) = true)
    by (rewrite n64_task_initialized; exact Hi).
  destruct (n64_task_connected _ env' Hi1 Hc') as (s0 & P & O & _).
  rewrite O. apply n64_submit_same; [exact Hs' |]. rewrite P, Hr.
  clear O P s0 Hi1.
  unfold n64_host_task in *. rewrite Hi in *. cbn [negb] in *.
  destruct (n64_feedback_prevs s env 0) as (_ & _ & _ & A2).
  destruct (rumble_feedback s env 0) as [s1 o1]. cbn [fst snd] in *.
  assert (S4 : forall s2, submit_input s2 env 0 = (s2, []))
    by (intros s2; unfold submit_input; rewrite Hs; reflexivity).
  unfold track_connection in *.
  destruct (is_connected env) eqn:Hc; cbn [negb] in *.
  - exfalso. apply Hout.
    destruct (n64_pak_init_prevs
                {| initialized := initialized s1; rumble_state := rumble_state s1;
                   rumble_pending := rumble_pending s1;
                   rumble_pak_initialized := rumble_pak_initialized s1;
                   connected_polls :=
                     if connected_polls s1 =? 0 then 1 else connected_polls s1;
                   disconnect_debounce := 0;
                   prev_buttons := prev_buttons s1;
                   prev_stick_x := prev_stick_x s1;
                   prev_stick_y := prev_stick_y s1;
                   prev_l := prev_l s1; prev_r := prev_r s1 |} env) as (_ & _ & C).
    destruct (pak_init _ env) as [s3 o3]. cbn [fst snd] in *.
    rewrite S4.
    destruct (n64_flush_prevs s3 env) as (_ & E).
    destruct (n64_host_flush_rumble s3 env) as [s5 o5]. cbn [fst snd] in *.
    unfold n64_submitted in *. cbn [snd]. rewrite !filter_app, A2, C, E. reflexivity.
  - destruct (0 <? connected_polls s1).
    + destruct (30 <=? _).
      * rewrite n64_pak_init_absent, S4, n64_flush_absent by exact Hc.
        reflexivity.
      * exfalso. apply Hout.
        rewrite n64_pak_init_absent, S4, n64_flush_absent by exact Hc.
        unfold n64_submitted in *. cbn [snd]. rewrite !filter_app, A2. reflexivity.
    + exfalso. apply Hout.
      rewrite n64_pak_init_absent, S4, n64_flush_absent by exact Hc.
      unfold n64_submitted in *. cbn [snd]. rewrite !filter_app, A2. reflexivity.
Qed.

End N64Sentinel.

Lemma n64_first_report_is_submitted_witness :
  exists e,
    n64_submitted (snd (N64Host.n64_host_task
                          (N64Host.n64_host_init N64Host.power_on)
                          n64_present_poll))
      = [N64Host.router_submit_input e]
    /\ n64_event_of n64_idle_report e.
Proof.
  exact (n64_first_report_is_submitted (H := sample_layout) N64Host.power_on
           n64_present_poll eq_refl eq_refl eq_refl).
Defined.

Lemma n64_idle_reconnect_is_silent_witness :
  let s := fst (N64Host.run n64_after_connect (repeat n64_absent_poll 29)) in
  n64_submitted
    (snd (N64Host.n64_host_task (fst (N64Host.n64_host_task s n64_absent_poll))
            n64_present_poll)) = [].
Proof.
  apply (n64_idle_reconnect_is_silent (H := sample_layout)
           (fst (N64Host.run n64_after_connect (repeat n64_absent_poll 29)))
           n64_absent_poll n64_present_poll);
    try reflexivity.
  vm_compute. discriminate.
Defined.

Section N64Pak.
Import N64Host.
Context `{ButtonLayout}.

Lemma n64_pak_inits_app l1 l2 :
  n64_pak_inits (l1 ++ l2) = (n64_pak_inits l1 + n64_pak_inits l2)%nat.
Proof. unfold n64_pak_inits. now rewrite filter_app, length_app. Qed.

Lemma n64_feedback_pak s env port :
  connected_polls (fst (rumble_feedback s env port)) = connected_polls s
  /\ disconnect_debounce (fst (rumble_feedback s env port)) = disconnect_debounce s
  /\ rumble_pak_initialized (fst (rumble_feedback s env port))
     = rumble_pak_initialized s
  /\ initialized (fst (rumble_feedback s env port)) = initialized s
  /\ n64_pak_inits (snd (rumble_feedback s env port)) = 0%nat
  /\ n64_no_rumble (snd (rumble_feedback s env port)).
Proof.
  unfold rumble_feedback, n64_no_rumble.
  destruct (feedback env) as [f |]; [| cbn; tauto].
  destruct (rumble_dirty f); [| cbn; tauto].
  destruct (negb _); cbn; repeat split; intros on [F | []]; discriminate.
Qed.

Lemma n64_submit_pak s env port :
  connected_polls (fst (submit_input s env port)) = connected_polls s
  /\ disconnect_debounce (fst (submit_input s env port)) = disconnect_debounce s
  /\ rumble_pak_initialized (fst (submit_input s env port))
     = rumble_pak_initialized s
  /\ initialized (fst (submit_input s env port)) = initialized s
  /\ n64_pak_inits (snd (submit_input s env port)) = 0%nat
  /\ n64_no_rumble (snd (submit_input s env port)).
Proof.
  unfold submit_input, n64_no_rumble.
  destruct (negb (success env)); [cbn; tauto |].
  destruct (map_c_buttons_to_analog _).
  destruct (_ && _); cbn; repeat split; try tauto;
    intros on [F | []]; discriminate.
Qed.

Lemma n64_flush_pak s env :
  connected_polls (fst (n64_host_flush_rumble s env)) = connected_polls s
  /\ disconnect_debounce (fst (n64_host_flush_rumble s env))
     = disconnect_debounce s
  /\ rumble_pak_initialized (fst (n64_host_flush_rumble s env))
     = rumble_pak_initialized s
  /\ n64_pak_inits (snd (n64_host_flush_rumble s env)) = 0%nat
  /\ (snd (n64_host_flush_rumble s env) = []
      \/ rumble_pak_initialized s = true
         /\ snd (n64_host_flush_rumble s env)
            = [N64Controller_SetRumble (rumble_state s)]).
Proof.
  unfold n64_host_flush_rumble.
  destruct (negb (initialized s)); [cbn; tauto |].
  destruct (negb (is_connected env)); [cbn; tauto |].
  destruct (_ && _); [| cbn; tauto].
  destruct (rumble_pak_initialized s); cbn; tauto.
Qed.

(** One task call, as far as the pak is concerned. *)
Lemma n64_task_pak s env :
  0 <= disconnect_debounce s ->
  disconnect_debounce s + (if is_connected env then 0 else 1) < 30 ->
  let s1 := fst (n64_host_task s env) in
  (n64_pak_inits (snd (n64_host_task s env)) + n64_pak_credit s1 <= n64_pak_credit s)%nat
  /\ 0 <= disconnect_debounce s1
  /\ disconnect_debounce s1
     <= disconnect_debounce s + (if is_connected env then 0 else 1).
Proof.
  intros Hd Hb. cbv zeta. unfold n64_host_task.
  destruct (initialized s); cbn [negb].
  2:{ cbn [fst snd]. change (n64_pak_inits []) with 0%nat.
      split; [lia |]. split; [exact Hd |]. destruct (is_connected env); lia. }
  destruct (n64_feedback_pak s env 0) as (A1 & A2 & _ & _ & A3 & _).
  destruct (rumble_feedback s env 0) as [s1 o1]. cbn [fst snd] in *.
  assert (T : exists s3 o3,
    (let (s2, o2) := track_connection s1 env 0 in
     let (s3, o3) := pak_init s2 env in (s3, o2 ++ o3)) = (s3, o3)
    /\ (n64_pak_inits o3 + n64_pak_credit s3 <= n64_pak_credit s)%nat
    /\ 0 <= disconnect_debounce s3
    /\ disconnect_debounce s3
       <= disconnect_debounce s + (if is_connected env then 0 else 1)).
  { unfold track_connection, pak_init, n64_pak_credit.
    destruct (is_connected env) eqn:Hc; cbn [negb andb].
    - cbn [connected_polls disconnect_debounce].
      rewrite <- A1.
      destruct (Z.eqb_spec (connected_polls s1) 0) as [E0 | N0].
      + rewrite E0. cbn. do 2 eexists. split; [reflexivity |].
        cbn. lia.
      + destruct (Z.ltb_spec 0 (connected_polls s1)) as [P | P];
          cbn [andb]; [| do 2 eexists; split; [reflexivity |]; cbn; lia].
        destruct (Z.ltb_spec (connected_polls s1) 255) as [Q | Q];
          [| do 2 eexists; split; [reflexivity |]; cbn; lia].
        rewrite u8_small by lia.
        do 2 eexists. split; [reflexivity |].
        cbn [connected_polls disconnect_debounce app].
        destruct (Z.eqb_spec (connected_polls s1 + 1) 10) as [E10 | N10];
          cbn [andb].
        * destruct (Z.ltb_spec (connected_polls s1) 10); [| lia].
          destruct (Z.ltb_spec (connected_polls s1 + 1) 10); [lia |].
          destruct (negb _ && _); cbn; lia.
        * change (n64_pak_inits []) with 0%nat.
          destruct (Z.ltb_spec (connected_polls s1) 10),
            (Z.ltb_spec (connected_polls s1 + 1) 10); lia.
    - rewrite <- A1, <- A2 in *.
      destruct (0 <? connected_polls s1).
      + rewrite u8_small by lia.
        destruct (Z.leb_spec 30 (disconnect_debounce s1 + 1)); [lia |].
        do 2 eexists. split; [reflexivity |]. cbn. lia.
      + do 2 eexists. split; [reflexivity |]. cbn. lia. }
  destruct T as (s3 & o3' & ET & T1 & T2 & T3).
  destruct (track_connection s1 env 0) as [s2 o2].
  destruct (pak_init s2 env) as [s3' o3]. injection ET as -> <-.
  destruct (n64_submit_pak s3 env 0) as (D1 & D2 & _ & _ & D3 & _).
  destruct (submit_input s3 env 0) as [s4 o4]. cbn [fst snd] in *.
  destruct (n64_flush_pak s4 env) as (E1 & E2 & _ & E3 & _).
  destruct (n64_host_flush_rumble s4 env) as [s5 o5]. cbn [fst snd] in *.
  rewrite !n64_pak_inits_app in *. rewrite A3, D3, E3.
  unfold n64_pak_credit in *. rewrite E1, E2, D1, D2. lia.
Qed.

Lemma n64_run_pak envs : forall s,
  0 <= disconnect_debounce s ->
  disconnect_debounce s + n64_dropouts envs < 30 ->
  (n64_pak_inits (snd (run s envs)) <= n64_pak_credit s)%nat.
Proof.
  induction envs as [| env rest IH]; intros s Hd Hb; cbn [run].
  - cbn. lia.
  - assert (Hdr : n64_dropouts (env :: rest)
                  = (if is_connected env then 0 else 1) + n64_dropouts rest).
    { unfold n64_dropouts. cbn [filter].
      destruct (is_connected env); cbn [negb length]; lia. }
    assert (Hr : 0 <= n64_dropouts rest) by (unfold n64_dropouts; lia).
    destruct (n64_task_pak s env Hd) as (T1 & T2 & T3);
      [destruct (is_connected env); lia |].
    cbv zeta in *.
    destruct (n64_host_task s env) as [s1 o1]. cbn [fst snd] in *.
    specialize (IH s1 T2 ltac:(destruct (is_connected env); lia)).
    destruct (run s1 rest) as [s2 o2]. cbn [fst snd] in *.
    rewrite n64_pak_inits_app. lia.
Qed.

(** X13.  While the controller stays connected, short dropouts included (fewer
    than 30 polls without an answer), the rumble pak is initialised at most
    once, and not at all once ten polls have been counted. *)
Theorem n64_pak_init_at_most_once s envs :
  0 <= disconnect_debounce s ->
  disconnect_debounce s + n64_dropouts envs < 30 ->
  (n64_pak_inits (snd (run s envs)) <= 1)%nat
  /\ (10 <= connected_polls s -> n64_pak_inits (snd (run s envs)) = 0%nat).
Proof.
  intros Hd Hb. pose proof (n64_run_pak envs s Hd Hb) as P. unfold n64_pak_credit in P.
  destruct (Z.ltb_spec (connected_polls s) 10); split; intros; lia.
Qed.

End N64Pak.

Lemma n64_pak_init_at_most_once_witness :
  (n64_pak_inits
     (snd (N64Host.run N64Host.init_state
             (repeat (n64_poll_of n64_idle_report) 20
              ++ repeat n64_absent_poll 5
              ++ repeat (n64_poll_of n64_idle_report) 20))) <= 1)%nat.
Proof.
  apply (n64_pak_init_at_most_once (H := sample_layout)); vm_compute;
    [discriminate | reflexivity].
Defined.

Section N64Rumble.
Import N64Host.
Context `{ButtonLayout}.

Lemma n64_has_pak_init_app l1 l2 :
  n64_has_pak_init (l1 ++ l2) = n64_has_pak_init l1 || n64_has_pak_init l2.
Proof. apply existsb_app. Qed.

Lemma n64_has_pak_init_In out :
  n64_has_pak_init out = true -> In N64Controller_InitRumblePak out.
Proof.
  unfold n64_has_pak_init. intros E. apply existsb_exists in E as (x & Hx & Ex).
  destruct x; try discriminate. exact Hx.
Qed.

Lemma n64_no_rumble_app l1 l2 :
  n64_no_rumble l1 -> n64_no_rumble l2 -> n64_no_rumble (l1 ++ l2).
Proof.
  intros N1 N2 on Hin. apply in_app_or in Hin as [Hin | Hin];
    [exact (N1 on Hin) | exact (N2 on Hin)].
Qed.

(** A rumble command after a prefix without one: the prefix is all that
    comes before it. *)
Lemma n64_first_rumble l1 l2 pre on post :
  n64_no_rumble l1 ->
  l1 ++ l2 = pre ++ N64Controller_SetRumble on :: post ->
  exists mid, pre = l1 ++ mid /\ l2 = mid ++ N64Controller_SetRumble on :: post.
Proof.
  revert pre. induction l1 as [| x l1 IH]; intros pre N E.
  - exists pre. split; [reflexivity | exact E].
  - destruct pre as [| y pre]; cbn [app] in E.
    + injection E as -> _. exfalso. apply (N on). now left.
    + injection E as -> E.
      destruct (IH pre) as (mid & -> & ->);
        [intros o Ho; apply (N o); now right | exact E |].
      exists mid. split; reflexivity.
Qed.

Lemma n64_track_pak s env port :
  (rumble_pak_initialized (fst (track_connection s env port)) = true ->
   rumble_pak_initialized s = true)
  /\ n64_has_pak_init (snd (track_connection s env port)) = false
  /\ n64_no_rumble (snd (track_connection s env port)).
Proof.
  unfold track_connection, n64_no_rumble.
  destruct (negb (is_connected env)).
  - destruct (0 <? connected_polls s); [| cbn; tauto].
    destruct (30 <=? _); cbn; repeat split; try tauto; try discriminate.
    intros on [F | []]; discriminate.
  - cbn. tauto.
Qed.

Lemma n64_pak_init_pak s env :
  (rumble_pak_initialized (fst (pak_init s env)) = true ->
   rumble_pak_initialized s = true
   \/ n64_has_pak_init (snd (pak_init s env)) = true)
  /\ n64_no_rumble (snd (pak_init s env)).
Proof.
  unfold pak_init, n64_no_rumble.
  destruct (_ && _); [| cbn; tauto].
  cbn [fst snd rumble_pak_initialized].
  destruct (_ && has_pak env) eqn:Try; cbn [andb].
  - split; [intros _; right; reflexivity |].
    intros on [F | []]; discriminate.
  - split; [intros E; left; exact E | intros on []].
Qed.

(** One task call: a rumble command is sent only with the pak marked as
    initialised, by this call or before it; and the pak is marked only
    by an initialisation. *)
Lemma n64_task_rumble s env :
  (forall pre on post,
     snd (n64_host_task s env) = pre ++ N64Controller_SetRumble on :: post ->
     rumble_pak_initialized s = true \/ n64_has_pak_init pre = true)
  /\ (rumble_pak_initialized (fst (n64_host_task s env)) = true ->
      rumble_pak_initialized s = true
      \/ n64_has_pak_init (snd (n64_host_task s env)) = true).
Proof.
  unfold n64_host_task. destruct (initialized s); cbn [negb].
  2:{ cbn [fst snd]. split; [| tauto].
      intros pre on post E. now destruct pre. }
  destruct (n64_feedback_pak s env 0) as (_ & _ & A1 & _ & _ & A2).
  destruct (rumble_feedback s env 0) as [s1 o1]. cbn [fst snd] in *.
  destruct (n64_track_pak s1 env 0) as (B1 & B3 & B2).
  destruct (track_connection s1 env 0) as [s2 o2]. cbn [fst snd] in *.
  destruct (n64_pak_init_pak s2 env) as (C1 & C2).
  destruct (pak_init s2 env) as [s3 o3]. cbn [fst snd] in *.
  destruct (n64_submit_pak s3 env 0) as (_ & _ & D1 & _ & _ & D2).
  destruct (submit_input s3 env 0) as [s4 o4]. cbn [fst snd] in *.
  destruct (n64_flush_pak s4 env) as (_ & _ & E1 & _ & E2).
  destruct (n64_host_flush_rumble s4 env) as [s5 o5]. cbn [fst snd] in *.
  assert (Before : rumble_pak_initialized s4 = true ->
                   rumble_pak_initialized s = true
                   \/ n64_has_pak_init (o1 ++ o2 ++ o3 ++ o4) = true).
  { intros P. rewrite D1 in P. destruct (C1 P) as [P2 | I3].
    - left. rewrite <- A1. now apply B1.
    - right. rewrite !n64_has_pak_init_app, I3.
      now rewrite !orb_true_r, ?orb_true_l. }
  split.
  - intros pre on post E.
    replace (o1 ++ o2 ++ o3 ++ o4 ++ o5) with ((o1 ++ o2 ++ o3 ++ o4) ++ o5) in E
      by (now rewrite <- !app_assoc).
    apply n64_first_rumble in E as (mid & -> & E5);
      [| repeat apply n64_no_rumble_app; assumption].
    destruct E2 as [-> | [P ->]]; [now destruct mid |].
    destruct (Before P) as [L | R]; [left; exact L | right].
    rewrite n64_has_pak_init_app, R. reflexivity.
  - intros P. rewrite E1 in P. destruct (Before P) as [L | R]; [left; exact L |].
    right.
    replace (o1 ++ o2 ++ o3 ++ o4 ++ o5) with ((o1 ++ o2 ++ o3 ++ o4) ++ o5)
      by (now rewrite <- !app_assoc).
    rewrite n64_has_pak_init_app, R. reflexivity.
Qed.

(** Where an element of a concatenation lies. *)
Lemma in_app_split {A} (l1 l2 pre : list A) x post :
  l1 ++ l2 = pre ++ x :: post ->
  (exists q, l1 = pre ++ x :: q)
  \/ (exists mid, pre = l1 ++ mid /\ l2 = mid ++ x :: post).
Proof.
  revert pre. induction l1 as [| y l1 IH]; intros pre E.
  - right. exists pre. split; [reflexivity | exact E].
  - destruct pre as [| z pre]; cbn [app] in E.
    + injection E as -> _. left. exists l1. reflexivity.
    + injection E as -> E. destruct (IH pre E) as [(q & ->) | (mid & -> & ->)].
      * left. exists q. reflexivity.
      * right. exists mid. split; reflexivity.
Qed.

Lemma n64_run_rumble envs : forall s pre on post,
  snd (run s envs) = pre ++ N64Controller_SetRumble on :: post ->
  rumble_pak_initialized s = true \/ n64_has_pak_init pre = true.
Proof.
  induction envs as [| env rest IH]; intros s pre on post E; cbn [run] in E.
  - now destruct pre.
  - destruct (n64_task_rumble s env) as (T1 & T2).
    destruct (n64_host_task s env) as [s1 o1]. cbn [fst snd] in *.
    specialize (IH s1).
    destruct (run s1 rest) as [s2 o2]. cbn [fst snd] in *.
    apply in_app_split in E as [(q & E1) | (mid & -> & E2)].
    + exact (T1 pre on q E1).
    + destruct (IH mid on post E2) as [P1 | I]; [| right].
      * destruct (T2 P1) as [L | R]; [left; exact L | right].
        rewrite n64_has_pak_init_app, R. reflexivity.
      * rewrite n64_has_pak_init_app, I. apply orb_true_r.
Qed.

(** X14.  The N64 host never sends a rumble command to a controller whose pak it
    has not initialised: starting without an initialised pak, every
    [N64Controller_SetRumble] of a session comes after an
    [N64Controller_InitRumblePak]. *)
Theorem n64_rumble_only_after_pak_init s envs pre on post :
  rumble_pak_initialized s = false ->
  snd (run s envs) = pre ++ N64Controller_SetRumble on :: post ->
  In N64Controller_InitRumblePak pre.
Proof.
  intros P E. apply n64_has_pak_init_In.
  destruct (n64_run_rumble envs s pre on post E) as [L | R];
    [congruence | exact R].
Qed.

End N64Rumble.

Lemma n64_rumble_only_after_pak_init_witness :
  In N64Host.N64Controller_InitRumblePak
     (firstn 3 (snd (N64Host.run N64Host.init_state
                       (repeat (n64_poll_of n64_idle_report) 9
                        ++ [n64_rumble_poll])))).
Proof.
  apply (n64_rumble_only_after_pak_init (H := sample_layout) N64Host.init_state
           (repeat (n64_poll_of n64_idle_report) 9 ++ [n64_rumble_poll])
           _ true []); reflexivity.
Defined.

(* ====================================================================== *)
(** * The GameCube host beyond the debounce *)
(* ====================================================================== *)

Section GcReports.
Import GcHost.
Context `{ButtonLayout}.

Lemma gc_pressed rp k :
  pressed (map_gc_to_jp rp) k = gc_button_source rp k.
Proof.
  unfold map_gc_to_jp. rewrite pressed_or_all, pressed_0.
  cbn [existsb fst snd orb]. rewrite !pressed_JP.
  destruct k; cbn [button_eqb gc_button_source];
    rewrite ?andb_false_r, ?andb_true_r, ?orb_false_r, ?orb_false_l;
    reflexivity.
Qed.

Lemma gc_word_buttons rp rp' :
  map_gc_to_jp rp = map_gc_to_jp rp' -> gc_buttons_of rp = gc_buttons_of rp'.
Proof.
  intros E.
  assert (P : forall k, gc_button_source rp k = gc_button_source rp' k)
    by (intros k; rewrite <- !gc_pressed, E; reflexivity).
  unfold gc_buttons_of.
  pose proof (P B1) as P1. pose proof (P B2) as P2. pose proof (P B3) as P3.
  pose proof (P B4) as P4. pose proof (P L2) as P7. pose proof (P R2) as P8.
  pose proof (P R1) as P9. pose proof (P S2) as P10.
  pose proof (P DU) as P11. pose proof (P DD) as P12.
  pose proof (P DL) as P13. pose proof (P DR) as P14.
  cbn [gc_button_source] in *. congruence.
Qed.

(** X15.  The button word of the GameCube host can be decoded: every GameCube
    button has a bit of its own, two reports with the same word have the
    same buttons, the bits without a GameCube source are never set, and
    the word fits in 32 bits. *)
Theorem gc_button_word_decodes rp :
  (forall k, pressed (map_gc_to_jp rp) k = gc_button_source rp k)
  /\ (forall rp', map_gc_to_jp rp = map_gc_to_jp rp' ->
                  gc_buttons_of rp = gc_buttons_of rp')
  /\ 0 <= map_gc_to_jp rp < 2 ^ 32.
Proof.
  split; [apply gc_pressed |]. split; [apply gc_word_buttons |].
  unfold map_gc_to_jp. apply or_all_range; [lia |].
  repeat constructor; apply JP_BUTTON_range.
Qed.

(** One task call answered by the controller. *)
Lemma gc_task_answered s env :
  initialized s = true -> gc_answered env ->
  initialized (fst (gc_host_task s env)) = true
  /\ exists x, gc_submitted (snd (gc_host_task s env)) = [x]
               /\ gc_event_of (report env) x.
Proof.
  intros Hi (Hs & Hc & B). unfold gc_host_task. rewrite Hi. cbn [negb].
  destruct (gc_rumble_feedback_frame s env 0) as (A1 & _ & _ & _ & A2).
  cbv zeta in A1.
  destruct (rumble_feedback s env 0) as [s1 o1]. cbn [fst snd] in *.
  unfold track_connection. rewrite Hc. cbn [negb].
  unfold submit_input. rewrite Hs. cbn [negb fst snd initialized].
  split; [congruence |].
  eexists. split.
  - unfold gc_submitted in *. rewrite !filter_app, A2. reflexivity.
  - unfold gc_report_bytes in B. eexists. split; [reflexivity |].
    cbn [dev_addr type buttons analog with_analog with_buttons with_identity
         set_analog lx ly rx ry l2 r2].
    rewrite !(u8_small (C.u8 _)) by apply u8_range.
    rewrite !u8_small by lia. repeat split.
Qed.

Lemma gc_run_answered envs : forall s,
  initialized s = true -> Forall gc_answered envs ->
  Forall2 gc_event_of (map report envs) (gc_submitted (snd (run s envs))).
Proof.
  induction envs as [| env rest IH]; intros s Hi Ha; cbn [run map].
  - constructor.
  - inversion Ha as [| ? ? Ha1 Har]; subst.
    destruct (gc_task_answered s env Hi Ha1) as (Hi1 & x & Ex & Ev).
    destruct (gc_host_task s env) as [s1 o1]. cbn [fst snd] in *.
    specialize (IH s1 Hi1 Har).
    destruct (run s1 rest) as [s2 o2]. cbn [fst snd] in *.
    unfold gc_submitted in *. rewrite filter_app, Ex. cbn [app].
    constructor; assumption.
Qed.

(** X16.  The GameCube host passes on every report it polls from a connected
    controller, changed or not: a session of answered polls yields one
    event per poll, in order, each carrying the buttons, sticks and
    triggers of its report with the vertical axes turned over. *)
Theorem gc_passes_on_every_report s envs :
  initialized s = true -> Forall gc_answered envs ->
  Forall2 gc_event_of (map report envs) (gc_submitted (snd (run s envs))).
Proof. intros Hi Ha. now apply gc_run_answered. Qed.

End GcReports.

Lemma gc_passes_on_every_report_witness :
  Forall2 gc_event_of [gc_sample_report; gc_sample_report]
    (gc_submitted (snd (GcHost.run GcHost.init_state
                          [gc_sample_poll; gc_sample_poll]))).
Proof.
  apply (gc_passes_on_every_report (H := sample_layout) GcHost.init_state
           [gc_sample_poll; gc_sample_poll] eq_refl).
  assert (A : gc_answered gc_sample_poll).
  { split; [reflexivity |]. split; [reflexivity |].
    unfold gc_report_bytes. cbn. lia. }
  repeat (constructor; [exact A |]). constructor.
Defined.

(* ====================================================================== *)
(** * 8BitDo Ultimate: every report, the rumble output, the slot table *)
(* ====================================================================== *)

Section BitdoReports.
Import Bitdo.
Context `{ButtonLayout}.

Lemma tst_bit x k : 0 <= k -> C.tst x (2 ^ k) = Z.testbit x k.
Proof.
  intros Hk. unfold C.tst. rewrite land_pow2 by exact Hk.
  destruct (Z.testbit x k); [| reflexivity].
  assert (0 < 2 ^ k) by (apply Z.pow_pos_nonneg; lia).
  destruct (Z.eqb_spec (2 ^ k) 0); [lia | reflexivity].
Qed.

Lemma scale_axis_range raw : 0 <= raw < 256 -> 1 <= scale_axis raw <= 255.
Proof.
  intros Hr. unfold scale_axis. destruct (Z.eqb_spec raw 0); lia.
Qed.

Lemma bitdo_hat_range data : 0 <= bitdo_hat data < 16.
Proof.
  unfold bitdo_hat, HAT_MASK. change 0x0F with (Z.ones 4).
  rewrite Z.land_ones by lia. apply Z.mod_pos_bound. lia.
Qed.

(** The d-pad bits of the hat table, position by position. *)
Lemma bitdo_dpad_bits hat :
  0 <= hat < 16 ->
  let dpad := if hat <=? 8 then nth (Z.to_nat hat) HAT_TO_DPAD 0 else 0 in
  C.tst dpad 0x01 = (hat =? 0) || (hat =? 1) || (hat =? 7)
  /\ C.tst dpad 0x02 = (hat =? 1) || (hat =? 2) || (hat =? 3)
  /\ C.tst dpad 0x04 = (hat =? 3) || (hat =? 4) || (hat =? 5)
  /\ C.tst dpad 0x08 = (hat =? 5) || (hat =? 6) || (hat =? 7).
Proof.
  intros Hh.
  assert (E : hat = 0 \/ hat = 1 \/ hat = 2 \/ hat = 3 \/ hat = 4 \/ hat = 5
              \/ hat = 6 \/ hat = 7 \/ hat = 8 \/ hat = 9 \/ hat = 10
              \/ hat = 11 \/ hat = 12 \/ hat = 13 \/ hat = 14 \/ hat = 15)
    by lia.
  repeat (destruct E as [-> | E]); [.. | subst hat]; cbn; tauto.
Qed.

Lemma bitdo_rejected gp data :
  bitdo_accepted data = false -> bitdo_process_report gp data = (gp, []).
Proof.
  unfold bitdo_accepted, bitdo_process_report, OFFSET_BUTTONS_HI. intros R.
  destruct (Z.ltb_spec (len_ data) 1) as [L1 | L1]; [reflexivity |].
  destruct (Z.eqb_spec (at_ data 0) REPORT_ID_GAMEPAD) as [E | N];
    [| reflexivity].
  cbn [negb orb]. rewrite andb_true_r in R.
  destruct (Z.leb_spec (len_ data) 9); [reflexivity |].
  destruct (Z.leb_spec 10 (len_ data)); [discriminate | lia].
Qed.

Lemma bitdo_accepted_event gp data :
  bitdo_accepted data = true ->
  exists e,
    bitdo_process_report gp data =
      ({| event := e; initialized := initialized gp;
          rumble_left := rumble_left gp; rumble_right := rumble_right gp |}, [e])
    /\ (forall k, pressed (buttons e) k = bitdo_button_source data k)
    /\ analog e =
         {| lx := scale_axis (at_ data OFFSET_LX);
            ly := scale_axis (at_ data OFFSET_LY);
            rx := scale_axis (at_ data OFFSET_RX);
            ry := scale_axis (at_ data OFFSET_RY);
            l2 := at_ data OFFSET_RT; r2 := at_ data OFFSET_LT |}
    /\ dev_addr e = dev_addr (event gp) /\ instance e = instance (event gp)
    /\ battery_level e = battery_level (event gp).
Proof.
  unfold bitdo_accepted. intros A. apply andb_prop in A as [L E].
  apply Z.leb_le in L. apply Z.eqb_eq in E.
  unfold bitdo_process_report, OFFSET_BUTTONS_HI.
  destruct (Z.ltb_spec (len_ data) 1); [lia |].
  rewrite E, Z.eqb_refl. cbn [negb orb].
  destruct (Z.leb_spec (len_ data) 9); [lia |].
  eexists. split; [reflexivity |].
  split; [| split; [| repeat split]].
  - intros k. cbn [buttons with_buttons with_button_count].
    pose proof (bitdo_hat_range data) as Hh.
    destruct (bitdo_dpad_bits (bitdo_hat data) Hh) as (DU' & DR' & DD' & DL').
    cbv zeta in DU', DR', DD', DL'.
    rewrite pressed_or_all, pressed_0. cbn [existsb fst snd orb].
    rewrite !pressed_JP.
    rewrite (u8_small (Z.land _ _)) by (pose proof (bitdo_hat_range data);
                                         unfold bitdo_hat in *; lia).
    fold (bitdo_hat data). rewrite DU', DR', DD', DL'.
    change 0x01 with (2 ^ 0). change 0x02 with (2 ^ 1).
    change 0x04 with (2 ^ 2). change 0x08 with (2 ^ 3).
    change 0x10 with (2 ^ 4). change 0x20 with (2 ^ 5).
    change 0x40 with (2 ^ 6). change 0x80 with (2 ^ 7).
    rewrite !tst_bit by lia.
    destruct k; cbn [button_eqb bitdo_button_source];
      rewrite ?andb_false_r, ?andb_true_r, ?orb_false_r, ?orb_false_l;
      reflexivity.
  - cbn [analog with_buttons with_button_count with_analog set_analog
         lx ly rx ry l2 r2].
    pose proof (at_range data OFFSET_LX). pose proof (at_range data OFFSET_LY).
    pose proof (at_range data OFFSET_RX). pose proof (at_range data OFFSET_RY).
    pose proof (at_range data OFFSET_LT). pose proof (at_range data OFFSET_RT).
    pose proof (scale_axis_range (at_ data OFFSET_LX)).
    pose proof (scale_axis_range (at_ data OFFSET_LY)).
    pose proof (scale_axis_range (at_ data OFFSET_RX)).
    pose proof (scale_axis_range (at_ data OFFSET_RY)).
    rewrite !u8_small by lia. reflexivity.
Qed.

(** X17.  What the 8BitDo driver does with any report whatsoever.  A report
    shorter than 10 bytes or with another id than 3 is dropped and leaves the
    driver data alone.  Any other report yields exactly one event, whose
    buttons are the 16 button bits and the hat position of the report, whose
    sticks are the report's bytes with 0 replaced by 1, and which never shows
    two opposite directions; the hat positions 8 to 15 show none. *)
Theorem bitdo_every_report gp data :
  if bitdo_accepted data then
    exists e,
      bitdo_process_report gp data =
        ({| event := e; initialized := initialized gp;
            rumble_left := rumble_left gp; rumble_right := rumble_right gp |},
         [e])
      /\ (forall k, pressed (buttons e) k = bitdo_button_source data k)
      /\ sticks_in_range e /\ triggers_in_range e
      /\ (forall a i, In (a, i) [(lx, OFFSET_LX); (ly, OFFSET_LY);
                                 (rx, OFFSET_RX); (ry, OFFSET_RY)] ->
            a (analog e) = if at_ data i =? 0 then 1 else at_ data i)
      /\ pressed (buttons e) DU && pressed (buttons e) DD = false
      /\ pressed (buttons e) DL && pressed (buttons e) DR = false
      /\ (8 <= bitdo_hat data ->
          forall k, In k [DU; DD; DL; DR] -> pressed (buttons e) k = false)
  else bitdo_process_report gp data = (gp, []).
Proof.
  destruct (bitdo_accepted data) eqn:A; [| now apply bitdo_rejected].
  destruct (bitdo_accepted_event gp data A) as (e & E & P & An & _).
  exists e. split; [exact E |]. split; [exact P |].
  pose proof (at_range data OFFSET_LX). pose proof (at_range data OFFSET_LY).
  pose proof (at_range data OFFSET_RX). pose proof (at_range data OFFSET_RY).
  pose proof (at_range data OFFSET_LT). pose proof (at_range data OFFSET_RT).
  pose proof (scale_axis_range (at_ data OFFSET_LX)).
  pose proof (scale_axis_range (at_ data OFFSET_LY)).
  pose proof (scale_axis_range (at_ data OFFSET_RX)).
  pose proof (scale_axis_range (at_ data OFFSET_RY)).
  pose proof (bitdo_hat_range data) as Hh.
  split; [unfold sticks_in_range; rewrite An; cbn; lia |].
  split; [unfold triggers_in_range; rewrite An; cbn; lia |].
  split.
  { intros a i Hin. rewrite An. cbn in Hin.
    destruct Hin as [Q | [Q | [Q | [Q | []]]]]; injection Q as <- <-;
      reflexivity. }
  rewrite !P. cbn [bitdo_button_source].
  split; [| split].
  - destruct (Z.eqb_spec (bitdo_hat data) 0), (Z.eqb_spec (bitdo_hat data) 1),
      (Z.eqb_spec (bitdo_hat data) 7), (Z.eqb_spec (bitdo_hat data) 3),
      (Z.eqb_spec (bitdo_hat data) 4), (Z.eqb_spec (bitdo_hat data) 5);
      cbn; try reflexivity; lia.
  - destruct (Z.eqb_spec (bitdo_hat data) 5), (Z.eqb_spec (bitdo_hat data) 6),
      (Z.eqb_spec (bitdo_hat data) 7), (Z.eqb_spec (bitdo_hat data) 1),
      (Z.eqb_spec (bitdo_hat data) 2), (Z.eqb_spec (bitdo_hat data) 3);
      cbn; try reflexivity; lia.
  - intros Hge k Hin. rewrite P.
    destruct Hin as [<- | [<- | [<- | [<- | []]]]]; cbn [bitdo_button_source];
      repeat match goal with
             | |- context [bitdo_hat data =? ?n] =>
                 destruct (Z.eqb_spec (bitdo_hat data) n); [lia |]
             end; reflexivity.
Qed.

End BitdoReports.

Section BitdoRumble.
Import BitdoTask.

Lemma bitdo_level_cast v :
  0 <= v <= 255 ->
  C.u8 (Z.quot (C.s32 (C.u16 (C.u8 v) * 100)) 255) = bitdo_level v
  /\ 0 <= bitdo_level v <= 100.
Proof.
  intros Hv. unfold bitdo_level.
  rewrite (u8_small v) by lia. rewrite u16_small by lia.
  rewrite s32_small by lia.
  assert (L : 0 <= Z.quot (v * 100) 255) by (apply Z.quot_pos; lia).
  assert (U : Z.quot (v * 100) 255 <= 100).
  { pose proof (Z.quot_le_mono (v * 100) (255 * 100) 255 ltac:(lia) ltac:(lia))
      as Q. exact Q. }
  rewrite u8_small by lia. lia.
Qed.

Lemma bitdo_level_full v : 0 <= v <= 255 -> (bitdo_level v = 100 <-> v = 255).
Proof.
  intros Hv. unfold bitdo_level. split; [| intros ->; reflexivity].
  intros E. destruct (Z.eq_dec v 255) as [-> | N]; [reflexivity | exfalso].
  pose proof (Z.quot_le_mono (v * 100) (254 * 100) 255 ltac:(lia) ltac:(lia))
    as Q.
  change (Z.quot (254 * 100) 255) with 99 in Q. lia.
Qed.

(** X18.  The rumble output of the 8BitDo driver.  With a rumble request pending
    for the device's player, the task sends one report, the two levels scaled
    from 0..255 to 0..100 (100 only for 255) and the trigger motors off,
    unless both levels are the ones it sent last; it then clears the request.
    Called again with the same request it sends nothing more. *)
Theorem bitdo_rumble_output conn gp env f :
  0 <= player_idx env -> fb env = Some f -> rumble_dirty f = true ->
  0 <= rumble_left f <= 255 -> 0 <= rumble_right f <= 255 ->
  let gp1 := fst (bitdo_task conn gp env) in
  let out := snd (bitdo_task conn gp env) in
  let report :=
    bthid_send_output_report conn 5
      [bitdo_level (rumble_left f); bitdo_level (rumble_right f); 0; 0] in
  out = (if (rumble_left f =? Bitdo.rumble_left gp)
            && (rumble_right f =? Bitdo.rumble_right gp)
         then [] else [report]) ++ [feedback_clear_dirty (player_idx env)]
  /\ 0 <= bitdo_level (rumble_left f) <= 100
  /\ 0 <= bitdo_level (rumble_right f) <= 100
  /\ (bitdo_level (rumble_left f) = 100 <-> rumble_left f = 255)
  /\ (bitdo_level (rumble_left f) = 0 <-> rumble_left f <= 2)
  /\ snd (bitdo_task conn gp1 env) = [feedback_clear_dirty (player_idx env)].
Proof.
  intros Hp Hf Hd Hl Hr. cbv zeta.
  destruct (bitdo_level_cast _ Hl) as (CL & RL).
  destruct (bitdo_level_cast _ Hr) as (CR & RR).
  unfold bitdo_task. rewrite Hf, Hd.
  destruct (Z.ltb_spec (player_idx env) 0); [lia |]. cbn [negb].
  rewrite CL, CR, (u8_small (rumble_left f)), (u8_small (rumble_right f)) by lia.
  split; [| split; [exact RL | split; [exact RR | split; [| split]]]].
  - destruct (Z.eqb_spec (rumble_left f) (Bitdo.rumble_left gp)),
      (Z.eqb_spec (rumble_right f) (Bitdo.rumble_right gp)); reflexivity.
  - now apply bitdo_level_full.
  - unfold bitdo_level. split.
    + intros E. destruct (Z.le_gt_cases (rumble_left f) 2) as [L | G];
        [exact L | exfalso].
      pose proof (Z.quot_le_mono (3 * 100) (rumble_left f * 100) 255
                    ltac:(lia) ltac:(lia)) as Q.
      change (Z.quot (3 * 100) 255) with 1 in Q. lia.
    + intros L. apply Z.quot_small. lia.
  - destruct (negb (rumble_left f =? Bitdo.rumble_left gp)
              || negb (rumble_right f =? Bitdo.rumble_right gp)) eqn:Ch;
      cbn [fst snd Bitdo.rumble_left Bitdo.rumble_right].
    + rewrite !Z.eqb_refl. reflexivity.
    + rewrite Ch. reflexivity.
Qed.

(** Without a player, without feedback for it, or without a pending rumble
    request the task does nothing. *)
Lemma bitdo_task_quiet conn gp env :
  player_idx env < 0 \/ fb env = None
  \/ (exists f, fb env = Some f /\ rumble_dirty f = false) ->
  bitdo_task conn gp env = (gp, []).
Proof.
  intros Q. unfold bitdo_task.
  destruct (Z.ltb_spec (player_idx env) 0); [reflexivity |].
  destruct Q as [Q | [Q | (f & Q & D)]]; [lia | |]; rewrite Q; [reflexivity |].
  rewrite D. reflexivity.
Qed.

End BitdoRumble.

Lemma bitdo_rumble_output_witness :
  snd (BitdoTask.bitdo_task 7 bitdo_zero_slot (bitdo_env (rumble_request 255 128)))
  = [BitdoTask.bthid_send_output_report 7 5 [100; 50; 0; 0];
     BitdoTask.feedback_clear_dirty 0].
Proof.
  destruct (bitdo_rumble_output 7 bitdo_zero_slot
              (bitdo_env (rumble_request 255 128)) (rumble_request 255 128))
    as (E & _); [cbn; lia | reflexivity | reflexivity | cbn; lia | cbn; lia |].
  exact E.
Defined.

Section BitdoSlots.
Import BitdoTask.

Lemma store_length {A} (l : list A) : forall i v, length (store l i v) = length l.
Proof.
  induction l as [| x l IH]; intros [| i] v; cbn; try reflexivity.
  now rewrite IH.
Qed.

Lemma store_nth_same {A} (l : list A) : forall i v d,
  (i < length l)%nat -> nth i (store l i v) d = v.
Proof.
  induction l as [| x l IH]; intros [| i] v d Hi; cbn in *; try lia.
  - reflexivity.
  - apply IH. lia.
Qed.

Lemma store_nth_other {A} (l : list A) : forall i j v d,
  j <> i -> nth j (store l i v) d = nth j l d.
Proof.
  induction l as [| x l IH]; intros [| i] [| j] v d Hne; cbn;
    try reflexivity; try contradiction.
  apply IH. congruence.
Qed.

Lemma first_free_none slots : forall i,
  first_free slots i = None <->
  Forall (fun gp => Bitdo.initialized gp = true) slots.
Proof.
  induction slots as [| gp rest IH]; intros i; cbn [first_free].
  - split; [constructor | reflexivity].
  - destruct (Bitdo.initialized gp) eqn:Ei; cbn [negb].
    + rewrite IH. split; [intros F; constructor; assumption |].
      intros F. now inversion F.
    + split; [discriminate |]. intros F. inversion F. congruence.
Qed.

Lemma first_free_some slots : forall base i d,
  first_free slots base = Some i ->
  exists j, i = (base + j)%nat /\ (j < length slots)%nat
    /\ Bitdo.initialized (nth j slots d) = false
    /\ (forall k, (k < j)%nat -> Bitdo.initialized (nth k slots d) = true)
    /\ forall v, Bitdo.initialized v = true ->
         bitdo_in_use (store slots j v) = S (bitdo_in_use slots).
Proof.
  induction slots as [| gp rest IH]; intros base i d E; cbn [first_free] in E.
  - discriminate.
  - destruct (Bitdo.initialized gp) eqn:Ei; cbn [negb] in E.
    + destruct (IH (S base) i d E) as (j & -> & Hj & F & B & U).
      exists (S j). split; [lia |]. split; [cbn; lia |].
      split; [exact F |]. split.
      * intros [| k] Hk; cbn; [exact Ei | apply B; lia].
      * intros v Hv. unfold bitdo_in_use in *. cbn [store filter].
        rewrite Ei. cbn [length]. now rewrite U.
    + injection E as <-. exists 0%nat. split; [lia |]. split; [cbn; lia |].
      split; [exact Ei |]. split; [intros k Hk; lia |].
      intros v Hv. unfold bitdo_in_use. cbn [store filter].
      rewrite Ei, Hv. reflexivity.
Qed.

(** X19.  The slot table of the 8BitDo driver.  [bitdo_init] fails exactly when
    every slot is in use; otherwise it takes the first free slot, sets it
    up afresh for the connection and leaves the others alone, so that one
    more slot is in use.  A disconnect frees the slot of its device: the
    next [bitdo_init] succeeds. *)
Theorem bitdo_slot_allocation slots conn d :
  match bitdo_init_device slots conn with
  | None => Forall (fun gp => Bitdo.initialized gp = true) slots
  | Some (i, slots') =>
      (i < length slots)%nat
      /\ Bitdo.initialized (nth i slots d) = false
      /\ (forall k, (k < i)%nat -> Bitdo.initialized (nth k slots d) = true)
      /\ length slots' = length slots
      /\ nth i slots' d = Bitdo.bitdo_init conn
      /\ (forall k, k <> i -> nth k slots' d = nth k slots d)
      /\ bitdo_in_use slots' = S (bitdo_in_use slots)
  end
  /\ (forall i, (i < length slots)%nat ->
        bitdo_init_device
          (store slots i (fst (bitdo_disconnect (nth i slots d)))) conn
        <> None).
Proof.
  split.
  - unfold bitdo_init_device. destruct (first_free slots 0) as [i |] eqn:E.
    + destruct (first_free_some slots 0 i d E) as (j & -> & Hj & F & B & U).
      cbn [Nat.add]. split; [exact Hj |]. split; [exact F |].
      split; [exact B |]. split; [apply store_length |].
      split; [now apply store_nth_same |].
      split; [intros k Hk; now apply store_nth_other |].
      apply U. reflexivity.
    + now apply first_free_none in E.
  - intros i Hi N. unfold bitdo_init_device in N.
    destruct (first_free _ 0) eqn:E; [discriminate |].
    apply first_free_none in E. rewrite Forall_forall in E.
    specialize (E (nth i (store slots i (fst (bitdo_disconnect (nth i slots d)))) d)).
    rewrite store_nth_same in E by exact Hi. cbn in E.
    assert (F : false = true); [| discriminate].
    apply E.
    pose proof (store_nth_same slots i (fst (bitdo_disconnect (nth i slots d))) d Hi)
      as S1.
    rewrite <- S1 at 1. apply nth_In. now rewrite store_length.
Qed.

End BitdoSlots.

(* ====================================================================== *)
(** * Switch 2: scaling, framing, reconnection *)
(* ====================================================================== *)

Section Switch2Scaling.
Import Switch2.

Lemma scale_analog_calibrated_spec val center range :
  0 <= val < 65536 -> 0 <= center < 65536 -> 0 < range < 65536 ->
  scale_analog_calibrated val center range
  = 128 + clamp (-128) 127 (Z.quot ((val - center) * 127) range).
Proof.
  intros Hv Hc Hr. unfold scale_analog_calibrated, clamp.
  rewrite !u16_small by lia. rewrite (s32_small (val - center)) by lia.
  rewrite s32_small by lia.
  set (q := Z.quot ((val - center) * 127) range).
  destruct (Z.ltb_spec q (-128)).
  - destruct (Z.ltb_spec 127 (-128)); [lia |]. rewrite u8_small; lia.
  - destruct (Z.ltb_spec 127 q); rewrite u8_small; lia.
Qed.

Lemma quot_scaled_mono a b range :
  0 < range -> a <= b -> Z.quot (a * 127) range <= Z.quot (b * 127) range.
Proof. intros. apply Z.quot_le_mono; lia. Qed.

Lemma quot_exact d range : 0 < range -> Z.quot (range * d) range = d.
Proof. intros. rewrite Z.mul_comm. apply Z.quot_mul. lia. Qed.

(** X20.  The calibrated scaling of the Switch 2 driver: the calibrated centre
    maps to 128; the result follows the raw value in order; a deflection of
    the full range or more gives 255 upward and at most 1 downward; and
    within the range two opposite deflections mirror each other about
    128. *)
Theorem switch2_scaling_shape val val' center range :
  0 <= center < 65536 -> 0 < range < 65536 ->
  0 <= val <= val' -> val' < 65536 ->
  let f v := scale_analog_calibrated v center range in
  f center = 128
  /\ f val <= f val'
  /\ (center + range <= val -> f val = 255)
  /\ (val <= center - range -> f val <= 1)
  /\ (val = center - range -> f val = 1)
  /\ (forall d, 0 <= d <= range -> d <= center -> center + d < 65536 ->
        f (center + d) + f (center - d) = 256).
Proof.
  intros Hc Hr Hv Hv' f. subst f. cbv beta.
  rewrite !scale_analog_calibrated_spec by lia.
  pose proof (quot_scaled_mono (val - center) (val' - center) range
                ltac:(lia) ltac:(lia)) as M.
  unfold clamp.
  split; [| split; [| split; [| split; [| split]]]].
  - rewrite Z.sub_diag. cbn [Z.mul]. rewrite Z.quot_0_l by lia. reflexivity.
  - lia.
  - intros G.
    pose proof (quot_scaled_mono range (val - center) range ltac:(lia) ltac:(lia))
      as Q. rewrite quot_exact in Q by lia. lia.
  - intros G.
    pose proof (quot_scaled_mono (val - center) (- range) range
                  ltac:(lia) ltac:(lia)) as Q.
    replace (- range * 127) with (range * (-127)) in Q by lia.
    rewrite quot_exact in Q by lia. lia.
  - intros ->.
    replace ((center - range - center) * 127) with (range * (-127)) by lia.
    rewrite quot_exact by lia. reflexivity.
  - intros d Hd Hdc Hdu.
    rewrite !scale_analog_calibrated_spec by lia. unfold clamp.
    replace ((center + d - center) * 127) with (d * 127) by lia.
    replace ((center - d - center) * 127) with (- (d * 127)) by lia.
    rewrite Z.quot_opp_l by lia.
    pose proof (quot_scaled_mono d range range ltac:(lia) ltac:(lia)) as Q.
    rewrite quot_exact in Q by lia.
    assert (Q0 : 0 <= Z.quot (d * 127) range) by (apply Z.quot_pos; lia).
    lia.
Qed.

End Switch2Scaling.

Lemma switch2_scaling_shape_witness :
  Switch2.scale_analog_calibrated 2048 2048 1610 = 128
  /\ Switch2.scale_analog_calibrated 2100 2048 1610
     <= Switch2.scale_analog_calibrated 3900 2048 1610.
Proof.
  destruct (switch2_scaling_shape 2100 3900 2048 1610) as (A & B & _);
    [lia | lia | lia | lia |].
  split; [exact A | exact B].
Defined.

Section Switch2Framing.
Import Switch2.
Context `{ButtonLayout}.

Lemma len_cons b (r : list byte) : len_ (b :: r) = len_ r + 1.
Proof. unfold len_. cbn [length]. lia. Qed.

Lemma select_report_header r :
  63 <= len_ r -> select_report (xa1 :: r) = Some r.
Proof.
  intros L. unfold select_report. rewrite len_cons.
  destruct (Z.leb_spec 64 (len_ r + 1)); [| lia]. reflexivity.
Qed.

Lemma select_report_bare r : sw2_bare r -> select_report r = Some r.
Proof.
  intros (L & B). unfold select_report.
  destruct (Z.leb_spec 63 (len_ r)); [| lia].
  destruct (Z.leb_spec 64 (len_ r)); [| reflexivity].
  destruct (Z.eqb_spec (at_ r 0) 0xA1); [| reflexivity].
  destruct B as [B | B]; [lia | contradiction].
Qed.

Lemma select_report_short data : len_ data < 63 -> select_report data = None.
Proof.
  intros L. unfold select_report.
  destruct (Z.leb_spec 64 (len_ data)); [lia |].
  destruct (Z.leb_spec 63 (len_ data)); [lia | reflexivity].
Qed.

(** X21.  The framing of Switch 2 reports.  A bare report and the same report
    behind the 0xA1 header of the HID layer are treated alike, whatever the
    state of the driver; a buffer of fewer than 63 bytes is ignored. *)
Theorem switch2_header_is_transparent sw2 r :
  (sw2_bare r ->
   switch2_ble_process_report sw2 (xa1 :: r) = switch2_ble_process_report sw2 r)
  /\ (forall data, len_ data < 63 ->
        switch2_ble_process_report sw2 data = (sw2, [])).
Proof.
  split.
  - intros B. unfold switch2_ble_process_report.
    rewrite select_report_header by apply B.
    now rewrite select_report_bare.
  - intros data L. apply process_invalid. now apply select_report_short.
Qed.

(** X22.  A reconnection calibrates afresh.  However far the calibration of the
    earlier connection had got, after a disconnect and a new
    initialisation of the slot the first four reports are not passed on, and
    the first valid one sets the four centres to its own raw values.  The
    disconnect tells the router and the player manager the address of the
    device that went away. *)
Theorem switch2_reconnect_recalibrates sw2 conn_index product_id :
  let sw2' := sw2_reconnect sw2 conn_index product_id in
  cal_samples sw2' = 0
  /\ initialized sw2' = true
  /\ dev_addr (event sw2') = conn_index
  /\ snd (Switch2Life.switch2_ble_disconnect sw2)
     = [Switch2Life.router_device_disconnected
          (dev_addr (event sw2)) (instance (event sw2));
        Switch2Life.remove_players_by_address
          (dev_addr (event sw2)) (instance (event sw2))]
  /\ (forall ds, (length ds <= 4)%nat -> snd (run sw2' ds) = [])
  /\ (forall d r, select_report d = Some r ->
        let s1 := fst (switch2_ble_process_report sw2' d) in
        cal_samples s1 = 1
        /\ cal_lx_center s1 = raw_lx r /\ cal_ly_center s1 = raw_ly r
        /\ cal_rx_center s1 = raw_rx r /\ cal_ry_center s1 = raw_ry r).
Proof.
  cbv zeta. unfold sw2_reconnect.
  split; [reflexivity |]. split; [reflexivity |]. split; [reflexivity |].
  split; [reflexivity |]. split.
  - assert (G : forall ds s, 0 <= cal_samples s ->
                  cal_samples s + Z.of_nat (length ds) <= 4 ->
                  snd (run s ds) = []).
    { induction ds as [| d ds IH]; intros s H0 Hb; cbn [run]; [reflexivity |].
      cbn [length] in Hb.
      pose proof (no_submit_while_calibrating s d) as N.
      assert (S : 0 <= cal_samples (fst (switch2_ble_process_report s d))
                  <= cal_samples s + 1).
      { unfold switch2_ble_process_report.
        destruct (select_report d); [| cbn; lia].
        destruct (len_ l <? 16); [cbn; lia |].
        destruct (Z.ltb_spec (cal_samples s) CAL_SAMPLES_NEEDED);
          [| unfold CAL_SAMPLES_NEEDED in *; lia].
        cbn [fst calibrate cal_samples]. rewrite u8_small; lia. }
      destruct (switch2_ble_process_report s d) as [s1 o1]. cbn [fst snd] in *.
      specialize (IH s1 ltac:(lia) ltac:(lia)).
      destruct (run s1 ds) as [s2 o2]. cbn [fst snd] in *.
      rewrite N, IH by (unfold CAL_SAMPLES_NEEDED; lia). reflexivity. }
    intros ds Hl. apply G; cbn [cal_samples switch2_ble_init fst
                                Switch2Life.switch2_ble_disconnect]; lia.
  - intros d r E.
    rewrite (process_calibrating _ d r E)
      by (cbn; unfold CAL_SAMPLES_NEEDED; lia).
    cbn [fst]. apply calibrate_first. reflexivity.
Qed.

End Switch2Framing.

Section Switch2Buttons.
Import Switch2.
Context `{ButtonLayout}.

Lemma tst_shiftl x i : 0 <= i -> C.tst x (Z.shiftl 1 i) = Z.testbit x i.
Proof.
  intros Hi. rewrite Z.shiftl_1_l. now apply tst_bit.
Qed.

Lemma sw2_pressed is_gc w k :
  pressed (map_buttons is_gc w) k
  = match sw2_button_bit is_gc k with
    | Some i => Z.testbit w i
    | None => false
    end.
Proof.
  unfold map_buttons. cbv zeta.
  destruct is_gc; rewrite !pressed_or_all, pressed_0;
    cbn [existsb fst snd orb]; rewrite !pressed_JP;
    rewrite !tst_shiftl by (cbv; discriminate);
    destruct k; cbn [button_eqb sw2_button_bit];
    rewrite ?andb_false_r, ?andb_true_r, ?orb_false_r, ?orb_false_l;
    reflexivity.
Qed.

Lemma sw2_button_bit_inj is_gc k k' i :
  sw2_button_bit is_gc k = Some i -> sw2_button_bit is_gc k' = Some i -> k = k'.
Proof.
  destruct is_gc, k, k'; cbn; intros E E'; try reflexivity;
    try discriminate; rewrite <- E in E'; discriminate.
Qed.

(** X23.  The decoding of Switch 2 reports once calibrated.  Each accepted report
    yields one event; every canonical button but A4 mirrors one bit of the
    controller's button field, different buttons different bits (the NSO
    GameCube pad with L/ZL and R/ZR exchanged); the triggers are bytes 60
    and 61 of the report, which every accepted report has. *)
Theorem switch2_event_decodes sw2 data r :
  select_report data = Some r -> CAL_SAMPLES_NEEDED <= cal_samples sw2 ->
  let is_gc := pid sw2 =? SW2_GC_PID in
  exists e,
    snd (switch2_ble_process_report sw2 data) = [e]
    /\ event (fst (switch2_ble_process_report sw2 data)) = e
    /\ (forall k, pressed (buttons e) k =
                  match sw2_button_bit is_gc k with
                  | Some i => Z.testbit (sw2_buttons_of r) i
                  | None => false
                  end)
    /\ (forall k k' i, sw2_button_bit is_gc k = Some i ->
                       sw2_button_bit is_gc k' = Some i -> k = k')
    /\ l2 (analog e) = at_ r 60 /\ r2 (analog e) = at_ r 61
    /\ dev_addr e = dev_addr (event sw2).
Proof.
  intros E Hc is_gc. rewrite (process_calibrated sw2 data r E Hc).
  exists (build_event sw2 r). cbn [fst snd event].
  split; [reflexivity |]. split; [reflexivity |].
  split; [| split; [apply sw2_button_bit_inj |]].
  - intros k. unfold build_event. cbv zeta.
    cbn [buttons with_analog with_buttons]. apply sw2_pressed.
  - pose proof (select_report_len data r E) as L.
    unfold build_event. cbv zeta.
    destruct (Z.leb_spec 62 (len_ r)); [| lia].
    cbn [analog with_analog with_buttons set_analog l2 r2 dev_addr].
    rewrite !u8_small by apply at_range. repeat split.
Qed.

End Switch2Buttons.

Lemma switch2_event_decodes_witness :
  exists e,
    snd (Switch2.switch2_ble_process_report
           (fst (Switch2.run sw2_fresh
                   [sw2_centered; sw2_centered; sw2_centered; sw2_centered]))
           sw2_lx_4000) = [e]
    /\ l2 (analog e) = 0.
Proof.
  destruct (switch2_event_decodes (H := sample_layout)
              (fst (Switch2.run sw2_fresh
                      [sw2_centered; sw2_centered; sw2_centered; sw2_centered]))
              sw2_lx_4000 sw2_lx_4000 eq_refl)
    as (e & E & _ & _ & _ & T & _); [vm_compute; discriminate |].
  exists e. split; [exact E | exact T].
Defined.

(* ====================================================================== *)
(** * Wii U Pro: scaling, decoding, the handshake left alone *)
(* ====================================================================== *)

Section WiiUStick.
Import WiiUPro.

Lemma scale_stick_spec val :
  0 <= val < 65536 ->
  scale_stick val = 128 + Z.quot ((clamp 848 3248 val - 2048) * 127) 1200.
Proof.
  intros Hv. unfold scale_stick, clamp, WIIU_STICK_CENTER, WIIU_STICK_RANGE.
  rewrite u16_small by lia.
  change (2048 - 1200) with 848. change (2048 + 1200) with 3248.
  set (c := Z.max 848 (Z.min 3248 val)).
  assert (Ec : (if 3248 <? (if val <? 848 then 848 else val) then 3248
                else if val <? 848 then 848 else val) = c).
  { unfold c. destruct (Z.ltb_spec val 848).
    - destruct (Z.ltb_spec 3248 848); lia.
    - destruct (Z.ltb_spec 3248 val); lia. }
  rewrite Ec.
  assert (Hc : 848 <= c <= 3248) by (unfold c; lia).
  rewrite (s32_small (c - 2048)) by lia. rewrite (s32_small (_ * 127)) by lia.
  pose proof (Z.quot_le_mono ((c - 2048) * 127) (1200 * 127) 1200
                ltac:(lia) ltac:(lia)) as U.
  pose proof (Z.quot_le_mono (-1200 * 127) ((c - 2048) * 127) 1200
                ltac:(lia) ltac:(lia)) as L.
  change (Z.quot (1200 * 127) 1200) with 127 in U.
  change (Z.quot (-1200 * 127) 1200) with (-127) in L.
  rewrite s32_small by lia.
  destruct (Z.ltb_spec (Z.quot ((c - 2048) * 127) 1200 + 128) 1); [lia |].
  destruct (Z.ltb_spec 255 (Z.quot ((c - 2048) * 127) 1200 + 128)); [lia |].
  rewrite u8_small by lia. lia.
Qed.

(** X24.  The stick scaling of the Wii U Pro driver: the nominal centre 2048 maps
    to 128, the result follows the raw value in order, the ends of the range
    848..3248 and everything beyond them give 1 and 255, and two opposite
    deflections mirror each other about 128. *)
Theorem wii_u_stick_scaling val val' :
  0 <= val <= val' -> val' < 65536 ->
  scale_stick 2048 = 128
  /\ scale_stick val <= scale_stick val'
  /\ (val <= 848 -> scale_stick val = 1)
  /\ (3248 <= val -> scale_stick val = 255)
  /\ (forall d, 0 <= d <= 2048 ->
        scale_stick (2048 + d) + scale_stick (2048 - d) = 256).
Proof.
  intros Hv Hv'. split; [reflexivity |].
  rewrite !scale_stick_spec by lia. unfold clamp.
  split; [| split; [| split]].
  - pose proof (Z.quot_le_mono
                  ((Z.max 848 (Z.min 3248 val) - 2048) * 127)
                  ((Z.max 848 (Z.min 3248 val') - 2048) * 127) 1200
                  ltac:(lia) ltac:(lia)). lia.
  - intros G. replace (Z.max 848 (Z.min 3248 val)) with 848 by lia.
    reflexivity.
  - intros G. replace (Z.max 848 (Z.min 3248 val)) with 3248 by lia.
    reflexivity.
  - intros d Hd. rewrite !scale_stick_spec by lia. unfold clamp.
    set (e := Z.min 1200 d).
    replace (Z.max 848 (Z.min 3248 (2048 + d)) - 2048) with e by (unfold e; lia).
    replace (Z.max 848 (Z.min 3248 (2048 - d)) - 2048) with (- e)
      by (unfold e; lia).
    rewrite Z.mul_opp_l, Z.quot_opp_l by lia. lia.
Qed.

End WiiUStick.

Lemma wii_u_stick_scaling_witness :
  WiiUPro.scale_stick 2048 = 128
  /\ WiiUPro.scale_stick 900 <= WiiUPro.scale_stick 3000.
Proof.
  destruct (wii_u_stick_scaling 900 3000) as (A & B & _); [lia | lia |].
  split; [exact A | exact B].
Defined.

Section WiiUDecode.
Import WiiUPro.
Context `{ButtonLayout}.

Lemma byte_high_bit x j : 0 <= x < 256 -> 8 <= j -> Z.testbit x j = false.
Proof.
  intros Hx Hj. destruct (Z.eq_dec x 0) as [-> | N]; [apply Z.bits_0 |].
  apply Z.bits_above_log2; [lia |].
  apply Z.lt_le_trans with 8; [| exact Hj].
  apply Z.log2_lt_pow2; lia.
Qed.

(** Bit [i] of the 18-bit button value assembled from the three bytes. *)
Lemma wiiu_raw_bit e8 e9 e10 i :
  0 <= e8 < 256 -> 0 <= e9 < 256 -> 0 <= e10 < 256 -> 1 <= i <= 17 ->
  Z.testbit (Z.lor (Z.lor (Z.land e8 0xFE) (Z.shiftl e9 8))
                   (Z.shiftl (Z.land e10 0x03) 16)) i
  = Z.testbit (nth (Z.to_nat (i / 8)) [e8; e9; e10] 0) (i mod 8).
Proof.
  intros H8 H9 H10 Hi.
  rewrite !Z.lor_spec, !Z.shiftl_spec, !Z.land_spec by lia.
  assert (E : i = 1 \/ i = 2 \/ i = 3 \/ i = 4 \/ i = 5 \/ i = 6 \/ i = 7
              \/ i = 8 \/ i = 9 \/ i = 10 \/ i = 11 \/ i = 12 \/ i = 13
              \/ i = 14 \/ i = 15 \/ i = 16 \/ i = 17) by lia.
  repeat (destruct E as [-> | E]); [.. | subst i];
    repeat match goal with
           | |- context [Z.testbit 0xFE ?n] =>
               let b := eval vm_compute in (Z.testbit 0xFE n) in
               change (Z.testbit 0xFE n) with b
           | |- context [Z.testbit 0x03 ?n] =>
               let b := eval vm_compute in (Z.testbit 0x03 n) in
               change (Z.testbit 0x03 n) with b
           | |- context [?a - ?b] =>
               let v := eval vm_compute in (a - b) in change (a - b) with v
           | |- context [?a / 8] =>
               let v := eval vm_compute in (a / 8) in change (a / 8) with v
           | |- context [?a mod 8] =>
               let v := eval vm_compute in (a mod 8) in change (a mod 8) with v
           end;
    cbn [Z.to_nat Pos.to_nat Pos.iter_op Nat.add nth];
    rewrite ?Z.testbit_neg_r by lia;
    rewrite ?(byte_high_bit e8), ?(byte_high_bit e9) by lia;
    rewrite ?andb_true_r, ?andb_false_r, ?orb_false_r, ?orb_false_l;
    reflexivity.
Qed.

Lemma wiiu_ext_bit_spec data off i :
  1 <= i <= 17 ->
  Z.testbit (Z.lor (Z.lor (Z.land (at_ data (off + 8)) 0xFE)
                          (Z.shiftl (at_ data (off + 9)) 8))
                   (Z.shiftl (Z.land (at_ data (off + 10)) 0x03) 16)) i
  = wiiu_ext_bit data off i.
Proof.
  intros Hi. rewrite wiiu_raw_bit by (apply at_range || exact Hi).
  unfold wiiu_ext_bit.
  assert (E : i / 8 = 0 \/ i / 8 = 1 \/ i / 8 = 2).
  { pose proof (Z.div_pos i 8 ltac:(lia) ltac:(lia)).
    pose proof (Z.div_lt_upper_bound i 8 3 ltac:(lia) ltac:(lia)). lia. }
  destruct E as [-> | [-> | ->]];
    [ change (Z.to_nat 0) with 0%nat | change (Z.to_nat 1) with 1%nat
    | change (Z.to_nat 2) with 2%nat ];
    cbn [nth];
    [ replace (off + 8 + 0) with (off + 8) by lia
    | replace (off + 8 + 1) with (off + 9) by lia
    | replace (off + 8 + 2) with (off + 10) by lia ]; reflexivity.
Qed.

Lemma wiiu_pressed_bit data off i :
  1 <= i <= 17 ->
  C.tst (C.u32 (Z.lnot (C.u32
           (Z.lor (Z.lor (Z.land (at_ data (off + 8)) 0xFE)
                         (Z.shiftl (at_ data (off + 9)) 8))
                  (Z.shiftl (Z.land (at_ data (off + 10)) 0x03) 16)))))
        (2 ^ i)
  = negb (wiiu_ext_bit data off i).
Proof.
  intros Hi. rewrite tst_bit by lia. unfold C.u32.
  rewrite Z.mod_pow2_bits_low by lia. rewrite Z.lnot_spec by lia.
  rewrite Z.mod_pow2_bits_low by lia. now rewrite wiiu_ext_bit_spec.
Qed.

Lemma wiiu_decode_pressed e data off k :
  pressed (buttons (decode_ext e data off)) k
  = match wiiu_button_bit k with
    | Some i => negb (wiiu_ext_bit data off i)
    | None => false
    end.
Proof.
  unfold decode_ext. cbv zeta.
  cbn [buttons with_battery with_analog with_buttons].
  rewrite pressed_or_all, pressed_0. cbn [existsb fst snd orb].
  rewrite !pressed_JP.
  unfold WIIU_BTN_R, WIIU_BTN_PLUS, WIIU_BTN_HOME, WIIU_BTN_MINUS, WIIU_BTN_L,
    WIIU_BTN_DOWN, WIIU_BTN_RIGHT, WIIU_BTN_UP, WIIU_BTN_LEFT, WIIU_BTN_ZR,
    WIIU_BTN_X, WIIU_BTN_A, WIIU_BTN_Y, WIIU_BTN_B, WIIU_BTN_ZL, WIIU_BTN_R3,
    WIIU_BTN_L3.
  change 0x00002 with (2 ^ 1). change 0x00004 with (2 ^ 2).
  change 0x00008 with (2 ^ 3). change 0x00010 with (2 ^ 4).
  change 0x00020 with (2 ^ 5). change 0x00040 with (2 ^ 6).
  change 0x00080 with (2 ^ 7). change 0x00100 with (2 ^ 8).
  change 0x00200 with (2 ^ 9). change 0x00400 with (2 ^ 10).
  change 0x00800 with (2 ^ 11). change 0x01000 with (2 ^ 12).
  change 0x02000 with (2 ^ 13). change 0x04000 with (2 ^ 14).
  change 0x08000 with (2 ^ 15). change 0x10000 with (2 ^ 16).
  change 0x20000 with (2 ^ 17).
  rewrite !wiiu_pressed_bit by lia.
  destruct k; cbn [button_eqb wiiu_button_bit];
    rewrite ?andb_false_r, ?andb_true_r, ?orb_false_r, ?orb_false_l;
    reflexivity.
Qed.

Lemma wiiu_button_bit_inj k k' i :
  wiiu_button_bit k = Some i -> wiiu_button_bit k' = Some i -> k = k'.
Proof.
  destruct k, k'; cbn; intros E E'; try reflexivity; try discriminate;
    rewrite <- E in E'; discriminate.
Qed.

Lemma wiiu_decode_battery e data off :
  In (battery_level (decode_ext e data off)) [0; 25; 50; 75; 100]
  /\ battery_charging (decode_ext e data off)
     = negb (Z.testbit (at_ data (off + 10)) 2).
Proof.
  unfold decode_ext. cbv zeta. cbn [battery_level battery_charging with_battery].
  split.
  - set (b := C.u8 (Z.land (Z.shiftr (at_ data (off + 10)) 4) 0x07)).
    assert (Hb : 0 <= b < 8).
    { unfold b. change 0x07 with (Z.ones 3). rewrite Z.land_ones by lia.
      pose proof (Z.mod_pos_bound (Z.shiftr (at_ data (off + 10)) 4) (2 ^ 3)
                    ltac:(lia)).
      rewrite u8_small; lia. }
    destruct (Z.leb_spec 4 b).
    + cbn. tauto.
    + assert (E : b = 0 \/ b = 1 \/ b = 2 \/ b = 3) by lia.
      destruct E as [-> | [-> | [-> | ->]]]; cbn; tauto.
  - change 0x04 with (2 ^ 2). rewrite land_pow2 by lia.
    destruct (Z.testbit (at_ data (off + 10)) 2); reflexivity.
Qed.

(** X25.  What the Wii U Pro driver makes of a data report.  Each of the three
    extension reports (0x3D, 0x35, 0x34) of at least 22 bytes yields exactly
    one event, whatever the state of the handshake.  A canonical button is
    set exactly when its bit of the three button bytes is clear (the
    controller reports pressed as 0), different buttons having different
    bits; the battery level is one of 0, 25, 50, 75 and 100 percent. *)
Theorem wii_u_report_decodes wii data t off :
  In (at_ data 0, off) [(0x3D, 1); (0x35, 6); (0x34, 3)] -> 22 <= len_ data ->
  exists e,
    snd (wii_u_process_report wii data t) = [router_submit_input e]
    /\ event (fst (wii_u_process_report wii data t)) = e
    /\ e = decode_ext (event wii) data off
    /\ (forall k, pressed (buttons e) k =
                  match wiiu_button_bit k with
                  | Some i => negb (wiiu_ext_bit data off i)
                  | None => false
                  end)
    /\ (forall k k' i, wiiu_button_bit k = Some i ->
                       wiiu_button_bit k' = Some i -> k = k')
    /\ In (battery_level e) [0; 25; 50; 75; 100]
    /\ battery_charging e = negb (Z.testbit (at_ data (off + 10)) 2)
    /\ dev_addr e = dev_addr (event wii).
Proof.
  intros Hid Hlen.
  exists (decode_ext (event wii) data off).
  assert (R : snd (wii_u_process_report wii data t)
              = [router_submit_input (decode_ext (event wii) data off)]
              /\ event (fst (wii_u_process_report wii data t))
                 = decode_ext (event wii) data off).
  { unfold wii_u_process_report.
    destruct (Z.ltb_spec (len_ data) 1); [lia |].
    destruct (Z.leb_spec 22 (len_ data)); [| lia].
    cbn in Hid. destruct Hid as [E | [E | [E | []]]]; injection E as E <-;
      rewrite <- E; cbn [Z.eqb Pos.eqb andb WIIU_REPORT_EXT_21 WIIU_REPORT_EXT_16
                      WIIU_REPORT_EXT_19].
    - unfold first_data_report.
      destruct (last_report wii =? 0);
        [destruct (_ <? _); [| destruct (state_eqb _ _)] |]; split; reflexivity.
    - unfold first_data_report.
      destruct (last_report wii =? 0);
        [destruct (_ <? _); [| destruct (state_eqb _ _)] |]; split; reflexivity.
    - destruct (state_eqb _ _); split; reflexivity. }
  destruct R as (R1 & R2).
  split; [exact R1 |]. split; [exact R2 |]. split; [reflexivity |].
  split; [apply wiiu_decode_pressed |].
  split; [apply wiiu_button_bit_inj |].
  destruct (wiiu_decode_battery (event wii) data off) as (B1' & B2').
  split; [exact B1' |]. split; [exact B2' |].
  reflexivity.
Qed.

End WiiUDecode.

Lemma wii_u_report_decodes_witness :
  exists e,
    snd (WiiUPro.wii_u_process_report wiiu_ready wiiu_ly_max 5000)
    = [WiiUPro.router_submit_input e]
    /\ In (battery_level e) [0; 25; 50; 75; 100].
Proof.
  destruct (wii_u_report_decodes (H := sample_layout) wiiu_ready wiiu_ly_max
              5000 1) as (e & E & _ & _ & _ & _ & B & _);
    [left; reflexivity | vm_compute; discriminate |].
  exists e. split; [exact E | exact B].
Defined.

Section WiiUHandshake.
Import WiiUPro.
Context `{ButtonLayout}.

Ltac fields :=
  cbn [event initialized player_led rumble_on state init_time init_retries
       last_keepalive last_report set_event set_state set_init_time
       set_init_retries set_last_keepalive set_last_report set_player_led
       set_rumble_on fst snd wiiu_phase_of wiiu_stages_left].

(** One call of the task during an unanswered handshake: whatever the
    state, it is one call nearer to READY. *)
Lemma wiiu_tick_progress wii env :
  0 <= init_retries wii < 5 -> channel_free env ->
  (wiiu_phase_of (state wii) <> Phase_send ->
   reached (now env) (init_time wii) = true) ->
  wiiu_phase_of (state wii) <> Phase_done ->
  let w := fst (wii_u_task wii env) in
  let out := snd (wii_u_task wii env) in
  wiiu_calls_left w = wiiu_calls_left wii - 1
  /\ 0 <= init_retries w < 5
  /\ Z.of_nat (sent_count out) + wiiu_sends_left w = wiiu_sends_left wii
  /\ filter wiiu_is_submit out = []
  /\ (wiiu_phase_of (state w) = Phase_wait ->
      init_time w = C.u32 (now env + 1000 * 1000))
  /\ wiiu_phase_of (state w) <> Phase_delay
  /\ state w <> WII_U_STATE_IDLE.
Proof.
  intros Hr Hfree Hreach Hdone. unfold channel_free in Hfree.
  unfold wiiu_calls_left, wiiu_sends_left, wii_u_task, send_step, wait_step,
    WII_U_INIT_MAX_RETRIES.
  destruct wii as [ev ini led rum st it r ka lr]. cbn [state init_retries init_time] in *.
  destruct st; cbn [wiiu_phase_of] in Hreach, Hdone;
    try (exfalso; apply Hdone; reflexivity);
    rewrite ?Hfree; try rewrite Hreach by discriminate; fields;
    rewrite ?(u8_small (r + 1)) by lia;
    try (destruct (Z.ltb_spec (r + 1) 5); fields);
    rewrite ?(u8_small (r + 1)) by lia;
    change (C.u8 0) with 0 in *;
    unfold sent_count; cbn [filter is_send length Z.of_nat Pos.of_succ_nat];
    repeat split; try discriminate; try reflexivity; try lia.
Qed.

Lemma wiiu_spaced_firstn n : forall prev envs,
  wiiu_spaced prev envs -> wiiu_spaced prev (firstn n envs).
Proof.
  induction n as [| n IH]; intros prev [| env rest] S; cbn; try exact I.
  destruct S as (A & B & C). split; [exact A |]. split; [exact B |].
  now apply IH.
Qed.

(** The unanswered handshake, any number of calls at a time. *)
Lemma wiiu_unanswered_run envs : forall wii prev,
  0 <= init_retries wii < 5 ->
  state wii <> WII_U_STATE_IDLE ->
  wiiu_phase_of (state wii) <> Phase_delay ->
  (wiiu_phase_of (state wii) = Phase_wait ->
   init_time wii = C.u32 (prev + 1000 * 1000)) ->
  wiiu_spaced prev envs ->
  Z.of_nat (length envs) <= wiiu_calls_left wii ->
  let w := fst (wiiu_run wii (map WiiU_tick envs)) in
  let out := snd (wiiu_run wii (map WiiU_tick envs)) in
  wiiu_calls_left w = wiiu_calls_left wii - Z.of_nat (length envs)
  /\ 0 <= init_retries w < 5
  /\ Z.of_nat (sent_count out) + wiiu_sends_left w = wiiu_sends_left wii
  /\ filter wiiu_is_submit out = []
  /\ state w <> WII_U_STATE_IDLE.
Proof.
  induction envs as [| env rest IH]; intros wii prev Hr Hidle Hdelay Hit Hsp Hlen.
  - cbn [map wiiu_run fst snd length]. cbn. repeat split; try lia; assumption.
  - cbn [length] in Hlen. destruct Hsp as (Gap & Free & Sp).
    assert (Hdone : wiiu_phase_of (state wii) <> Phase_done).
    { intros D. unfold wiiu_calls_left in Hlen. rewrite D in Hlen. lia. }
    assert (Hreach : wiiu_phase_of (state wii) <> Phase_send ->
                     reached (now env) (init_time wii) = true).
    { intros Ns.
      assert (W : wiiu_phase_of (state wii) = Phase_wait)
        by (destruct (wiiu_phase_of (state wii)); congruence).
      rewrite (Hit W), reached_spec by lia.
      apply Z.leb_le. lia. }
    destruct (wiiu_tick_progress wii env Hr Free Hreach Hdone)
      as (P1 & P2 & P3 & P4 & P5 & P6 & P7).
    cbv zeta in *. cbn [map].
    rewrite (wiiu_run_tick wii env _ _ _ (surjective_pairing _)).
    cbn [fst snd].
    specialize (IH (fst (wii_u_task wii env)) (now env) P2 P7 P6 P5 Sp
                  ltac:(lia)).
    cbv zeta in IH. destruct IH as (I1 & I2 & I3 & I4 & I5).
    split; [cbn [length]; lia |]. split; [exact I2 |].
    split; [| split; [| exact I5]].
    + unfold sent_count in *. rewrite filter_app, length_app. lia.
    + rewrite filter_app, P4, I4. reflexivity.
Qed.

Lemma wiiu_calls_left_ready wii :
  0 <= init_retries wii < 5 -> state wii <> WII_U_STATE_IDLE ->
  (wiiu_calls_left wii = 0 <-> state wii = WII_U_STATE_READY).
Proof.
  intros Hr Hi. unfold wiiu_calls_left.
  destruct (state wii); cbn [wiiu_phase_of wiiu_stages_left];
    split; intros E; try reflexivity; try discriminate; try lia;
    congruence.
Qed.

(** X26.  The handshake of the Wii U Pro driver cannot hang.  If the controller
    answers nothing at all, the task, called with the channel free at least
    once a second, sends each of its six commands five times and is in READY
    after exactly 61 calls; it passes no event on in the meantime. *)
Theorem wii_u_handshake_never_hangs slot conn_index t0 e1 rest :
  let wii := wii_u_init slot conn_index t0 in
  reached (now e1) (init_time wii) = true -> channel_free e1 ->
  wiiu_spaced (now e1) rest -> length rest = 60%nat ->
  let after n := wiiu_run wii (map WiiU_tick (firstn n (e1 :: rest))) in
  state (fst (after 61%nat)) = WII_U_STATE_READY
  /\ sent_count (snd (after 61%nat)) = 30%nat
  /\ filter wiiu_is_submit (snd (after 61%nat)) = []
  /\ (forall n, (n < 61)%nat -> state (fst (after n)) <> WII_U_STATE_READY).
Proof.
  intros wii Hreach Hfree Hsp Hlen after.
  assert (Step : forall n, (1 <= n <= 61)%nat ->
            let w := fst (after n) in
            wiiu_calls_left w = 61 - Z.of_nat n
            /\ 0 <= init_retries w < 5
            /\ Z.of_nat (sent_count (snd (after n))) + wiiu_sends_left w = 30
            /\ filter wiiu_is_submit (snd (after n)) = []
            /\ state w <> WII_U_STATE_IDLE).
  { intros n Hn. destruct n as [| n]; [lia |].
    subst after. cbv beta. cbn [firstn map].
    assert (T1 : wii_u_task wii e1
                 = (set_state wii WII_U_STATE_SEND_STATUS_REQ, [])).
    { unfold wii_u_task. subst wii. cbn [state wii_u_init] in *.
      now rewrite Hreach. }
    rewrite (wiiu_run_tick wii e1 _ _ _ T1). cbn [fst snd app].
    pose proof (wiiu_unanswered_run (firstn n rest)
                  (set_state wii WII_U_STATE_SEND_STATUS_REQ) (now e1)) as R.
    assert (L : length (firstn n rest) = n)
      by (rewrite length_firstn; lia).
    rewrite L in R. cbv zeta in R.
    destruct R as (R1 & R2 & R3 & R4 & R5);
      try (subst wii; cbn; (lia || discriminate)).
    - now apply wiiu_spaced_firstn.
    - change (wiiu_calls_left (set_state wii WII_U_STATE_SEND_STATUS_REQ))
        with 60 in R1.
      change (wiiu_sends_left (set_state wii WII_U_STATE_SEND_STATUS_REQ))
        with 30 in R3.
      repeat split; try assumption; lia. }
  destruct (Step 61%nat ltac:(lia)) as (S1 & S2 & S3 & S4 & S5).
  cbv zeta in *.
  assert (Rdy : state (fst (after 61%nat)) = WII_U_STATE_READY)
    by (apply wiiu_calls_left_ready; [exact S2 | exact S5 | lia]).
  split; [exact Rdy |]. split; [| split; [exact S4 |]].
  - unfold wiiu_sends_left in S3. rewrite Rdy in S3.
    cbn [wiiu_phase_of] in S3. lia.
  - intros n Hn Rn. destruct n as [| n].
    + subst after. cbn in Rn. discriminate.
    + destruct (Step (S n) ltac:(lia)) as (N1 & N2 & _ & _ & N5).
      cbv zeta in *.
      apply wiiu_calls_left_ready in Rn; [lia | exact N2 | exact N5].
Qed.

End WiiUHandshake.

Lemma wii_u_handshake_never_hangs_witness :
  WiiUPro.state
    (fst (wiiu_run (H := sample_layout)
            (WiiUPro.wii_u_init WiiUPro.zero_slot 0 0)
            (map WiiU_tick (firstn 61 (wiiu_seconds 0 60)))))
  = WiiUPro.WII_U_STATE_READY.
Proof.
  apply (wii_u_handshake_never_hangs (H := sample_layout) WiiUPro.zero_slot 0 0
           (wiiu_env 100000)
           (map (fun k => wiiu_env (0 + 100000 + 1000000 * Z.of_nat k))
                (seq 1 60))).
  - reflexivity.
  - reflexivity.
  - cbn. repeat (split; [lia | split; [reflexivity |]]). exact I.
  - reflexivity.
Defined.

(* ====================================================================== *)
(** * Generic gamepad: the report path without a descriptor *)
(* ====================================================================== *)

Section GamepadFallback.
Import GamepadDriver.
Context `{ButtonLayout}.

Lemma fallback_raw_bit d0 d1 i :
  0 <= d0 < 256 -> 0 <= d1 < 256 -> 0 <= i <= 12 ->
  Z.testbit (C.u32 (Z.lor (C.u32 (Z.lor 0 d0)) (C.u32 (Z.shiftl d1 8)))) i
  = Z.testbit (nth (Z.to_nat (i / 8)) [d0; d1] 0) (i mod 8).
Proof.
  intros H0 H1 Hi. unfold C.u32.
  rewrite Z.mod_pow2_bits_low, Z.lor_spec by lia.
  rewrite !Z.mod_pow2_bits_low, Z.lor_spec, Z.bits_0, Z.shiftl_spec by lia.
  cbn [orb].
  assert (E : i = 0 \/ i = 1 \/ i = 2 \/ i = 3 \/ i = 4 \/ i = 5 \/ i = 6
              \/ i = 7 \/ i = 8 \/ i = 9 \/ i = 10 \/ i = 11 \/ i = 12) by lia.
  repeat (destruct E as [-> | E]); [.. | subst i];
    repeat match goal with
           | |- context [?a - ?b] =>
               let v := eval vm_compute in (a - b) in change (a - b) with v
           | |- context [?a / 8] =>
               let v := eval vm_compute in (a / 8) in change (a / 8) with v
           | |- context [?a mod 8] =>
               let v := eval vm_compute in (a mod 8) in change (a mod 8) with v
           end;
    first [ change (Z.to_nat 0) with 0%nat | change (Z.to_nat 1) with 1%nat ];
    cbn [nth];
    rewrite ?Z.testbit_neg_r by lia;
    rewrite ?(byte_high_bit d0) by lia;
    rewrite ?orb_false_r, ?orb_false_l; reflexivity.
Qed.

Lemma buttons_if_analog (c : bool) e i v :
  buttons (if c then with_analog e i v else e) = buttons e.
Proof. destruct c; reflexivity. Qed.

(** X27.  The report path of the generic driver while no descriptor has been
    parsed, which is the state [gamepad_init] and [gamepad_disconnect] leave.
    A report of fewer than four bytes is dropped.  Any other yields one
    event: thirteen buttons from the first two bytes, bit by bit; the left
    stick from bytes 2 and 3 as they are; the right stick from bytes 4 and 5
    where the report has them and otherwise as the previous event had it;
    the triggers as before. *)
Theorem gamepad_fallback_report gp data :
  Gamepad.has_report_map gp = false ->
  exists gp' out,
    gamepad_process_report gp data = Some (gp', out)
    /\ (len_ data < 4 -> gp' = gp /\ out = [])
    /\ (4 <= len_ data ->
        let e := Gamepad.event gp' in
        let old := analog (Gamepad.event gp) in
        out = [e]
        /\ (forall k, pressed (buttons e) k =
                      match fallback_button_bit k with
                      | Some i => Z.testbit (at_ data (i / 8)) (i mod 8)
                      | None => false
                      end)
        /\ lx (analog e) = at_ data 2 /\ ly (analog e) = at_ data 3
        /\ rx (analog e) = (if 5 <=? len_ data then at_ data 4 else rx old)
        /\ ry (analog e) = (if 6 <=? len_ data then at_ data 5 else ry old)
        /\ l2 (analog e) = l2 old /\ r2 (analog e) = r2 old
        /\ dev_addr e = dev_addr (Gamepad.event gp))
    /\ Gamepad.has_report_map (fst (gamepad_disconnect gp)) = false
    /\ (forall conn_index is_ble,
          Gamepad.has_report_map (gamepad_init conn_index is_ble) = false).
Proof.
  intros Hm. unfold gamepad_process_report. rewrite Hm.
  do 2 eexists. split; [rewrite (surjective_pairing (fallback_report gp data));
                        reflexivity |].
  unfold fallback_report.
  split; [| split; [| split; [reflexivity | reflexivity]]].
  - intros L. destruct (Z.ltb_spec (len_ data) 4); [| lia]. split; reflexivity.
  - intros L. destruct (Z.ltb_spec (len_ data) 4); [lia |].
    destruct (Z.leb_spec 1 (len_ data)); [| lia].
    destruct (Z.leb_spec 2 (len_ data)); [| lia].
    destruct (Z.leb_spec 3 (len_ data)); [| lia].
    destruct (Z.leb_spec 4 (len_ data)); [| lia].
    cbv zeta. cbn [fst snd Gamepad.event].
    split; [reflexivity |]. split.
    + intros k.
      rewrite !buttons_if_analog. cbn [buttons with_analog with_buttons].
      rewrite pressed_or_all, pressed_0. cbn [existsb fst snd orb].
      rewrite !pressed_JP.
      change 0x0001 with (2 ^ 0). change 0x0002 with (2 ^ 1).
      change 0x0004 with (2 ^ 2). change 0x0008 with (2 ^ 3).
      change 0x0010 with (2 ^ 4). change 0x0020 with (2 ^ 5).
      change 0x0040 with (2 ^ 6). change 0x0080 with (2 ^ 7).
      change 0x0100 with (2 ^ 8). change 0x0200 with (2 ^ 9).
      change 0x0400 with (2 ^ 10). change 0x0800 with (2 ^ 11).
      change 0x1000 with (2 ^ 12).
      rewrite !tst_bit by lia.
      rewrite !fallback_raw_bit by (apply at_range || lia).
      destruct k; cbn [button_eqb fallback_button_bit];
        rewrite ?andb_false_r, ?andb_true_r, ?orb_false_r, ?orb_false_l;
        reflexivity.
    + pose proof (at_range data 2). pose proof (at_range data 3).
      pose proof (at_range data 4). pose proof (at_range data 5).
      destruct (Z.leb_spec 6 (len_ data)), (Z.leb_spec 5 (len_ data));
        try lia;
        cbn [analog with_analog with_buttons set_analog lx ly rx ry l2 r2
             dev_addr];
        rewrite ?u8_small by lia; repeat split.
Qed.

End GamepadFallback.

Lemma gamepad_fallback_report_witness :
  exists gp' out,
    GamepadDriver.gamepad_process_report (H := sample_layout)
      (GamepadDriver.gamepad_init 3 false) fallback_sample = Some (gp', out)
    /\ length out = 1%nat.
Proof.
  destruct (gamepad_fallback_report (H := sample_layout)
              (GamepadDriver.gamepad_init 3 false) fallback_sample eq_refl)
    as (gp' & out & E & _ & F & _).
  exists gp', out. split; [exact E |].
  destruct (F ltac:(vm_compute; discriminate)) as (-> & _). reflexivity.
Defined.

(* ====================================================================== *)
(** * Wiimote: the handshake left alone *)
(* ====================================================================== *)

Section WiimoteHandshake.
Import Wiimote.

Ltac wm_fields :=
  cbn [event initialized state init_time init_retries last_keepalive ext_type
       extension_connected player_led rumble_on orientation
       orient_hotkey_active set_event set_state set_init_time set_init_retries
       set_last_keepalive set_ext_type set_extension_connected set_player_led
       set_rumble_on set_orientation set_orient_hotkey_active fst snd
       wiimote_waiting].

Lemma wiimote_reached_spec now t :
  - 2147483648 <= now - t < 2147483648 ->
  reached now (C.u32 t) = (t <=? now).
Proof. intros Hr. exact (reached_spec now t Hr). Qed.

(** One call of the task during an unanswered handshake. *)
Lemma wiimote_tick_progress wii env :
  0 <= init_retries wii < 5 -> channel_free env ->
  (wiimote_waiting (state wii) = true ->
   reached (now env) (init_time wii) = true) ->
  0 < wiimote_calls_left wii ->
  let w := fst (wiimote_task wii env) in
  let out := snd (wiimote_task wii env) in
  wiimote_calls_left w = wiimote_calls_left wii - 1
  /\ 0 <= init_retries w < 5
  /\ Z.of_nat (sent_count out) + wiimote_sends_left w = wiimote_sends_left wii
  /\ wiimote_submitted out = []
  /\ (wiimote_waiting (state w) = true ->
      init_time w = C.u32 (now env + 1000000))
  /\ extension_connected w = extension_connected wii
  /\ (forall x, In x out ->
        In x [btstack_wiimote_send_control status_request_packet;
              btstack_wiimote_send_control (write_data_packet 0xA400F0 0x55);
              btstack_wiimote_send_control (write_data_packet 0xA400FB 0x00);
              btstack_wiimote_send_control (read_data_packet 0xA400FA 6);
              btstack_wiimote_send_raw
                (report_mode_packet (extension_connected wii));
              btstack_wiimote_send_raw (leds_packet 1)]).
Proof.
  intros Hr Hfree Hreach Hleft. unfold channel_free in Hfree.
  unfold wiimote_calls_left, wiimote_sends_left, wiimote_task, send_step,
    timeout_step, WIIMOTE_INIT_MAX_RETRIES, wiimote_submitted in *.
  destruct wii as [ev ini st it r ka xt xc led rum ori hk].
  cbn [state init_retries init_time extension_connected] in *.
  destruct st; cbn [wiimote_waiting] in Hreach; try lia;
    rewrite ?Hfree; try rewrite Hreach by reflexivity; wm_fields;
    rewrite ?(u8_small (r + 1)) by lia;
    try (destruct (Z.ltb_spec (r + 1) 5); wm_fields);
    rewrite ?(u8_small (r + 1)) by lia;
    change (C.u8 0) with 0 in *;
    unfold sent_count;
    cbn [filter is_send is_submit length Z.of_nat Pos.of_succ_nat];
    repeat split; try discriminate; try reflexivity; try lia;
    try (intros x []); try (intros x [<- | []]; unfold In; auto 10);
    try (subst; unfold In; auto 10).
Qed.

(** The unanswered handshake, any number of calls at a time. *)
Lemma wiimote_unanswered_run envs : forall wii prev,
  0 <= init_retries wii < 5 ->
  (wiimote_waiting (state wii) = true ->
   init_time wii = C.u32 (prev + 1000000)) ->
  wiiu_spaced prev envs ->
  Z.of_nat (length envs) <= wiimote_calls_left wii ->
  let w := fst (wiimote_ticks wii envs) in
  let out := snd (wiimote_ticks wii envs) in
  wiimote_calls_left w = wiimote_calls_left wii - Z.of_nat (length envs)
  /\ 0 <= init_retries w < 5
  /\ Z.of_nat (sent_count out) + wiimote_sends_left w = wiimote_sends_left wii
  /\ wiimote_submitted out = []
  /\ (forall buf, In (btstack_wiimote_send_raw buf) out ->
        buf = report_mode_packet (extension_connected wii)
        \/ buf = leds_packet 1).
Proof.
  induction envs as [| env rest IH]; intros wii prev Hr Hit Hsp Hlen.
  - cbn [wiimote_ticks fst snd length]. cbn.
    repeat split; try lia; try contradiction.
  - cbn [length] in Hlen. destruct Hsp as (Gap & Free & Sp).
    assert (Hreach : wiimote_waiting (state wii) = true ->
                     reached (now env) (init_time wii) = true).
    { intros W. rewrite (Hit W), wiimote_reached_spec by lia.
      apply Z.leb_le. lia. }
    destruct (wiimote_tick_progress wii env Hr Free Hreach ltac:(lia))
      as (P1 & P2 & P3 & P4 & P5 & P6 & P7).
    cbv zeta in *. cbn [wiimote_ticks].
    destruct (wiimote_task wii env) as [w1 o1]. cbn [fst snd] in *.
    specialize (IH w1 (now env) P2 P5 Sp ltac:(lia)).
    cbv zeta in IH. destruct IH as (I1 & I2 & I3 & I4 & I5).
    destruct (wiimote_ticks w1 rest) as [w2 o2]. cbn [fst snd] in *.
    split; [cbn [length]; lia |]. split; [exact I2 |].
    split; [| split].
    + unfold sent_count in *. rewrite filter_app, length_app. lia.
    + unfold wiimote_submitted in *. rewrite filter_app, P4, I4. reflexivity.
    + intros buf Hin. apply in_app_or in Hin as [Hin | Hin].
      * specialize (P7 _ Hin). cbn in P7.
        destruct P7 as [F | [F | [F | [F | [F | [F | []]]]]]];
          try discriminate; injection F as <-; tauto.
      * rewrite P6 in I5. now apply I5.
Qed.

Lemma wiimote_calls_left_ready wii :
  0 <= init_retries wii < 5 -> state wii <> WII_STATE_IDLE ->
  (wiimote_calls_left wii = 0 <-> state wii = WII_STATE_READY).
Proof.
  intros Hr Hi. unfold wiimote_calls_left.
  destruct (state wii); split; intros E; try reflexivity; try discriminate;
    try lia; congruence.
Qed.

Lemma wiimote_task_not_idle wii env :
  state wii <> WII_STATE_IDLE -> state (fst (wiimote_task wii env)) <> WII_STATE_IDLE.
Proof.
  unfold wiimote_task, send_step, timeout_step, ready_step. intros Hi.
  destruct wii as [ev ini st it r ka xt xc led rum ori hk].
  cbn [state init_retries init_time] in *.
  destruct st; try contradiction;
    repeat match goal with
           | |- context [if ?c then _ else _] => destruct c
           end; wm_fields; discriminate.
Qed.

Lemma wiimote_ticks_not_idle envs : forall wii,
  state wii <> WII_STATE_IDLE ->
  state (fst (wiimote_ticks wii envs)) <> WII_STATE_IDLE.
Proof.
  induction envs as [| env rest IH]; intros wii Hi; cbn [wiimote_ticks].
  - exact Hi.
  - pose proof (wiimote_task_not_idle wii env Hi) as T.
    destruct (wiimote_task wii env) as [w1 o1]. cbn [fst] in T.
    specialize (IH w1 T). destruct (wiimote_ticks w1 rest). exact IH.
Qed.

(** X28.  The handshake of the Wiimote driver cannot hang.  If the Wiimote
    answers nothing at all, the task, called with the channel free at least
    once a second, asks for the status five times, skips the extension,
    selects the report mode without extension and sets the LED, each once;
    it is in READY after exactly 15 calls and passes no event on in the
    meantime. *)
Theorem wiimote_handshake_never_hangs slot conn_index t0 e1 rest :
  let wii := wiimote_init slot conn_index t0 in
  reached (now e1) (init_time wii) = true -> channel_free e1 ->
  wiiu_spaced (now e1) rest -> length rest = 14%nat ->
  let after n := wiimote_ticks wii (firstn n (e1 :: rest)) in
  state (fst (after 15%nat)) = WII_STATE_READY
  /\ sent_count (snd (after 15%nat)) = 7%nat
  /\ wiimote_submitted (snd (after 15%nat)) = []
  /\ (forall buf, In (btstack_wiimote_send_raw buf) (snd (after 15%nat)) ->
        buf = report_mode_packet false \/ buf = leds_packet 1)
  /\ (forall n, (n < 15)%nat -> state (fst (after n)) <> WII_STATE_READY).
Proof.
  intros wii Hreach Hfree Hsp Hlen after.
  assert (Hni : state wii <> WII_STATE_IDLE) by (subst wii; discriminate).
  assert (Step : forall n, (1 <= n <= 15)%nat ->
            let w := fst (after n) in
            wiimote_calls_left w = 15 - Z.of_nat n
            /\ 0 <= init_retries w < 5
            /\ Z.of_nat (sent_count (snd (after n))) + wiimote_sends_left w = 7
            /\ wiimote_submitted (snd (after n)) = []
            /\ (forall buf, In (btstack_wiimote_send_raw buf) (snd (after n)) ->
                  buf = report_mode_packet false \/ buf = leds_packet 1)).
  { intros n Hn. destruct n as [| n]; [lia |].
    subst after. cbv beta. cbn [firstn wiimote_ticks].
    assert (T1 : wiimote_task wii e1
                 = (set_state wii WII_STATE_SEND_STATUS_REQ, [])).
    { unfold wiimote_task, timeout_step. subst wii.
      cbn [state wiimote_init] in *. now rewrite Hreach. }
    rewrite T1.
    pose proof (wiimote_unanswered_run (firstn n rest)
                  (set_state wii WII_STATE_SEND_STATUS_REQ) (now e1)) as R.
    assert (L : length (firstn n rest) = n)
      by (rewrite length_firstn; lia).
    rewrite L in R. cbv zeta in R.
    destruct R as (R1 & R2 & R3 & R4 & R5);
      try (subst wii; cbn; (lia || discriminate)).
    - now apply wiiu_spaced_firstn.
    - destruct (wiimote_ticks (set_state wii WII_STATE_SEND_STATUS_REQ)
                  (firstn n rest)) as [w2 o2]. cbn [fst snd app] in *.
      change (wiimote_calls_left (set_state wii WII_STATE_SEND_STATUS_REQ))
        with 14 in R1.
      change (wiimote_sends_left (set_state wii WII_STATE_SEND_STATUS_REQ))
        with 7 in R3.
      repeat split; try assumption; lia. }
  destruct (Step 15%nat ltac:(lia)) as (S1 & S2 & S3 & S4 & S5).
  cbv zeta in *.
  assert (NI : forall n, state (fst (after n)) <> WII_STATE_IDLE)
    by (intros n; subst after; cbv beta; now apply wiimote_ticks_not_idle).
  assert (Rdy : state (fst (after 15%nat)) = WII_STATE_READY)
    by (apply wiimote_calls_left_ready; [exact S2 | apply NI | lia]).
  split; [exact Rdy |]. split; [| split; [exact S4 | split; [exact S5 |]]].
  - unfold wiimote_sends_left in S3. rewrite Rdy in S3. lia.
  - intros n Hn Rn. destruct n as [| n].
    + subst after. cbn in Rn. subst wii. discriminate.
    + destruct (Step (S n) ltac:(lia)) as (N1 & N2 & _).
      cbv zeta in *.
      apply wiimote_calls_left_ready in Rn; [lia | exact N2 | apply NI].
Qed.

End WiimoteHandshake.

Lemma wiimote_handshake_never_hangs_witness :
  Wiimote.state
    (fst (wiimote_ticks (Wiimote.wiimote_init wiimote_zero_slot 0 0)
            (firstn 15 (wiiu_seconds 0 14))))
  = Wiimote.WII_STATE_READY.
Proof.
  apply (wiimote_handshake_never_hangs wiimote_zero_slot 0 0
           (wiiu_env 100000)
           (map (fun k => wiiu_env (0 + 100000 + 1000000 * Z.of_nat k))
                (seq 1 14))).
  - reflexivity.
  - reflexivity.
  - cbn. repeat (split; [lia | split; [reflexivity |]]). exact I.
  - reflexivity.
Defined.

(* ====================================================================== *)
(** * The tasks never write to a busy channel *)
(* ====================================================================== *)

Section ChannelDiscipline.

Lemma allowed_nil {E} (is_send : E -> bool) env : allowed is_send env [].
Proof. intros k Hk. cbn in Hk. lia. Qed.

Lemma allowed_quiet {E} (is_send : E -> bool) env out x :
  allowed is_send env out -> is_send x = false ->
  allowed is_send env (out ++ [x]).
Proof.
  intros A Hx k Hk. apply A. rewrite filter_app in Hk. cbn [filter] in Hk.
  rewrite Hx, app_nil_r in Hk. exact Hk.
Qed.

Lemma allowed_send {E} (is_send : E -> bool) env out x :
  allowed is_send env out ->
  can_send env (length (filter is_send out)) = true ->
  allowed is_send env (out ++ [x]).
Proof.
  intros A C k Hk. rewrite filter_app, length_app in Hk.
  destruct (Nat.eq_dec k (length (filter is_send out))) as [-> | N];
    [exact C |].
  apply A. cbn [filter] in Hk. destruct (is_send x); cbn [length] in Hk; lia.
Qed.

(** A packet sent under the guard of the channel. *)
Lemma guarded_send {E W} (is_send : E -> bool) env (c : bool) (w w' : W)
  out x :
  allowed is_send env out ->
  allowed is_send env
    (snd (if c && can_send env (length (filter is_send out))
          then (w', out ++ [x]) else (w, out))).
Proof.
  intros A. destruct c; cbn [andb]; [| exact A].
  destruct (can_send env (length (filter is_send out))) eqn:C; [| exact A].
  cbn [snd]. now apply allowed_send.
Qed.

Lemma wiiu_ready_channel wii env :
  allowed WiiUPro.is_send env (snd (WiiUPro.ready_step wii env)).
Proof.
  unfold WiiUPro.ready_step, WiiUPro.sent_count.
  match goal with
  | |- context [if 0 <=? player_idx env then ?a else ?b] =>
      assert (A : allowed WiiUPro.is_send env
                    (snd (if 0 <=? player_idx env then a else b)));
        [| destruct (if 0 <=? player_idx env then a else b) as [w o];
           cbn [snd] in A;
           apply (guarded_send WiiUPro.is_send env _ w _ o _ A)]
  end.
  destruct (0 <=? player_idx env); [| apply allowed_nil].
  cbv zeta.
  match goal with
  | |- context [if ?c && can_send env 0 then (?w', [?x]) else ?y] =>
      assert (A : allowed WiiUPro.is_send env
                    (snd (if c && can_send env 0 then (w', [x]) else y)));
        [| destruct (if c && can_send env 0 then (w', [x]) else y) as [w0 o0];
           cbn [snd] in A]
  end.
  { change (can_send env 0)
      with (can_send env (length (filter WiiUPro.is_send []))).
    match goal with
    | |- context [if _ then (?w', [?x]) else _] =>
        change [x] with ([] ++ [x])
    end.
    apply guarded_send. apply allowed_nil. }
  match goal with
  | |- context [if ?c && can_send env ?n then ?x else ?y] =>
      assert (B : allowed WiiUPro.is_send env
                    (snd (if c && can_send env n then x else y)));
        [apply guarded_send; exact A
        | destruct (if c && can_send env n then x else y) as [w1 o1];
          cbn [snd] in B]
  end.
  destruct (rumble_dirty (fb env) || led_dirty (fb env)); cbn [snd];
    [now apply allowed_quiet | exact B].
Qed.

Lemma wiimote_ready_channel wii env :
  allowed Wiimote.is_send env (snd (Wiimote.ready_step wii env)).
Proof.
  unfold Wiimote.ready_step, Wiimote.sent_count.
  match goal with
  | |- context [if 0 <=? player_idx env then ?a else ?b] =>
      assert (A : allowed Wiimote.is_send env
                    (snd (if 0 <=? player_idx env then a else b)));
        [| destruct (if 0 <=? player_idx env then a else b) as [w o];
           cbn [snd] in A;
           apply (guarded_send Wiimote.is_send env _ w _ o _ A)]
  end.
  destruct (0 <=? player_idx env); [| apply allowed_nil].
  cbv zeta.
  match goal with
  | |- context [if ?c && can_send env 0 then (?w', [?x]) else ?y] =>
      assert (A : allowed Wiimote.is_send env
                    (snd (if c && can_send env 0 then (w', [x]) else y)));
        [| destruct (if c && can_send env 0 then (w', [x]) else y) as [w0 o0];
           cbn [snd] in A]
  end.
  { change (can_send env 0)
      with (can_send env (length (filter Wiimote.is_send []))).
    match goal with
    | |- context [if _ then (?w', [?x]) else _] =>
        change [x] with ([] ++ [x])
    end.
    apply guarded_send. apply allowed_nil. }
  match goal with
  | |- context [if ?c && can_send env ?n then ?x else ?y] =>
      assert (B : allowed Wiimote.is_send env
                    (snd (if c && can_send env n then x else y)));
        [apply guarded_send; exact A
        | destruct (if c && can_send env n then x else y) as [w1 o1];
          cbn [snd] in B]
  end.
  destruct (rumble_dirty (fb env) || led_dirty (fb env)); cbn [snd];
    [now apply allowed_quiet | exact B].
Qed.

Lemma allowed_one {E} (is_send : E -> bool) env x :
  allowed is_send env (snd (if can_send env 0
                            then (tt, [x]) else (tt, []))).
Proof.
  destruct (can_send env 0) eqn:C; cbn [snd]; [| apply allowed_nil].
  intros k Hk. cbn [filter] in Hk.
  destruct (is_send x); cbn [length] in Hk; [| lia].
  assert (k = 0%nat) as -> by lia. exact C.
Qed.

Lemma allowed_if_one {E W} (is_send : E -> bool) env (w w' : W) x :
  allowed is_send env (snd (if can_send env 0 then (w', [x]) else (w, []))).
Proof.
  pose proof (allowed_one is_send env x) as A.
  destruct (can_send env 0); exact A.
Qed.

Lemma wiiu_task_channel wii env :
  allowed WiiUPro.is_send env (snd (WiiUPro.wii_u_task wii env)).
Proof.
  unfold WiiUPro.wii_u_task, WiiUPro.send_step.
  destruct (WiiUPro.state wii);
    lazymatch goal with
    | |- context [WiiUPro.ready_step] => apply wiiu_ready_channel
    | |- context [can_send env 0] => apply allowed_if_one
    | |- context [WiiUPro.reached] =>
        destruct (WiiUPro.reached _ _); try destruct (_ <? _);
        apply allowed_nil
    | |- _ => apply allowed_nil
    end.
Qed.

Lemma wiimote_task_channel wii env :
  allowed Wiimote.is_send env (snd (Wiimote.wiimote_task wii env)).
Proof.
  unfold Wiimote.wiimote_task, Wiimote.send_step.
  destruct (Wiimote.state wii);
    lazymatch goal with
    | |- context [Wiimote.ready_step] => apply wiimote_ready_channel
    | |- context [can_send env 0] => apply allowed_if_one
    | |- context [Wiimote.reached] =>
        destruct (Wiimote.reached _ _); try destruct (_ <? _);
        apply allowed_nil
    | |- _ => apply allowed_nil
    end.
Qed.

(** X29.  The tasks of the Wii U Pro and Wiimote drivers never write to a busy
    channel: in every state, each packet a call of the task sends was
    allowed by the channel, asked after the packets the call had already
    sent.  A channel that takes nothing gets nothing, one that takes a
    single packet gets at most one. *)
Theorem tasks_never_write_to_a_busy_channel env :
  (forall wii k,
     (k < WiiUPro.sent_count (snd (WiiUPro.wii_u_task wii env)))%nat ->
     can_send env k = true)
  /\ (forall wii k,
        (k < Wiimote.sent_count (snd (Wiimote.wiimote_task wii env)))%nat ->
        can_send env k = true)
  /\ (can_send env 0%nat = false ->
      forall wu wm,
        WiiUPro.sent_count (snd (WiiUPro.wii_u_task wu env)) = 0%nat
        /\ Wiimote.sent_count (snd (Wiimote.wiimote_task wm env)) = 0%nat)
  /\ (can_send env 1%nat = false ->
      forall wu wm,
        (WiiUPro.sent_count (snd (WiiUPro.wii_u_task wu env)) <= 1)%nat
        /\ (Wiimote.sent_count (snd (Wiimote.wiimote_task wm env)) <= 1)%nat).
Proof.
  split; [intros wii k; apply wiiu_task_channel |].
  split; [intros wii k; apply wiimote_task_channel |].
  split.
  - intros C0 wu wm. split.
    + destruct (WiiUPro.sent_count (snd (WiiUPro.wii_u_task wu env))) eqn:E;
        [reflexivity |].
      pose proof (wiiu_task_channel wu env 0%nat) as A.
      unfold WiiUPro.sent_count in E. rewrite E in A.
      specialize (A ltac:(lia)). congruence.
    + destruct (Wiimote.sent_count (snd (Wiimote.wiimote_task wm env))) eqn:E;
        [reflexivity |].
      pose proof (wiimote_task_channel wm env 0%nat) as A.
      unfold Wiimote.sent_count in E. rewrite E in A.
      specialize (A ltac:(lia)). congruence.
  - intros C1 wu wm. split.
    + destruct (le_lt_dec
                  (WiiUPro.sent_count (snd (WiiUPro.wii_u_task wu env))) 1)
        as [L | G]; [exact L |].
      pose proof (wiiu_task_channel wu env 1%nat G). congruence.
    + destruct (le_lt_dec
                  (Wiimote.sent_count (snd (Wiimote.wiimote_task wm env))) 1)
        as [L | G]; [exact L |].
      pose proof (wiimote_task_channel wm env 1%nat G). congruence.
Qed.

End ChannelDiscipline.

(* ====================================================================== *)
(** * Generic gamepad: the buttons of the descriptor path *)
(* ====================================================================== *)

Section GamepadButtons.
Import Gamepad.
Context `{ButtonLayout}.

Lemma pressed_or_sel c m acc k :
  pressed (or_sel c m acc) k = pressed acc k || (c && pressed m k).
Proof.
  unfold or_sel. rewrite pressed_lor. destruct c; cbn [andb];
    [reflexivity | now rewrite pressed_0].
Qed.

Lemma pressed_or_sels l : forall acc k,
  pressed (or_sels l acc) k
  = pressed acc k || existsb (fun cm => fst cm && pressed (snd cm) k) l.
Proof.
  unfold or_sels. induction l as [| cm l IH]; intros acc k;
    cbn [fold_left existsb].
  - now rewrite orb_false_r.
  - rewrite IH, pressed_or_sel. now rewrite orb_assoc.
Qed.

(** The loop over the button locations sets bit [j] exactly for the
    buttons of [l] with index [j] that are down. *)
Lemma all_buttons_fold data locs l : forall acc j,
  0 <= j < 16 ->
  Z.testbit
    (fold_left
       (fun acc i => if raw_button data locs i
                     then C.u16 (Z.lor acc (Z.shiftl 1 (Z.of_nat i))) else acc)
       l acc) j
  = Z.testbit acc j
    || existsb (fun i => (Z.of_nat i =? j) && raw_button data locs i) l.
Proof.
  induction l as [| i l IH]; intros acc j Hj; cbn [fold_left existsb].
  - now rewrite orb_false_r.
  - rewrite IH by exact Hj. destruct (raw_button data locs i).
    + unfold C.u16. rewrite Z.mod_pow2_bits_low, Z.lor_spec by lia.
      rewrite Z.shiftl_1_l, Z.pow2_bits_eqb by lia.
      now rewrite andb_true_r, orb_assoc.
    + now rewrite andb_false_r, orb_false_l.
Qed.

Lemma all_buttons_bit data locs j :
  0 <= j < 12 ->
  Z.testbit (all_buttons_of data locs) j = raw_button data locs (Z.to_nat j).
Proof.
  intros Hj. unfold all_buttons_of. rewrite all_buttons_fold by lia.
  rewrite Z.bits_0. cbn [orb].
  change (Z.to_nat BLE_MAX_BUTTONS) with 12%nat. cbn [seq existsb].
  assert (E : j = 0 \/ j = 1 \/ j = 2 \/ j = 3 \/ j = 4 \/ j = 5 \/ j = 6
              \/ j = 7 \/ j = 8 \/ j = 9 \/ j = 10 \/ j = 11) by lia.
  repeat (destruct E as [-> | E]); [.. | subst j];
    repeat match goal with
           | |- context [Z.of_nat ?n =? ?j] =>
               let b := eval vm_compute in (Z.of_nat n =? j) in
               change (Z.of_nat n =? j) with b
           end;
    cbn [andb orb]; rewrite ?orb_false_r; reflexivity.
Qed.

Lemma all_buttons_tst data locs j :
  0 <= j < 12 ->
  C.tst (all_buttons_of data locs) (Z.shiftl 1 j)
  = raw_button data locs (Z.to_nat j).
Proof.
  intros Hj. rewrite Z.shiftl_1_l, tst_bit by lia. now apply all_buttons_bit.
Qed.

Lemma hat_table_bits d :
  0 <= d <= 8 ->
  let dpad := nth (Z.to_nat d) HAT_SWITCH_TO_DIRECTION_BUTTONS 0 in
  C.tst dpad 0x01 = hat_shows d DU /\ C.tst dpad 0x02 = hat_shows d DR
  /\ C.tst dpad 0x04 = hat_shows d DD /\ C.tst dpad 0x08 = hat_shows d DL.
Proof.
  intros Hd.
  assert (E : d = 0 \/ d = 1 \/ d = 2 \/ d = 3 \/ d = 4 \/ d = 5 \/ d = 6
              \/ d = 7 \/ d = 8) by lia.
  repeat (destruct E as [-> | E]); [.. | subst d]; cbn; tauto.
Qed.

Lemma hat_buttons_pressed data m k :
  pressed (hat_buttons data m) k = hat_shows (gamepad_hat_direction data m) k.
Proof.
  unfold hat_buttons, gamepad_hat_direction.
  destruct (negb (bitMask (hatLoc m) =? 0) && (byteIndex (hatLoc m) <? len_ data)).
  - cbv zeta.
    set (v := C.u8 (Z.land (at_ data (byteIndex (hatLoc m))) (bitMask (hatLoc m)))).
    assert (Hv : 0 <= v < 256) by apply u8_range.
    set (d := if v <=? 8 then v else 8).
    assert (Hd : 0 <= d <= 8) by (unfold d; destruct (Z.leb_spec v 8); lia).
    destruct (hat_table_bits d Hd) as (U & R & D & L). cbv zeta in U, R, D, L.
    rewrite pressed_or_all, pressed_0. cbn [existsb fst snd orb].
    rewrite U, R, D, L, !pressed_JP.
    destruct k; cbn [button_eqb hat_shows];
      rewrite ?andb_false_r, ?andb_true_r, ?orb_false_r, ?orb_false_l;
      reflexivity.
  - rewrite pressed_0. destruct k; reflexivity.
Qed.

Lemma map_buttons_pressed data locs count acc k :
  0 <= count <= 12 ->
  pressed (map_buttons (all_buttons_of data locs) count acc) k
  = pressed acc k
    || match gamepad_button_index count k with
       | Some i => raw_button data locs (Z.to_nat i)
       | None => false
       end.
Proof.
  intros Hc. unfold map_buttons, gamepad_button_index. cbv zeta.
  destruct (Z.leb_spec 10 count) as [G | L].
  - rewrite pressed_or_sels. cbn [existsb fst snd].
    rewrite !all_buttons_tst by lia. rewrite !pressed_JP.
    destruct k; cbn [button_eqb];
      rewrite ?andb_false_r, ?andb_true_r, ?orb_false_r, ?orb_false_l;
      reflexivity.
  - destruct (Z.leb_spec 2 count) as [G2 | L2].
    + rewrite pressed_or_sels. cbn [existsb fst snd].
      destruct (Z.leb_spec 7 count), (Z.leb_spec 8 count), (Z.leb_spec 9 count);
        try lia;
        rewrite ?pressed_or_sel, pressed_or_sels; cbn [existsb fst snd];
        rewrite !all_buttons_tst by lia; rewrite !pressed_JP;
        destruct k; cbn [button_eqb];
        rewrite ?andb_false_r, ?andb_true_r, ?orb_false_r, ?orb_false_l;
        reflexivity.
    + destruct (Z.leb_spec 7 count), (Z.leb_spec 8 count), (Z.leb_spec 9 count);
        try lia;
        rewrite pressed_or_sels; cbn [existsb fst snd];
        rewrite !all_buttons_tst by lia; rewrite !pressed_JP;
        destruct k; cbn [button_eqb];
        rewrite ?andb_false_r, ?andb_true_r, ?orb_false_r, ?orb_false_l;
        reflexivity.
Qed.

(** X30.  The buttons of an event of the descriptor path.  A d-pad button is set
    when the hat field shows its direction; it never shows two opposite
    directions, and none for a value above 8 or without a hat.  Every other
    button mirrors one HID button of the report, chosen by the number of
    buttons the descriptor declares: the DirectInput order from ten buttons
    on, and otherwise the buttons in order with Select and Start taken from
    the last two. *)
Theorem gamepad_dynamic_buttons gp data gp' e :
  process_report_dynamic gp data = Some (gp', [e]) ->
  let count := gamepad_button_count (map gp) in
  let d := gamepad_hat_direction data (map gp) in
  button_count e = count
  /\ (forall k, pressed (buttons e) k =
        hat_shows d k
        || match gamepad_button_index count k with
           | Some i => raw_button data (buttonLoc (map gp)) (Z.to_nat i)
           | None => false
           end)
  /\ hat_shows d DU && hat_shows d DD = false
  /\ hat_shows d DL && hat_shows d DR = false
  /\ 0 <= d <= 8.
Proof.
  intros E count d. unfold process_report_dynamic in E. cbv zeta in E.
  destruct (axis data (xLoc (map gp)) 128); [| discriminate].
  destruct (axis data (yLoc (map gp)) 128); [| discriminate].
  destruct (axis data (zLoc (map gp)) 128); [| discriminate].
  destruct (axis data (rzLoc (map gp)) 128); [| discriminate].
  destruct (axis data (rxLoc (map gp)) 0); [| discriminate].
  destruct (axis data (ryLoc (map gp)) 0); [| discriminate].
  injection E as _ <-.
  cbn [button_count buttons with_analog with_button_count with_buttons].
  assert (Ec : (if 12 <? C.u8 (buttonCnt (map gp)) then 12
                else C.u8 (buttonCnt (map gp))) = count).
  { unfold count, gamepad_button_count.
    destruct (Z.ltb_spec 12 (C.u8 (buttonCnt (map gp)))); lia. }
  rewrite Ec.
  assert (Hc : 0 <= count <= 12).
  { unfold count, gamepad_button_count.
    pose proof (u8_range (buttonCnt (map gp))). lia. }
  assert (Hd : 0 <= d <= 8).
  { unfold d, gamepad_hat_direction.
    destruct (_ && _); [| lia].
    cbv zeta. pose proof (u8_range (Z.land (at_ data (byteIndex (hatLoc (map gp))))
                                           (bitMask (hatLoc (map gp))))).
    destruct (Z.leb_spec (C.u8 (Z.land (at_ data (byteIndex (hatLoc (map gp))))
                                       (bitMask (hatLoc (map gp))))) 8); lia. }
  split; [reflexivity |]. split; [| split; [| split; [| exact Hd]]].
  - intros k. rewrite map_buttons_pressed by exact Hc.
    now rewrite hat_buttons_pressed.
  - cbn [hat_shows].
    destruct (Z.eqb_spec d 0), (Z.eqb_spec d 1), (Z.eqb_spec d 7),
      (Z.eqb_spec d 3), (Z.eqb_spec d 4), (Z.eqb_spec d 5);
      cbn; try reflexivity; lia.
  - cbn [hat_shows].
    destruct (Z.eqb_spec d 5), (Z.eqb_spec d 6), (Z.eqb_spec d 7),
      (Z.eqb_spec d 1), (Z.eqb_spec d 2), (Z.eqb_spec d 3);
      cbn; try reflexivity; lia.
Qed.

End GamepadButtons.

Lemma gamepad_dynamic_buttons_witness :
  exists gp' e,
    Gamepad.process_report_dynamic (H := sample_layout) gamepad_sample
      gamepad_sample_report = Some (gp', [e])
    /\ button_count e = 12
    /\ pressed (H := sample_layout) (buttons e) B3 = true.
Proof.
  destruct (Gamepad.process_report_dynamic (H := sample_layout) gamepad_sample
              gamepad_sample_report) as [[gp' out] |] eqn:E;
    [| vm_compute in E; discriminate].
  destruct out as [| e [| e2 rest]]; try (vm_compute in E; discriminate).
  exists gp', e. split; [reflexivity |].
  destruct (gamepad_dynamic_buttons (H := sample_layout) gamepad_sample
              gamepad_sample_report gp' e E) as (C & P & _).
  split; [rewrite C; reflexivity |]. rewrite P. reflexivity.
Defined.

Section WiimoteCachedEvent.
Import Wiimote.
Context `{ButtonLayout}.

(** A decidable property that holds of each of the first [n] numbers. *)
Lemma each_below (P : Z -> bool) (n : nat) :
  forallb P (map Z.of_nat (seq 0 n)) = true ->
  forall x, 0 <= x < Z.of_nat n -> P x = true.
Proof.
  intros Hall x Hx. rewrite forallb_forall in Hall. apply Hall.
  apply in_map_iff. exists (Z.to_nat x). split; [lia |].
  apply in_seq. lia.
Qed.

Lemma stretch6_bits x :
  0 <= x < 256 ->
  C.u8 (Z.lor (Z.shiftl (C.u8 (Z.land x 0x3F)) 2)
              (Z.shiftr (C.u8 (Z.land x 0x3F)) 4))
  = stretch6 (x mod 64)
  /\ C.u8 (255 - Z.lor (Z.shiftl (C.u8 (Z.land x 0x3F)) 2)
                       (Z.shiftr (C.u8 (Z.land x 0x3F)) 4))
     = 255 - stretch6 (x mod 64).
Proof.
  intros Hx.
  pose proof (each_below
    (fun x =>
       (C.u8 (Z.lor (Z.shiftl (C.u8 (Z.land x 0x3F)) 2)
                    (Z.shiftr (C.u8 (Z.land x 0x3F)) 4))
        =? stretch6 (x mod 64))
       && (C.u8 (255 - Z.lor (Z.shiftl (C.u8 (Z.land x 0x3F)) 2)
                             (Z.shiftr (C.u8 (Z.land x 0x3F)) 4))
           =? 255 - stretch6 (x mod 64)))
    256 ltac:(vm_compute; reflexivity) x Hx) as E.
  cbv beta in E. apply andb_true_iff in E. destruct E as [E1 E2].
  split; now apply Z.eqb_eq.
Qed.

Lemma stretch5_bits x :
  0 <= x < 256 ->
  C.u8 (Z.lor (Z.shiftl (C.u8 (Z.land x 0x1F)) 3)
              (Z.shiftr (C.u8 (Z.land x 0x1F)) 2))
  = stretch5 (x mod 32)
  /\ C.u8 (255 - Z.lor (Z.shiftl (C.u8 (Z.land x 0x1F)) 3)
                       (Z.shiftr (C.u8 (Z.land x 0x1F)) 2))
     = 255 - stretch5 (x mod 32).
Proof.
  intros Hx.
  pose proof (each_below
    (fun x =>
       (C.u8 (Z.lor (Z.shiftl (C.u8 (Z.land x 0x1F)) 3)
                    (Z.shiftr (C.u8 (Z.land x 0x1F)) 2))
        =? stretch5 (x mod 32))
       && (C.u8 (255 - Z.lor (Z.shiftl (C.u8 (Z.land x 0x1F)) 3)
                             (Z.shiftr (C.u8 (Z.land x 0x1F)) 2))
           =? 255 - stretch5 (x mod 32)))
    256 ltac:(vm_compute; reflexivity) x Hx) as E.
  cbv beta in E. apply andb_true_iff in E. destruct E as [E1 E2].
  split; now apply Z.eqb_eq.
Qed.

(** The three parts of the right stick X of the Classic Controller. *)
Lemma classic_rx_parts x :
  0 <= x < 256 ->
  Z.land (Z.shiftr x 3) 0x18 = 8 * (x / 64)
  /\ Z.land (Z.shiftr x 5) 0x06 = 2 * (x / 64)
  /\ Z.land (Z.shiftr x 7) 0x01 = x / 128
  /\ 0 <= x / 64 < 4 /\ 0 <= x / 128 < 2.
Proof.
  intros Hx.
  pose proof (each_below
    (fun x =>
       (Z.land (Z.shiftr x 3) 0x18 =? 8 * (x / 64))
       && (Z.land (Z.shiftr x 5) 0x06 =? 2 * (x / 64))
       && (Z.land (Z.shiftr x 7) 0x01 =? x / 128))
    256 ltac:(vm_compute; reflexivity) x Hx) as E.
  cbv beta in E. apply andb_true_iff in E. destruct E as [E E3].
  apply andb_true_iff in E. destruct E as [E1 E2].
  apply Z.eqb_eq in E1, E2, E3. repeat split; try assumption.
  - apply Z.div_pos; lia.
  - apply Z.div_lt_upper_bound; lia.
  - apply Z.div_pos; lia.
  - apply Z.div_lt_upper_bound; lia.
Qed.

Lemma classic_rx_sum p q r :
  0 <= p < 4 -> 0 <= q < 4 -> 0 <= r < 2 ->
  let v := C.u8 (Z.lor (Z.lor (8 * p) (2 * q)) r) in
  C.u8 (Z.lor (Z.shiftl v 3) (Z.shiftr v 2)) = stretch5 (8 * p + 2 * q + r).
Proof.
  intros Hp Hq Hr.
  pose proof (each_below
    (fun p => forallb (fun q => forallb (fun r =>
       let v := C.u8 (Z.lor (Z.lor (8 * p) (2 * q)) r) in
       C.u8 (Z.lor (Z.shiftl v 3) (Z.shiftr v 2)) =? stretch5 (8 * p + 2 * q + r))
       (map Z.of_nat (seq 0 2))) (map Z.of_nat (seq 0 4)))
    4 ltac:(vm_compute; reflexivity) p Hp) as E.
  cbv beta in E.
  pose proof (each_below _ 4 E q Hq) as E'. cbv beta in E'.
  pose proof (each_below _ 2 E' r Hr) as E''. cbv beta in E''.
  now apply Z.eqb_eq.
Qed.

(** The left trigger of the Classic Controller, as the driver puts it
    together from bytes 2 and 3. *)
Lemma classic_lt_bits c d :
  0 <= c < 256 -> 0 <= d < 256 ->
  let v := C.u8 (Z.lor (Z.land (Z.shiftr c 5) 0x03)
                       (Z.land (Z.shiftr d 2) 0x1C)) in
  C.u8 (Z.lor (Z.shiftl v 3) (Z.shiftr v 2))
  = stretch5 ((c / 32) mod 4 + 4 * ((d / 16) mod 8)).
Proof.
  intros Hc Hd.
  pose proof (each_below
    (fun c => forallb (fun d =>
       let v := C.u8 (Z.lor (Z.land (Z.shiftr c 5) 0x03)
                            (Z.land (Z.shiftr d 2) 0x1C)) in
       C.u8 (Z.lor (Z.shiftl v 3) (Z.shiftr v 2))
       =? stretch5 ((c / 32) mod 4 + 4 * ((d / 16) mod 8)))
       (map Z.of_nat (seq 0 256)))
    256 ltac:(vm_compute; reflexivity) c Hc) as E.
  cbv beta in E.
  pose proof (each_below _ 256 E d Hd) as E'. cbv beta in E'.
  now apply Z.eqb_eq.
Qed.

(** The analog axes an extension report writes into the cached event. *)
Lemma parse_extension_analog wii data off b :
  analog (fst (parse_extension wii data off b))
  = wiimote_ext_analog (ext_type wii) data off (analog (event wii)).
Proof.
  unfold parse_extension, wiimote_ext_analog.
  pose proof (at_range data (off + 0)) as R0.
  pose proof (at_range data (off + 1)) as R1.
  pose proof (at_range data (off + 2)) as R2.
  pose proof (at_range data (off + 3)) as R3.
  destruct (ext_type wii); cbn [fst analog with_analog set_analog lx ly rx ry l2 r2];
    try reflexivity.
  - rewrite !u8_small by lia. reflexivity.
  - destruct (stretch6_bits _ R0) as [A0 _].
    destruct (stretch6_bits _ R1) as [_ A1'].
    destruct (stretch5_bits _ R2) as [_ A2'].
    destruct (stretch5_bits _ R3) as [A3 _].
    destruct (classic_rx_parts _ R0) as (P0 & _ & _ & B0 & _).
    destruct (classic_rx_parts _ R1) as (_ & P1 & _ & B1' & _).
    destruct (classic_rx_parts _ R2) as (_ & _ & P2 & _ & B2').
    pose proof (classic_rx_sum _ _ _ B0 B1' B2') as RX. cbv zeta in RX.
    pose proof (classic_lt_bits _ _ R2 R3) as LT. cbv zeta in LT.
    rewrite A0, A1', A2', A3, P0, P1, P2, RX, LT. reflexivity.
  - destruct (stretch6_bits _ R0) as [A0 _].
    destruct (stretch6_bits _ R1) as [_ A1'].
    destruct (stretch5_bits _ R3) as [A3 _].
    rewrite A0, A1', A3. reflexivity.
Qed.

(** Bit [i] of the 16-bit core button value, in terms of the two bytes. *)
Lemma raw_buttons_bit data i :
  0 <= i < 16 ->
  Z.testbit (raw_buttons_of data) i
  = if i <? 8 then Z.testbit (at_ data 1) i && Z.testbit 0x1F i
    else Z.testbit (at_ data 2) (i - 8) && Z.testbit 0x9F (i - 8).
Proof.
  intros Hi. unfold raw_buttons_of, C.u16.
  rewrite Z.mod_pow2_bits_low by lia.
  rewrite Z.lor_spec, Z.shiftl_spec, !Z.land_spec by lia.
  destruct (Z.ltb_spec i 8).
  - rewrite (Z.testbit_neg_r _ (i - 8)) by lia. now rewrite orb_false_r.
  - rewrite (byte_high_bit (at_ data 1) i (at_range data 1)) by lia.
    reflexivity.
Qed.

Lemma core_tst data m i :
  0 <= i < 16 -> m = 2 ^ i ->
  C.tst (raw_buttons_of data) m
  = if i <? 8 then Z.testbit (at_ data 1) i && Z.testbit 0x1F i
    else Z.testbit (at_ data 2) (i - 8) && Z.testbit 0x9F (i - 8).
Proof.
  intros Hi ->. rewrite tst_bit by lia. now apply raw_buttons_bit.
Qed.

Lemma core_tst_all data :
  C.tst (raw_buttons_of data) WII_BTN_LEFT = wiimote_core_down data DL
  /\ C.tst (raw_buttons_of data) WII_BTN_RIGHT = wiimote_core_down data DR
  /\ C.tst (raw_buttons_of data) WII_BTN_DOWN = wiimote_core_down data DD
  /\ C.tst (raw_buttons_of data) WII_BTN_UP = wiimote_core_down data DU
  /\ C.tst (raw_buttons_of data) WII_BTN_PLUS = wiimote_core_down data S2
  /\ C.tst (raw_buttons_of data) WII_BTN_TWO = wiimote_core_down data B4
  /\ C.tst (raw_buttons_of data) WII_BTN_ONE = wiimote_core_down data B3
  /\ C.tst (raw_buttons_of data) WII_BTN_B = wiimote_core_down data B1
  /\ C.tst (raw_buttons_of data) WII_BTN_A = wiimote_core_down data B2
  /\ C.tst (raw_buttons_of data) WII_BTN_MINUS = wiimote_core_down data S1
  /\ C.tst (raw_buttons_of data) WII_BTN_HOME = wiimote_core_down data A1.
Proof.
  unfold wiimote_core_down, wiimote_core_bit.
  rewrite (core_tst data WII_BTN_LEFT 0), (core_tst data WII_BTN_RIGHT 1),
    (core_tst data WII_BTN_DOWN 2), (core_tst data WII_BTN_UP 3),
    (core_tst data WII_BTN_PLUS 4), (core_tst data WII_BTN_TWO 8),
    (core_tst data WII_BTN_ONE 9), (core_tst data WII_BTN_B 10),
    (core_tst data WII_BTN_A 11), (core_tst data WII_BTN_MINUS 12),
    (core_tst data WII_BTN_HOME 15) by (reflexivity || lia).
  cbn [Z.ltb Z.compare Pos.compare Pos.compare_cont Z.sub Z.add Z.opp
       Z.pos_sub Pos.pred_double Z.succ_double Z.pred_double Z.double].
  repeat split; apply andb_true_r.
Qed.

(** The buttons of the Wiimote itself, bit by bit. *)
Lemma core_buttons_pressed data k :
  pressed (core_buttons (raw_buttons_of data)) k = wiimote_core_down data k.
Proof.
  unfold core_buttons. rewrite pressed_or_all, pressed_0.
  destruct (core_tst_all data)
    as (T1 & T2 & T3 & T4 & T5 & T6 & T7 & T8 & T9 & T10 & T11).
  rewrite T1, T2, T3, T4, T5, T6, T7, T8, T9, T10, T11.
  cbn [existsb fst snd orb]. rewrite !pressed_JP.
  destruct k; cbn [button_eqb];
    rewrite ?andb_false_r, ?andb_true_r, ?orb_false_r, ?orb_false_l;
    reflexivity.
Qed.

Lemma hotkey_mask_pressed b k :
  pressed (Z.land b (C.u32 (Z.lnot hotkey_mask))) k
  = pressed b k && negb (wiimote_hotkey_button k).
Proof.
  rewrite pressed_land, pressed_u32_lnot. unfold hotkey_mask.
  rewrite !pressed_lor, !pressed_JP.
  destruct k; reflexivity.
Qed.

(** The inverted button word of an extension, bit by bit. *)
Lemma ext_tst data off m i :
  0 <= i < 16 -> m = 2 ^ i ->
  C.tst (C.u16 (Z.lnot (Z.lor (at_ data (off + 4))
                              (Z.shiftl (at_ data (off + 5)) 8)))) m
  = negb (wiimote_ext_bit data off i).
Proof.
  intros Hi ->. rewrite tst_bit by lia. unfold C.u16, wiimote_ext_bit.
  rewrite Z.mod_pow2_bits_low by lia.
  rewrite Z.lnot_spec, Z.lor_spec, Z.shiftl_spec by lia.
  destruct (Z.ltb_spec i 8).
  - rewrite (Z.testbit_neg_r _ (i - 8)) by lia. now rewrite orb_false_r.
  - rewrite (byte_high_bit _ i (at_range data (off + 4))) by lia.
    reflexivity.
Qed.

Lemma nunchuk_tst x m i :
  0 <= i < 8 -> m = 2 ^ i ->
  C.tst (C.u8 (Z.lnot x)) m = negb (Z.testbit x i).
Proof.
  intros Hi ->. rewrite tst_bit by lia. unfold C.u8.
  rewrite Z.mod_pow2_bits_low by lia. apply Z.lnot_spec. lia.
Qed.

Lemma classic_buttons_pressed data off b k :
  pressed
    (classic_buttons
       (C.u16 (Z.lnot (Z.lor (at_ data (off + 4))
                             (Z.shiftl (at_ data (off + 5)) 8)))) b) k
  = pressed b k
    || match wiimote_classic_bit k with
       | Some i => negb (wiimote_ext_bit data off i)
       | None => false
       end.
Proof.
  unfold classic_buttons. rewrite pressed_or_all.
  rewrite (ext_tst data off WII_CC_BTN_B 14), (ext_tst data off WII_CC_BTN_A 12),
    (ext_tst data off WII_CC_BTN_Y 13), (ext_tst data off WII_CC_BTN_X 11),
    (ext_tst data off WII_CC_BTN_LT 5), (ext_tst data off WII_CC_BTN_RT 1),
    (ext_tst data off WII_CC_BTN_ZL 15), (ext_tst data off WII_CC_BTN_ZR 10),
    (ext_tst data off WII_CC_BTN_MINUS 4), (ext_tst data off WII_CC_BTN_PLUS 2),
    (ext_tst data off WII_CC_BTN_HOME 3), (ext_tst data off WII_CC_BTN_UP 8),
    (ext_tst data off WII_CC_BTN_DOWN 6), (ext_tst data off WII_CC_BTN_LEFT 9),
    (ext_tst data off WII_CC_BTN_RIGHT 7) by (reflexivity || lia).
  cbn [existsb fst snd]. rewrite !pressed_JP. f_equal.
  destruct k; cbn [button_eqb wiimote_classic_bit];
    rewrite ?andb_false_r, ?andb_true_r, ?orb_false_r, ?orb_false_l;
    reflexivity.
Qed.

(** The buttons an extension report adds to those of the Wiimote. *)
Lemma parse_extension_pressed wii data off b k :
  pressed (snd (parse_extension wii data off b)) k
  = pressed b k || wiimote_ext_pressed (ext_type wii) data off k.
Proof.
  unfold parse_extension, wiimote_ext_pressed.
  destruct (ext_type wii); cbn [snd].
  - now rewrite orb_false_r.
  - rewrite pressed_or_all.
    rewrite (nunchuk_tst _ WII_BTN_Z 0), (nunchuk_tst _ WII_BTN_C 1)
      by (reflexivity || lia).
    cbn [existsb fst snd]. rewrite !pressed_JP. f_equal.
    destruct k; cbn [button_eqb];
      rewrite ?andb_false_r, ?andb_true_r, ?orb_false_r, ?orb_false_l;
      reflexivity.
  - apply classic_buttons_pressed.
  - apply classic_buttons_pressed.
  - rewrite pressed_or_all.
    rewrite (ext_tst data off GH_BTN_GREEN 12), (ext_tst data off GH_BTN_RED 14),
      (ext_tst data off GH_BTN_YELLOW 11), (ext_tst data off GH_BTN_BLUE 13),
      (ext_tst data off GH_BTN_ORANGE 15), (ext_tst data off GH_BTN_STRUM_UP 8),
      (ext_tst data off GH_BTN_STRUM_DOWN 6), (ext_tst data off GH_BTN_PLUS 2),
      (ext_tst data off GH_BTN_MINUS 4) by (reflexivity || lia).
    cbn [existsb fst snd]. rewrite !pressed_JP. f_equal.
    destruct k; cbn [button_eqb wiimote_guitar_bit];
      rewrite ?andb_false_r, ?andb_true_r, ?orb_false_r, ?orb_false_l;
      reflexivity.
Qed.

(** The extension part leaves the rest of the event alone. *)
Lemma parse_extension_identity wii data off b :
  let e := fst (parse_extension wii data off b) in
  dev_addr e = dev_addr (event wii) /\ instance e = instance (event wii)
  /\ type e = type (event wii) /\ transport e = transport (event wii)
  /\ button_count e = button_count (event wii)
  /\ battery_level e = battery_level (event wii)
  /\ battery_charging e = battery_charging (event wii).
Proof.
  unfold parse_extension. destruct (ext_type wii); repeat split.
Qed.

Lemma hotkey_cond data :
  C.tst (raw_buttons_of data) WII_BTN_PLUS
  && (C.tst (raw_buttons_of data) WII_BTN_UP
      || C.tst (raw_buttons_of data) WII_BTN_DOWN
      || C.tst (raw_buttons_of data) WII_BTN_LEFT
      || C.tst (raw_buttons_of data) WII_BTN_RIGHT)
  = wiimote_hotkey_down data.
Proof.
  destruct (core_tst_all data) as (T1 & T2 & T3 & T4 & T5 & _).
  now rewrite T1, T2, T3, T4, T5.
Qed.

Lemma accel_cond id :
  (id =? WII_REPORT_BUTTONS_ACC) || (id =? WII_REPORT_BUTTONS_ACC_EXT16)
  || (id =? WII_REPORT_BUTTONS_ACC_IR) || (id =? WII_REPORT_BUTTONS_ACC_IR_EXT6)
  = (id =? 0x31) || (id =? 0x33) || (id =? 0x35) || (id =? 0x37).
Proof.
  unfold WII_REPORT_BUTTONS_ACC, WII_REPORT_BUTTONS_ACC_EXT16,
    WII_REPORT_BUTTONS_ACC_IR, WII_REPORT_BUTTONS_ACC_IR_EXT6.
  destruct (id =? 0x31), (id =? 0x33), (id =? 0x35), (id =? 0x37); reflexivity.
Qed.

Lemma core_stage_cached mode wii data flash_ok :
  core_button_report data ->
  let mode' := fst (fst (core_stage mode wii data flash_ok)) in
  let wii' := snd (fst (core_stage mode wii data flash_ok)) in
  mode' = wiimote_mode_after mode wii data
  /\ orientation wii' = wiimote_orientation_after mode' data (orientation wii)
  /\ orient_hotkey_active wii' = wiimote_hotkey_down data
  /\ (forall k, pressed (buttons (event wii')) k
                = wiimote_cached_pressed wii (orientation wii') data k)
  /\ analog (event wii') = wiimote_cached_analog wii data
  /\ (dev_addr (event wii') = dev_addr (event wii)
      /\ instance (event wii') = instance (event wii)
      /\ type (event wii') = type (event wii)
      /\ transport (event wii') = transport (event wii)
      /\ button_count (event wii') = button_count (event wii)
      /\ battery_level (event wii') = battery_level (event wii)
      /\ battery_charging (event wii') = battery_charging (event wii))
  /\ ext_type wii' = ext_type wii
  /\ extension_connected wii' = extension_connected wii.
Proof.
  intros Hcore. destruct (core_report_cond data Hcore) as [C1 C2].
  unfold core_stage. rewrite C1, C2. cbv zeta.
  destruct (core_tst_all data) as (_ & T2 & _ & T4 & _).
  rewrite hotkey_cond, T2, T4, accel_cond.
  match goal with
  | |- context [if wiimote_hotkey_down data then ?a else ?b] =>
      set (X := if wiimote_hotkey_down data then a else b)
  end.
  assert (HX : exists w1 out0 b0,
             X = (wiimote_mode_after mode wii data, w1, out0, b0)
             /\ event w1 = event wii /\ ext_type w1 = ext_type wii
             /\ extension_connected w1 = extension_connected wii
             /\ orientation w1 = orientation wii
             /\ orient_hotkey_active w1 = wiimote_hotkey_down data
             /\ forall k, pressed b0 k = wiimote_core_pressed data k).
  { subst X. unfold wiimote_mode_after, wiimote_core_pressed.
    destruct (wiimote_hotkey_down data); cbn [andb negb].
    - destruct (orient_hotkey_active wii) eqn:A; cbn [negb].
      + eexists wii, _, _. split; [reflexivity |].
        repeat split; try assumption.
        intros k. now rewrite hotkey_mask_pressed, core_buttons_pressed.
      + destruct (negb (orient_mode_eqb _ mode)) eqn:M.
        * eexists _, _, _. split; [reflexivity |]. repeat split.
          intros k. now rewrite hotkey_mask_pressed, core_buttons_pressed.
        * apply negb_false_iff in M.
          assert (Em : (if wiimote_core_down data DU
                        then WII_ORIENT_MODE_VERTICAL
                        else if wiimote_core_down data DR
                             then WII_ORIENT_MODE_HORIZONTAL
                             else WII_ORIENT_MODE_AUTO) = mode).
          { destruct (wiimote_core_down data DU);
              [| destruct (wiimote_core_down data DR)];
              destruct mode; try discriminate M; reflexivity. }
          rewrite Em.
          eexists _, _, _. split; [reflexivity |]. repeat split.
          intros k. now rewrite hotkey_mask_pressed, core_buttons_pressed.
    - eexists _, _, _. split; [reflexivity |]. repeat split.
      intros k. rewrite core_buttons_pressed. now rewrite andb_true_r. }
  clearbody X.
  destruct HX as (w1 & out0 & b0 & -> & He & Hx & Hc & Ho & Ha & Hb).
  cbv beta iota.
  set (no := match wiimote_mode_after mode wii data with
             | WII_ORIENT_MODE_AUTO => _
             | WII_ORIENT_MODE_HORIZONTAL => WII_ORIENT_HORIZONTAL
             | WII_ORIENT_MODE_VERTICAL => WII_ORIENT_VERTICAL
             end).
  assert (Hno : no = wiimote_orientation_after (wiimote_mode_after mode wii data)
                       data (orientation wii)).
  { subst no. unfold wiimote_orientation_after. now rewrite Ho. }
  clearbody no.
  unfold wiimote_cached_pressed, wiimote_cached_analog, wiimote_ext_offset.
  change 0x32 with WII_REPORT_BUTTONS_EXT8.
  change 0x35 with WII_REPORT_BUTTONS_ACC_EXT16.
  set (P := if (at_ data 0 =? WII_REPORT_BUTTONS_EXT8) && (9 <=? len_ data)
            then parse_extension _ _ _ _ else _).
  assert (HP : analog (fst P)
               = match
                   (if (at_ data 0 =? WII_REPORT_BUTTONS_EXT8) && (9 <=? len_ data)
                    then Some 3
                    else if (at_ data 0 =? WII_REPORT_BUTTONS_ACC_EXT16)
                            && (22 <=? len_ data)
                         then Some 6 else None)
                 with
                 | Some off =>
                     wiimote_ext_analog (ext_type wii) data off (analog (event wii))
                 | None => analog (event wii)
                 end
               /\ (forall k,
                     pressed (snd P) k
                     = wiimote_core_pressed data k
                       || match
                            (if (at_ data 0 =? WII_REPORT_BUTTONS_EXT8)
                                && (9 <=? len_ data)
                             then Some 3
                             else if (at_ data 0 =? WII_REPORT_BUTTONS_ACC_EXT16)
                                     && (22 <=? len_ data)
                                  then Some 6 else None)
                          with
                          | Some off => wiimote_ext_pressed (ext_type wii) data off k
                          | None => false
                          end)
               /\ (ext_type wii = WII_EXT_NONE ->
                   forall k, pressed (snd P) k = wiimote_core_pressed data k)
               /\ dev_addr (fst P) = dev_addr (event wii)
               /\ instance (fst P) = instance (event wii)
               /\ type (fst P) = type (event wii)
               /\ transport (fst P) = transport (event wii)
               /\ button_count (fst P) = button_count (event wii)
               /\ battery_level (fst P) = battery_level (event wii)
               /\ battery_charging (fst P) = battery_charging (event wii)).
  { assert (Q : forall off,
              analog (fst (parse_extension (set_orientation w1 no) data off b0))
              = wiimote_ext_analog (ext_type wii) data off (analog (event wii))
              /\ (forall k,
                    pressed (snd (parse_extension (set_orientation w1 no) data off b0)) k
                    = wiimote_core_pressed data k
                      || wiimote_ext_pressed (ext_type wii) data off k)).
    { intros off. rewrite parse_extension_analog. split.
      - cbn [ext_type event set_orientation]. now rewrite Hx, He.
      - intros k. rewrite parse_extension_pressed.
        cbn [ext_type set_orientation]. now rewrite Hx, Hb. }
    assert (N : forall off k,
              ext_type wii = WII_EXT_NONE ->
              wiimote_ext_pressed (ext_type wii) data off k = false).
    { intros off k ->. reflexivity. }
    subst P.
    destruct ((at_ data 0 =? WII_REPORT_BUTTONS_EXT8) && (9 <=? len_ data));
      [| destruct ((at_ data 0 =? WII_REPORT_BUTTONS_ACC_EXT16)
                   && (22 <=? len_ data))].
    - destruct (Q 3) as [Qa Qp].
      destruct (parse_extension_identity (set_orientation w1 no) data 3 b0)
        as (I1 & I2 & I3 & I4 & I5 & I6 & I7).
      cbn [event set_orientation] in *. rewrite He in *.
      repeat split; try assumption.
      intros X k. now rewrite Qp, N, orb_false_r.
    - destruct (Q 6) as [Qa Qp].
      destruct (parse_extension_identity (set_orientation w1 no) data 6 b0)
        as (I1 & I2 & I3 & I4 & I5 & I6 & I7).
      cbn [event set_orientation] in *. rewrite He in *.
      repeat split; try assumption.
      intros X k. now rewrite Qp, N, orb_false_r.
    - cbn [fst snd event set_orientation]. rewrite He.
      repeat split.
      + intros k. now rewrite Hb, orb_false_r.
      + intros _ k. apply Hb. }
  clearbody P. destruct P as [e b]. cbn [fst snd] in HP.
  destruct HP as (PA & PP & PN & I1 & I2 & I3 & I4 & I5 & I6 & I7).
  cbn [fst snd event orientation ext_type extension_connected
       orient_hotkey_active set_event set_orientation
       buttons analog dev_addr instance type transport button_count
       battery_level battery_charging with_buttons].
  rewrite Hx, Hc.
  split; [reflexivity |]. split; [exact Hno |]. split; [exact Ha |].
  split; [| split; [exact PA |]].
  - intros k.
    destruct (ext_type wii) eqn:Ex; try apply PP.
    destruct (extension_connected wii); cbn [negb]; [apply PP |].
    destruct no.
    + rewrite rotate_horizontal_pressed_from. now apply PN.
    + rewrite rotate_vertical. now apply PN.
  - repeat split; assumption.
Qed.

(** C9.  Outside READY neither a report nor a tick of the task makes the
    driver submit an event (the task never does).  A report with core
    buttons (0x30-0x37, 0x3e, 0x3f, at least 3 bytes) received before READY
    leaves the state alone, submits nothing and updates the cached event
    from the report: its buttons are the core buttons of bytes 1 and 2 (less
    the hotkey buttons while the orientation hotkey is down), turned for a
    Wiimote on its own that is held sideways, and joined by the buttons of
    the extension where the report carries extension bytes; its analog axes
    are the ones the extension bytes give, the others staying; address,
    type and the rest of the event stay.  The orientation mode follows the
    hotkey, and the orientation follows the mode and, in automatic mode, the
    accelerometer byte.  It is the event the same report would have
    submitted in READY.  The extension-removal path (a status
    report with the extension bit clear while an extension is connected)
    re-centres the axes, submits and goes to SEND_REPORT_MODE in READY; in
    any other state a status report submits nothing and leaves the cached
    event alone. *)
Theorem wiimote_submits_only_when_ready :
  (forall mode wii data t flash_ok,
     state wii <> WII_STATE_READY ->
     wiimote_submitted (snd (wiimote_process_report mode wii data t flash_ok)) = [])
  /\ (forall wii env, wiimote_submitted (snd (wiimote_task wii env)) = [])
  /\ (forall mode wii data t flash_ok,
        core_button_report data -> state wii <> WII_STATE_READY ->
        exists mode' wii' out out_r,
          wiimote_process_report mode wii data t flash_ok = (mode', wii', out)
          /\ wiimote_submitted out = []
          /\ state wii' = state wii
          /\ wiimote_process_report mode (set_state wii WII_STATE_READY) data t flash_ok
             = (mode', set_state wii' WII_STATE_READY, out_r)
          /\ wiimote_submitted out_r = [router_submit_input (event wii')]
          /\ mode' = wiimote_mode_after mode wii data
          /\ orientation wii'
             = wiimote_orientation_after mode' data (orientation wii)
          /\ (forall k,
                pressed (buttons (event wii')) k
                = wiimote_cached_pressed wii (orientation wii') data k)
          /\ analog (event wii') = wiimote_cached_analog wii data
          /\ dev_addr (event wii') = dev_addr (event wii)
          /\ instance (event wii') = instance (event wii)
          /\ type (event wii') = type (event wii)
          /\ transport (event wii') = transport (event wii)
          /\ button_count (event wii') = button_count (event wii)
          /\ battery_level (event wii') = battery_level (event wii)
          /\ battery_charging (event wii') = battery_charging (event wii))
  /\ (forall mode wii data t flash_ok,
        at_ data 0 = WII_REPORT_STATUS -> 4 <= len_ data ->
        (state wii = WII_STATE_READY -> extension_connected wii = true ->
         status_ext_flag data = false ->
         exists wii',
           wiimote_process_report mode wii data t flash_ok
             = (mode, wii', [router_submit_input (recentred (event wii))])
           /\ event wii' = recentred (event wii)
           /\ state wii' = WII_STATE_SEND_REPORT_MODE
           /\ ext_type wii' = WII_EXT_NONE /\ extension_connected wii' = false)
        /\ (state wii <> WII_STATE_READY ->
            exists wii',
              wiimote_process_report mode wii data t flash_ok = (mode, wii', [])
              /\ event wii' = event wii)).
Proof.
  split; [| split; [| split]].
  - intros mode wii data t flash_ok N. unfold wiimote_process_report.
    destruct (len_ data <? 1); [reflexivity |].
    destruct (core_stage_before_ready mode wii data flash_ok N)
      as (m & w & out & E & S & F).
    rewrite E.
    assert (N' : state w <> WII_STATE_READY) by now rewrite S.
    destruct (status_stage_before_ready w data N') as [O _].
    destruct (status_stage w data) as [w2 out2]. cbn [snd] in *. subst out2.
    unfold wiimote_submitted. now apply filter_submit_app.
  - intros wii env. apply task_never_submits.
  - intros mode wii data t flash_ok Hc N.
    rewrite !(process_core_report _ _ data t flash_ok Hc).
    destruct (core_stage_any_state mode wii data flash_ok WII_STATE_READY Hc)
      as (m & w & pre & E & Er & P & S).
    pose proof (core_stage_cached mode wii data flash_ok Hc) as K.
    cbv zeta in K. rewrite E in K. cbn [fst snd] in K.
    destruct K as (K1 & K2 & _ & K4 & K5 & (I1 & I2 & I3 & I4 & I5 & I6 & I7) & _).
    rewrite (not_ready_is_state wii N) in E. rewrite E, Er.
    cbn [is_state].
    exists m, w, (pre ++ []), (pre ++ [router_submit_input (event w)]).
    unfold wiimote_submitted. rewrite !filter_app, P.
    repeat split; assumption.
  - intros mode wii data t flash_ok Hid Hlen.
    assert (Hn : ~ core_button_report data).
    { unfold core_button_report. rewrite Hid. unfold WII_REPORT_STATUS. lia. }
    assert (Q : forall w, ack_stage w data t = w /\ read_stage w data = w).
    { intros w. unfold ack_stage, read_stage. rewrite Hid. split; reflexivity. }
    unfold wiimote_process_report.
    destruct (Z.ltb_spec (len_ data) 1); [lia |].
    rewrite (core_stage_other mode wii data flash_ok Hn).
    split.
    + intros Hs Hc Hf.
      rewrite (status_stage_removal wii data Hs Hc Hid Hlen Hf).
      destruct (Q (set_state
                     (set_event
                        (set_ext_type (set_extension_connected wii false) WII_EXT_NONE)
                        (recentred (event wii))) WII_STATE_SEND_REPORT_MODE))
        as [Qa Qr].
      rewrite Qa, Qr. eexists. split; [reflexivity |]. repeat split.
    + intros N. destruct (status_stage_before_ready wii data N) as [O Ev].
      destruct (status_stage wii data) as [w2 out2]. cbn [fst snd] in *. subst out2.
      destruct (Q w2) as [Qa Qr]. rewrite Qa, Qr.
      exists w2. split; [reflexivity | assumption].
Qed.

End WiimoteCachedEvent.

Lemma wiimote_submits_only_when_ready_witness :
  wiimote_submitted
    (snd (Wiimote.wiimote_process_report (H := sample_layout)
            Wiimote.WII_ORIENT_MODE_AUTO
            (wiimote_bare Wiimote.WII_STATE_WAIT_LED_ACK Wiimote.WII_ORIENT_VERTICAL)
            wiimote_a_sideways 0 true)) = []
  /\ (exists wii',
        Wiimote.wiimote_process_report (H := sample_layout)
          Wiimote.WII_ORIENT_MODE_AUTO
          (wiimote_bare Wiimote.WII_STATE_WAIT_STATUS Wiimote.WII_ORIENT_VERTICAL)
          wiimote_status_no_ext 0 true
        = (Wiimote.WII_ORIENT_MODE_AUTO, wii', [])
        /\ Wiimote.event wii'
           = Wiimote.event (wiimote_bare Wiimote.WII_STATE_WAIT_STATUS
                      Wiimote.WII_ORIENT_VERTICAL))
  /\ (exists mode' wii' out,
        Wiimote.wiimote_process_report (H := sample_layout)
          Wiimote.WII_ORIENT_MODE_AUTO wiimote_with_nunchuk
          wiimote_nunchuk_report 0 true = (mode', wii', out)
        /\ wiimote_submitted out = []
        /\ Wiimote.state wii' = Wiimote.WII_STATE_WAIT_LED_ACK
        /\ lx (analog (Wiimote.event wii')) = 200
        /\ ly (analog (Wiimote.event wii')) = 195
        /\ pressed (H := sample_layout) (buttons (Wiimote.event wii')) B2 = true
        /\ pressed (H := sample_layout) (buttons (Wiimote.event wii')) L2 = true
        /\ pressed (H := sample_layout) (buttons (Wiimote.event wii')) L1 = false).
Proof.
  destruct (wiimote_submits_only_when_ready (H := sample_layout))
    as (A & _ & C & D).
  split; [| split].
  - apply A. discriminate.
  - apply (D Wiimote.WII_ORIENT_MODE_AUTO
             (wiimote_bare Wiimote.WII_STATE_WAIT_STATUS Wiimote.WII_ORIENT_VERTICAL)
             wiimote_status_no_ext 0 true eq_refl ltac:(vm_compute; discriminate)).
    discriminate.
  - destruct (C Wiimote.WII_ORIENT_MODE_AUTO wiimote_with_nunchuk
                wiimote_nunchuk_report 0 true)
      as (m & w & out & out_r & E & S & St & _ & _ & _ & _ & KP & KA & _).
    + split; [left; split; vm_compute; discriminate | vm_compute; discriminate].
    + discriminate.
    + exists m, w, out. split; [exact E |]. split; [exact S |].
      split; [exact St |].
      rewrite KA, !KP. repeat split.
Defined.
